(** * adcli: the enrollment engine (library/adenroll.c)

    A shallow embedding of the enrollment engine of adcli: parameter
    resolution, the account reconciler, the password setter, the attribute
    synchroniser and the keytab writer, together with the orchestration of
    [adcli_enroll_prepare] and [adcli_enroll_join].

    The C code mutates one [adcli_enroll] structure and talks to the
    directory, the KDC and the keytab through library calls.  Here the
    structure is a record, the outside world is an abstract state [W] with
    one transition per library call (the record [externals]), and every
    function of adenroll.c is a computation in a small state monad over a
    [machine]: the enrollment structure, the world, the keytabs and the log
    of library calls made so far. *)

From Stdlib Require Import String Ascii List ZArith Bool Lia Arith.
Import ListNotations.
Local Open Scope string_scope.
Local Open Scope Z_scope.

Set Implicit Arguments.

(** ** Results (adutil.h) *)

Inductive adcli_result : Type :=
| ADCLI_SUCCESS
| ADCLI_ERR_UNEXPECTED
| ADCLI_ERR_FAIL
| ADCLI_ERR_DIRECTORY
| ADCLI_ERR_CONFIG
| ADCLI_ERR_CREDENTIALS.

(** The numeric values of the enumeration. *)
Definition adcli_result_code (r : adcli_result) : Z :=
  match r with
  | ADCLI_SUCCESS => 0
  | ADCLI_ERR_UNEXPECTED => -2
  | ADCLI_ERR_FAIL => -3
  | ADCLI_ERR_DIRECTORY => -4
  | ADCLI_ERR_CONFIG => -5
  | ADCLI_ERR_CREDENTIALS => -6
  end.

(** [res != ADCLI_SUCCESS] *)
Definition failed (r : adcli_result) : bool :=
  match r with ADCLI_SUCCESS => false | _ => true end.

Inductive adcli_login_type : Type :=
| ADCLI_LOGIN_UNKNOWN
| ADCLI_LOGIN_COMPUTER_ACCOUNT
| ADCLI_LOGIN_USER_ACCOUNT.

(** Flags of [adcli_enroll_prepare] and [adcli_enroll_join]
    ([flags & ADCLI_ENROLL_NO_KEYTAB], [flags & ADCLI_ENROLL_ALLOW_OVERWRITE]). *)
Record adcli_enroll_flags : Type := {
  ADCLI_ENROLL_NO_KEYTAB : bool;
  ADCLI_ENROLL_ALLOW_OVERWRITE : bool
}.

(** ** Kerberos and LDAP data *)

(** [krb5_kvno] is an unsigned 32-bit integer. *)
Definition krb5_kvno := Z.
Definition kvno_modulus : Z := 2 ^ 32.
Definition wrap_kvno (v : Z) : krb5_kvno := v mod kvno_modulus.

Definition krb5_enctype := Z.

Record krb5_principal : Type := {
  princ_realm : string;
  princ_components : list string
}.

(** A [krb5_data] whose [data] pointer may be NULL. *)
Definition krb5_data := option string.

Definition krb5_keyblock := string.

Record krb5_keytab_entry : Type := {
  kte_principal : krb5_principal;
  kte_vno : krb5_kvno;
  kte_enctype : krb5_enctype;
  kte_key : krb5_keyblock
}.

Definition LDAP_SUCCESS : Z := 0.
Definition LDAP_COMPARE_FALSE : Z := 5.
Definition LDAP_COMPARE_TRUE : Z := 6.
Definition LDAP_NO_SUCH_OBJECT : Z := 32.
Definition LDAP_INSUFFICIENT_ACCESS : Z := 50.
Definition LDAP_OBJECT_CLASS_VIOLATION : Z := 65.
Definition LDAP_MOD_REPLACE : Z := 2.

Record LDAPMod : Type := {
  mod_op : Z;
  mod_type : string;
  mod_values : list string
}.

Record ldap_entry : Type := {
  entry_dn : string;
  entry_attrs : list (string * list string)
}.

(** The chain of entries a search returns. *)
Definition LDAPMessage := list ldap_entry.

(** ** The enrollment structure ([struct _adcli_enroll]) *)

Record adcli_enroll : Type := {
  host_fqdn : option string;
  host_fqdn_explicit : bool;
  computer_name : option string;
  computer_name_explicit : bool;
  computer_sam : option string;
  computer_password : option string;
  computer_password_explicit : bool;
  reset_password : bool;
  computer_principal : option krb5_principal;
  preferred_ou : option string;
  preferred_ou_validated : bool;
  computer_container : option string;
  computer_dn : option string;
  computer_attributes : option LDAPMessage;
  service_names : option (list string);
  service_principals : option (list string);
  service_principals_explicit : bool;
  kvno : krb5_kvno;
  keytab_name : option string;
  keytab_name_is_krb5 : bool;
  keytab : option string;
  keytab_principals : option (list krb5_principal);
  keytab_enctypes : option (list krb5_enctype);
  keytab_enctypes_explicit : bool
}.

(** [calloc (1, sizeof (adcli_enroll))] in [adcli_enroll_new]. *)
Definition adcli_enroll_new : adcli_enroll :=
  {| host_fqdn := None; host_fqdn_explicit := false;
     computer_name := None; computer_name_explicit := false;
     computer_sam := None;
     computer_password := None; computer_password_explicit := false;
     reset_password := false;
     computer_principal := None;
     preferred_ou := None; preferred_ou_validated := false;
     computer_container := None;
     computer_dn := None;
     computer_attributes := None;
     service_names := None;
     service_principals := None; service_principals_explicit := false;
     kvno := 0;
     keytab_name := None; keytab_name_is_krb5 := false;
     keytab := None;
     keytab_principals := None;
     keytab_enctypes := None; keytab_enctypes_explicit := false |}.

(** Field assignments: [put_f v e] is [e] after [enroll->f = v]. *)

Definition put_host_fqdn v (e : adcli_enroll) : adcli_enroll :=
  {| host_fqdn := v; host_fqdn_explicit := host_fqdn_explicit e;
     computer_name := computer_name e;
     computer_name_explicit := computer_name_explicit e; computer_sam := computer_sam e;
     computer_password := computer_password e;
     computer_password_explicit := computer_password_explicit e;
     reset_password := reset_password e; computer_principal := computer_principal e;
     preferred_ou := preferred_ou e; preferred_ou_validated := preferred_ou_validated e;
     computer_container := computer_container e; computer_dn := computer_dn e;
     computer_attributes := computer_attributes e; service_names := service_names e;
     service_principals := service_principals e;
     service_principals_explicit := service_principals_explicit e; kvno := kvno e;
     keytab_name := keytab_name e; keytab_name_is_krb5 := keytab_name_is_krb5 e;
     keytab := keytab e; keytab_principals := keytab_principals e;
     keytab_enctypes := keytab_enctypes e;
     keytab_enctypes_explicit := keytab_enctypes_explicit e |}.

Definition put_host_fqdn_explicit v (e : adcli_enroll) : adcli_enroll :=
  {| host_fqdn := host_fqdn e; host_fqdn_explicit := v;
     computer_name := computer_name e;
     computer_name_explicit := computer_name_explicit e; computer_sam := computer_sam e;
     computer_password := computer_password e;
     computer_password_explicit := computer_password_explicit e;
     reset_password := reset_password e; computer_principal := computer_principal e;
     preferred_ou := preferred_ou e; preferred_ou_validated := preferred_ou_validated e;
     computer_container := computer_container e; computer_dn := computer_dn e;
     computer_attributes := computer_attributes e; service_names := service_names e;
     service_principals := service_principals e;
     service_principals_explicit := service_principals_explicit e; kvno := kvno e;
     keytab_name := keytab_name e; keytab_name_is_krb5 := keytab_name_is_krb5 e;
     keytab := keytab e; keytab_principals := keytab_principals e;
     keytab_enctypes := keytab_enctypes e;
     keytab_enctypes_explicit := keytab_enctypes_explicit e |}.

Definition put_computer_name v (e : adcli_enroll) : adcli_enroll :=
  {| host_fqdn := host_fqdn e; host_fqdn_explicit := host_fqdn_explicit e;
     computer_name := v; computer_name_explicit := computer_name_explicit e;
     computer_sam := computer_sam e; computer_password := computer_password e;
     computer_password_explicit := computer_password_explicit e;
     reset_password := reset_password e; computer_principal := computer_principal e;
     preferred_ou := preferred_ou e; preferred_ou_validated := preferred_ou_validated e;
     computer_container := computer_container e; computer_dn := computer_dn e;
     computer_attributes := computer_attributes e; service_names := service_names e;
     service_principals := service_principals e;
     service_principals_explicit := service_principals_explicit e; kvno := kvno e;
     keytab_name := keytab_name e; keytab_name_is_krb5 := keytab_name_is_krb5 e;
     keytab := keytab e; keytab_principals := keytab_principals e;
     keytab_enctypes := keytab_enctypes e;
     keytab_enctypes_explicit := keytab_enctypes_explicit e |}.

Definition put_computer_name_explicit v (e : adcli_enroll) : adcli_enroll :=
  {| host_fqdn := host_fqdn e; host_fqdn_explicit := host_fqdn_explicit e;
     computer_name := computer_name e; computer_name_explicit := v;
     computer_sam := computer_sam e; computer_password := computer_password e;
     computer_password_explicit := computer_password_explicit e;
     reset_password := reset_password e; computer_principal := computer_principal e;
     preferred_ou := preferred_ou e; preferred_ou_validated := preferred_ou_validated e;
     computer_container := computer_container e; computer_dn := computer_dn e;
     computer_attributes := computer_attributes e; service_names := service_names e;
     service_principals := service_principals e;
     service_principals_explicit := service_principals_explicit e; kvno := kvno e;
     keytab_name := keytab_name e; keytab_name_is_krb5 := keytab_name_is_krb5 e;
     keytab := keytab e; keytab_principals := keytab_principals e;
     keytab_enctypes := keytab_enctypes e;
     keytab_enctypes_explicit := keytab_enctypes_explicit e |}.

Definition put_computer_sam v (e : adcli_enroll) : adcli_enroll :=
  {| host_fqdn := host_fqdn e; host_fqdn_explicit := host_fqdn_explicit e;
     computer_name := computer_name e;
     computer_name_explicit := computer_name_explicit e; computer_sam := v;
     computer_password := computer_password e;
     computer_password_explicit := computer_password_explicit e;
     reset_password := reset_password e; computer_principal := computer_principal e;
     preferred_ou := preferred_ou e; preferred_ou_validated := preferred_ou_validated e;
     computer_container := computer_container e; computer_dn := computer_dn e;
     computer_attributes := computer_attributes e; service_names := service_names e;
     service_principals := service_principals e;
     service_principals_explicit := service_principals_explicit e; kvno := kvno e;
     keytab_name := keytab_name e; keytab_name_is_krb5 := keytab_name_is_krb5 e;
     keytab := keytab e; keytab_principals := keytab_principals e;
     keytab_enctypes := keytab_enctypes e;
     keytab_enctypes_explicit := keytab_enctypes_explicit e |}.

Definition put_computer_password v (e : adcli_enroll) : adcli_enroll :=
  {| host_fqdn := host_fqdn e; host_fqdn_explicit := host_fqdn_explicit e;
     computer_name := computer_name e;
     computer_name_explicit := computer_name_explicit e; computer_sam := computer_sam e;
     computer_password := v; computer_password_explicit := computer_password_explicit e;
     reset_password := reset_password e; computer_principal := computer_principal e;
     preferred_ou := preferred_ou e; preferred_ou_validated := preferred_ou_validated e;
     computer_container := computer_container e; computer_dn := computer_dn e;
     computer_attributes := computer_attributes e; service_names := service_names e;
     service_principals := service_principals e;
     service_principals_explicit := service_principals_explicit e; kvno := kvno e;
     keytab_name := keytab_name e; keytab_name_is_krb5 := keytab_name_is_krb5 e;
     keytab := keytab e; keytab_principals := keytab_principals e;
     keytab_enctypes := keytab_enctypes e;
     keytab_enctypes_explicit := keytab_enctypes_explicit e |}.

Definition put_computer_password_explicit v (e : adcli_enroll) : adcli_enroll :=
  {| host_fqdn := host_fqdn e; host_fqdn_explicit := host_fqdn_explicit e;
     computer_name := computer_name e;
     computer_name_explicit := computer_name_explicit e; computer_sam := computer_sam e;
     computer_password := computer_password e; computer_password_explicit := v;
     reset_password := reset_password e; computer_principal := computer_principal e;
     preferred_ou := preferred_ou e; preferred_ou_validated := preferred_ou_validated e;
     computer_container := computer_container e; computer_dn := computer_dn e;
     computer_attributes := computer_attributes e; service_names := service_names e;
     service_principals := service_principals e;
     service_principals_explicit := service_principals_explicit e; kvno := kvno e;
     keytab_name := keytab_name e; keytab_name_is_krb5 := keytab_name_is_krb5 e;
     keytab := keytab e; keytab_principals := keytab_principals e;
     keytab_enctypes := keytab_enctypes e;
     keytab_enctypes_explicit := keytab_enctypes_explicit e |}.

Definition put_reset_password v (e : adcli_enroll) : adcli_enroll :=
  {| host_fqdn := host_fqdn e; host_fqdn_explicit := host_fqdn_explicit e;
     computer_name := computer_name e;
     computer_name_explicit := computer_name_explicit e; computer_sam := computer_sam e;
     computer_password := computer_password e;
     computer_password_explicit := computer_password_explicit e; reset_password := v;
     computer_principal := computer_principal e; preferred_ou := preferred_ou e;
     preferred_ou_validated := preferred_ou_validated e;
     computer_container := computer_container e; computer_dn := computer_dn e;
     computer_attributes := computer_attributes e; service_names := service_names e;
     service_principals := service_principals e;
     service_principals_explicit := service_principals_explicit e; kvno := kvno e;
     keytab_name := keytab_name e; keytab_name_is_krb5 := keytab_name_is_krb5 e;
     keytab := keytab e; keytab_principals := keytab_principals e;
     keytab_enctypes := keytab_enctypes e;
     keytab_enctypes_explicit := keytab_enctypes_explicit e |}.

Definition put_computer_principal v (e : adcli_enroll) : adcli_enroll :=
  {| host_fqdn := host_fqdn e; host_fqdn_explicit := host_fqdn_explicit e;
     computer_name := computer_name e;
     computer_name_explicit := computer_name_explicit e; computer_sam := computer_sam e;
     computer_password := computer_password e;
     computer_password_explicit := computer_password_explicit e;
     reset_password := reset_password e; computer_principal := v;
     preferred_ou := preferred_ou e; preferred_ou_validated := preferred_ou_validated e;
     computer_container := computer_container e; computer_dn := computer_dn e;
     computer_attributes := computer_attributes e; service_names := service_names e;
     service_principals := service_principals e;
     service_principals_explicit := service_principals_explicit e; kvno := kvno e;
     keytab_name := keytab_name e; keytab_name_is_krb5 := keytab_name_is_krb5 e;
     keytab := keytab e; keytab_principals := keytab_principals e;
     keytab_enctypes := keytab_enctypes e;
     keytab_enctypes_explicit := keytab_enctypes_explicit e |}.

Definition put_preferred_ou v (e : adcli_enroll) : adcli_enroll :=
  {| host_fqdn := host_fqdn e; host_fqdn_explicit := host_fqdn_explicit e;
     computer_name := computer_name e;
     computer_name_explicit := computer_name_explicit e; computer_sam := computer_sam e;
     computer_password := computer_password e;
     computer_password_explicit := computer_password_explicit e;
     reset_password := reset_password e; computer_principal := computer_principal e;
     preferred_ou := v; preferred_ou_validated := preferred_ou_validated e;
     computer_container := computer_container e; computer_dn := computer_dn e;
     computer_attributes := computer_attributes e; service_names := service_names e;
     service_principals := service_principals e;
     service_principals_explicit := service_principals_explicit e; kvno := kvno e;
     keytab_name := keytab_name e; keytab_name_is_krb5 := keytab_name_is_krb5 e;
     keytab := keytab e; keytab_principals := keytab_principals e;
     keytab_enctypes := keytab_enctypes e;
     keytab_enctypes_explicit := keytab_enctypes_explicit e |}.

Definition put_preferred_ou_validated v (e : adcli_enroll) : adcli_enroll :=
  {| host_fqdn := host_fqdn e; host_fqdn_explicit := host_fqdn_explicit e;
     computer_name := computer_name e;
     computer_name_explicit := computer_name_explicit e; computer_sam := computer_sam e;
     computer_password := computer_password e;
     computer_password_explicit := computer_password_explicit e;
     reset_password := reset_password e; computer_principal := computer_principal e;
     preferred_ou := preferred_ou e; preferred_ou_validated := v;
     computer_container := computer_container e; computer_dn := computer_dn e;
     computer_attributes := computer_attributes e; service_names := service_names e;
     service_principals := service_principals e;
     service_principals_explicit := service_principals_explicit e; kvno := kvno e;
     keytab_name := keytab_name e; keytab_name_is_krb5 := keytab_name_is_krb5 e;
     keytab := keytab e; keytab_principals := keytab_principals e;
     keytab_enctypes := keytab_enctypes e;
     keytab_enctypes_explicit := keytab_enctypes_explicit e |}.

Definition put_computer_container v (e : adcli_enroll) : adcli_enroll :=
  {| host_fqdn := host_fqdn e; host_fqdn_explicit := host_fqdn_explicit e;
     computer_name := computer_name e;
     computer_name_explicit := computer_name_explicit e; computer_sam := computer_sam e;
     computer_password := computer_password e;
     computer_password_explicit := computer_password_explicit e;
     reset_password := reset_password e; computer_principal := computer_principal e;
     preferred_ou := preferred_ou e; preferred_ou_validated := preferred_ou_validated e;
     computer_container := v; computer_dn := computer_dn e;
     computer_attributes := computer_attributes e; service_names := service_names e;
     service_principals := service_principals e;
     service_principals_explicit := service_principals_explicit e; kvno := kvno e;
     keytab_name := keytab_name e; keytab_name_is_krb5 := keytab_name_is_krb5 e;
     keytab := keytab e; keytab_principals := keytab_principals e;
     keytab_enctypes := keytab_enctypes e;
     keytab_enctypes_explicit := keytab_enctypes_explicit e |}.

Definition put_computer_dn v (e : adcli_enroll) : adcli_enroll :=
  {| host_fqdn := host_fqdn e; host_fqdn_explicit := host_fqdn_explicit e;
     computer_name := computer_name e;
     computer_name_explicit := computer_name_explicit e; computer_sam := computer_sam e;
     computer_password := computer_password e;
     computer_password_explicit := computer_password_explicit e;
     reset_password := reset_password e; computer_principal := computer_principal e;
     preferred_ou := preferred_ou e; preferred_ou_validated := preferred_ou_validated e;
     computer_container := computer_container e; computer_dn := v;
     computer_attributes := computer_attributes e; service_names := service_names e;
     service_principals := service_principals e;
     service_principals_explicit := service_principals_explicit e; kvno := kvno e;
     keytab_name := keytab_name e; keytab_name_is_krb5 := keytab_name_is_krb5 e;
     keytab := keytab e; keytab_principals := keytab_principals e;
     keytab_enctypes := keytab_enctypes e;
     keytab_enctypes_explicit := keytab_enctypes_explicit e |}.

Definition put_computer_attributes v (e : adcli_enroll) : adcli_enroll :=
  {| host_fqdn := host_fqdn e; host_fqdn_explicit := host_fqdn_explicit e;
     computer_name := computer_name e;
     computer_name_explicit := computer_name_explicit e; computer_sam := computer_sam e;
     computer_password := computer_password e;
     computer_password_explicit := computer_password_explicit e;
     reset_password := reset_password e; computer_principal := computer_principal e;
     preferred_ou := preferred_ou e; preferred_ou_validated := preferred_ou_validated e;
     computer_container := computer_container e; computer_dn := computer_dn e;
     computer_attributes := v; service_names := service_names e;
     service_principals := service_principals e;
     service_principals_explicit := service_principals_explicit e; kvno := kvno e;
     keytab_name := keytab_name e; keytab_name_is_krb5 := keytab_name_is_krb5 e;
     keytab := keytab e; keytab_principals := keytab_principals e;
     keytab_enctypes := keytab_enctypes e;
     keytab_enctypes_explicit := keytab_enctypes_explicit e |}.

Definition put_service_names v (e : adcli_enroll) : adcli_enroll :=
  {| host_fqdn := host_fqdn e; host_fqdn_explicit := host_fqdn_explicit e;
     computer_name := computer_name e;
     computer_name_explicit := computer_name_explicit e; computer_sam := computer_sam e;
     computer_password := computer_password e;
     computer_password_explicit := computer_password_explicit e;
     reset_password := reset_password e; computer_principal := computer_principal e;
     preferred_ou := preferred_ou e; preferred_ou_validated := preferred_ou_validated e;
     computer_container := computer_container e; computer_dn := computer_dn e;
     computer_attributes := computer_attributes e; service_names := v;
     service_principals := service_principals e;
     service_principals_explicit := service_principals_explicit e; kvno := kvno e;
     keytab_name := keytab_name e; keytab_name_is_krb5 := keytab_name_is_krb5 e;
     keytab := keytab e; keytab_principals := keytab_principals e;
     keytab_enctypes := keytab_enctypes e;
     keytab_enctypes_explicit := keytab_enctypes_explicit e |}.

Definition put_service_principals v (e : adcli_enroll) : adcli_enroll :=
  {| host_fqdn := host_fqdn e; host_fqdn_explicit := host_fqdn_explicit e;
     computer_name := computer_name e;
     computer_name_explicit := computer_name_explicit e; computer_sam := computer_sam e;
     computer_password := computer_password e;
     computer_password_explicit := computer_password_explicit e;
     reset_password := reset_password e; computer_principal := computer_principal e;
     preferred_ou := preferred_ou e; preferred_ou_validated := preferred_ou_validated e;
     computer_container := computer_container e; computer_dn := computer_dn e;
     computer_attributes := computer_attributes e; service_names := service_names e;
     service_principals := v;
     service_principals_explicit := service_principals_explicit e; kvno := kvno e;
     keytab_name := keytab_name e; keytab_name_is_krb5 := keytab_name_is_krb5 e;
     keytab := keytab e; keytab_principals := keytab_principals e;
     keytab_enctypes := keytab_enctypes e;
     keytab_enctypes_explicit := keytab_enctypes_explicit e |}.

Definition put_service_principals_explicit v (e : adcli_enroll) : adcli_enroll :=
  {| host_fqdn := host_fqdn e; host_fqdn_explicit := host_fqdn_explicit e;
     computer_name := computer_name e;
     computer_name_explicit := computer_name_explicit e; computer_sam := computer_sam e;
     computer_password := computer_password e;
     computer_password_explicit := computer_password_explicit e;
     reset_password := reset_password e; computer_principal := computer_principal e;
     preferred_ou := preferred_ou e; preferred_ou_validated := preferred_ou_validated e;
     computer_container := computer_container e; computer_dn := computer_dn e;
     computer_attributes := computer_attributes e; service_names := service_names e;
     service_principals := service_principals e; service_principals_explicit := v;
     kvno := kvno e; keytab_name := keytab_name e;
     keytab_name_is_krb5 := keytab_name_is_krb5 e; keytab := keytab e;
     keytab_principals := keytab_principals e; keytab_enctypes := keytab_enctypes e;
     keytab_enctypes_explicit := keytab_enctypes_explicit e |}.

Definition put_kvno v (e : adcli_enroll) : adcli_enroll :=
  {| host_fqdn := host_fqdn e; host_fqdn_explicit := host_fqdn_explicit e;
     computer_name := computer_name e;
     computer_name_explicit := computer_name_explicit e; computer_sam := computer_sam e;
     computer_password := computer_password e;
     computer_password_explicit := computer_password_explicit e;
     reset_password := reset_password e; computer_principal := computer_principal e;
     preferred_ou := preferred_ou e; preferred_ou_validated := preferred_ou_validated e;
     computer_container := computer_container e; computer_dn := computer_dn e;
     computer_attributes := computer_attributes e; service_names := service_names e;
     service_principals := service_principals e;
     service_principals_explicit := service_principals_explicit e; kvno := v;
     keytab_name := keytab_name e; keytab_name_is_krb5 := keytab_name_is_krb5 e;
     keytab := keytab e; keytab_principals := keytab_principals e;
     keytab_enctypes := keytab_enctypes e;
     keytab_enctypes_explicit := keytab_enctypes_explicit e |}.

Definition put_keytab_name v (e : adcli_enroll) : adcli_enroll :=
  {| host_fqdn := host_fqdn e; host_fqdn_explicit := host_fqdn_explicit e;
     computer_name := computer_name e;
     computer_name_explicit := computer_name_explicit e; computer_sam := computer_sam e;
     computer_password := computer_password e;
     computer_password_explicit := computer_password_explicit e;
     reset_password := reset_password e; computer_principal := computer_principal e;
     preferred_ou := preferred_ou e; preferred_ou_validated := preferred_ou_validated e;
     computer_container := computer_container e; computer_dn := computer_dn e;
     computer_attributes := computer_attributes e; service_names := service_names e;
     service_principals := service_principals e;
     service_principals_explicit := service_principals_explicit e; kvno := kvno e;
     keytab_name := v; keytab_name_is_krb5 := keytab_name_is_krb5 e; keytab := keytab e;
     keytab_principals := keytab_principals e; keytab_enctypes := keytab_enctypes e;
     keytab_enctypes_explicit := keytab_enctypes_explicit e |}.

Definition put_keytab_name_is_krb5 v (e : adcli_enroll) : adcli_enroll :=
  {| host_fqdn := host_fqdn e; host_fqdn_explicit := host_fqdn_explicit e;
     computer_name := computer_name e;
     computer_name_explicit := computer_name_explicit e; computer_sam := computer_sam e;
     computer_password := computer_password e;
     computer_password_explicit := computer_password_explicit e;
     reset_password := reset_password e; computer_principal := computer_principal e;
     preferred_ou := preferred_ou e; preferred_ou_validated := preferred_ou_validated e;
     computer_container := computer_container e; computer_dn := computer_dn e;
     computer_attributes := computer_attributes e; service_names := service_names e;
     service_principals := service_principals e;
     service_principals_explicit := service_principals_explicit e; kvno := kvno e;
     keytab_name := keytab_name e; keytab_name_is_krb5 := v; keytab := keytab e;
     keytab_principals := keytab_principals e; keytab_enctypes := keytab_enctypes e;
     keytab_enctypes_explicit := keytab_enctypes_explicit e |}.

Definition put_keytab v (e : adcli_enroll) : adcli_enroll :=
  {| host_fqdn := host_fqdn e; host_fqdn_explicit := host_fqdn_explicit e;
     computer_name := computer_name e;
     computer_name_explicit := computer_name_explicit e; computer_sam := computer_sam e;
     computer_password := computer_password e;
     computer_password_explicit := computer_password_explicit e;
     reset_password := reset_password e; computer_principal := computer_principal e;
     preferred_ou := preferred_ou e; preferred_ou_validated := preferred_ou_validated e;
     computer_container := computer_container e; computer_dn := computer_dn e;
     computer_attributes := computer_attributes e; service_names := service_names e;
     service_principals := service_principals e;
     service_principals_explicit := service_principals_explicit e; kvno := kvno e;
     keytab_name := keytab_name e; keytab_name_is_krb5 := keytab_name_is_krb5 e;
     keytab := v; keytab_principals := keytab_principals e;
     keytab_enctypes := keytab_enctypes e;
     keytab_enctypes_explicit := keytab_enctypes_explicit e |}.

Definition put_keytab_principals v (e : adcli_enroll) : adcli_enroll :=
  {| host_fqdn := host_fqdn e; host_fqdn_explicit := host_fqdn_explicit e;
     computer_name := computer_name e;
     computer_name_explicit := computer_name_explicit e; computer_sam := computer_sam e;
     computer_password := computer_password e;
     computer_password_explicit := computer_password_explicit e;
     reset_password := reset_password e; computer_principal := computer_principal e;
     preferred_ou := preferred_ou e; preferred_ou_validated := preferred_ou_validated e;
     computer_container := computer_container e; computer_dn := computer_dn e;
     computer_attributes := computer_attributes e; service_names := service_names e;
     service_principals := service_principals e;
     service_principals_explicit := service_principals_explicit e; kvno := kvno e;
     keytab_name := keytab_name e; keytab_name_is_krb5 := keytab_name_is_krb5 e;
     keytab := keytab e; keytab_principals := v; keytab_enctypes := keytab_enctypes e;
     keytab_enctypes_explicit := keytab_enctypes_explicit e |}.

Definition put_keytab_enctypes v (e : adcli_enroll) : adcli_enroll :=
  {| host_fqdn := host_fqdn e; host_fqdn_explicit := host_fqdn_explicit e;
     computer_name := computer_name e;
     computer_name_explicit := computer_name_explicit e; computer_sam := computer_sam e;
     computer_password := computer_password e;
     computer_password_explicit := computer_password_explicit e;
     reset_password := reset_password e; computer_principal := computer_principal e;
     preferred_ou := preferred_ou e; preferred_ou_validated := preferred_ou_validated e;
     computer_container := computer_container e; computer_dn := computer_dn e;
     computer_attributes := computer_attributes e; service_names := service_names e;
     service_principals := service_principals e;
     service_principals_explicit := service_principals_explicit e; kvno := kvno e;
     keytab_name := keytab_name e; keytab_name_is_krb5 := keytab_name_is_krb5 e;
     keytab := keytab e; keytab_principals := keytab_principals e; keytab_enctypes := v;
     keytab_enctypes_explicit := keytab_enctypes_explicit e |}.

Definition put_keytab_enctypes_explicit v (e : adcli_enroll) : adcli_enroll :=
  {| host_fqdn := host_fqdn e; host_fqdn_explicit := host_fqdn_explicit e;
     computer_name := computer_name e;
     computer_name_explicit := computer_name_explicit e; computer_sam := computer_sam e;
     computer_password := computer_password e;
     computer_password_explicit := computer_password_explicit e;
     reset_password := reset_password e; computer_principal := computer_principal e;
     preferred_ou := preferred_ou e; preferred_ou_validated := preferred_ou_validated e;
     computer_container := computer_container e; computer_dn := computer_dn e;
     computer_attributes := computer_attributes e; service_names := service_names e;
     service_principals := service_principals e;
     service_principals_explicit := service_principals_explicit e; kvno := kvno e;
     keytab_name := keytab_name e; keytab_name_is_krb5 := keytab_name_is_krb5 e;
     keytab := keytab e; keytab_principals := keytab_principals e;
     keytab_enctypes := keytab_enctypes e; keytab_enctypes_explicit := v |}.

(** ** C strings *)

(** [strchr (s, c)]: the offset of the first [c] in [s], [None] for NULL. *)
Fixpoint strchr (s : string) (c : ascii) : option nat :=
  match s with
  | EmptyString => None
  | String a s' =>
      if Ascii.eqb a c then Some O
      else match strchr s' c with
           | Some n => Some (S n)
           | None => None
           end
  end.

(** [strndup (s, n)] *)
Definition strndup (s : string) (n : nat) : string := substring 0 n s.

(** [toupper] and [tolower] in the C locale. *)
Definition toupper (c : ascii) : ascii :=
  let n := nat_of_ascii c in
  if (97 <=? n)%nat && (n <=? 122)%nat then ascii_of_nat (n - 32) else c.

Definition tolower (c : ascii) : ascii :=
  let n := nat_of_ascii c in
  if (65 <=? n)%nat && (n <=? 90)%nat then ascii_of_nat (n + 32) else c.

Fixpoint map_string (f : ascii -> ascii) (s : string) : string :=
  match s with
  | EmptyString => EmptyString
  | String a s' => String (f a) (map_string f s')
  end.

(** Modelled from the spec: [_adcli_str_up] of adutil.c, which is not among
    the sources; the spec has the derived name "uppercased".  It replaces
    every character of the string by its upper-case form. *)
Definition _adcli_str_up (s : string) : string := map_string toupper s.

(** [strcasecmp (a, b) == 0] *)
Definition strcasecmp_eq (a b : string) : bool :=
  String.eqb (map_string tolower a) (map_string tolower b).

(** What [asprintf] prints for a ["%s"] argument: glibc prints ["(null)"]
    for a NULL pointer. *)
Definition fmt_s (s : option string) : string :=
  match s with
  | Some v => v
  | None => "(null)"
  end.

(** The C string held by a buffer: the characters before the first NUL. *)
Fixpoint cstring (buf : list ascii) : string :=
  match buf with
  | [] => EmptyString
  | c :: rest => if Ascii.eqb c zero then EmptyString else String c (cstring rest)
  end.

(** ** Password characters *)

(** The value of a [char] (signed, 8 bits). *)
Definition char_value (c : ascii) : Z :=
  let n := Z.of_nat (nat_of_ascii c) in
  if n <? 128 then n else n - 256.

(** [password[i] >= 32 && password[i] <= 122] *)
Definition password_char_ok (c : ascii) : bool :=
  (32 <=? char_value c) && (char_value c <=? 122).

(** [buf[j] = c] *)
Fixpoint store (j : nat) (c : ascii) (buf : list ascii) : list ascii :=
  match buf, j with
  | [], _ => []
  | _ :: rest, O => c :: rest
  | a :: rest, S j' => a :: store j' c rest
  end.

(** The loop of [filter_password_chars]: [n] iterations remain, [i] is the
    read offset, [j] the write offset. *)
Fixpoint filter_password_loop (n i j : nat) (password : list ascii)
  : list ascii * nat :=
  match n with
  | O => (password, j)
  | S n' =>
      let c := nth i password zero in
      if password_char_ok c
      then filter_password_loop n' (S i) (S j) (store j c password)
      else filter_password_loop n' (S i) j password
  end.

(** [filter_password_chars (password, length)]: the buffer afterwards and
    the number of valid characters remaining. *)
Definition filter_password_chars (password : list ascii) (length : nat)
  : list ascii * nat :=
  filter_password_loop length 0 0 password.

(** ** LDAP results *)

Definition ldap_first_entry (results : LDAPMessage) : option ldap_entry :=
  hd_error results.

Fixpoint assoc_values (attr : string) (l : list (string * list string))
  : option (list string) :=
  match l with
  | [] => None
  | (a, vs) :: rest => if String.eqb a attr then Some vs else assoc_values attr rest
  end.

(** [ldap_get_values_len]: NULL when the entry has no value for [attr]. *)
Definition ldap_get_values_len (entry : ldap_entry) (attr : string)
  : option (list string) :=
  match assoc_values attr (entry_attrs entry) with
  | Some [] => None
  | r => r
  end.

(** Modelled from the spec: [_adcli_ldap_parse_values] of adldap.c, which is
    not among the sources: the values of an attribute of the entry read
    ("reading [wellKnownObjects] of the OU"), NULL when it has none. *)
Definition _adcli_ldap_parse_values (results : LDAPMessage) (attr : string)
  : option (list string) :=
  match ldap_first_entry results with
  | Some entry => ldap_get_values_len entry attr
  | None => None
  end.

(** Modelled from the spec: [_adcli_ldap_parse_value] of adldap.c, which is
    not among the sources: the value of an attribute of the entry read,
    NULL for an absent attribute ("Absent attribute"). *)
Definition _adcli_ldap_parse_value (results : LDAPMessage) (attr : string)
  : option string :=
  match _adcli_ldap_parse_values results attr with
  | Some (v :: _) => Some v
  | _ => None
  end.

(** Modelled from the spec: [_adcli_ldap_parse_dn] of adldap.c, which is not
    among the sources: the DN of the entry found, NULL when the search found
    none. *)
Definition _adcli_ldap_parse_dn (results : LDAPMessage) : option string :=
  match ldap_first_entry results with
  | Some entry => Some (entry_dn entry)
  | None => None
  end.

(** Modelled from the spec: [_adcli_ldap_prune_empty_mods] of adldap.c, which
    is not among the sources: "Empty-valued mods are pruned before the add". *)
Definition _adcli_ldap_prune_empty_mods (mods : list LDAPMod) : list LDAPMod :=
  filter (fun m => match mod_values m with [] => false | _ => true end) mods.

(** Modelled from the spec: [_adcli_ldap_handle_failure] of adldap.c, which
    is not among the sources: it records the server's message and the
    caller reports the kind of error it passed ("other LDAP error: Fail
    DIRECTORY", "INSUFFICIENT_ACCESS is surfaced as CREDENTIALS"). *)
Definition _adcli_ldap_handle_failure (defres : adcli_result) : adcli_result :=
  defres.

(** ** Principals and keytab entries *)

Definition krb5_principal_eq_dec (p q : krb5_principal) : {p = q} + {p <> q}.
Proof.
  decide equality.
  - apply (list_eq_dec string_dec).
  - apply string_dec.
Defined.

(** [krb5_principal_compare]: same realm and same components. *)
Definition krb5_principal_compare (p q : krb5_principal) : bool :=
  if krb5_principal_eq_dec p q then true else false.

(** [krb5_set_principal_realm] *)
Definition krb5_set_principal_realm (p : krb5_principal) (r : string)
  : krb5_principal :=
  {| princ_realm := r; princ_components := princ_components p |}.

(** The closure of [match_principal_and_kvno]. *)
Record match_principal_kvno : Type := {
  closure_kvno : krb5_kvno;
  closure_principal : krb5_principal;
  closure_matched : bool
}.

(** [match_principal_and_kvno]: the answer and the closure afterwards.  The
    sum [entry->vno + 1] is computed on 32 unsigned bits. *)
Definition match_principal_and_kvno (entry : krb5_keytab_entry)
    (closure : match_principal_kvno) : bool * match_principal_kvno :=
  if wrap_kvno (kte_vno entry + 1) =? closure_kvno closure
  then (false, closure)
  else if krb5_principal_compare (kte_principal entry) (closure_principal closure)
  then (true, {| closure_kvno := closure_kvno closure;
                 closure_principal := closure_principal closure;
                 closure_matched := true |})
  else (false, closure).

(** ** The log of library calls *)

Inductive event : Type :=
| EvDiscover (res : adcli_result)
| EvConnect (res : adcli_result)
| EvLdapSearch (base filter : string) (attrs : list string) (ret : Z)
    (results : LDAPMessage)
| EvLdapCompare (dn attr value : string) (ret : Z)
| EvLdapAdd (dn : string) (mods : list LDAPMod) (ret : Z)
| EvLdapModify (dn : string) (mods : list LDAPMod) (ret : Z)
| EvRandomOctets (n : nat) (octets : option (list ascii))
| EvKinit (code : Z)
| EvSetPassword (principal : krb5_principal) (password : string)
    (code result_code : Z)
| EvChangePassword (password : option string) (code result_code : Z)
| EvKtResolve (name : option string) (code : Z)
| EvKtClear (name : string) (code : Z) (removed : list krb5_keytab_entry)
| EvDiscoverSalt (principal : krb5_principal)
| EvAsReq (principal : krb5_principal) (vno : krb5_kvno) (enctype : krb5_enctype)
    (key : krb5_keyblock) (accepted : bool)
| EvKtAdd (name : string) (code : Z) (entries : list krb5_keytab_entry).

(** ** The outside world

    One field per call that leaves adenroll.c: the connection (adconn.c),
    libldap, libkrb5, libc, and the helpers of adutil.c, adldap.c and
    adkrb5.c whose result the engine only passes on. *)

Record externals (W : Type) : Type := {
  (* adconn.c *)
  x_conn_discover : W -> adcli_result * W;
  x_conn_connect : W -> adcli_result * W;
  x_conn_host_fqdn : W -> option string;
  x_conn_domain_realm : W -> string;
  x_conn_naming_context : W -> option string;
  x_conn_login_type : W -> adcli_login_type;
  x_conn_krb5_context : W -> bool;
  x_conn_ldap_connection : W -> bool;
  x_conn_login_ccache : W -> bool;
  (* libldap: the result code first *)
  x_ldap_search : string -> string -> list string -> W -> (Z * LDAPMessage) * W;
  x_ldap_compare : string -> string -> string -> W -> Z * W;
  x_ldap_add : string -> list LDAPMod -> W -> Z * W;
  x_ldap_modify : string -> list LDAPMod -> W -> Z * W;
  (* libkrb5 *)
  x_krb5_parse_name : string -> option krb5_principal;
  x_krb5_principal2salt : krb5_principal -> option krb5_data;
  x_krb5_c_string_to_key : krb5_enctype -> string -> krb5_data -> krb5_keyblock;
  x_random_octet : W -> option ascii * W;
  x_krb5_set_password_using_ccache :
    string -> krb5_principal -> W -> (Z * Z) * W;
  x_krb5_change_password : option string -> W -> (Z * Z) * W;
  x_krb5_kt_resolve : string -> W -> Z * W;
  x_krb5_kt_default : W -> (Z * string) * W;
  x_keytab_io : W -> Z * W;
  x_as_req :
    krb5_principal -> krb5_kvno -> krb5_enctype -> krb5_keyblock -> W -> bool * W;
  (* libc: the number read and the unread rest of the string *)
  x_strtoul : string -> Z * string;
  (* adutil.c, adldap.c, adkrb5.c *)
  x_calc_reset_password : string -> option string;
  x_ldap_have_mod : LDAPMod -> list string -> bool;
  x_krb5_parse_enctypes : string -> option (list krb5_enctype);
  x_krb5_format_enctypes : list krb5_enctype -> option string;
  x_krb5_w2k3_salt : krb5_principal -> option string -> option krb5_data;
  x_kinit_computer_creds : W -> Z * W
}.

(** ** Machine states and computations *)

Record machine (W : Type) : Type := {
  m_enroll : adcli_enroll;
  m_world : W;
  m_keytabs : string -> list krb5_keytab_entry;
  m_trace : list event
}.

(** A computation returns, dies on a failed [assert], or is still running
    when the fuel of the password loop is spent. *)
Inductive outcome (W A : Type) : Type :=
| Done (a : A) (m : machine W)
| Aborted (m : machine W)
| OutOfFuel (m : machine W).

Arguments Aborted {W A} m.
Arguments OutOfFuel {W A} m.

Definition M (W A : Type) : Type := machine W -> outcome W A.

Definition ret {W A} (a : A) : M W A := fun m => Done a m.

Definition bind {W A B} (c : M W A) (k : A -> M W B) : M W B :=
  fun m =>
    match c m with
    | Done a m' => k a m'
    | Aborted m' => Aborted m'
    | OutOfFuel m' => OutOfFuel m'
    end.

Declare Scope monad_scope.
Delimit Scope monad_scope with monad.
Notation "x <- c ;; k" := (bind c (fun x => k))
  (at level 61, c at next level, right associativity) : monad_scope.
Notation "c ;; k" := (bind c (fun _ => k))
  (at level 61, right associativity) : monad_scope.
Local Open Scope monad_scope.

(** The machine an outcome stopped in. *)
Definition final {W A} (o : outcome W A) : machine W :=
  match o with
  | Done _ m => m
  | Aborted m => m
  | OutOfFuel m => m
  end.

Definition get_enroll {W} : M W adcli_enroll := fun m => Done (m_enroll m) m.

(** The machine after an assignment to the enrollment structure. *)
Definition on_enroll {W} (f : adcli_enroll -> adcli_enroll) (m : machine W)
  : machine W :=
  {| m_enroll := f (m_enroll m); m_world := m_world m;
     m_keytabs := m_keytabs m; m_trace := m_trace m |}.

Definition update_enroll {W} (f : adcli_enroll -> adcli_enroll) : M W unit :=
  fun m => Done tt (on_enroll f m).

(** A getter of the connection. *)
Definition ask {W A} (f : W -> A) : M W A := fun m => Done (f (m_world m)) m.

(** The machine after a library call: the world has moved on and the call
    is in the log. *)
Definition after_call {W} (m : machine W) (w : W) (ev : event) : machine W :=
  {| m_enroll := m_enroll m; m_world := w;
     m_keytabs := m_keytabs m; m_trace := m_trace m ++ [ev] |}.

Definition call {W A} (f : W -> A * W) (ev : A -> event) : M W A :=
  fun m =>
    let (a, w) := f (m_world m) in
    Done a (after_call m w (ev a)).

Definition log {W} (ev : event) : M W unit :=
  fun m => Done tt (after_call m (m_world m) ev).

Definition abort {W A} : M W A := fun m => Aborted m.

Definition out_of_fuel {W A} : M W A := fun m => OutOfFuel m.

(** [assert (b)] *)
Definition c_assert {W} (b : bool) : M W unit :=
  if b then ret tt else abort.

Definition read_keytab {W} (name : string) : M W (list krb5_keytab_entry) :=
  fun m => Done (m_keytabs m name) m.

(** The machine after the keytab [name] was rewritten. *)
Definition with_keytab {W} (name : string) (entries : list krb5_keytab_entry)
    (m : machine W) : machine W :=
  {| m_enroll := m_enroll m; m_world := m_world m;
     m_keytabs := fun n => if String.eqb n name then entries else m_keytabs m n;
     m_trace := m_trace m |}.

Definition write_keytab {W} (name : string) (entries : list krb5_keytab_entry)
  : M W unit :=
  fun m => Done tt (with_keytab name entries m).

Definition isSome {A} (o : option A) : bool :=
  match o with Some _ => true | None => false end.

(** [_adcli_strv_add]: a NULL vector is the empty one. *)
Definition _adcli_strv_add (strv : option (list string)) (s : string)
  : option (list string) :=
  match strv with
  | None => Some [s]
  | Some l => Some (l ++ [s])%list
  end.

(** ** The engine *)

Section Engine.

Context {W : Type} (X : externals W).

(** *** Library calls, logged *)

Definition adcli_conn_discover : M W adcli_result :=
  call (x_conn_discover X) EvDiscover.

Definition adcli_conn_connect : M W adcli_result :=
  call (x_conn_connect X) EvConnect.

(** [ldap_search_ext_s] at base scope. *)
Definition ldap_search_ext_s (base filter : string) (attrs : list string)
  : M W (Z * LDAPMessage) :=
  call (x_ldap_search X base filter attrs)
       (fun r => EvLdapSearch base filter attrs (fst r) (snd r)).

Definition ldap_compare_ext_s (dn attr value : string) : M W Z :=
  call (x_ldap_compare X dn attr value) (EvLdapCompare dn attr value).

Definition ldap_add_ext_s (dn : string) (mods : list LDAPMod) : M W Z :=
  call (x_ldap_add X dn mods) (EvLdapAdd dn mods).

Definition ldap_modify_ext_s (dn : string) (mods : list LDAPMod) : M W Z :=
  call (x_ldap_modify X dn mods) (EvLdapModify dn mods).

(** [n] octets of the random source, one after the other; [None] when the
    source fails. *)
Fixpoint random_octets (n : nat) (w : W) : option (list ascii) * W :=
  match n with
  | O => (Some [], w)
  | S n' =>
      match x_random_octet X w with
      | (Some c, w') =>
          match random_octets n' w' with
          | (Some l, w'') => (Some (c :: l), w'')
          | (None, w'') => (None, w'')
          end
      | (None, w') => (None, w')
      end
  end.

(** [krb5_c_random_make_octets] on a buffer of [n] octets. *)
Definition krb5_c_random_make_octets (n : nat) : M W (option (list ascii)) :=
  call (random_octets n) (EvRandomOctets n).

(** *** Parameter resolver *)

Definition ensure_host_fqdn (res : adcli_result) : M W adcli_result :=
  if failed res then ret res
  else
    e <- get_enroll ;;
    match host_fqdn e with
    | Some _ => ret ADCLI_SUCCESS
    | None =>
        if host_fqdn_explicit e then ret ADCLI_SUCCESS
        else
          (* By default use our actual host name discovered during connecting *)
          fqdn <- ask (x_conn_host_fqdn X) ;;
          update_enroll (put_host_fqdn fqdn) ;;
          ret ADCLI_SUCCESS
    end.

Definition ensure_computer_name (res : adcli_result) : M W adcli_result :=
  if failed res then ret res
  else
    e <- get_enroll ;;
    match computer_name e with
    | Some _ => ret ADCLI_SUCCESS
    | None =>
        match host_fqdn e with
        | None => ret ADCLI_ERR_CONFIG
        | Some fqdn =>
            match strchr fqdn "." with
            | None => ret ADCLI_ERR_CONFIG
            | Some dom =>
                (* If no dot, or dot is first or last, then fail *)
                if Nat.eqb dom 0 || Nat.eqb (S dom) (String.length fqdn)
                then ret ADCLI_ERR_CONFIG
                else
                  update_enroll
                    (put_computer_name (Some (_adcli_str_up (strndup fqdn dom)))) ;;
                  ret ADCLI_SUCCESS
            end
        end
    end.

(** The running result is not looked at. *)
Definition ensure_computer_sam (res : adcli_result) : M W adcli_result :=
  update_enroll (put_computer_sam None) ;;
  e <- get_enroll ;;
  let sam := (fmt_s (computer_name e) ++ "$")%string in
  update_enroll (put_computer_sam (Some sam)) ;;
  k5 <- ask (x_conn_krb5_context X) ;;
  if negb k5 then ret ADCLI_ERR_UNEXPECTED
  else
    update_enroll (put_computer_principal None) ;;
    match x_krb5_parse_name X sam with
    | None => ret ADCLI_ERR_UNEXPECTED
    | Some p =>
        realm <- ask (x_conn_domain_realm X) ;;
        update_enroll
          (put_computer_principal (Some (krb5_set_principal_realm p realm))) ;;
        ret ADCLI_SUCCESS
    end.

(** The loop of [generate_host_password]: [password] is the buffer of
    [length + 1] octets, [at_] the number of characters accepted so far. *)
Fixpoint generate_host_password_loop (fuel length at_ : nat)
    (password : list ascii) : M W (option (list ascii)) :=
  if Nat.eqb at_ length then ret (Some password)
  else
    match fuel with
    | O => out_of_fuel
    | S fuel' =>
        octets <- krb5_c_random_make_octets (length - at_) ;;
        match octets with
        | None => ret None
        | Some data =>
            let (data', n) := filter_password_chars data (length - at_) in
            c_assert (at_ + n <=? length)%nat ;;
            generate_host_password_loop fuel' length (at_ + n)
              (firstn at_ password ++ data' ++ skipn length password)%list
        end
    end.

(** [generate_host_password]: NULL or the buffer of [length + 1] octets.
    The buffer comes from [malloc]; no octet of it is read before it is
    written. *)
Definition generate_host_password (fuel length : nat)
  : M W (option (list ascii)) :=
  k5 <- ask (x_conn_krb5_context X) ;;
  if negb k5 then ret None
  else
    r <- generate_host_password_loop fuel length 0 (repeat zero (length + 1)) ;;
    match r with
    | None => ret None
    | Some password =>
        (* This null termination works around a bug in krb5 *)
        ret (Some (store length zero password))
    end.

Definition ensure_computer_password (fuel : nat) (res : adcli_result)
  : M W adcli_result :=
  let length := 120%nat in
  if failed res then ret res
  else
    e <- get_enroll ;;
    if isSome (computer_password e) then ret ADCLI_SUCCESS
    else if reset_password e then
      match computer_name e with
      | None => abort
      | Some name =>
          let pw := x_calc_reset_password X name in
          update_enroll (put_computer_password pw) ;;
          if isSome pw then ret ADCLI_SUCCESS else ret ADCLI_ERR_UNEXPECTED
      end
    else
      r <- generate_host_password fuel length ;;
      match r with
      | None => ret ADCLI_ERR_UNEXPECTED
      | Some password =>
          update_enroll (put_computer_password (Some (cstring password))) ;;
          ret ADCLI_SUCCESS
      end.

Definition ensure_service_names (res : adcli_result) : M W adcli_result :=
  if failed res then ret res
  else
    e <- get_enroll ;;
    if isSome (service_names e) then ret ADCLI_SUCCESS
    else
      (* The default ones specified by MS *)
      update_enroll
        (put_service_names
           (_adcli_strv_add (_adcli_strv_add (service_names e) "HOST")
              "RestrictedKrbHost")) ;;
      ret ADCLI_SUCCESS.

(** The first loop of [ensure_service_principals]. *)
Fixpoint default_service_principals (names : list string)
    (name : option string) (fqdn : option string)
    (acc : option (list string)) : option (list string) :=
  match names with
  | [] => acc
  | svc :: rest =>
      let acc1 := _adcli_strv_add acc (svc ++ "/" ++ fmt_s name)%string in
      let acc2 :=
        match fqdn with
        | Some f => _adcli_strv_add acc1 (svc ++ "/" ++ f)%string
        | None => acc1
        end in
      default_service_principals rest name fqdn acc2
  end.

(** The second loop of [ensure_service_principals]: [acc] is the part of
    [keytab_principals] filled so far. *)
Fixpoint parse_service_principals (realm : string) (names : list string)
    (acc : list krb5_principal) : adcli_result * list krb5_principal :=
  match names with
  | [] => (ADCLI_SUCCESS, acc)
  | name :: rest =>
      match x_krb5_parse_name X name with
      | None => (ADCLI_ERR_CONFIG, acc)
      | Some p =>
          parse_service_principals realm rest
            (acc ++ [krb5_set_principal_realm p realm])%list
      end
  end.

Definition ensure_service_principals (res : adcli_result) : M W adcli_result :=
  e <- get_enroll ;;
  c_assert (isSome (service_names e)) ;;
  c_assert (negb (isSome (keytab_principals e))) ;;
  if failed res then ret res
  else
    (if isSome (service_principals e) then ret tt
     else
       update_enroll
         (put_service_principals
            (default_service_principals
               (match service_names e with Some l => l | None => [] end)
               (computer_name e) (host_fqdn e) None))) ;;
    (* Prepare the principals we're going to add to the keytab *)
    e <- get_enroll ;;
    match service_principals e with
    | None => ret ADCLI_ERR_UNEXPECTED
    | Some principals =>
        k5 <- ask (x_conn_krb5_context X) ;;
        if negb k5 then ret ADCLI_ERR_UNEXPECTED
        else
          update_enroll (put_keytab_principals (Some [])) ;;
          (* First add the principal for the computer account name *)
          match computer_principal e with
          | None => abort
          | Some cp =>
              realm <- ask (x_conn_domain_realm X) ;;
              (* Now add the principals for all the various services *)
              let (r, kps) := parse_service_principals realm principals [cp] in
              update_enroll (put_keytab_principals (Some kps)) ;;
              ret r
          end
    end.

(** *** OU and container locator *)

Definition validate_preferred_ou : M W adcli_result :=
  e <- get_enroll ;;
  match preferred_ou e with
  | None => abort
  | Some ou =>
      if preferred_ou_validated e then ret ADCLI_SUCCESS
      else
        base <- ask (x_conn_naming_context X) ;;
        match base with
        | None => abort
        | Some base =>
            (* If it's equal to the base, give it a pass *)
            if strcasecmp_eq ou base then
              update_enroll (put_preferred_ou_validated true) ;;
              ret ADCLI_SUCCESS
            else
              ldap <- ask (x_conn_ldap_connection X) ;;
              c_assert ldap ;;
              r <- ldap_compare_ext_s ou "objectClass" "organizationalUnit" ;;
              if r =? LDAP_COMPARE_TRUE then
                update_enroll (put_preferred_ou_validated true) ;;
                ret ADCLI_SUCCESS
              else if r =? LDAP_COMPARE_FALSE then ret ADCLI_ERR_CONFIG
              else ret (_adcli_ldap_handle_failure ADCLI_ERR_DIRECTORY)
        end
  end.

Definition lookup_preferred_ou : M W adcli_result :=
  e <- get_enroll ;;
  c_assert (negb (isSome (preferred_ou e))) ;;
  ldap <- ask (x_conn_ldap_connection X) ;;
  c_assert ldap ;;
  base <- ask (x_conn_naming_context X) ;;
  match base with
  | None => abort
  | Some base =>
      r <- ldap_search_ext_s base "(objectClass=computer)" ["preferredOU"] ;;
      if negb (fst r =? LDAP_SUCCESS)
      then ret (_adcli_ldap_handle_failure ADCLI_ERR_DIRECTORY)
      else
        match _adcli_ldap_parse_value (snd r) "preferredOU" with
        | Some ou => update_enroll (put_preferred_ou (Some ou))
        | None => update_enroll (put_preferred_ou (Some base))
        end ;;
        ret ADCLI_SUCCESS
  end.

(** The first value that starts with [prefix], without the prefix. *)
Fixpoint find_well_known (prefix : string) (values : list string)
  : option string :=
  match values with
  | [] => None
  | v :: rest =>
      if String.prefix prefix v
      then Some (substring (String.length prefix)
                   (String.length v - String.length prefix) v)
      else find_well_known prefix rest
  end.

Definition lookup_computer_container : M W adcli_result :=
  let attrs := ["wellKnownObjects"] in
  let prefix := "B:32:AA312825768811D1ADED00C04FD8D5CD:" in
  e <- get_enroll ;;
  match preferred_ou e with
  | None => abort
  | Some ou =>
      if isSome (computer_container e) then ret ADCLI_SUCCESS
      else
        ldap <- ask (x_conn_ldap_connection X) ;;
        c_assert ldap ;;
        r <- ldap_search_ext_s ou "(objectClass=*)" attrs ;;
        if negb (fst r =? LDAP_SUCCESS)
        then ret (_adcli_ldap_handle_failure ADCLI_ERR_DIRECTORY)
        else
          let values :=
            match _adcli_ldap_parse_values (snd r) "wellKnownObjects" with
            | Some vs => vs
            | None => []
            end in
          update_enroll (put_computer_container (find_well_known prefix values)) ;;
          (* Try harder *)
          e1 <- get_enroll ;;
          (if isSome (computer_container e1) then ret tt
           else
             r2 <- ldap_search_ext_s ou
                     "(&(objectClass=container)(cn=Computers))" attrs ;;
             if fst r2 =? LDAP_SUCCESS
             then update_enroll (put_computer_container (_adcli_ldap_parse_dn (snd r2)))
             else ret tt) ;;
          e2 <- get_enroll ;;
          (if isSome (computer_container e2) then ret tt
           else update_enroll (put_computer_container (Some ou))) ;;
          ret ADCLI_SUCCESS
  end.

Definition calc_computer_account : M W adcli_result :=
  e <- get_enroll ;;
  match computer_container e with
  | None => abort
  | Some container =>
      update_enroll
        (put_computer_dn
           (Some ("CN=" ++ fmt_s (computer_name e) ++ "," ++ container)%string)) ;;
      ret ADCLI_SUCCESS
  end.

(** *** Account reconciler *)

Definition create_computer_account (dn : string) (mods : list LDAPMod)
  : M W adcli_result :=
  (* Don't set blank attributes *)
  let mods := _adcli_ldap_prune_empty_mods mods in
  r <- ldap_add_ext_s dn mods ;;
  if (r =? LDAP_INSUFFICIENT_ACCESS) || (r =? LDAP_OBJECT_CLASS_VIOLATION)
  then ret (_adcli_ldap_handle_failure ADCLI_ERR_CREDENTIALS)
  else if negb (r =? LDAP_SUCCESS)
  then ret (_adcli_ldap_handle_failure ADCLI_ERR_DIRECTORY)
  else ret ADCLI_SUCCESS.

(** [mod->mod_op |= LDAP_MOD_REPLACE] *)
Definition mark_replace (m : LDAPMod) : LDAPMod :=
  {| mod_op := Z.lor (mod_op m) LDAP_MOD_REPLACE;
     mod_type := mod_type m; mod_values := mod_values m |}.

Definition modify_computer_account (dn : string) (mods : list LDAPMod)
  : M W adcli_result :=
  (* Update all attributes to replace those in the directory *)
  let mods := map mark_replace mods in
  r <- ldap_modify_ext_s dn mods ;;
  if r =? LDAP_INSUFFICIENT_ACCESS
  then ret (_adcli_ldap_handle_failure ADCLI_ERR_CREDENTIALS)
  else if negb (r =? LDAP_SUCCESS)
  then ret (_adcli_ldap_handle_failure ADCLI_ERR_DIRECTORY)
  else ret ADCLI_SUCCESS.

(** The test of [filter_for_necessary_updates]: does the entry read already
    hold the values of [m]? *)
Definition mod_already_matches (entry : option ldap_entry) (m : LDAPMod) : bool :=
  match entry with
  | None => false (* If no entry, then no filtering *)
  | Some en =>
      match ldap_get_values_len en (mod_type m) with
      | Some vals => x_ldap_have_mod X m vals
      | None => false
      end
  end.

(** The loop of [filter_for_necessary_updates]: the mods kept, in order. *)
Fixpoint necessary_updates (entry : option ldap_entry) (mods : list LDAPMod)
  : list LDAPMod :=
  match mods with
  | [] => []
  | m :: rest =>
      if mod_already_matches entry m
      then necessary_updates entry rest
      else m :: necessary_updates entry rest
  end.

(** [filter_for_necessary_updates]: the array afterwards and its length. *)
Definition filter_for_necessary_updates (results : LDAPMessage)
    (mods : list LDAPMod) : list LDAPMod * nat :=
  let kept := necessary_updates (ldap_first_entry results) mods in
  (kept, List.length kept).

(** The mods of [create_or_update_computer_account]. *)
Definition computer_account_mods (e : adcli_enroll) : list LDAPMod :=
  [ {| mod_op := 0; mod_type := "objectClass"; mod_values := ["computer"] |};
    {| mod_op := 0; mod_type := "sAMAccountName";
       mod_values := match computer_sam e with Some s => [s] | None => [] end |};
    (* WORKSTATION_TRUST_ACCOUNT | DONT_EXPIRE_PASSWD *)
    {| mod_op := 0; mod_type := "userAccountControl"; mod_values := ["69632"] |} ].

Definition create_or_update_computer_account (allow_overwrite : bool)
  : M W adcli_result :=
  e <- get_enroll ;;
  let mods := computer_account_mods e in
  let attrs := ["objectClass"; "sAMAccountName"; "userAccountControl"] in
  match computer_dn e with
  | None => abort
  | Some dn =>
      ldap <- ask (x_conn_ldap_connection X) ;;
      c_assert ldap ;;
      r <- ldap_search_ext_s dn "(objectClass=*)" attrs ;;
      (* No computer account, create a new one *)
      if fst r =? LDAP_NO_SUCH_OBJECT then create_computer_account dn mods
      (* Have a computer account, figure out what to update *)
      else if fst r =? 0 then
        if negb allow_overwrite then ret ADCLI_ERR_CONFIG
        else
          let (mods', _) := filter_for_necessary_updates (snd r) mods in
          match mods' with
          | _ :: _ => modify_computer_account dn mods'
          | [] => ret ADCLI_SUCCESS
          end
      (* A failure looking up the computer account *)
      else ret (_adcli_ldap_handle_failure ADCLI_ERR_DIRECTORY)
  end.

(** *** Password setter *)

Definition set_password_with_user_creds : M W adcli_result :=
  e <- get_enroll ;;
  match computer_password e, computer_principal e with
  | Some password, Some principal =>
      k5 <- ask (x_conn_krb5_context X) ;;
      if negb k5 then ret ADCLI_ERR_UNEXPECTED
      else
        ccache <- ask (x_conn_login_ccache X) ;;
        if negb ccache then ret ADCLI_ERR_UNEXPECTED
        else
          r <- call (x_krb5_set_password_using_ccache X password principal)
                    (fun r => EvSetPassword principal password (fst r) (snd r)) ;;
          if negb (fst r =? 0) then ret ADCLI_ERR_DIRECTORY
          else if negb (snd r =? 0) then ret ADCLI_ERR_CREDENTIALS
          else ret ADCLI_SUCCESS
  | _, _ => abort
  end.

Definition set_password_with_computer_creds : M W adcli_result :=
  e <- get_enroll ;;
  k5 <- ask (x_conn_krb5_context X) ;;
  if negb k5 then ret ADCLI_ERR_UNEXPECTED
  else
    code <- call (x_kinit_computer_creds X) EvKinit ;;
    if negb (code =? 0) then ret ADCLI_ERR_DIRECTORY
    else
      r <- call (x_krb5_change_password X (computer_password e))
                (fun r => EvChangePassword (computer_password e) (fst r) (snd r)) ;;
      if negb (fst r =? 0) then ret ADCLI_ERR_DIRECTORY
      else if negb (snd r =? 0) then ret ADCLI_ERR_CREDENTIALS
      else ret ADCLI_SUCCESS.

Definition set_computer_password : M W adcli_result :=
  t <- ask (x_conn_login_type X) ;;
  match t with
  | ADCLI_LOGIN_COMPUTER_ACCOUNT => set_password_with_computer_creds
  | _ => set_password_with_user_creds
  end.

(** *** Attribute synchroniser *)

Definition kvno_attrs : list string :=
  ["msDS-KeyVersionNumber"; "msDS-supportedEncryptionTypes";
   "dNSHostName"; "servicePrincipalName"].

Definition retrieve_computer_account_info : M W adcli_result :=
  e <- get_enroll ;;
  match computer_dn e with
  | None => abort
  | Some dn =>
      c_assert (negb (isSome (computer_attributes e))) ;;
      ldap <- ask (x_conn_ldap_connection X) ;;
      c_assert ldap ;;
      r <- ldap_search_ext_s dn "(objectClass=*)" kvno_attrs ;;
      if negb (fst r =? LDAP_SUCCESS)
      then ret (_adcli_ldap_handle_failure ADCLI_ERR_DIRECTORY)
      else
        update_enroll (put_computer_attributes (Some (snd r))) ;;
        (* Update the kvno *)
        if kvno e =? 0 then
          match _adcli_ldap_parse_value (snd r) "msDS-KeyVersionNumber" with
          | Some value =>
              let (n, rest) := x_strtoul X value in
              if negb (String.eqb rest "") then ret ADCLI_ERR_DIRECTORY
              else
                update_enroll (put_kvno (wrap_kvno n)) ;;
                ret ADCLI_SUCCESS
          | None =>
              (* Apparently old AD didn't have this attribute, use zero *)
              update_enroll (put_kvno 0) ;;
              ret ADCLI_SUCCESS
          end
        else ret ADCLI_SUCCESS
  end.

Definition ENCTYPE_AES256_CTS_HMAC_SHA1_96 : krb5_enctype := 18.
Definition ENCTYPE_AES128_CTS_HMAC_SHA1_96 : krb5_enctype := 17.
Definition ENCTYPE_DES3_CBC_SHA1 : krb5_enctype := 16.
Definition ENCTYPE_ARCFOUR_HMAC : krb5_enctype := 23.
Definition ENCTYPE_DES_CBC_MD5 : krb5_enctype := 3.
Definition ENCTYPE_DES_CBC_CRC : krb5_enctype := 1.

Definition default_enctypes : list krb5_enctype :=
  [ ENCTYPE_AES256_CTS_HMAC_SHA1_96; ENCTYPE_AES128_CTS_HMAC_SHA1_96;
    ENCTYPE_DES3_CBC_SHA1; ENCTYPE_ARCFOUR_HMAC;
    ENCTYPE_DES_CBC_MD5; ENCTYPE_DES_CBC_CRC ].

Definition adcli_enroll_get_keytab_enctypes (e : adcli_enroll)
  : list krb5_enctype :=
  match keytab_enctypes e with
  | Some l => l
  | None => default_enctypes
  end.

(** The message held by [enroll->computer_attributes]. *)
Definition attributes_read (e : adcli_enroll) : LDAPMessage :=
  match computer_attributes e with
  | Some r => r
  | None => []
  end.

(** The tail shared by the three writers: the modify, unless no mod is
    left, and the result made of its code. *)
Definition write_attribute (dn : option string) (mods : list LDAPMod)
  : M W adcli_result :=
  match dn with
  | None => abort
  | Some dn =>
      r <- ldap_modify_ext_s dn mods ;;
      if r =? LDAP_INSUFFICIENT_ACCESS
      then ret (_adcli_ldap_handle_failure ADCLI_ERR_CREDENTIALS)
      else if negb (r =? LDAP_SUCCESS)
      then ret (_adcli_ldap_handle_failure ADCLI_ERR_DIRECTORY)
      else ret ADCLI_SUCCESS
  end.

Definition update_and_calculate_enctypes : M W adcli_result :=
  ldap <- ask (x_conn_ldap_connection X) ;;
  if negb ldap then ret ADCLI_ERR_UNEXPECTED
  else
    e <- get_enroll ;;
    let value :=
      _adcli_ldap_parse_value (attributes_read e) "msDS-supportedEncryptionTypes" in
    (if keytab_enctypes_explicit e then ret tt
     else
       match value with
       | Some v =>
           match x_krb5_parse_enctypes X v with
           | None => ret tt
           | Some read_enctypes => update_enroll (put_keytab_enctypes (Some read_enctypes))
           end
       | None => ret tt
       end) ;;
    e1 <- get_enroll ;;
    match x_krb5_format_enctypes X (adcli_enroll_get_keytab_enctypes e1) with
    | None => ret ADCLI_ERR_CONFIG
    | Some new_value =>
        (* If we already have this value, then don't need to update *)
        if match value with Some v => String.eqb new_value v | None => false end
        then ret ADCLI_SUCCESS
        else
          let mods :=
            [ {| mod_op := LDAP_MOD_REPLACE;
                 mod_type := "msDS-supportedEncryptionTypes";
                 mod_values := [new_value] |} ] in
          let (mods', n) := filter_for_necessary_updates (attributes_read e1) mods in
          if Nat.eqb n 0 then ret ADCLI_SUCCESS
          else write_attribute (computer_dn e1) mods'
    end.

Definition update_dns_host_name : M W adcli_result :=
  e <- get_enroll ;;
  let mods :=
    [ {| mod_op := LDAP_MOD_REPLACE; mod_type := "dNSHostName";
         mod_values := match host_fqdn e with Some f => [f] | None => [] end |} ] in
  ldap <- ask (x_conn_ldap_connection X) ;;
  if negb ldap then ret ADCLI_ERR_UNEXPECTED
  else
    (* See if there are any changes to be made? *)
    let (mods', n) := filter_for_necessary_updates (attributes_read e) mods in
    if Nat.eqb n 0 then ret ADCLI_SUCCESS
    else write_attribute (computer_dn e) mods'.

Definition update_service_principals : M W adcli_result :=
  e <- get_enroll ;;
  let mods :=
    [ {| mod_op := LDAP_MOD_REPLACE; mod_type := "servicePrincipalName";
         mod_values := match service_principals e with Some l => l | None => [] end |} ] in
  ldap <- ask (x_conn_ldap_connection X) ;;
  if negb ldap then ret ADCLI_ERR_UNEXPECTED
  else
    (* See if there are any changes to be made? *)
    let (mods', n) := filter_for_necessary_updates (attributes_read e) mods in
    if Nat.eqb n 0 then ret ADCLI_SUCCESS
    else write_attribute (computer_dn e) mods'.

(** *** Keytab *)

Definition ensure_host_keytab (res : adcli_result) : M W adcli_result :=
  if failed res then ret res
  else
    e <- get_enroll ;;
    if isSome (keytab e) then ret ADCLI_SUCCESS
    else
      k5 <- ask (x_conn_krb5_context X) ;;
      if negb k5 then ret ADCLI_ERR_UNEXPECTED
      else
        match keytab_name e with
        | Some name =>
            code <- call (x_krb5_kt_resolve X name) (EvKtResolve (Some name)) ;;
            if negb (code =? 0) then ret ADCLI_ERR_FAIL
            else
              update_enroll (put_keytab (Some name)) ;;
              ret ADCLI_SUCCESS
        | None =>
            r <- call (x_krb5_kt_default X) (fun r => EvKtResolve None (fst r)) ;;
            if negb (fst r =? 0) then ret ADCLI_ERR_FAIL
            else
              update_enroll (put_keytab (Some (snd r))) ;;
              update_enroll (put_keytab_name (Some (snd r))) ;;
              update_enroll (put_keytab_name_is_krb5 true) ;;
              ret ADCLI_SUCCESS
        end.

(** The scan of the clearing pass: the entries kept, the entries removed
    and the closure afterwards. *)
Fixpoint keytab_clear_scan (entries : list krb5_keytab_entry)
    (closure : match_principal_kvno)
  : list krb5_keytab_entry * list krb5_keytab_entry * match_principal_kvno :=
  match entries with
  | [] => ([], [], closure)
  | entry :: rest =>
      let (hit, closure1) := match_principal_and_kvno entry closure in
      let '(kept, removed, closure2) := keytab_clear_scan rest closure1 in
      if hit then (kept, entry :: removed, closure2)
      else (entry :: kept, removed, closure2)
  end.

(** Modelled from the spec: [_adcli_krb5_keytab_clear] of adkrb5.c, which is
    not among the sources: "Scan the keytab and remove entries" that the
    match function selects.  The code is that of the keytab access; a keytab
    that could not be rewritten is left as it was. *)
Definition _adcli_krb5_keytab_clear (name : string)
    (closure : match_principal_kvno) : M W (Z * match_principal_kvno) :=
  entries <- read_keytab name ;;
  let '(kept, removed, closure') := keytab_clear_scan entries closure in
  code <- call (x_keytab_io X)
               (fun code => EvKtClear name code (if code =? 0 then removed else [])) ;;
  if code =? 0 then
    write_keytab name kept ;;
    ret (0, closure')
  else ret (code, closure).

Definition build_principal_salts (e : adcli_enroll) (principal : krb5_principal)
  : option (list krb5_data) :=
  (* Build up the salts, first a standard kerberos salt *)
  match x_krb5_principal2salt X principal with
  | None => None
  | Some canonical =>
      (* Then a Windows 2003 computer account salt *)
      match x_krb5_w2k3_salt X principal (computer_name e) with
      | None => None
      | Some w2k3 =>
          (* And lastly a null salt *)
          Some [canonical; w2k3; None]
      end
  end.

(** One candidate salt against the realm: an AS-REQ for each enctype until
    one is accepted. *)
Fixpoint probe_salt (principal : krb5_principal) (vno : krb5_kvno)
    (password : string) (salt : krb5_data) (enctypes : list krb5_enctype)
  : M W bool :=
  match enctypes with
  | [] => ret false
  | enctype :: rest =>
      let key := x_krb5_c_string_to_key X enctype password salt in
      ok <- call (x_as_req X principal vno enctype key)
                 (EvAsReq principal vno enctype key) ;;
      if ok then ret true
      else probe_salt principal vno password salt rest
  end.

(** The candidates from index [i] on, in order. *)
Fixpoint probe_salts (principal : krb5_principal) (vno : krb5_kvno)
    (password : string) (enctypes : list krb5_enctype)
    (salts : list krb5_data) (i : Z) : M W (option Z) :=
  match salts with
  | [] => ret None
  | salt :: rest =>
      ok <- probe_salt principal vno password salt enctypes ;;
      if ok then ret (Some i)
      else probe_salts principal vno password enctypes rest (i + 1)
  end.

Definition KRB5KDC_ERR_PREAUTH_FAILED : Z := -1765328360.

(** Modelled from the spec: [_adcli_krb5_keytab_discover_salt] of adkrb5.c,
    which is not among the sources: "For each candidate, for each enabled
    enctype, derive a key from the new password and that salt+enctype, and
    attempt a real AS-REQ as this principal at the target kvno.  The first
    salt whose derived key is accepted for any enctype is selected."  The
    result is the code and the index discovered. *)
Definition _adcli_krb5_keytab_discover_salt (principal : krb5_principal)
    (vno : krb5_kvno) (password : string) (enctypes : list krb5_enctype)
    (salts : list krb5_data) (which_salt : Z) : M W (Z * Z) :=
  log (EvDiscoverSalt principal) ;;
  r <- probe_salts principal vno password enctypes salts 0 ;;
  match r with
  | Some i => ret (0, i)
  | None => ret (KRB5KDC_ERR_PREAUTH_FAILED, which_salt)
  end.

(** The entries installed for one principal. *)
Definition keytab_entries_for (principal : krb5_principal) (vno : krb5_kvno)
    (password : string) (enctypes : list krb5_enctype) (salt : krb5_data)
  : list krb5_keytab_entry :=
  map (fun enctype =>
         {| kte_principal := principal; kte_vno := vno; kte_enctype := enctype;
            kte_key := x_krb5_c_string_to_key X enctype password salt |})
      enctypes.

(** Modelled from the spec: [_adcli_krb5_keytab_add_entries] of adkrb5.c,
    which is not among the sources: "For the selected salt, for each enabled
    enctype, derive the key and write a keytab entry (principal, kvno,
    enctype, key)."  The code is that of the keytab access; nothing is
    written when it fails. *)
Definition _adcli_krb5_keytab_add_entries (name : string)
    (principal : krb5_principal) (vno : krb5_kvno) (password : string)
    (enctypes : list krb5_enctype) (salt : krb5_data) : M W Z :=
  let entries := keytab_entries_for principal vno password enctypes salt in
  code <- call (x_keytab_io X)
               (fun code => EvKtAdd name code (if code =? 0 then entries else [])) ;;
  if code =? 0 then
    old <- read_keytab name ;;
    write_keytab name (old ++ entries) ;;
    ret 0
  else ret code.

(** [add_principal_to_keytab]: the result and [*which_salt] afterwards. *)
Definition add_principal_to_keytab (principal : krb5_principal) (which_salt : Z)
  : M W (adcli_result * Z) :=
  e <- get_enroll ;;
  (* Remove old stuff from the keytab for this principal *)
  let closure := {| closure_kvno := kvno e; closure_principal := principal;
                    closure_matched := false |} in
  match keytab e with
  | None => abort
  | Some kt =>
      r <- _adcli_krb5_keytab_clear kt closure ;;
      if negb (fst r =? 0) then ret (ADCLI_ERR_FAIL, which_salt)
      else
        match computer_password e with
        | None => abort
        | Some password =>
            let enctypes := adcli_enroll_get_keytab_enctypes e in
            (* So we need to discover which salt to use. As a side effect we
               are also testing that our account works. *)
            match build_principal_salts e principal with
            | None => ret (ADCLI_ERR_UNEXPECTED, which_salt)
            | Some salts =>
                d <- (if which_salt <? 0 then
                        _adcli_krb5_keytab_discover_salt principal (kvno e)
                          password enctypes salts which_salt
                      else ret (0, which_salt)) ;;
                if negb (fst d =? 0) then ret (ADCLI_ERR_DIRECTORY, snd d)
                else
                  c_assert (0 <=? snd d) ;;
                  code <- _adcli_krb5_keytab_add_entries kt principal (kvno e)
                            password enctypes (nth (Z.to_nat (snd d)) salts None) ;;
                  if negb (code =? 0) then ret (ADCLI_ERR_FAIL, snd d)
                  else ret (ADCLI_SUCCESS, snd d)
            end
        end
  end.

(** The loop of [update_keytab_for_principals]. *)
Fixpoint update_keytab_loop (principals : list krb5_principal) (which_salt : Z)
  : M W adcli_result :=
  match principals with
  | [] => ret ADCLI_SUCCESS
  | principal :: rest =>
      r <- add_principal_to_keytab principal which_salt ;;
      if failed (fst r) then ret (fst r)
      else update_keytab_loop rest (snd r)
  end.

Definition update_keytab_for_principals : M W adcli_result :=
  e <- get_enroll ;;
  match keytab_principals e with
  | None => abort
  | Some principals =>
      k5 <- ask (x_conn_krb5_context X) ;;
      if negb k5 then ret ADCLI_ERR_UNEXPECTED
      else update_keytab_loop principals (-1)
  end.

(** *** Orchestration *)

(** The assignments of [enroll_clear_state]; [k5] tells whether the
    connection has a Kerberos context.  Each [return_if_fail (k5 != NULL)]
    leaves the function. *)
Definition enroll_clear_state_fields (k5 : bool) (e0 : adcli_enroll)
  : adcli_enroll :=
  if isSome (keytab_principals e0) && negb k5 then e0
  else
    let e1 := put_keytab_principals None e0 in
    if isSome (keytab e1) && negb k5 then e1
    else
      let e2 := put_keytab None e1 in
      let e3 := put_computer_sam None e2 in
      if isSome (computer_principal e3) && negb k5 then e3
      else
        let e4 := put_computer_principal None e3 in
        let e5 := if computer_password_explicit e4 then e4
                  else put_computer_password None e4 in
        let e6 := put_computer_dn None e5 in
        let e7 := if service_principals_explicit e6 then e6
                  else put_service_principals None e6 in
        let e8 := put_kvno 0 e7 in
        put_computer_attributes None e8.

Definition enroll_clear_state : M W unit :=
  k5 <- ask (x_conn_krb5_context X) ;;
  update_enroll (enroll_clear_state_fields k5).

Definition adcli_enroll_prepare (fuel : nat) (flags : adcli_enroll_flags)
  : M W adcli_result :=
  let res := ADCLI_SUCCESS in
  (* Basic discovery and figuring out enroll params *)
  res <- ensure_host_fqdn res ;;
  res <- ensure_computer_name res ;;
  res <- ensure_computer_sam res ;;
  res <- ensure_computer_password fuel res ;;
  res <- (if negb (ADCLI_ENROLL_NO_KEYTAB flags) then ensure_host_keytab res
          else ret res) ;;
  res <- ensure_service_names res ;;
  res <- ensure_service_principals res ;;
  ret res.

(** Figure out where to place the computer account. *)
Definition locate_computer_account : M W adcli_result :=
  e <- get_enroll ;;
  if isSome (computer_dn e) then ret ADCLI_SUCCESS
  else
    (* Now we need to find or validate the preferred ou *)
    res <- (if isSome (preferred_ou e) then validate_preferred_ou
            else lookup_preferred_ou) ;;
    if failed res then ret res
    else
      (* Now need to find or validate the computer container *)
      res <- lookup_computer_container ;;
      if failed res then ret res
      else calc_computer_account.

(** The part of [adcli_enroll_join] under "This is where it really
    happens". *)
Definition join_computer_account (flags : adcli_enroll_flags)
  : M W adcli_result :=
  res <- create_or_update_computer_account (ADCLI_ENROLL_ALLOW_OVERWRITE flags) ;;
  if failed res then ret res
  else
    res <- set_computer_password ;;
    if failed res then ret res
    else
      (* Get information about the computer account *)
      res <- retrieve_computer_account_info ;;
      if failed res then ret res
      else
        (* We ignore failures of setting these fields *)
        update_and_calculate_enctypes ;;
        update_dns_host_name ;;
        update_service_principals ;;
        if ADCLI_ENROLL_NO_KEYTAB flags then ret ADCLI_SUCCESS
        else
          (* Salting in the keytab is wild, we need to autodetect the format
             that we use for salting. *)
          update_keytab_for_principals.

Definition adcli_enroll_join (fuel : nat) (flags : adcli_enroll_flags)
  : M W adcli_result :=
  enroll_clear_state ;;
  res <- adcli_conn_discover ;;
  if failed res then ret res
  else
    res <- adcli_enroll_prepare fuel flags ;;
    if failed res then ret res
    else
      res <- adcli_conn_connect ;;
      if failed res then ret res
      else
        res <- locate_computer_account ;;
        if failed res then ret res
        else join_computer_account flags.

End Engine.

(** *** Options set by the caller *)

(** [_adcli_str_set (&field, value)] stores a copy of [value]. *)
Definition adcli_enroll_set_host_fqdn (value : option string) (e : adcli_enroll)
  : adcli_enroll :=
  put_host_fqdn_explicit true (put_host_fqdn value e).

Definition adcli_enroll_set_computer_name (value : option string)
    (e : adcli_enroll) : adcli_enroll :=
  put_computer_name_explicit (isSome value) (put_computer_name value e).

Definition adcli_enroll_set_computer_dn (value : option string) (e : adcli_enroll)
  : adcli_enroll :=
  put_computer_dn value e.

Definition adcli_enroll_set_computer_password (password : option string)
    (e : adcli_enroll) : adcli_enroll :=
  put_computer_password_explicit (isSome password)
    (put_computer_password password e).

Definition adcli_enroll_reset_computer_password (e : adcli_enroll)
  : adcli_enroll :=
  put_reset_password true
    (put_computer_password_explicit false (put_computer_password None e)).

Definition adcli_enroll_set_service_principals (value : option (list string))
    (e : adcli_enroll) : adcli_enroll :=
  put_service_principals_explicit (isSome value) (put_service_principals value e).

Definition adcli_enroll_set_kvno (value : krb5_kvno) (e : adcli_enroll)
  : adcli_enroll :=
  put_kvno value e.

Definition adcli_enroll_set_keytab_enctypes (value : option (list krb5_enctype))
    (e : adcli_enroll) : adcli_enroll :=
  put_keytab_enctypes_explicit (isSome value) (put_keytab_enctypes value e).

Definition adcli_enroll_set_preferred_ou (value : option string)
    (e : adcli_enroll) : adcli_enroll :=
  put_preferred_ou value (put_preferred_ou_validated false e).

Definition adcli_enroll_set_computer_container (value : option string)
    (e : adcli_enroll) : adcli_enroll :=
  put_computer_container value e.

Definition adcli_enroll_set_service_names (value : option (list string))
    (e : adcli_enroll) : adcli_enroll :=
  put_service_names value e.

(** [return_if_fail (value != NULL)] leaves the structure as it is. *)
Definition adcli_enroll_add_service_name (value : option string)
    (e : adcli_enroll) : adcli_enroll :=
  match value with
  | None => e
  | Some v => put_service_names (_adcli_strv_add (service_names e) v) e
  end.

(** The getter fills in the default names first. *)
Definition adcli_enroll_get_service_names {W} : M W (option (list string)) :=
  r <- ensure_service_names ADCLI_SUCCESS ;;
  if failed r then ret None
  else
    e <- get_enroll ;;
    ret (service_names e).

(** [adcli_enroll_set_keytab_name]; [k5] tells whether the connection has a
    Kerberos context.  Each [return_if_fail (k5 != NULL)] leaves the
    function; the second one leaves a name in the structure that was
    released already. *)
Definition adcli_enroll_set_keytab_name (k5 : bool) (value : option string)
    (e : adcli_enroll) : adcli_enroll :=
  if isSome (keytab_name e) && keytab_name_is_krb5 e && negb k5 then e
  else if isSome (keytab e) && negb k5 then e
  else put_keytab_name_is_krb5 false (put_keytab_name value (put_keytab None e)).

(** ** A small realm to run the engine in

    A directory with one OU, a KDC that accepts the keys of one salt only,
    and a random source that counts through the octets 0, 1, 2, ...  The
    state of this world is the number of random octets drawn so far. *)

Record realm_setup : Type := {
  setup_account_exists : bool;
  (* the value of msDS-KeyVersionNumber, when the account has one *)
  setup_kvno : option string;
  (* whether the enctypes can be encoded *)
  setup_enctypes_encodable : bool;
  (* the prefix of the keys the KDC accepts *)
  setup_accepted_salt : string
}.

(** Decimal digits at the head of a string, as [strtoul] reads a string
    that starts with a digit and whose value fits: no white space or sign
    is skipped and nothing saturates.  The small realm hands out such
    strings only. *)
Fixpoint read_decimal (acc : Z) (s : string) : Z * string :=
  match s with
  | EmptyString => (acc, EmptyString)
  | String c rest =>
      let n := nat_of_ascii c in
      if (48 <=? n)%nat && (n <=? 57)%nat
      then read_decimal (10 * acc + Z.of_nat (n - 48)) rest
      else (acc, s)
  end.

Fixpoint split_components (cur : string) (s : string) : list string :=
  match s with
  | EmptyString => [cur]
  | String c rest =>
      if Ascii.eqb c "/" then cur :: split_components EmptyString rest
      else split_components (cur ++ String c EmptyString) rest
  end.

Definition realm_account_entry (setup : realm_setup) (dn : string) : ldap_entry :=
  {| entry_dn := dn;
     entry_attrs :=
       match setup_kvno setup with
       | Some v => [("msDS-KeyVersionNumber", [v])]
       | None => []
       end |}.

Definition realm_search (setup : realm_setup) (base filter : string)
    (attrs : list string) (w : nat) : (Z * LDAPMessage) * nat :=
  match attrs with
  | ["objectClass"; "sAMAccountName"; "userAccountControl"] =>
      if setup_account_exists setup
      then ((LDAP_SUCCESS,
             [ {| entry_dn := base;
                  entry_attrs := [("objectClass", ["computer"]);
                                  ("sAMAccountName", ["HOST01$"]);
                                  ("userAccountControl", ["69632"])] |} ]), w)
      else ((LDAP_NO_SUCH_OBJECT, []), w)
  | "msDS-KeyVersionNumber" :: _ =>
      ((LDAP_SUCCESS, [realm_account_entry setup base]), w)
  | _ => ((LDAP_SUCCESS, [ {| entry_dn := base; entry_attrs := [] |} ]), w)
  end.

Definition small_realm (setup : realm_setup) : externals nat :=
  {| x_conn_discover := fun w => (ADCLI_SUCCESS, w);
     x_conn_connect := fun w => (ADCLI_SUCCESS, w);
     x_conn_host_fqdn := fun _ => Some "host01.corp.example.com";
     x_conn_domain_realm := fun _ => "CORP.EXAMPLE.COM";
     x_conn_naming_context := fun _ => Some "DC=corp,DC=example,DC=com";
     x_conn_login_type := fun _ => ADCLI_LOGIN_USER_ACCOUNT;
     x_conn_krb5_context := fun _ => true;
     x_conn_ldap_connection := fun _ => true;
     x_conn_login_ccache := fun _ => true;
     x_ldap_search := realm_search setup;
     x_ldap_compare := fun _ _ _ w => (LDAP_COMPARE_TRUE, w);
     x_ldap_add := fun _ _ w => (LDAP_SUCCESS, w);
     x_ldap_modify := fun _ _ w => (LDAP_SUCCESS, w);
     x_krb5_parse_name :=
       fun s => Some {| princ_realm := ""; princ_components := split_components "" s |};
     x_krb5_principal2salt :=
       fun p => Some (Some ("std:" ++ princ_realm p
                              ++ String.concat "" (princ_components p)));
     x_krb5_c_string_to_key :=
       fun enctype password salt => fmt_s salt ++ "|" ++ password;
     x_random_octet := fun w => (Some (ascii_of_nat (w mod 256)), S w);
     x_krb5_set_password_using_ccache := fun _ _ w => ((0, 0), w);
     x_krb5_change_password := fun _ w => ((0, 0), w);
     x_krb5_kt_resolve := fun _ w => (0, w);
     x_krb5_kt_default := fun w => ((0, "FILE:/etc/krb5.keytab"), w);
     x_keytab_io := fun w => (0, w);
     x_as_req :=
       fun _ _ _ key w => (String.prefix (setup_accepted_salt setup) key, w);
     x_strtoul := read_decimal 0;
     x_calc_reset_password := fun name => Some (map_string tolower name);
     x_ldap_have_mod :=
       fun m vals => if list_eq_dec string_dec (mod_values m) vals then true else false;
     x_krb5_parse_enctypes := fun _ => None;
     x_krb5_format_enctypes :=
       fun _ => if setup_enctypes_encodable setup then Some "28" else None;
     x_krb5_w2k3_salt :=
       fun p name => Some (Some ("w2k3:" ++ princ_realm p ++ "host"
                                   ++ map_string tolower (fmt_s name)));
     x_kinit_computer_creds := fun w => (0, w) |}.

Definition start (e : adcli_enroll) : machine nat :=
  {| m_enroll := e; m_world := O; m_keytabs := fun _ => []; m_trace := [] |}.

Definition plain_setup : realm_setup :=
  {| setup_account_exists := false; setup_kvno := Some "2";
     setup_enctypes_encodable := true; setup_accepted_salt := "w2k3:" |}.

Definition existing_account_setup : realm_setup :=
  {| setup_account_exists := true; setup_kvno := Some "3";
     setup_enctypes_encodable := true; setup_accepted_salt := "w2k3:" |}.

(** An enrollment whose account name and DN are already worked out. *)
Definition located (sam : string) : adcli_enroll :=
  put_computer_dn (Some "CN=HOST01,CN=Computers,DC=corp,DC=example,DC=com")
    (put_computer_sam (Some sam) adcli_enroll_new).

(** A legacy directory: the account has no msDS-KeyVersionNumber. *)
Definition legacy_setup : realm_setup :=
  {| setup_account_exists := false; setup_kvno := None;
     setup_enctypes_encodable := true; setup_accepted_salt := "w2k3:" |}.


(** A KDC that accepts no key at all. *)
Definition deaf_setup : realm_setup :=
  {| setup_account_exists := false; setup_kvno := Some "2";
     setup_enctypes_encodable := true; setup_accepted_salt := "none:" |}.

Definition host01_principals : list krb5_principal :=
  [ {| princ_realm := "CORP.EXAMPLE.COM"; princ_components := ["HOST01$"] |};
    {| princ_realm := "CORP.EXAMPLE.COM"; princ_components := ["host"; "HOST01"] |} ].

(** An enrollment that has reached the keytab update: password set, key
    version read back, keytab resolved. *)
Definition enrolled_host : adcli_enroll :=
  put_keytab_principals (Some host01_principals)
    (put_keytab (Some "FILE:/etc/krb5.keytab")
       (put_kvno 2
          (put_computer_password (Some "secret")
             (put_computer_name (Some "HOST01") adcli_enroll_new)))).

Definition join_flags : adcli_enroll_flags :=
  {| ADCLI_ENROLL_NO_KEYTAB := false; ADCLI_ENROLL_ALLOW_OVERWRITE := false |}.

(** What a run leaves to look at. *)
Definition result_of {W A} (o : outcome W A) : option A :=
  match o with
  | Done a _ => Some a
  | _ => None
  end.

(** The keytab entries a library call adds. *)
Definition entries_added (ev : event) : list krb5_keytab_entry :=
  match ev with
  | EvKtAdd _ _ entries => entries
  | _ => []
  end.

(** A write to a keytab: entries removed or entries added. *)
Definition keytab_write (ev : event) : bool :=
  match ev with
  | EvKtClear _ _ _ => true
  | EvKtAdd _ _ _ => true
  | _ => false
  end.

Fixpoint strv_eqb (a b : list string) : bool :=
  match a, b with
  | [], [] => true
  | x :: a', y :: b' => String.eqb x y && strv_eqb a' b'
  | _, _ => false
  end.

(** A successful read of the attributes that hold the key version. *)
Definition is_read_back (ev : event) : bool :=
  match ev with
  | EvLdapSearch _ _ attrs code _ => strv_eqb attrs kvno_attrs && (code =? LDAP_SUCCESS)
  | _ => false
  end.

(** Neither a keytab write nor a read-back. *)
Definition silent (ev : event) : bool :=
  negb (keytab_write ev) && negb (is_read_back ev).

(** ** Specifications of computations

    [triple P c Q R]: from a machine in [P], the computation [c] returns
    [a] in a machine in [Q a], or stops without returning in a machine in
    [R]. *)

Definition triple {W A} (P : machine W -> Prop) (c : M W A)
    (Q : A -> machine W -> Prop) (R : machine W -> Prop) : Prop :=
  forall m, P m ->
    match c m with
    | Done a m' => Q a m'
    | Aborted m' => R m'
    | OutOfFuel m' => R m'
    end.

(** [keeps P c]: [P] holds wherever [c] stops. *)
Definition keeps {W A} (P : machine W -> Prop) (c : M W A) : Prop :=
  triple P c (fun _ => P) P.

(** What an invariant must survive: assignments to the structure, steps of
    the world with their log entry, and writes to a keytab. *)
Definition stable_enroll {W} (P : machine W -> Prop)
    (f : adcli_enroll -> adcli_enroll) : Prop :=
  forall m, P m -> P (on_enroll f m).

Definition stable_event {W} (P : machine W -> Prop) (ev : event) : Prop :=
  forall m w, P m -> P (after_call m w ev).

Definition stable_keytab {W} (P : machine W -> Prop) : Prop :=
  forall m name entries, P m -> P (with_keytab name entries m).

(** [P] survives every assignment to one field. *)
Definition assigns {W A} (P : machine W -> Prop)
    (put : A -> adcli_enroll -> adcli_enroll) : Prop :=
  forall v, stable_enroll P (put v).

(** [P] survives every library call that neither writes a keytab nor reads
    the key version back. *)
Definition logs_quiet {W} (P : machine W -> Prop) : Prop :=
  forall ev, silent ev = true -> stable_event P ev.

(** [P] survives every library call. *)
Definition logs_all {W} (P : machine W -> Prop) : Prop :=
  forall ev, stable_event P ev.

(** [P] survives every library call that adds no keytab entry but entries
    of version [vno]. *)
Definition logs_keytab {W} (vno : krb5_kvno) (P : machine W -> Prop) : Prop :=
  forall ev,
    (forall entry, In entry (entries_added ev) -> kte_vno entry = vno) ->
    stable_event P ev.

(** ** Words used by the statements *)

(** No dot strictly inside the name. *)
Definition no_interior_dot (fqdn : string) : Prop :=
  forall i, String.get i fqdn = Some "."%char ->
            i = O \/ S i = String.length fqdn.



(** The password reached the KDC and was accepted. *)
Definition password_set_ok (ev : event) : bool :=
  match ev with
  | EvSetPassword _ _ code result_code => (code =? 0) && (result_code =? 0)
  | EvChangePassword _ code result_code => (code =? 0) && (result_code =? 0)
  | _ => false
  end.

(** The key version an attribute read-back stands for. *)
Definition kvno_read {W} (X : externals W) (results : LDAPMessage) : option krb5_kvno :=
  match _adcli_ldap_parse_value results "msDS-KeyVersionNumber" with
  | Some value =>
      let (n, rest) := x_strtoul X value in
      if String.eqb rest "" then Some (wrap_kvno n) else None
  | None => Some 0
  end.

(** The version a keytab write is made for: the version of the entries
    added, the version the clearing pass was run for. *)
Definition entry_of (principal : krb5_principal) (vno : krb5_kvno)
    (entry : krb5_keytab_entry) : bool :=
  (if krb5_principal_eq_dec (kte_principal entry) principal then true else false)
  && (kte_vno entry =? vno).

Definition entry_of_principal (principal : krb5_principal)
    (entry : krb5_keytab_entry) : bool :=
  if krb5_principal_eq_dec (kte_principal entry) principal then true else false.

(** The entries the clearing pass for [principal] at [vno] removes. *)
Definition cleared (vno : krb5_kvno) (principal : krb5_principal)
    (entry : krb5_keytab_entry) : bool :=
  negb (wrap_kvno (kte_vno entry + 1) =? vno)
  && entry_of_principal principal entry.

(** The result [create_computer_account] makes of the code of the add. *)
Definition add_result (r : Z) : adcli_result :=
  if (r =? LDAP_INSUFFICIENT_ACCESS) || (r =? LDAP_OBJECT_CLASS_VIOLATION)
  then ADCLI_ERR_CREDENTIALS
  else if r =? LDAP_SUCCESS then ADCLI_SUCCESS else ADCLI_ERR_DIRECTORY.

(** The result [modify_computer_account] makes of the code of the modify. *)
Definition modify_result (r : Z) : adcli_result :=
  if r =? LDAP_INSUFFICIENT_ACCESS then ADCLI_ERR_CREDENTIALS
  else if r =? LDAP_SUCCESS then ADCLI_SUCCESS else ADCLI_ERR_DIRECTORY.

(** The attributes the account reconciler reads. *)
Definition account_attrs : list string :=
  ["objectClass"; "sAMAccountName"; "userAccountControl"].

(** In the words of the specification, "the existing value already
    matches" the mod [md]: the entry read from the directory has values
    for the attribute of [md], and [_adcli_ldap_have_mod] finds the mod in
    them. *)
Definition value_already_matches {W} (X : externals W) (results : LDAPMessage)
    (md : LDAPMod) : Prop :=
  exists entry vals,
    ldap_first_entry results = Some entry
    /\ ldap_get_values_len entry (mod_type md) = Some vals
    /\ x_ldap_have_mod X md vals = true.

(** In the words of the specification, "drop those": [kept] is [mods]
    without the mods that satisfy [P], in the order of [mods]. *)
Inductive mods_left (P : LDAPMod -> Prop)
  : list LDAPMod -> list LDAPMod -> Prop :=
| mods_left_nil : mods_left P [] []
| mods_left_drop md mods kept :
    P md -> mods_left P mods kept -> mods_left P (md :: mods) kept
| mods_left_keep md mods kept :
    ~ P md -> mods_left P mods kept -> mods_left P (md :: mods) (md :: kept).

(** The reset of [enroll_clear_state] runs to its end: the connection has
    a Kerberos context, or the structure holds nothing that needs one to be
    released. *)
Definition can_clear {W} (X : externals W) (m : machine W) : Prop :=
  x_conn_krb5_context X (m_world m) = true
  \/ (keytab_principals (m_enroll m) = None
      /\ keytab (m_enroll m) = None
      /\ computer_principal (m_enroll m) = None).

(** The read-back of the account attributes, when it succeeds. *)
Definition read_back (dn : string) (results : LDAPMessage) : event :=
  EvLdapSearch dn "(objectClass=*)" kvno_attrs LDAP_SUCCESS results.

(** No keytab is written and no key version is read back. *)
Definition quiet (evs : list event) : Prop :=
  Forall (fun ev => silent ev = true) evs.

(** The stations of a join, read off the log since [tr0]: before the
    password is set, after it was set, after the attributes were read back.
    [zero] stands for "the reset at the start cleared the cached kvno". *)
Definition before_password {W} (tr0 : list event) (zero : Prop) (m : machine W)
  : Prop :=
  (zero -> kvno (m_enroll m) = 0)
  /\ exists evs, m_trace m = (tr0 ++ evs)%list /\ quiet evs.

Definition after_password {W} (tr0 : list event) (zero : Prop) (m : machine W)
  : Prop :=
  (zero -> kvno (m_enroll m) = 0)
  /\ exists a pw b,
      m_trace m = (tr0 ++ a ++ pw :: b)%list
      /\ quiet (a ++ pw :: b)
      /\ password_set_ok pw = true.

Definition after_read_back {W} (X : externals W) (tr0 : list event) (zero : Prop)
    (m : machine W) : Prop :=
  exists a pw b dn results c,
    m_trace m = (tr0 ++ a ++ pw :: b ++ read_back dn results :: c)%list
    /\ quiet (a ++ pw :: b)
    /\ password_set_ok pw = true
    /\ (zero -> kvno_read X results = Some (kvno (m_enroll m)))
    /\ Forall (fun ev => forall entry, In entry (entries_added ev) ->
                                      kte_vno entry = kvno (m_enroll m)) c.

(** The read-back is in the log, after a password set that succeeded, and
    the keytab entries added since are of the version read back. *)
Definition read_back_seen {W} (X : externals W) (tr0 : list event) (zero : Prop)
    (m : machine W) : Prop :=
  exists a pw b dn results c,
    m_trace m = (tr0 ++ a ++ pw :: b ++ read_back dn results :: c)%list
    /\ quiet (a ++ pw :: b)
    /\ password_set_ok pw = true
    /\ Forall (fun ev => forall entry, In entry (entries_added ev) ->
                 zero -> kvno_read X results = Some (kte_vno entry)) c.

(** Where a join can stop. *)
Definition join_station {W} (X : externals W) (tr0 : list event) (zero : Prop)
    (m : machine W) : Prop :=
  before_password tr0 False m \/ read_back_seen X tr0 zero m.

(** The SAM name is the computer name, as [asprintf] prints it, and a
    dollar sign. *)
Definition sam_follows_name (e : adcli_enroll) : Prop :=
  computer_sam e = Some (fmt_s (computer_name e) ++ "$").

(** The computer name, if there is one, has no lower-case letter. *)
Definition name_is_upper (e : adcli_enroll) : Prop :=
  forall name, computer_name e = Some name -> _adcli_str_up name = name.

(** The salt [add_principal_to_keytab] takes for [principal] when the index
    discovered is [i]. *)
Definition selected_salt {W} (X : externals W) (e : adcli_enroll)
    (principal : krb5_principal) (i : Z) : krb5_data :=
  match build_principal_salts X e principal with
  | Some salts => nth (Z.to_nat i) salts None
  | None => None
  end.

(** What one round of [add_principal_to_keytab] makes of a keytab: the
    clearing pass, then the entries for the enabled enctypes. *)
Definition keytab_round {W} (X : externals W) (e : adcli_enroll) (i : Z)
    (entries : list krb5_keytab_entry) (principal : krb5_principal)
  : list krb5_keytab_entry :=
  filter (fun entry => negb (cleared (kvno e) principal entry)) entries
  ++ keytab_entries_for X principal (kvno e)
       (match computer_password e with Some pw => pw | None => "" end)
       (adcli_enroll_get_keytab_enctypes e)
       (selected_salt X e principal i).

(** The AS-REQs of a salt discovery, in the order they are tried: salt by
    salt, and enctype by enctype for each salt. *)
Fixpoint probe_schedule (salts : list krb5_data) (i : Z)
    (enctypes : list krb5_enctype) : list (Z * krb5_data * krb5_enctype) :=
  match salts with
  | [] => []
  | salt :: rest =>
      map (fun enctype => (i, salt, enctype)) enctypes
      ++ probe_schedule rest (i + 1) enctypes
  end.

Definition probe_event {W} (X : externals W) (principal : krb5_principal)
    (vno : krb5_kvno) (password : string) (accepted : bool)
    (probe : Z * krb5_data * krb5_enctype) : event :=
  let '(_, salt, enctype) := probe in
  EvAsReq principal vno enctype
    (x_krb5_c_string_to_key X enctype password salt) accepted.

(** The principal a discovery event is about. *)
Definition probed (ev : event) : option krb5_principal :=
  match ev with
  | EvDiscoverSalt p => Some p
  | EvAsReq p _ _ _ _ => Some p
  | _ => None
  end.

Definition is_discovery (ev : event) : bool :=
  match ev with
  | EvDiscoverSalt _ => true
  | _ => false
  end.

(** [P] survives every library call that is no part of a salt discovery. *)
Definition logs_unprobed {W} (P : machine W -> Prop) : Prop :=
  forall ev, probed ev = None -> stable_event P ev.

(** Since [tr0], the discovery events are all about [principal], and the
    number of discoveries started satisfies [count]. *)
Definition probing {W} (tr0 : list event) (principal : krb5_principal)
    (count : nat -> Prop) (m : machine W) : Prop :=
  exists evs,
    m_trace m = (tr0 ++ evs)%list
    /\ Forall (fun ev => probed ev = None \/ probed ev = Some principal) evs
    /\ count (List.length (filter is_discovery evs)).

(** The discovery events among [evs], in order. *)
Definition discovery_log (evs : list event) : list event :=
  filter (fun ev => isSome (probed ev)) evs.

(** Since [tr0], the discovery events logged are exactly [l]. *)
Definition discovery_logged {W} (tr0 : list event) (l : list event)
    (m : machine W) : Prop :=
  exists evs, m_trace m = (tr0 ++ evs)%list /\ discovery_log evs = l.

(** What is to be seen of the salt discovery when the keytab update for
    [principal :: rest], started in [m], has returned [r] in [m']:
    - it stopped before any discovery; or
    - every probe of the schedule was rejected, and [r] is
      [ADCLI_ERR_DIRECTORY]; or
    - the probes were rejected up to [sel], which was accepted: no probe
      followed, for no principal, and when [r] is [ADCLI_SUCCESS] the keytab
      has gone through one round per principal, all at the index of [sel]. *)
Definition salt_discovery_report {W} (X : externals W) (m : machine W)
    (principal : krb5_principal) (rest : list krb5_principal)
    (r : adcli_result) (m' : machine W) : Prop :=
  let e := m_enroll m in
  let enctypes := adcli_enroll_get_keytab_enctypes e in
  (discovery_logged (m_trace m) [] m'
   /\ (r = ADCLI_ERR_FAIL \/ r = ADCLI_ERR_UNEXPECTED))
  \/ exists password salts,
      computer_password e = Some password
      /\ build_principal_salts X e principal = Some salts
      /\ let rejected := probe_event X principal (kvno e) password false in
         let accepted := probe_event X principal (kvno e) password true in
         let schedule := probe_schedule salts 0 enctypes in
         (r = ADCLI_ERR_DIRECTORY
          /\ discovery_logged (m_trace m)
               (EvDiscoverSalt principal :: map rejected schedule) m')
         \/ exists before sel after,
             schedule = (before ++ sel :: after)%list
             /\ r <> ADCLI_ERR_DIRECTORY
             /\ discovery_logged (m_trace m)
                  (EvDiscoverSalt principal
                     :: map rejected before ++ [accepted sel])%list m'
             /\ selected_salt X e principal (fst (fst sel)) = snd (fst sel)
             /\ (r = ADCLI_SUCCESS ->
                 exists kt,
                   keytab e = Some kt
                   /\ m_keytabs m' kt
                      = fold_left (keytab_round X e (fst (fst sel)))
                          (principal :: rest) (m_keytabs m kt)).

(** During the keytab update the structure does not change. *)
Definition writing_keytab {W} (X : externals W) (tr0 : list event) (zero : Prop)
    (e0 : adcli_enroll) (m : machine W) : Prop :=
  m_enroll m = e0 /\ after_read_back X tr0 zero m.

(** A property of the structure alone. *)
Definition names_hold {W} (Phi : adcli_enroll -> Prop) (m : machine W) : Prop :=
  Phi (m_enroll m).

(** What the keytab holds for [p] after a round: its entries at the new
    version are the ones installed, one for each enabled enctype in order,
    and its other entries are one version behind. *)
Definition settled {W} (X : externals W) (e : adcli_enroll) (i : Z)
    (p : krb5_principal) (entries : list krb5_keytab_entry) : Prop :=
  filter (entry_of p (kvno e)) entries
  = keytab_entries_for X p (kvno e)
      (match computer_password e with Some pw => pw | None => "" end)
      (adcli_enroll_get_keytab_enctypes e) (selected_salt X e p i)
  /\ forall entry,
      In entry entries -> kte_principal entry = p ->
      kte_vno entry = kvno e \/ wrap_kvno (kte_vno entry + 1) = kvno e.

(** Nothing but the world and the log has changed. *)
Definition same_store {W} (m m' : machine W) : Prop :=
  m_enroll m' = m_enroll m /\ m_keytabs m' = m_keytabs m.

(** The keytab [kt] was rewritten as [entries]; the others are as before. *)
Definition rewritten {W} (kt : string) (entries : list krb5_keytab_entry)
    (m m' : machine W) : Prop :=
  m_enroll m' = m_enroll m
  /\ forall n, m_keytabs m' n = if String.eqb n kt then entries else m_keytabs m n.

(** ** Footprints and gates

    The kind of a library call; what a computation may log; and the order
    in which calls of two kinds come. *)

Inductive event_kind : Type :=
| KDiscover | KConnect | KSearch | KCompare | KAdd | KModify | KRandom
| KKinit | KSetPassword | KChangePassword | KKtResolve | KKtClear
| KDiscoverSalt | KAsReq | KKtAdd.

Definition kind_of (ev : event) : event_kind :=
  match ev with
  | EvDiscover _ => KDiscover
  | EvConnect _ => KConnect
  | EvLdapSearch _ _ _ _ _ => KSearch
  | EvLdapCompare _ _ _ _ => KCompare
  | EvLdapAdd _ _ _ => KAdd
  | EvLdapModify _ _ _ => KModify
  | EvRandomOctets _ _ => KRandom
  | EvKinit _ => KKinit
  | EvSetPassword _ _ _ _ => KSetPassword
  | EvChangePassword _ _ _ => KChangePassword
  | EvKtResolve _ _ => KKtResolve
  | EvKtClear _ _ _ => KKtClear
  | EvDiscoverSalt _ => KDiscoverSalt
  | EvAsReq _ _ _ _ _ => KAsReq
  | EvKtAdd _ _ _ => KKtAdd
  end.

Definition event_kind_eq_dec (a b : event_kind) : {a = b} + {a <> b}.
Proof. decide equality. Defined.

(** The call is of one of the [kinds]. *)
Definition of_kinds (kinds : list event_kind) (ev : event) : bool :=
  existsb (fun k => if event_kind_eq_dec (kind_of ev) k then true else false) kinds.

(** Since [tr0], every call logged is an [allowed] one. *)
Definition within {W} (tr0 : list event) (allowed : event -> bool)
    (m : machine W) : Prop :=
  exists evs, m_trace m = (tr0 ++ evs)%list /\ forallb allowed evs = true.

(** [P] does not look at the enrollment structure. *)
Definition ignores_enroll {W} (P : machine W -> Prop) : Prop :=
  forall f, stable_enroll P f.

(** [P] survives the library calls that [sel] selects. *)
Definition emits {W} (sel : event -> bool) (P : machine W -> Prop) : Prop :=
  forall ev, sel ev = true -> stable_event P ev.

(** In [evs], every [guarded] call comes after a [gate] call. *)
Definition gated (gate guarded : event -> bool) (evs : list event) : Prop :=
  forall pre ev post,
    evs = (pre ++ ev :: post)%list -> guarded ev = true ->
    existsb gate pre = true.

(** No [guarded] call since [tr0]. *)
Definition shut {W} (tr0 : list event) (guarded : event -> bool) (m : machine W)
  : Prop :=
  within tr0 (fun ev => negb (guarded ev)) m.

(** A [gate] call since [tr0], and no [guarded] call before it. *)
Definition opened {W} (tr0 : list event) (gate guarded : event -> bool)
    (m : machine W) : Prop :=
  exists pre g post,
    m_trace m = (tr0 ++ pre ++ g :: post)%list
    /\ forallb (fun ev => negb (guarded ev)) pre = true
    /\ gate g = true.

(** The calls of the stages of a join. *)
Definition prepare_kinds (flags : adcli_enroll_flags) : list event_kind :=
  if ADCLI_ENROLL_NO_KEYTAB flags then [KRandom] else [KRandom; KKtResolve].

Definition offline_kinds : list event_kind := [KDiscover; KConnect; KRandom].

Definition directory_kinds : list event_kind :=
  [KSearch; KCompare; KAdd; KModify; KKinit; KSetPassword; KChangePassword].

Definition keytab_kinds : list event_kind :=
  [KKtResolve; KKtClear; KDiscoverSalt; KAsReq; KKtAdd].

(** What acts on the realm or on a keytab: requests to the directory,
    password operations, AS-REQs and keytab writes. *)
Definition acting_kinds : list event_kind :=
  directory_kinds ++ [KKtClear; KDiscoverSalt; KAsReq; KKtAdd].

(** What changes the account or a keytab. *)
Definition changing_kinds : list event_kind :=
  [KModify; KKinit; KSetPassword; KChangePassword;
   KKtClear; KDiscoverSalt; KAsReq; KKtAdd].

(** The realm was discovered; the connection was made. *)
Definition discovered (ev : event) : bool :=
  match ev with
  | EvDiscover ADCLI_SUCCESS => true
  | _ => false
  end.

Definition connected (ev : event) : bool :=
  match ev with
  | EvConnect ADCLI_SUCCESS => true
  | _ => false
  end.

(** The directory has added an object. *)
Definition account_created (ev : event) : bool :=
  match ev with
  | EvLdapAdd _ _ ret => ret =? LDAP_SUCCESS
  | _ => false
  end.

(** Flags for a join that leaves the keytab alone. *)
Definition no_keytab_flags : adcli_enroll_flags :=
  {| ADCLI_ENROLL_NO_KEYTAB := true; ADCLI_ENROLL_ALLOW_OVERWRITE := false |}.

(** The service principals looked at: those of the caller, or the derived
    ones. *)
Definition service_principals_wanted (e : adcli_enroll)
  : option (list string) :=
  if isSome (service_principals e) then service_principals e
  else default_service_principals
         (match service_names e with Some l => l | None => [] end)
         (computer_name e) (host_fqdn e) None.

(** The service principals derived from one service name. *)
Definition service_principals_of (name fqdn : option string) (svc : string)
  : list string :=
  (svc ++ "/" ++ fmt_s name)%string
  :: match fqdn with
     | Some f => [(svc ++ "/" ++ f)%string]
     | None => []
     end.

(** A failure that does not come from the configuration. *)
Definition local_result (r : adcli_result) : Prop :=
  r = ADCLI_SUCCESS \/ r = ADCLI_ERR_UNEXPECTED \/ r = ADCLI_ERR_FAIL.

(** The small realm with another keytab library: [resolve] and [default]
    are [krb5_kt_resolve] and [krb5_kt_default]. *)
Definition with_keytab_library {W} (X : externals W)
    (resolve : string -> W -> Z * W) (default : W -> (Z * string) * W)
  : externals W :=
  {| x_conn_discover := x_conn_discover X;
     x_conn_connect := x_conn_connect X;
     x_conn_host_fqdn := x_conn_host_fqdn X;
     x_conn_domain_realm := x_conn_domain_realm X;
     x_conn_naming_context := x_conn_naming_context X;
     x_conn_login_type := x_conn_login_type X;
     x_conn_krb5_context := x_conn_krb5_context X;
     x_conn_ldap_connection := x_conn_ldap_connection X;
     x_conn_login_ccache := x_conn_login_ccache X;
     x_ldap_search := x_ldap_search X;
     x_ldap_compare := x_ldap_compare X;
     x_ldap_add := x_ldap_add X;
     x_ldap_modify := x_ldap_modify X;
     x_krb5_parse_name := x_krb5_parse_name X;
     x_krb5_principal2salt := x_krb5_principal2salt X;
     x_krb5_c_string_to_key := x_krb5_c_string_to_key X;
     x_random_octet := x_random_octet X;
     x_krb5_set_password_using_ccache := x_krb5_set_password_using_ccache X;
     x_krb5_change_password := x_krb5_change_password X;
     x_krb5_kt_resolve := resolve;
     x_krb5_kt_default := default;
     x_keytab_io := x_keytab_io X;
     x_as_req := x_as_req X;
     x_strtoul := x_strtoul X;
     x_calc_reset_password := x_calc_reset_password X;
     x_ldap_have_mod := x_ldap_have_mod X;
     x_krb5_parse_enctypes := x_krb5_parse_enctypes X;
     x_krb5_format_enctypes := x_krb5_format_enctypes X;
     x_krb5_w2k3_salt := x_krb5_w2k3_salt X;
     x_kinit_computer_creds := x_kinit_computer_creds X |}.

(** A host whose keytab cannot be opened. *)
Definition no_keytab_realm : externals nat :=
  with_keytab_library (small_realm plain_setup)
    (fun _ w => (13, w)) (fun w => ((13, ""%string), w)).

(** A connection that has no Kerberos context:
    [adcli_conn_get_krb5_context] returns NULL. *)
Definition without_krb5_context {W} (X : externals W) : externals W :=
  {| x_conn_discover := x_conn_discover X;
     x_conn_connect := x_conn_connect X;
     x_conn_host_fqdn := x_conn_host_fqdn X;
     x_conn_domain_realm := x_conn_domain_realm X;
     x_conn_naming_context := x_conn_naming_context X;
     x_conn_login_type := x_conn_login_type X;
     x_conn_krb5_context := fun _ => false;
     x_conn_ldap_connection := x_conn_ldap_connection X;
     x_conn_login_ccache := x_conn_login_ccache X;
     x_ldap_search := x_ldap_search X;
     x_ldap_compare := x_ldap_compare X;
     x_ldap_add := x_ldap_add X;
     x_ldap_modify := x_ldap_modify X;
     x_krb5_parse_name := x_krb5_parse_name X;
     x_krb5_principal2salt := x_krb5_principal2salt X;
     x_krb5_c_string_to_key := x_krb5_c_string_to_key X;
     x_random_octet := x_random_octet X;
     x_krb5_set_password_using_ccache := x_krb5_set_password_using_ccache X;
     x_krb5_change_password := x_krb5_change_password X;
     x_krb5_kt_resolve := x_krb5_kt_resolve X;
     x_krb5_kt_default := x_krb5_kt_default X;
     x_keytab_io := x_keytab_io X;
     x_as_req := x_as_req X;
     x_strtoul := x_strtoul X;
     x_calc_reset_password := x_calc_reset_password X;
     x_ldap_have_mod := x_ldap_have_mod X;
     x_krb5_parse_enctypes := x_krb5_parse_enctypes X;
     x_krb5_format_enctypes := x_krb5_format_enctypes X;
     x_krb5_w2k3_salt := x_krb5_w2k3_salt X;
     x_kinit_computer_creds := x_kinit_computer_creds X |}.

(** The GUID prefix of the well-known computers container. *)
Definition computers_container_prefix : string :=
  "B:32:AA312825768811D1ADED00C04FD8D5CD:".

(** The values of [wellKnownObjects] in a search result. *)
Definition well_known_objects (results : LDAPMessage) : list string :=
  match _adcli_ldap_parse_values results "wellKnownObjects" with
  | Some vs => vs
  | None => []
  end.

(** The two searches of [lookup_computer_container], as logged. *)
Definition well_known_search (ou : string) (code : Z) (results : LDAPMessage)
  : event :=
  EvLdapSearch ou "(objectClass=*)" ["wellKnownObjects"] code results.

Definition computers_search (ou : string) (code : Z) (results : LDAPMessage)
  : event :=
  EvLdapSearch ou "(&(objectClass=container)(cn=Computers))" ["wellKnownObjects"]
    code results.

(** The two calls that give the account a password. *)
Definition is_password_op (ev : event) : bool :=
  of_kinds [KSetPassword; KChangePassword] ev.

Definition password_ops (evs : list event) : list event :=
  filter is_password_op evs.

(** The password a password operation carries, and the principal it names. *)
Definition password_sent (ev : event) : option string :=
  match ev with
  | EvSetPassword _ password _ _ => Some password
  | EvChangePassword password _ _ => password
  | _ => None
  end.

Definition password_target (ev : event) : option krb5_principal :=
  match ev with
  | EvSetPassword principal _ _ _ => Some principal
  | _ => None
  end.

(** The directory has confirmed that [ou] is an organizational unit. *)
Definition ou_confirmed (ou : string) (ev : event) : bool :=
  match ev with
  | EvLdapCompare dn attr value r =>
      String.eqb dn ou && String.eqb attr "objectClass"
      && String.eqb value "organizationalUnit" && (r =? LDAP_COMPARE_TRUE)
  | _ => false
  end.

(** What reads or changes the account, and what writes a keytab: the
    acting calls but the compare. *)
Definition account_kinds : list event_kind :=
  [KSearch; KAdd; KModify; KKinit; KSetPassword; KChangePassword;
   KKtClear; KDiscoverSalt; KAsReq; KKtAdd].

(** [adcli_enroll_set_keytab_name] runs to its end: the connection has a
    Kerberos context, or there is nothing that needs one to be released. *)
Definition can_rename_keytab {W} (X : externals W) (m : machine W) : Prop :=
  x_conn_krb5_context X (m_world m) = true
  \/ (keytab (m_enroll m) = None
      /\ (keytab_name (m_enroll m) = None
          \/ keytab_name_is_krb5 (m_enroll m) = false)).

(** * Proofs *)

Unset Implicit Arguments.

(** ** Rules for computations *)

Section Rules.

Context {W : Type}.

Implicit Types (P R : machine W -> Prop).

Lemma triple_ret A P (Q : A -> machine W -> Prop) R (a : A) :
  (forall m, P m -> Q a m) -> triple P (ret a) Q R.
Proof. intros H m Hm. simpl. auto. Qed.

Lemma triple_bind A B P (c : M W A) (k : A -> M W B) Q1 Q R :
  triple P c Q1 R ->
  (forall a, triple (Q1 a) (k a) Q R) ->
  triple P (bind c k) Q R.
Proof.
  intros Hc Hk m Hm. unfold bind.
  specialize (Hc m Hm). destruct (c m) as [a m' | m' | m']; auto.
  apply (Hk a m' Hc).
Qed.

Lemma triple_conseq A P P' (c : M W A) (Q Q' : A -> machine W -> Prop) R R' :
  triple P' c Q' R' ->
  (forall m, P m -> P' m) ->
  (forall a m, Q' a m -> Q a m) ->
  (forall m, R' m -> R m) ->
  triple P c Q R.
Proof.
  intros Hc HP HQ HR m Hm. specialize (Hc m (HP m Hm)).
  destruct (c m); auto.
Qed.

Lemma keeps_ret A P (a : A) : keeps P (ret a).
Proof. apply triple_ret. auto. Qed.

Lemma keeps_bind A B P (c : M W A) (k : A -> M W B) :
  keeps P c -> (forall a, keeps P (k a)) -> keeps P (bind c k).
Proof. intros Hc Hk. eapply triple_bind; [exact Hc | exact Hk]. Qed.

Lemma keeps_get_enroll P : keeps P get_enroll.
Proof. intros m Hm. exact Hm. Qed.

Lemma keeps_ask A P (f : W -> A) : keeps P (ask f).
Proof. intros m Hm. exact Hm. Qed.

Lemma keeps_abort A P : keeps P (@abort W A).
Proof. intros m Hm. exact Hm. Qed.

Lemma keeps_out_of_fuel A P : keeps P (@out_of_fuel W A).
Proof. intros m Hm. exact Hm. Qed.

Lemma keeps_assert P b : keeps P (c_assert b).
Proof. destruct b; [apply keeps_ret | apply keeps_abort]. Qed.

Lemma keeps_read_keytab P name : keeps P (read_keytab name).
Proof. intros m Hm. exact Hm. Qed.

Lemma keeps_update_enroll P f : stable_enroll P f -> keeps P (update_enroll f).
Proof. intros H m Hm. apply H, Hm. Qed.

Lemma keeps_call A P (f : W -> A * W) ev :
  (forall a, stable_event P (ev a)) -> keeps P (call f ev).
Proof.
  intros H m Hm. unfold call. destruct (f (m_world m)) as [a w].
  apply H, Hm.
Qed.

Lemma keeps_log P ev : stable_event P ev -> keeps P (log ev).
Proof.
  intros H m Hm. unfold log.
  specialize (H m (m_world m) Hm). exact H.
Qed.

Lemma keeps_write_keytab P name entries :
  stable_keytab P -> keeps P (write_keytab name entries).
Proof. intros H m Hm. apply H, Hm. Qed.

(** What a returned computation says about where it stopped. *)
Lemma keeps_done A P (c : M W A) m a m' :
  keeps P c -> P m -> c m = Done a m' -> P m'.
Proof. intros H Hm E. specialize (H m Hm). rewrite E in H. exact H. Qed.

Lemma keeps_final A P (c : M W A) m :
  keeps P c -> P m -> P (final (c m)).
Proof. intros H Hm. specialize (H m Hm). destruct (c m); exact H. Qed.

Lemma triple_done A P (c : M W A) Q R m a m' :
  triple P c Q R -> P m -> c m = Done a m' -> Q a m'.
Proof. intros H Hm E. specialize (H m Hm). rewrite E in H. exact H. Qed.

(** A returned [bind] went through its first half. *)
Lemma bind_done A B (c : M W A) (k : A -> M W B) m b m' :
  bind c k m = Done b m' ->
  exists a m1, c m = Done a m1 /\ k a m1 = Done b m'.
Proof.
  unfold bind. destruct (c m) as [a m1 | m1 | m1]; intros E; try discriminate.
  exists a, m1. auto.
Qed.

End Rules.

(** One step of a proof that a computation keeps an invariant: the shape
    of the computation picks the rule; what is left are the conditions on
    the assignments, the events and the keytab writes. *)
Ltac keeps_step :=
  match goal with
  | |- keeps _ (bind _ _) => apply keeps_bind; [ | intros ]
  | |- keeps _ (ret _) => apply keeps_ret
  | |- keeps _ get_enroll => apply keeps_get_enroll
  | |- keeps _ (ask _) => apply keeps_ask
  | |- keeps _ abort => apply keeps_abort
  | |- keeps _ out_of_fuel => apply keeps_out_of_fuel
  | |- keeps _ (c_assert _) => apply keeps_assert
  | |- keeps _ (read_keytab _) => apply keeps_read_keytab
  | |- keeps _ (update_enroll _) => apply keeps_update_enroll
  | |- keeps _ (call _ _) => apply keeps_call; intros
  | |- keeps _ (log _) => apply keeps_log
  | |- keeps _ (write_keytab _ _) => apply keeps_write_keytab
  | |- keeps _ (if ?b then _ else _) => destruct b
  | |- keeps _ (match ?x with _ => _ end) => destruct x
  end.

Ltac keeps_auto := repeat keeps_step.

(** ** C strings *)

Lemma strchr_get (s : string) (c : ascii) (i : nat) :
  strchr s c = Some i -> String.get i s = Some c.
Proof.
  revert i. induction s as [| a s IH]; intros i; simpl.
  - discriminate.
  - destruct (Ascii.eqb a c) eqn:E.
    + intros H. inversion H. apply Ascii.eqb_eq in E. subst. reflexivity.
    + destruct (strchr s c) as [n |]; intros H; inversion H. simpl. auto.
Qed.

Lemma strchr_lt (s : string) (c : ascii) (i : nat) :
  strchr s c = Some i -> (i < String.length s)%nat.
Proof.
  revert i. induction s as [| a s IH]; intros i; simpl.
  - discriminate.
  - destruct (Ascii.eqb a c).
    + intros H. inversion H. lia.
    + destruct (strchr s c) as [n |]; intros H; inversion H.
      specialize (IH n eq_refl). lia.
Qed.

Lemma strchr_app (label rest : string) (c : ascii) :
  strchr label c = None ->
  strchr (label ++ String c rest) c = Some (String.length label).
Proof.
  induction label as [| a label IH]; simpl.
  - intros _. rewrite Ascii.eqb_refl. reflexivity.
  - destruct (Ascii.eqb a c); [discriminate |].
    destruct (strchr label c); [discriminate |].
    intros _. rewrite IH by reflexivity. reflexivity.
Qed.

Lemma strndup_app (label rest : string) :
  strndup (label ++ rest) (String.length label) = label.
Proof.
  unfold strndup. induction label as [| a label IH]; simpl.
  - destruct rest; reflexivity.
  - rewrite IH. reflexivity.
Qed.

Lemma length_app_string (a b : string) :
  String.length (a ++ b) = (String.length a + String.length b)%nat.
Proof. induction a; simpl; auto. Qed.

(** ** Deriving the computer name *)

Lemma ensure_computer_name_no_fqdn W (m : machine W) :
  computer_name (m_enroll m) = None ->
  host_fqdn (m_enroll m) = None ->
  ensure_computer_name ADCLI_SUCCESS m = Done ADCLI_ERR_CONFIG m.
Proof.
  intros Hn Hf. unfold ensure_computer_name, bind, get_enroll, failed. cbv beta.
  rewrite Hn, Hf. reflexivity.
Qed.

Lemma ensure_computer_name_bad_fqdn W (m : machine W) fqdn :
  computer_name (m_enroll m) = None ->
  host_fqdn (m_enroll m) = Some fqdn ->
  no_interior_dot fqdn ->
  ensure_computer_name ADCLI_SUCCESS m = Done ADCLI_ERR_CONFIG m.
Proof.
  intros Hn Hf Hdot. unfold ensure_computer_name, bind, get_enroll, failed. cbv beta.
  rewrite Hn, Hf. destruct (strchr fqdn ".") as [dom |] eqn:E; [| reflexivity].
  destruct (Hdot dom (strchr_get _ _ _ E)) as [H0 | Hlast].
  - subst dom. reflexivity.
  - apply Nat.eqb_eq in Hlast. rewrite Hlast, orb_true_r. reflexivity.
Qed.

Lemma ensure_computer_name_label W (m : machine W) label rest :
  computer_name (m_enroll m) = None ->
  host_fqdn (m_enroll m) = Some (label ++ "." ++ rest) ->
  strchr label "." = None ->
  label <> "" -> rest <> "" ->
  ensure_computer_name ADCLI_SUCCESS m
  = Done ADCLI_SUCCESS (on_enroll (put_computer_name (Some (_adcli_str_up label))) m).
Proof.
  intros Hn Hf Hlabel Hl Hr. unfold ensure_computer_name, bind, get_enroll, failed. cbv beta.
  rewrite Hn, Hf. change ("." ++ rest) with (String "." rest).
  rewrite (@strchr_app label rest "."%char Hlabel).
  assert (Nat.eqb (String.length label) 0 = false) as ->.
  { apply Nat.eqb_neq. destruct label; [congruence | simpl; lia]. }
  assert (Nat.eqb (S (String.length label))
                  (String.length (label ++ String "." rest)) = false) as ->.
  { apply Nat.eqb_neq. rewrite length_app_string. simpl.
    destruct rest; [congruence | simpl; lia]. }
  simpl. rewrite strndup_app. reflexivity.
Qed.

(** The first dot cuts the name in two. *)
Lemma strchr_split (s : string) (c : ascii) (i : nat) :
  strchr s c = Some i ->
  exists label rest,
    s = (label ++ String c rest)%string
    /\ strchr label c = None /\ String.length label = i.
Proof.
  revert i. induction s as [| a s IH]; intros i; simpl; [discriminate |].
  destruct (Ascii.eqb a c) eqn:E.
  - intros H. inversion H. apply Ascii.eqb_eq in E. subst a.
    exists ""%string, s. auto.
  - destruct (strchr s c) as [n |]; intros H; inversion H.
    destruct (IH n eq_refl) as (label & rest & -> & Hl & Hn).
    exists (String a label), rest. simpl. rewrite E, Hl, Hn. auto.
Qed.

Lemma ensure_computer_name_no_dot W (m : machine W) fqdn :
  computer_name (m_enroll m) = None ->
  host_fqdn (m_enroll m) = Some fqdn ->
  strchr fqdn "." = None ->
  ensure_computer_name ADCLI_SUCCESS m = Done ADCLI_ERR_CONFIG m.
Proof.
  intros Hn Hf Hdot. unfold ensure_computer_name, bind, get_enroll, failed. cbv beta.
  rewrite Hn, Hf, Hdot. reflexivity.
Qed.

Lemma ensure_computer_name_dot_first W (m : machine W) rest :
  computer_name (m_enroll m) = None ->
  host_fqdn (m_enroll m) = Some ("." ++ rest)%string ->
  ensure_computer_name ADCLI_SUCCESS m = Done ADCLI_ERR_CONFIG m.
Proof.
  intros Hn Hf. unfold ensure_computer_name, bind, get_enroll, failed. cbv beta.
  rewrite Hn, Hf. reflexivity.
Qed.

Lemma ensure_computer_name_dot_last W (m : machine W) label :
  computer_name (m_enroll m) = None ->
  host_fqdn (m_enroll m) = Some (label ++ ".")%string ->
  strchr label "." = None ->
  ensure_computer_name ADCLI_SUCCESS m = Done ADCLI_ERR_CONFIG m.
Proof.
  intros Hn Hf Hlabel. unfold ensure_computer_name, bind, get_enroll, failed.
  cbv beta. rewrite Hn, Hf.
  rewrite (@strchr_app label "" "."%char Hlabel).
  assert (Nat.eqb (S (String.length label)) (String.length (label ++ "."))
          = true) as ->.
  { apply Nat.eqb_eq. rewrite length_app_string. simpl. lia. }
  rewrite orb_true_r. reflexivity.
Qed.

(** C6. When no computer name was supplied, [ensure_computer_name] fails
    with CONFIG if there is no host FQDN, and fails with CONFIG if the FQDN
    has no dot at all, if its first character is a dot, or if its first
    dot is its last character; in particular it fails if the FQDN has no
    interior dot.  Otherwise it sets the name to the label before the first
    dot, uppercased.  Every FQDN falls under one of these cases. *)
Theorem computer_name_derived_from_fqdn :
  forall W (m : machine W),
    computer_name (m_enroll m) = None ->
    let config := ensure_computer_name ADCLI_SUCCESS m = Done ADCLI_ERR_CONFIG m in
    (host_fqdn (m_enroll m) = None -> config)
    /\ (forall fqdn,
          host_fqdn (m_enroll m) = Some fqdn -> strchr fqdn "." = None -> config)
    /\ (forall rest,
          host_fqdn (m_enroll m) = Some ("." ++ rest)%string -> config)
    /\ (forall label,
          host_fqdn (m_enroll m) = Some (label ++ ".")%string ->
          strchr label "." = None -> config)
    /\ (forall fqdn,
          host_fqdn (m_enroll m) = Some fqdn -> no_interior_dot fqdn -> config)
    /\ (forall label rest,
          host_fqdn (m_enroll m) = Some (label ++ "." ++ rest)%string ->
          strchr label "." = None ->
          label <> ""%string -> rest <> ""%string ->
          ensure_computer_name ADCLI_SUCCESS m
          = Done ADCLI_SUCCESS
              (on_enroll (put_computer_name (Some (_adcli_str_up label))) m))
    /\ (forall fqdn,
          host_fqdn (m_enroll m) = Some fqdn ->
          strchr fqdn "." = None
          \/ (exists rest, fqdn = ("." ++ rest)%string)
          \/ (exists label, strchr label "." = None /\ fqdn = (label ++ ".")%string)
          \/ (exists label rest,
                 fqdn = (label ++ "." ++ rest)%string
                 /\ strchr label "." = None
                 /\ label <> ""%string /\ rest <> ""%string)).
Proof.
  intros W m Hn. cbv zeta. repeat split.
  - intros Hf. apply ensure_computer_name_no_fqdn; assumption.
  - intros fqdn Hf Hdot. apply ensure_computer_name_no_dot with fqdn; assumption.
  - intros rest Hf. apply ensure_computer_name_dot_first with rest; assumption.
  - intros label Hf Hl. apply ensure_computer_name_dot_last with label; assumption.
  - intros fqdn Hf Hdot. apply ensure_computer_name_bad_fqdn with fqdn; assumption.
  - intros label rest Hf Hlabel Hl Hr.
    apply ensure_computer_name_label with rest; assumption.
  - intros fqdn _. destruct (strchr fqdn ".") as [i |] eqn:E; [| auto].
    right. destruct (strchr_split _ _ _ E) as (label & rest & -> & Hl & _).
    destruct label as [| a label]; [left; exists rest; reflexivity |].
    right. destruct rest as [| b rest].
    + left. exists (String a label). auto.
    + right. exists (String a label), (String b rest).
      repeat split; try discriminate; assumption.
Qed.

Lemma computer_name_derived_from_fqdn_witness :
  ensure_computer_name ADCLI_SUCCESS
    (start (put_host_fqdn (Some "host01.corp.example.com") adcli_enroll_new))
  = Done ADCLI_SUCCESS
      (on_enroll (put_computer_name (Some "HOST01"))
         (start (put_host_fqdn (Some "host01.corp.example.com") adcli_enroll_new)))
  /\ ensure_computer_name ADCLI_SUCCESS
       (start (put_host_fqdn (Some ".corp.example.com") adcli_enroll_new))
     = Done ADCLI_ERR_CONFIG
         (start (put_host_fqdn (Some ".corp.example.com") adcli_enroll_new))
  /\ ensure_computer_name ADCLI_SUCCESS
       (start (put_host_fqdn (Some "host01.") adcli_enroll_new))
     = Done ADCLI_ERR_CONFIG
         (start (put_host_fqdn (Some "host01.") adcli_enroll_new)).
Proof.
  split; [| split].
  - apply (proj1 (proj2 (proj2 (proj2 (proj2 (proj2
             (computer_name_derived_from_fqdn nat
                (start (put_host_fqdn (Some "host01.corp.example.com")
                          adcli_enroll_new))
                eq_refl))))))
             "host01" "corp.example.com").
    + reflexivity.
    + reflexivity.
    + discriminate.
    + discriminate.
  - apply (proj1 (proj2 (proj2
             (computer_name_derived_from_fqdn nat
                (start (put_host_fqdn (Some ".corp.example.com") adcli_enroll_new))
                eq_refl)))
             "corp.example.com").
    reflexivity.
  - apply (proj1 (proj2 (proj2 (proj2
             (computer_name_derived_from_fqdn nat
                (start (put_host_fqdn (Some "host01.") adcli_enroll_new))
                eq_refl))))
             "host01").
    + reflexivity.
    + reflexivity.
Defined.

(** A leading dot is refused although dots stand inside the name. *)
Example leading_dot_is_refused :
  result_of (ensure_computer_name ADCLI_SUCCESS
               (start (put_host_fqdn (Some ".corp.example.com") adcli_enroll_new)))
  = Some ADCLI_ERR_CONFIG.
Proof. reflexivity. Qed.

(** Scenario S2: the host name [host01] has no dot. *)
Example bad_fqdn_host01 :
  result_of (ensure_computer_name ADCLI_SUCCESS
               (start (put_host_fqdn (Some "host01") adcli_enroll_new)))
  = Some ADCLI_ERR_CONFIG.
Proof. reflexivity. Qed.

(** A name ending in a dot with a dot inside still gives a label: only the
    first dot is looked at. *)
Example fqdn_trailing_dot :
  computer_name
    (m_enroll (final (ensure_computer_name ADCLI_SUCCESS
                        (start (put_host_fqdn (Some "a.b.") adcli_enroll_new)))))
  = Some "A".
Proof. reflexivity. Qed.

(** ** The password filter *)

Lemma store_length (j : nat) (c : ascii) (buf : list ascii) :
  List.length (store j c buf) = List.length buf.
Proof.
  revert j. induction buf as [| a buf IH]; intros [| j]; simpl; auto.
Qed.


Lemma store_firstn_S (j : nat) (c : ascii) (buf : list ascii) :
  (j < List.length buf)%nat ->
  firstn (S j) (store j c buf) = (firstn j buf ++ [c])%list.
Proof.
  revert j. induction buf as [| a buf IH]; intros [| j] H; simpl in *; try lia.
  - reflexivity.
  - rewrite <- IH by lia. reflexivity.
Qed.

Lemma store_skipn (j k : nat) (c : ascii) (buf : list ascii) :
  (j < k)%nat -> skipn k (store j c buf) = skipn k buf.
Proof.
  revert j k. induction buf as [| a buf IH]; intros [| j] [| k] H; simpl;
    try lia; auto.
  apply IH. lia.
Qed.


Lemma firstn_skipn_S (i n : nat) (buf : list ascii) :
  (i < List.length buf)%nat ->
  firstn (S n) (skipn i buf) = nth i buf zero :: firstn n (skipn (S i) buf).
Proof.
  revert i. induction buf as [| a buf IH]; intros [| i] H; simpl in *; try lia.
  - reflexivity.
  - apply IH. lia.
Qed.

(** The loop copies the accepted characters of [buf[i .. i+n)] to
    [buf[j ..]], in order. *)
Lemma filter_password_loop_spec (n : nat) :
  forall i j buf,
    (j <= i)%nat -> (i + n <= List.length buf)%nat ->
    let r := filter_password_loop n i j buf in
    List.length (fst r) = List.length buf
    /\ firstn (snd r) (fst r)
       = (firstn j buf ++ filter password_char_ok (firstn n (skipn i buf)))%list
    /\ snd r
       = (j + List.length (filter password_char_ok (firstn n (skipn i buf))))%nat.
Proof.
  induction n as [| n IH]; intros i j buf Hji Hlen; cbv zeta.
  - simpl. rewrite app_nil_r, Nat.add_0_r. auto.
  - rewrite firstn_skipn_S by lia. cbn [filter_password_loop filter].
    destruct (password_char_ok (nth i buf zero)) eqn:E.
    + destruct (IH (S i) (S j) (store j (nth i buf zero) buf)) as (H1 & H2 & H3).
      * lia.
      * rewrite store_length. lia.
      * rewrite store_length in H1.
        rewrite store_skipn in H2, H3 by lia.
        rewrite store_firstn_S in H2 by lia.
        rewrite <- app_assoc in H2. simpl in *.
        repeat split; [exact H1 | exact H2 | lia].
    + apply IH; lia.
Qed.

Lemma filter_password_chars_spec (data : list ascii) :
  let r := filter_password_chars data (List.length data) in
  List.length (fst r) = List.length data
  /\ firstn (snd r) (fst r) = filter password_char_ok data
  /\ snd r = List.length (filter password_char_ok data).
Proof.
  unfold filter_password_chars.
  destruct (filter_password_loop_spec (List.length data) 0%nat 0%nat data) as (H1 & H2 & H3);
    try lia.
  simpl in *. rewrite firstn_all in H2, H3. auto.
Qed.

(** Scenario S6: of the raw octets 0x1F, 'A', 0x7F, 'B' only 'A' and 'B'
    are retained. *)
Example filter_password_chars_s6 :
  let raw := [ascii_of_nat 31; "A"%char; ascii_of_nat 127; "B"%char] in
  let r := filter_password_chars raw 4 in
  firstn (snd r) (fst r) = ["A"%char; "B"%char] /\ snd r = 2%nat.
Proof. split; reflexivity. Qed.





(** ** Generating the password *)

Section Password.

Context {W : Type} (X : externals W).

Lemma random_octets_length (n : nat) :
  forall w l w', random_octets X n w = (Some l, w') -> List.length l = n.
Proof.
  induction n as [| n IH]; intros w l w'; simpl.
  - intros H. inversion H. reflexivity.
  - destruct (x_random_octet X w) as [[c |] w1]; [| discriminate].
    destruct (random_octets X n w1) as [[l1 |] w2] eqn:E; [| discriminate].
    intros H. inversion H. simpl. f_equal. eapply IH, E.
Qed.








End Password.





(** ** Resetting the state *)

Lemma enroll_clear_state_runs W (X : externals W) (m : machine W) :
  enroll_clear_state X m
  = Done tt (on_enroll (enroll_clear_state_fields (x_conn_krb5_context X (m_world m))) m).
Proof. reflexivity. Qed.

Lemma enroll_clear_state_fields_k5 (e : adcli_enroll) :
  let e' := enroll_clear_state_fields true e in
  computer_sam e' = None
  /\ computer_dn e' = None
  /\ kvno e' = 0
  /\ keytab_principals e' = None
  /\ keytab e' = None
  /\ computer_principal e' = None
  /\ computer_attributes e' = None
  /\ computer_password e'
     = (if computer_password_explicit e then computer_password e else None)
  /\ service_principals e'
     = (if service_principals_explicit e then service_principals e else None)
  /\ computer_password_explicit e' = computer_password_explicit e
  /\ service_principals_explicit e' = service_principals_explicit e.
Proof.
  unfold enroll_clear_state_fields. cbn [negb].
  rewrite !andb_false_r. cbn.
  destruct (computer_password_explicit e) eqn:E1;
    destruct (service_principals_explicit e) eqn:E2;
    cbn; rewrite ?E1, ?E2; cbn; rewrite ?E1, ?E2; repeat split; reflexivity.
Qed.

Lemma ensure_computer_password_kept W (X : externals W) (fuel : nat)
    (m : machine W) pw :
  computer_password (m_enroll m) = Some pw ->
  ensure_computer_password X fuel ADCLI_SUCCESS m = Done ADCLI_SUCCESS m.
Proof.
  intros H. unfold ensure_computer_password, bind, get_enroll. cbn [failed].
  rewrite H. reflexivity.
Qed.

(** The reset run to its end: what it clears and what it keeps. *)
Lemma enroll_clear_state_fields_cleared (k5 : bool) (e : adcli_enroll) :
  k5 = true
  \/ (keytab_principals e = None /\ keytab e = None /\ computer_principal e = None) ->
  let e' := enroll_clear_state_fields k5 e in
  computer_sam e' = None
  /\ computer_dn e' = None
  /\ kvno e' = 0
  /\ keytab_principals e' = None
  /\ computer_password e'
     = (if computer_password_explicit e then computer_password e else None)
  /\ service_principals e'
     = (if service_principals_explicit e then service_principals e else None).
Proof.
  intros [-> | (H1 & H2 & H3)].
  - destruct (enroll_clear_state_fields_k5 e)
      as (A1 & A2 & A3 & A4 & _ & _ & _ & A5 & A6 & _).
    cbv zeta. auto 10.
  - cbv zeta. unfold enroll_clear_state_fields.
    rewrite H1. cbn [isSome andb put_keytab_principals keytab].
    rewrite H2. cbn [isSome andb computer_principal put_keytab put_computer_sam
                       put_keytab_principals].
    rewrite H3. cbn [isSome andb].
    destruct (computer_password_explicit e) eqn:E1;
      destruct (service_principals_explicit e) eqn:E2;
      cbn; rewrite ?E1, ?E2; cbn; rewrite ?E1, ?E2; repeat split; reflexivity.
Qed.

(** C10. The reset at the start of a join, whenever it runs to its end
    (the connection has a Kerberos context, or there is no keytab
    principal, keytab or computer principal to release, as at a first
    join), always clears [computer_sam], [computer_dn], the cached [kvno]
    and the keytab principals; it keeps [computer_password] exactly when it
    was set explicitly and [service_principals] exactly when they were set
    explicitly, so that values installed by the two setters survive the
    reset, and a surviving password is the one the later password stage
    leaves in place. *)
Theorem clear_state_keeps_explicit_values :
  forall W (X : externals W) (m : machine W),
    can_clear X m ->
    let cleared_ := fun m0 : machine W => m_enroll (final (enroll_clear_state X m0)) in
    (computer_sam (cleared_ m) = None
     /\ computer_dn (cleared_ m) = None
     /\ kvno (cleared_ m) = 0
     /\ keytab_principals (cleared_ m) = None)
    /\ computer_password (cleared_ m)
       = (if computer_password_explicit (m_enroll m)
          then computer_password (m_enroll m) else None)
    /\ service_principals (cleared_ m)
       = (if service_principals_explicit (m_enroll m)
          then service_principals (m_enroll m) else None)
    /\ (forall pw,
          computer_password
            (cleared_ (on_enroll (adcli_enroll_set_computer_password (Some pw)) m))
          = Some pw)
    /\ (forall principals,
          service_principals
            (cleared_ (on_enroll (adcli_enroll_set_service_principals (Some principals)) m))
          = Some principals)
    /\ (forall fuel pw,
          computer_password (cleared_ m) = Some pw ->
          ensure_computer_password X fuel ADCLI_SUCCESS (final (enroll_clear_state X m))
          = Done ADCLI_SUCCESS (final (enroll_clear_state X m))).
Proof.
  intros W X m Hk cleared_. subst cleared_. cbv beta.
  rewrite !enroll_clear_state_runs. cbn [final on_enroll m_enroll m_world].
  destruct (enroll_clear_state_fields_cleared
              (x_conn_krb5_context X (m_world m)) (m_enroll m) Hk)
    as (H1 & H2 & H3 & H4 & H5 & H6).
  split; [auto |].
  split; [exact H5 |].
  split; [exact H6 |].
  split.
  { intros pw. rewrite enroll_clear_state_runs.
    cbn [final on_enroll m_enroll m_world].
    destruct (enroll_clear_state_fields_cleared
                (x_conn_krb5_context X (m_world m))
                (adcli_enroll_set_computer_password (Some pw) (m_enroll m)) Hk)
      as (_ & _ & _ & _ & H & _).
    rewrite H. reflexivity. }
  split.
  { intros principals. rewrite enroll_clear_state_runs.
    cbn [final on_enroll m_enroll m_world].
    destruct (enroll_clear_state_fields_cleared
                (x_conn_krb5_context X (m_world m))
                (adcli_enroll_set_service_principals (Some principals) (m_enroll m))
                Hk)
      as (_ & _ & _ & _ & _ & H).
    rewrite H. reflexivity. }
  intros fuel pw Hpw.
  apply ensure_computer_password_kept with pw. exact Hpw.
Qed.

Lemma clear_state_keeps_explicit_values_witness :
  computer_password
    (m_enroll
       (final (enroll_clear_state (small_realm plain_setup)
                 (on_enroll (adcli_enroll_set_computer_password (Some "s3cret"))
                    (start adcli_enroll_new)))))
  = Some "s3cret"
  /\ let X := without_krb5_context (small_realm plain_setup) in
     let m := start (adcli_enroll_set_kvno 7
                       (adcli_enroll_set_computer_dn (Some "CN=OLD,DC=example,DC=com")
                          (put_computer_sam (Some "OLD$")
                             (adcli_enroll_set_computer_password (Some "s3cret")
                                adcli_enroll_new)))) in
     let e' := m_enroll (final (enroll_clear_state X m)) in
     (computer_sam e' = None /\ computer_dn e' = None /\ kvno e' = 0
      /\ keytab_principals e' = None)
     /\ computer_password e' = Some "s3cret"%string.
Proof.
  split.
  - apply (proj1 (proj2 (proj2 (proj2
             (clear_state_keeps_explicit_values nat (small_realm plain_setup)
                (start adcli_enroll_new) (or_introl eq_refl)))))
             "s3cret").
  - cbv zeta.
    pose proof (clear_state_keeps_explicit_values nat
                  (without_krb5_context (small_realm plain_setup))
                  (start (adcli_enroll_set_kvno 7
                            (adcli_enroll_set_computer_dn
                               (Some "CN=OLD,DC=example,DC=com")
                               (put_computer_sam (Some "OLD$")
                                  (adcli_enroll_set_computer_password (Some "s3cret")
                                     adcli_enroll_new)))))
                  (or_intror (conj eq_refl (conj eq_refl eq_refl)))) as H.
    cbv zeta in H. destruct H as (H1 & H2 & _).
    split; [exact H1 | exact H2].
Defined.

(** Without a Kerberos context and with keytab principals to release, the
    reset leaves the function at its first guard: nothing is cleared. *)
Example reset_stops_at_its_guard :
  let X := without_krb5_context (small_realm plain_setup) in
  let e := put_keytab_principals (Some host01_principals)
             (adcli_enroll_set_computer_dn (Some "CN=OLD,DC=example,DC=com")
                adcli_enroll_new) in
  m_enroll (final (enroll_clear_state X (start e))) = e.
Proof. reflexivity. Qed.

(** A generated password does not survive the reset. *)
Example generated_password_is_cleared :
  let m1 := final (adcli_enroll_prepare (small_realm plain_setup) 320 join_flags
                     (start adcli_enroll_new)) in
  isSome (computer_password (m_enroll m1)) = true
  /\ computer_password (m_enroll (final (enroll_clear_state (small_realm plain_setup) m1)))
     = None
  /\ service_principals (m_enroll (final (enroll_clear_state (small_realm plain_setup) m1)))
     = None.
Proof. vm_compute. repeat split; reflexivity. Qed.

(** ** The account reconciler *)

Lemma necessary_updates_filter W (X : externals W) entry mods :
  necessary_updates X entry mods
  = filter (fun md => negb (mod_already_matches X entry md)) mods.
Proof.
  induction mods as [| md mods IH]; simpl.
  - reflexivity.
  - destruct (mod_already_matches X entry md); simpl; rewrite IH; reflexivity.
Qed.

Lemma mark_replace_bit (md : LDAPMod) :
  Z.land (mod_op (mark_replace md)) LDAP_MOD_REPLACE = LDAP_MOD_REPLACE.
Proof.
  unfold mark_replace. cbn [mod_op]. apply Z.bits_inj. intros n.
  rewrite Z.land_spec, Z.lor_spec.
  destruct (Z.testbit (mod_op md) n), (Z.testbit LDAP_MOD_REPLACE n); reflexivity.
Qed.

Lemma create_computer_account_runs W (X : externals W) dn mods (m : machine W) :
  create_computer_account X dn mods m
  = let (r, w) := x_ldap_add X dn (_adcli_ldap_prune_empty_mods mods) (m_world m) in
    Done (add_result r)
      (after_call m w (EvLdapAdd dn (_adcli_ldap_prune_empty_mods mods) r)).
Proof.
  unfold create_computer_account, bind, ldap_add_ext_s, call, add_result.
  destruct (x_ldap_add X dn (_adcli_ldap_prune_empty_mods mods) (m_world m)) as [r w].
  unfold _adcli_ldap_handle_failure.
  destruct ((r =? LDAP_INSUFFICIENT_ACCESS) || (r =? LDAP_OBJECT_CLASS_VIOLATION));
    [reflexivity |].
  destruct (r =? LDAP_SUCCESS); reflexivity.
Qed.

Lemma modify_computer_account_runs W (X : externals W) dn mods (m : machine W) :
  modify_computer_account X dn mods m
  = let (r, w) := x_ldap_modify X dn (map mark_replace mods) (m_world m) in
    Done (modify_result r)
      (after_call m w (EvLdapModify dn (map mark_replace mods) r)).
Proof.
  unfold modify_computer_account, bind, ldap_modify_ext_s, call, modify_result.
  destruct (x_ldap_modify X dn (map mark_replace mods) (m_world m)) as [r w].
  unfold _adcli_ldap_handle_failure.
  destruct (r =? LDAP_INSUFFICIENT_ACCESS); [reflexivity |].
  destruct (r =? LDAP_SUCCESS); reflexivity.
Qed.

(** The test of [filter_for_necessary_updates] is the one the
    specification words. *)
Lemma mod_already_matches_value W (X : externals W) results md :
  mod_already_matches X (ldap_first_entry results) md = true
  <-> value_already_matches X results md.
Proof.
  unfold mod_already_matches, value_already_matches. split.
  - destruct (ldap_first_entry results) as [entry |]; [| discriminate].
    destruct (ldap_get_values_len entry (mod_type md)) as [vals |] eqn:Ev;
      [| discriminate].
    intros H. exists entry, vals. auto.
  - intros (entry & vals & -> & -> & H). exact H.
Qed.

Lemma necessary_updates_left W (X : externals W) results mods :
  mods_left (value_already_matches X results) mods
    (necessary_updates X (ldap_first_entry results) mods).
Proof.
  induction mods as [| md mods IH]; cbn [necessary_updates].
  - constructor.
  - destruct (mod_already_matches X (ldap_first_entry results) md) eqn:E.
    + apply mods_left_drop; [apply mod_already_matches_value, E | exact IH].
    + apply mods_left_keep; [| exact IH].
      intros H. apply mod_already_matches_value in H. congruence.
Qed.

Lemma mods_left_unique (P : LDAPMod -> Prop) mods :
  forall kept1 kept2,
    mods_left P mods kept1 -> mods_left P mods kept2 -> kept1 = kept2.
Proof.
  induction mods as [| md mods IH]; intros kept1 kept2 H1 H2;
    inversion H1; subst; inversion H2; subst;
    try reflexivity; try contradiction.
  - apply IH; assumption.
  - f_equal. apply IH; assumption.
Qed.

Lemma mods_left_none (P : LDAPMod -> Prop) mods :
  Forall P mods -> mods_left P mods [].
Proof.
  induction 1 as [| md mods Hmd Hall IH]; constructor; assumption.
Qed.

(** C3. The decision table of [create_or_update_computer_account] on the
    code of the base-scope read of [computer_dn]: NO_SUCH_OBJECT
    leads to the add of the pruned mods; success without [allow_overwrite]
    is CONFIG and nothing follows the read; success with [allow_overwrite]
    drops the mods whose existing value in the entry read already matches
    (as [_adcli_ldap_have_mod] judges the values of the attribute),
    returns SUCCESS with nothing after the read when none is left, in
    particular when every mod matches, and otherwise issues one modify of
    the mods left, in order, each marked REPLACE; any other code is
    DIRECTORY. *)
Theorem create_or_update_decision_table :
  forall W (X : externals W) (allow_overwrite : bool) (m : machine W)
         (dn : string) (code : Z) (results : LDAPMessage) (w1 : W),
    computer_dn (m_enroll m) = Some dn ->
    x_conn_ldap_connection X (m_world m) = true ->
    x_ldap_search X dn "(objectClass=*)" account_attrs (m_world m)
    = ((code, results), w1) ->
    let m1 := after_call m w1
                (EvLdapSearch dn "(objectClass=*)" account_attrs code results) in
    let mods := computer_account_mods (m_enroll m) in
    let run := create_or_update_computer_account X allow_overwrite m in
    (code = LDAP_NO_SUCH_OBJECT ->
     run
     = let (r, w2) := x_ldap_add X dn (_adcli_ldap_prune_empty_mods mods) w1 in
       Done (add_result r)
         (after_call m1 w2 (EvLdapAdd dn (_adcli_ldap_prune_empty_mods mods) r)))
    /\ (code = LDAP_SUCCESS -> allow_overwrite = false ->
        run = Done ADCLI_ERR_CONFIG m1)
    /\ (exists kept, mods_left (value_already_matches X results) mods kept)
    /\ (code = LDAP_SUCCESS -> allow_overwrite = true ->
        forall kept,
          mods_left (value_already_matches X results) mods kept ->
          (kept = [] -> run = Done ADCLI_SUCCESS m1)
          /\ (kept <> [] ->
              run
              = let (r, w2) := x_ldap_modify X dn (map mark_replace kept) w1 in
                Done (modify_result r)
                  (after_call m1 w2 (EvLdapModify dn (map mark_replace kept) r))))
    /\ (code = LDAP_SUCCESS -> allow_overwrite = true ->
        Forall (value_already_matches X results) mods ->
        run = Done ADCLI_SUCCESS m1)
    /\ (code <> LDAP_NO_SUCH_OBJECT -> code <> LDAP_SUCCESS ->
        run = Done ADCLI_ERR_DIRECTORY m1)
    /\ (forall kept,
          Forall (fun md => Z.land (mod_op md) LDAP_MOD_REPLACE = LDAP_MOD_REPLACE)
            (map mark_replace kept)).
Proof.
  intros W X allow m dn code results w1 Hdn Hldap Hs m1 mods run.
  set (left_ := necessary_updates X (ldap_first_entry results) mods).
  assert (run
          = (if code =? LDAP_NO_SUCH_OBJECT then create_computer_account X dn mods
             else if code =? 0 then
               if negb allow then ret ADCLI_ERR_CONFIG
               else match left_ with
                    | _ :: _ => modify_computer_account X dn left_
                    | [] => ret ADCLI_SUCCESS
                    end
             else ret ADCLI_ERR_DIRECTORY) m1) as Hrun.
  { subst run. unfold create_or_update_computer_account, bind, get_enroll.
    rewrite Hdn. unfold ask. rewrite Hldap. cbn [c_assert ret].
    unfold ldap_search_ext_s, call. fold account_attrs. rewrite Hs.
    cbn [fst snd]. fold m1. fold mods.
    unfold filter_for_necessary_updates. fold left_. reflexivity. }
  pose proof (necessary_updates_left W X results mods) as Hleft. fold left_ in Hleft.
  assert (forall kept,
             mods_left (value_already_matches X results) mods kept ->
             (kept = [] -> run = Done ADCLI_SUCCESS m1)
             /\ (kept <> [] ->
                 run
                 = (if code =? LDAP_NO_SUCH_OBJECT
                    then create_computer_account X dn mods
                    else if code =? 0 then
                      if negb allow then ret ADCLI_ERR_CONFIG
                      else modify_computer_account X dn kept
                    else ret ADCLI_ERR_DIRECTORY) m1)
             \/ code <> LDAP_SUCCESS \/ allow = false) as Hrows.
  { intros kept Hk.
    destruct (Z.eq_dec code LDAP_SUCCESS) as [-> |]; [| auto].
    destruct allow; [| auto]. left.
    rewrite (mods_left_unique _ _ _ _ Hk Hleft). rewrite Hrun.
    cbn [Z.eqb LDAP_NO_SUCH_OBJECT LDAP_SUCCESS negb].
    split; [intros ->; reflexivity |].
    intros Hne. destruct left_; [congruence | reflexivity]. }
  split; [| split; [| split; [| split; [| split; [| split]]]]].
  - intros ->. rewrite Hrun. cbn [Z.eqb LDAP_NO_SUCH_OBJECT Pos.eqb].
    rewrite create_computer_account_runs. reflexivity.
  - intros -> ->. rewrite Hrun. reflexivity.
  - exists left_. exact Hleft.
  - intros -> -> kept Hk.
    destruct (Hrows kept Hk) as [(H1 & H2) | [H | H]]; try congruence.
    split; [exact H1 |]. intros Hne. rewrite (H2 Hne).
    cbn [Z.eqb LDAP_NO_SUCH_OBJECT LDAP_SUCCESS negb].
    rewrite modify_computer_account_runs. reflexivity.
  - intros -> -> Hall.
    destruct (Hrows [] (mods_left_none _ _ Hall)) as [(H1 & _) | [H | H]];
      try congruence.
    apply H1. reflexivity.
  - intros H1 H2. rewrite Hrun.
    apply Z.eqb_neq in H1. apply Z.eqb_neq in H2. unfold LDAP_SUCCESS in H2.
    rewrite H1, H2. reflexivity.
  - intros kept. apply Forall_forall. intros md Hin. apply in_map_iff in Hin.
    destruct Hin as (md0 & <- & _). apply mark_replace_bit.
Qed.

Lemma create_or_update_decision_table_witness :
  let X := small_realm existing_account_setup in
  let dn := "CN=HOST01,CN=Computers,DC=corp,DC=example,DC=com"%string in
  let results := snd (fst (realm_search existing_account_setup dn "(objectClass=*)"
                             account_attrs O)) in
  let found := EvLdapSearch dn "(objectClass=*)" account_attrs LDAP_SUCCESS results in
  (* the account exists and overwriting is not allowed *)
  create_or_update_computer_account X false (start (located "HOST01$"))
  = Done ADCLI_ERR_CONFIG (after_call (start (located "HOST01$")) O found)
  (* the account exists as wanted: nothing follows the read *)
  /\ create_or_update_computer_account X true (start (located "HOST01$"))
     = Done ADCLI_SUCCESS (after_call (start (located "HOST01$")) O found)
  (* the account exists under another SAM name: that attribute is replaced *)
  /\ create_or_update_computer_account X true (start (located "WEB01$"))
     = Done ADCLI_SUCCESS
         (after_call (after_call (start (located "WEB01$")) O found) O
            (EvLdapModify dn
               [ {| mod_op := LDAP_MOD_REPLACE; mod_type := "sAMAccountName";
                    mod_values := ["WEB01$"] |} ] LDAP_SUCCESS)).
Proof.
  cbv zeta. split; [| split].
  - apply (proj1 (proj2
             (create_or_update_decision_table nat (small_realm existing_account_setup)
                false (start (located "HOST01$"))
                "CN=HOST01,CN=Computers,DC=corp,DC=example,DC=com" LDAP_SUCCESS
                (snd (fst (realm_search existing_account_setup
                             "CN=HOST01,CN=Computers,DC=corp,DC=example,DC=com"
                             "(objectClass=*)" account_attrs O)))
                O eq_refl eq_refl eq_refl))).
    + reflexivity.
    + reflexivity.
  - apply (proj1 (proj2 (proj2 (proj2 (proj2
             (create_or_update_decision_table nat (small_realm existing_account_setup)
                true (start (located "HOST01$"))
                "CN=HOST01,CN=Computers,DC=corp,DC=example,DC=com" LDAP_SUCCESS
                (snd (fst (realm_search existing_account_setup
                             "CN=HOST01,CN=Computers,DC=corp,DC=example,DC=com"
                             "(objectClass=*)" account_attrs O)))
                O eq_refl eq_refl eq_refl)))))).
    + reflexivity.
    + reflexivity.
    + repeat constructor; eexists _, _; repeat split; reflexivity.
  - refine (proj2 (proj1 (proj2 (proj2 (proj2
              (create_or_update_decision_table nat
                 (small_realm existing_account_setup)
                 true (start (located "WEB01$"))
                 "CN=HOST01,CN=Computers,DC=corp,DC=example,DC=com" LDAP_SUCCESS
                 (snd (fst (realm_search existing_account_setup
                              "CN=HOST01,CN=Computers,DC=corp,DC=example,DC=com"
                              "(objectClass=*)" account_attrs O)))
                 O eq_refl eq_refl eq_refl))))
              eq_refl eq_refl
              [ {| mod_op := 0; mod_type := "sAMAccountName";
                   mod_values := ["WEB01$"] |} ] _) _).
    + apply mods_left_drop;
        [eexists _, _; repeat split; reflexivity |].
      apply mods_left_keep.
      { intros (entry & vals & He & Hv & Hm).
        inversion He. subst entry. inversion Hv. subst vals. discriminate Hm. }
      apply mods_left_drop;
        [eexists _, _; repeat split; reflexivity |].
      constructor.
    + discriminate.
Defined.

(** The account exists with the attributes wanted: with [allow_overwrite]
    the read is the only LDAP call. *)
Example no_divergence_no_modify :
  let o := create_or_update_computer_account (small_realm existing_account_setup)
             true (start (located "HOST01$")) in
  result_of o = Some ADCLI_SUCCESS /\ List.length (m_trace (final o)) = 1%nat.
Proof. split; reflexivity. Qed.

(** The account exists under another SAM name: only that attribute is
    written, as a REPLACE. *)
Example divergent_sam_is_replaced :
  let o := create_or_update_computer_account (small_realm existing_account_setup)
             true (start (located "WEB01$")) in
  result_of o = Some ADCLI_SUCCESS
  /\ nth 1 (m_trace (final o)) (EvKinit 0)
     = EvLdapModify "CN=HOST01,CN=Computers,DC=corp,DC=example,DC=com"
         [ {| mod_op := LDAP_MOD_REPLACE; mod_type := "sAMAccountName";
              mod_values := ["WEB01$"] |} ] LDAP_SUCCESS.
Proof. split; reflexivity. Qed.

(** ** What each stage may change

    One lemma per function: an invariant that survives the assignments and
    the library calls the function makes holds wherever the function
    stops. *)

Ltac frame_side :=
  match goal with
  | H : assigns ?P ?put |- stable_enroll ?P (?put _) => apply H
  | H : logs_quiet ?P |- stable_event ?P _ => apply H; reflexivity
  | H : logs_all ?P |- stable_event ?P _ => apply H
  | H : stable_keytab ?P |- stable_keytab ?P => exact H
  end.

Create HintDb frames.

Ltac frame :=
  repeat (cbv beta; first [ keeps_step | frame_side | solve [auto 2 with frames] ]).

Lemma adcli_conn_discover_keeps W (X : externals W) P :
  logs_quiet P -> keeps P (adcli_conn_discover X).
Proof. intros. unfold adcli_conn_discover. frame. Qed.

Lemma adcli_conn_connect_keeps W (X : externals W) P :
  logs_quiet P -> keeps P (adcli_conn_connect X).
Proof. intros. unfold adcli_conn_connect. frame. Qed.

Lemma ensure_host_fqdn_keeps W (X : externals W) P res :
  assigns P put_host_fqdn -> keeps P (ensure_host_fqdn X res).
Proof. intros. unfold ensure_host_fqdn. frame. Qed.

Lemma ensure_computer_name_keeps W (P : machine W -> Prop) res :
  assigns P put_computer_name -> keeps P (ensure_computer_name res).
Proof. intros. unfold ensure_computer_name. frame. Qed.

Lemma ensure_computer_sam_keeps W (X : externals W) P res :
  assigns P put_computer_sam -> assigns P put_computer_principal ->
  keeps P (ensure_computer_sam X res).
Proof. intros. unfold ensure_computer_sam. frame. Qed.

Lemma generate_host_password_loop_keeps W (X : externals W) P fuel :
  logs_quiet P ->
  forall length at_ password,
    keeps P (generate_host_password_loop X fuel length at_ password).
Proof.
  intros Hq. induction fuel as [| fuel IH]; intros length at_ password;
    cbn [generate_host_password_loop].
  - frame.
  - unfold krb5_c_random_make_octets. frame.
Qed.

Lemma generate_host_password_keeps W (X : externals W) P fuel length :
  logs_quiet P -> keeps P (generate_host_password X fuel length).
Proof.
  intros. unfold generate_host_password. frame.
  apply generate_host_password_loop_keeps; assumption.
Qed.

#[local] Hint Resolve adcli_conn_discover_keeps adcli_conn_connect_keeps
  ensure_host_fqdn_keeps ensure_computer_name_keeps ensure_computer_sam_keeps
  generate_host_password_keeps : frames.

Lemma ensure_computer_password_keeps W (X : externals W) P fuel res :
  logs_quiet P -> assigns P put_computer_password ->
  keeps P (ensure_computer_password X fuel res).
Proof. intros. unfold ensure_computer_password. frame. Qed.

Lemma ensure_host_keytab_keeps W (X : externals W) P res :
  logs_quiet P -> assigns P put_keytab -> assigns P put_keytab_name ->
  assigns P put_keytab_name_is_krb5 ->
  keeps P (ensure_host_keytab X res).
Proof. intros. unfold ensure_host_keytab. frame. Qed.

Lemma ensure_service_names_keeps W (P : machine W -> Prop) res :
  assigns P put_service_names -> keeps P (ensure_service_names res).
Proof. intros. unfold ensure_service_names. frame. Qed.

Lemma ensure_service_principals_keeps W (X : externals W) P res :
  assigns P put_service_principals -> assigns P put_keytab_principals ->
  keeps P (ensure_service_principals X res).
Proof. intros. unfold ensure_service_principals. frame. Qed.

#[local] Hint Resolve ensure_computer_password_keeps ensure_host_keytab_keeps
  ensure_service_names_keeps ensure_service_principals_keeps : frames.

(** The stages of [adcli_enroll_prepare] that follow [ensure_computer_sam]. *)
Lemma validate_preferred_ou_keeps W (X : externals W) P :
  logs_quiet P -> assigns P put_preferred_ou_validated ->
  keeps P (validate_preferred_ou X).
Proof. intros. unfold validate_preferred_ou, ldap_compare_ext_s. frame. Qed.

Lemma lookup_preferred_ou_keeps W (X : externals W) P :
  logs_quiet P -> assigns P put_preferred_ou ->
  keeps P (lookup_preferred_ou X).
Proof. intros. unfold lookup_preferred_ou, ldap_search_ext_s. frame. Qed.

Lemma lookup_computer_container_keeps W (X : externals W) P :
  logs_quiet P -> assigns P put_computer_container ->
  keeps P (lookup_computer_container X).
Proof. intros. unfold lookup_computer_container, ldap_search_ext_s. frame. Qed.

Lemma calc_computer_account_keeps W (P : machine W -> Prop) :
  assigns P put_computer_dn -> keeps P calc_computer_account.
Proof. intros. unfold calc_computer_account. frame. Qed.

#[local] Hint Resolve validate_preferred_ou_keeps lookup_preferred_ou_keeps
  lookup_computer_container_keeps calc_computer_account_keeps : frames.

Lemma locate_computer_account_keeps W (X : externals W) P :
  logs_quiet P -> assigns P put_preferred_ou_validated ->
  assigns P put_preferred_ou -> assigns P put_computer_container ->
  assigns P put_computer_dn ->
  keeps P (locate_computer_account X).
Proof. intros. unfold locate_computer_account. frame. Qed.

Lemma create_or_update_computer_account_keeps W (X : externals W) P allow :
  logs_quiet P -> keeps P (create_or_update_computer_account X allow).
Proof.
  intros. unfold create_or_update_computer_account, create_computer_account,
    modify_computer_account, ldap_search_ext_s, ldap_add_ext_s, ldap_modify_ext_s.
  frame.
Qed.

Lemma set_computer_password_keeps W (X : externals W) P :
  logs_quiet P -> keeps P (set_computer_password X).
Proof.
  intros. unfold set_computer_password, set_password_with_computer_creds,
    set_password_with_user_creds.
  frame.
Qed.

Lemma retrieve_computer_account_info_keeps W (X : externals W) P :
  logs_all P -> assigns P put_computer_attributes -> assigns P put_kvno ->
  keeps P (retrieve_computer_account_info X).
Proof. intros. unfold retrieve_computer_account_info, ldap_search_ext_s. frame. Qed.

Lemma write_attribute_keeps W (X : externals W) P dn mods :
  logs_quiet P -> keeps P (write_attribute X dn mods).
Proof. intros. unfold write_attribute, ldap_modify_ext_s. frame. Qed.

#[local] Hint Resolve locate_computer_account_keeps
  create_or_update_computer_account_keeps set_computer_password_keeps
  retrieve_computer_account_info_keeps write_attribute_keeps : frames.

Lemma update_and_calculate_enctypes_keeps W (X : externals W) P :
  logs_quiet P -> assigns P put_keytab_enctypes ->
  keeps P (update_and_calculate_enctypes X).
Proof. intros. unfold update_and_calculate_enctypes. frame. Qed.

Lemma update_dns_host_name_keeps W (X : externals W) P :
  logs_quiet P -> keeps P (update_dns_host_name X).
Proof. intros. unfold update_dns_host_name. frame. Qed.

Lemma update_service_principals_keeps W (X : externals W) P :
  logs_quiet P -> keeps P (update_service_principals X).
Proof. intros. unfold update_service_principals. frame. Qed.

#[local] Hint Resolve update_and_calculate_enctypes_keeps update_dns_host_name_keeps
  update_service_principals_keeps : frames.

Lemma adcli_enroll_prepare_keeps W (X : externals W) P fuel flags :
  logs_quiet P ->
  assigns P put_host_fqdn -> assigns P put_computer_name ->
  assigns P put_computer_sam -> assigns P put_computer_principal ->
  assigns P put_computer_password ->
  assigns P put_keytab -> assigns P put_keytab_name ->
  assigns P put_keytab_name_is_krb5 ->
  assigns P put_service_names -> assigns P put_service_principals ->
  assigns P put_keytab_principals ->
  keeps P (adcli_enroll_prepare X fuel flags).
Proof. intros. unfold adcli_enroll_prepare. frame. Qed.

(** *** The keytab writer *)

Lemma keeps_bind_get_enroll W A (P : machine W -> Prop) (e0 : adcli_enroll)
    (k : adcli_enroll -> M W A) :
  (forall m, P m -> m_enroll m = e0) ->
  keeps P (k e0) ->
  keeps P (bind get_enroll k).
Proof.
  intros Hfix Hk m Hm. unfold bind, get_enroll.
  rewrite (Hfix m Hm). apply Hk, Hm.
Qed.

Lemma keytab_entries_for_vno W (X : externals W) p vno password enctypes salt entry :
  In entry (keytab_entries_for X p vno password enctypes salt) ->
  kte_vno entry = vno /\ kte_principal entry = p.
Proof.
  unfold keytab_entries_for. intros H. apply in_map_iff in H.
  destruct H as (enctype & <- & _). split; reflexivity.
Qed.

Ltac keytab_side :=
  match goal with
  | H : logs_keytab ?k ?P |- stable_event ?P (EvKtAdd _ _ _) =>
      apply H; cbn [entries_added];
      let entry := fresh "entry" in
      let Hin := fresh "Hin" in
      intros entry Hin;
      match type of Hin with
      | In _ (if ?c then _ else _) => destruct c; [| destruct Hin]
      end;
      apply keytab_entries_for_vno in Hin; apply Hin
  | H : logs_keytab ?k ?P |- stable_event ?P _ =>
      apply H; cbn [entries_added];
      let entry := fresh "entry" in
      let Hin := fresh "Hin" in
      intros entry Hin; destruct Hin
  | Hfix : (forall m, ?P m -> m_enroll m = ?e0) |- keeps ?P (bind get_enroll _) =>
      apply (keeps_bind_get_enroll _ _ P e0); [exact Hfix |]
  end.

Ltac keytab_frame :=
  repeat (cbv beta;
          first [ keytab_side | keeps_step | frame_side
                | solve [auto 3 with frames] ]).

Lemma _adcli_krb5_keytab_clear_keeps W (X : externals W) P vno name closure :
  logs_keytab vno P -> stable_keytab P ->
  keeps P (_adcli_krb5_keytab_clear X name closure).
Proof. intros. unfold _adcli_krb5_keytab_clear. keytab_frame. Qed.

Lemma probe_salt_keeps W (X : externals W) P vno p v password salt enctypes :
  logs_keytab vno P -> keeps P (probe_salt X p v password salt enctypes).
Proof.
  intros. induction enctypes as [| enctype rest IH]; cbn [probe_salt];
    keytab_frame.
Qed.

Lemma probe_salts_keeps W (X : externals W) P vno p v password enctypes salts :
  logs_keytab vno P ->
  forall i, keeps P (probe_salts X p v password enctypes salts i).
Proof.
  intros H. induction salts as [| salt rest IH]; intros i; cbn [probe_salts].
  - keytab_frame.
  - apply keeps_bind; [eapply probe_salt_keeps; eassumption |].
    intros [|]; [apply keeps_ret | apply IH].
Qed.

Lemma _adcli_krb5_keytab_discover_salt_keeps W (X : externals W) P vno
    p v password enctypes salts which_salt :
  logs_keytab vno P ->
  keeps P (_adcli_krb5_keytab_discover_salt X p v password enctypes salts which_salt).
Proof.
  intros. unfold _adcli_krb5_keytab_discover_salt.
  apply keeps_bind; [keytab_frame |]. intros _.
  apply keeps_bind; [eapply probe_salts_keeps; eassumption |].
  intros [i |]; apply keeps_ret.
Qed.

Lemma _adcli_krb5_keytab_add_entries_keeps W (X : externals W) P
    name p vno password enctypes salt :
  logs_keytab vno P -> stable_keytab P ->
  keeps P (_adcli_krb5_keytab_add_entries X name p vno password enctypes salt).
Proof. intros. unfold _adcli_krb5_keytab_add_entries. keytab_frame. Qed.

Lemma add_principal_to_keytab_keeps W (X : externals W) P e0 p which_salt :
  (forall m, P m -> m_enroll m = e0) ->
  logs_keytab (kvno e0) P -> stable_keytab P ->
  keeps P (add_principal_to_keytab X p which_salt).
Proof.
  intros Hfix Hl Hk. unfold add_principal_to_keytab.
  apply (keeps_bind_get_enroll _ _ P e0); [exact Hfix |].
  destruct (keytab e0) as [kt |]; [| apply keeps_abort].
  apply keeps_bind; [eapply _adcli_krb5_keytab_clear_keeps; eassumption |].
  intros r. destruct (negb (fst r =? 0)); [apply keeps_ret |].
  destruct (computer_password e0) as [password |]; [| apply keeps_abort].
  destruct (build_principal_salts X e0 p) as [salts |]; [| apply keeps_ret].
  apply keeps_bind.
  { destruct (which_salt <? 0); [| apply keeps_ret].
    eapply _adcli_krb5_keytab_discover_salt_keeps; eassumption. }
  intros d. destruct (negb (fst d =? 0)); [apply keeps_ret |].
  apply keeps_bind; [apply keeps_assert |]. intros _.
  apply keeps_bind; [eapply _adcli_krb5_keytab_add_entries_keeps; eassumption |].
  intros code. destruct (negb (code =? 0)); apply keeps_ret.
Qed.

Lemma update_keytab_loop_keeps W (X : externals W) P e0 principals :
  (forall m, P m -> m_enroll m = e0) ->
  logs_keytab (kvno e0) P -> stable_keytab P ->
  forall which_salt, keeps P (update_keytab_loop X principals which_salt).
Proof.
  intros Hfix Hl Hk.
  induction principals as [| p rest IH]; intros which_salt;
    cbn [update_keytab_loop].
  - apply keeps_ret.
  - apply keeps_bind; [eapply add_principal_to_keytab_keeps; eassumption |].
    intros r. destruct (failed (fst r)); [apply keeps_ret | apply IH].
Qed.

Lemma update_keytab_for_principals_keeps W (X : externals W) P e0 :
  (forall m, P m -> m_enroll m = e0) ->
  logs_keytab (kvno e0) P -> stable_keytab P ->
  keeps P (update_keytab_for_principals X).
Proof.
  intros Hfix Hl Hk. unfold update_keytab_for_principals.
  apply (keeps_bind_get_enroll _ _ P e0); [exact Hfix |].
  destruct (keytab_principals e0) as [principals |]; [| apply keeps_abort].
  apply keeps_bind; [apply keeps_ask |]. intros k5.
  destruct (negb k5); [apply keeps_ret |].
  eapply update_keytab_loop_keeps; eassumption.
Qed.

(** ** The stations of a join *)

Lemma quiet_snoc (evs : list event) (ev : event) :
  quiet evs -> silent ev = true -> quiet (evs ++ [ev]).
Proof.
  intros H1 H2. apply Forall_app. split; [exact H1 |].
  constructor; [exact H2 | constructor].
Qed.

Lemma quiet_adds_nothing (ev : event) :
  silent ev = true -> entries_added ev = [].
Proof. destruct ev; simpl; intros H; try reflexivity; discriminate H. Qed.

Lemma silent_no_write (ev : event) :
  silent ev = true -> keytab_write ev = false.
Proof.
  unfold silent. intros H. apply andb_true_iff in H.
  destruct (keytab_write ev); [destruct H; discriminate | reflexivity].
Qed.

Lemma silent_no_read_back (ev : event) :
  silent ev = true -> is_read_back ev = false.
Proof.
  unfold silent. intros H. apply andb_true_iff in H.
  destruct (is_read_back ev); [destruct H; discriminate | reflexivity].
Qed.

Ltac list_assoc :=
  repeat first [ rewrite <- app_assoc | rewrite <- app_comm_cons ]; reflexivity.

Section Stations.

Context {W : Type} (X : externals W) (tr0 : list event) (zero : Prop).

Lemma before_password_step (m : machine W) w ev :
  before_password tr0 zero m -> silent ev = true ->
  before_password tr0 zero (after_call m w ev).
Proof.
  intros (Hz & evs & Ht & Hq) Hev. split; [exact Hz |].
  exists (evs ++ [ev])%list. cbn. rewrite Ht.
  split; [list_assoc | apply quiet_snoc; assumption].
Qed.

Lemma before_password_logs_quiet : logs_quiet (before_password (W := W) tr0 zero).
Proof. intros ev Hev m w Hm. apply before_password_step; assumption. Qed.

Lemma before_password_assigns A (put : A -> adcli_enroll -> adcli_enroll) :
  (forall v e, kvno (put v e) = kvno e) ->
  assigns (before_password (W := W) tr0 zero) put.
Proof.
  intros Hput v m (Hz & Hq). split; [| exact Hq].
  intros z. cbn. rewrite Hput. exact (Hz z).
Qed.

Lemma after_password_step (m : machine W) w ev :
  after_password tr0 zero m -> silent ev = true ->
  after_password tr0 zero (after_call m w ev).
Proof.
  intros (Hz & a & pw & b & Ht & Hq & Hpw) Hev. split; [exact Hz |].
  exists a, pw, (b ++ [ev])%list. cbn. rewrite Ht.
  split; [list_assoc |].
  split; [| exact Hpw].
  change (a ++ pw :: b ++ [ev])%list with (a ++ (pw :: b) ++ [ev])%list.
  rewrite app_assoc. apply quiet_snoc; assumption.
Qed.

Lemma password_set_quiet (ev : event) :
  password_set_ok ev = true -> silent ev = true.
Proof. destruct ev; simpl; intros H; try reflexivity; discriminate H. Qed.

Lemma after_password_reached (m : machine W) w ev :
  before_password tr0 zero m -> password_set_ok ev = true ->
  after_password tr0 zero (after_call m w ev).
Proof.
  intros (Hz & evs & Ht & Hq) Hev. split; [exact Hz |].
  exists evs, ev, []. cbn. rewrite Ht.
  split; [list_assoc |]. split; [| exact Hev].
  apply quiet_snoc; [exact Hq | apply password_set_quiet, Hev].
Qed.

Lemma after_password_quiet (m : machine W) :
  after_password tr0 zero m -> before_password tr0 zero m.
Proof.
  intros (Hz & a & pw & b & Ht & Hq & _). split; [exact Hz |].
  exists (a ++ pw :: b)%list. auto.
Qed.

Lemma after_read_back_step (m : machine W) w ev :
  after_read_back X tr0 zero m ->
  (forall entry, In entry (entries_added ev) -> kte_vno entry = kvno (m_enroll m)) ->
  after_read_back X tr0 zero (after_call m w ev).
Proof.
  intros (a & pw & b & dn & results & c & Ht & Hq & Hpw & Hk & Hc) Hev.
  exists a, pw, b, dn, results, (c ++ [ev])%list. cbn. rewrite Ht.
  split; [list_assoc |].
  repeat split; try assumption.
  apply Forall_app. split; [exact Hc |]. constructor; [exact Hev | constructor].
Qed.

Lemma after_read_back_logs_quiet : logs_quiet (after_read_back X tr0 zero).
Proof.
  intros ev Hev m w Hm. apply after_read_back_step; [exact Hm |].
  rewrite (quiet_adds_nothing ev Hev). intros entry [].
Qed.

Lemma after_read_back_assigns A (put : A -> adcli_enroll -> adcli_enroll) :
  (forall v e, kvno (put v e) = kvno e) ->
  assigns (after_read_back X tr0 zero) put.
Proof.
  intros Hput v m (a & pw & b & dn & results & c & Ht & Hq & Hpw & Hk & Hc).
  exists a, pw, b, dn, results, c. cbn. rewrite Hput. auto.
Qed.

Lemma writing_keytab_logs e0 :
  logs_keytab (kvno e0) (writing_keytab X tr0 zero e0).
Proof.
  intros ev Hev m w (He & Hm). split; [exact He |].
  apply after_read_back_step; [exact Hm |]. rewrite He. exact Hev.
Qed.

Lemma writing_keytab_stable e0 : stable_keytab (writing_keytab X tr0 zero e0).
Proof. intros m name entries (He & Hm). split; [exact He | exact Hm]. Qed.

Lemma update_keytab_for_principals_station :
  keeps (after_read_back X tr0 zero) (update_keytab_for_principals X).
Proof.
  intros m Hm.
  pose proof (update_keytab_for_principals_keeps W X
                (writing_keytab X tr0 zero (m_enroll m))
                (m_enroll m) (fun m1 H => proj1 H)
                (writing_keytab_logs _) (writing_keytab_stable _)) as H.
  specialize (H m (conj eq_refl Hm)).
  destruct (update_keytab_for_principals X m); apply H.
Qed.

Lemma password_result_station (m : machine W) w ev code result_code :
  before_password tr0 zero m ->
  silent ev = true ->
  ((code =? 0) = true -> (result_code =? 0) = true -> password_set_ok ev = true) ->
  match
    (if negb (code =? 0) then ret ADCLI_ERR_DIRECTORY
     else if negb (result_code =? 0) then ret ADCLI_ERR_CREDENTIALS
     else ret ADCLI_SUCCESS) (after_call m w ev)
  with
  | Done r m' =>
      if failed r then before_password tr0 zero m' else after_password tr0 zero m'
  | Aborted m' => before_password tr0 zero m'
  | OutOfFuel m' => before_password tr0 zero m'
  end.
Proof.
  intros Hm Hq Hok.
  destruct (code =? 0) eqn:E1; cbn [negb ret failed];
    [| apply before_password_step; assumption].
  destruct (result_code =? 0) eqn:E2; cbn [negb ret failed];
    [| apply before_password_step; assumption].
  apply after_password_reached; auto.
Qed.

Lemma set_computer_password_station :
  triple (before_password tr0 zero) (set_computer_password X)
    (fun r m => if failed r then before_password tr0 zero m
                else after_password tr0 zero m)
    (before_password tr0 zero).
Proof.
  intros m Hm. unfold set_computer_password, bind, ask.
  destruct (x_conn_login_type X (m_world m)).
  - unfold set_password_with_user_creds, bind, get_enroll, ask, call.
    destruct (computer_password (m_enroll m)) as [password |]; [| exact Hm].
    destruct (computer_principal (m_enroll m)) as [principal |]; [| exact Hm].
    destruct (x_conn_krb5_context X (m_world m)); cbn [negb]; [| exact Hm].
    destruct (x_conn_login_ccache X (m_world m)); cbn [negb]; [| exact Hm].
    destruct (x_krb5_set_password_using_ccache X password principal (m_world m))
      as [[code result_code] w].
    cbn [fst snd]. apply password_result_station; [exact Hm | reflexivity |].
    intros E1 E2. cbn. rewrite E1, E2. reflexivity.
  - unfold set_password_with_computer_creds, bind, get_enroll, ask, call.
    destruct (x_conn_krb5_context X (m_world m)); cbn [negb]; [| exact Hm].
    destruct (x_kinit_computer_creds X (m_world m)) as [code w].
    pose proof (before_password_step m w (EvKinit code) Hm eq_refl) as H1.
    destruct (code =? 0); cbn [negb]; [| exact H1].
    cbn [after_call m_world m_enroll].
    destruct (x_krb5_change_password X (computer_password (m_enroll m)) w)
      as [[code2 result_code] w2].
    cbn [fst snd]. apply password_result_station; [exact H1 | reflexivity |].
    intros E1 E2. cbn. rewrite E1, E2. reflexivity.
  - unfold set_password_with_user_creds, bind, get_enroll, ask, call.
    destruct (computer_password (m_enroll m)) as [password |]; [| exact Hm].
    destruct (computer_principal (m_enroll m)) as [principal |]; [| exact Hm].
    destruct (x_conn_krb5_context X (m_world m)); cbn [negb]; [| exact Hm].
    destruct (x_conn_login_ccache X (m_world m)); cbn [negb]; [| exact Hm].
    destruct (x_krb5_set_password_using_ccache X password principal (m_world m))
      as [[code result_code] w].
    cbn [fst snd]. apply password_result_station; [exact Hm | reflexivity |].
    intros E1 E2. cbn. rewrite E1, E2. reflexivity.
Qed.

Lemma after_read_back_reached (m m' : machine W) dn results :
  after_password tr0 zero m ->
  m_trace m' = (m_trace m ++ [read_back dn results])%list ->
  (zero -> kvno_read X results = Some (kvno (m_enroll m'))) ->
  after_read_back X tr0 zero m'.
Proof.
  intros (Hz & a & pw & b & Ht & Hq & Hpw) Htr Hk.
  exists a, pw, b, dn, results, []. rewrite Htr, Ht.
  split; [list_assoc |]. repeat split; try assumption. constructor.
Qed.

Lemma after_read_back_seen (m : machine W) :
  after_read_back X tr0 zero m -> read_back_seen X tr0 zero m.
Proof.
  intros (a & pw & b & dn & results & c & Ht & Hq & Hpw & Hk & Hc).
  exists a, pw, b, dn, results, c. repeat split; try assumption.
  eapply Forall_impl; [| exact Hc].
  intros ev H entry Hin z. rewrite (H entry Hin). exact (Hk z).
Qed.

Lemma quiet_station (m m' : machine W) ev :
  after_password tr0 zero m ->
  m_trace m' = (m_trace m ++ [ev])%list ->
  silent ev = true ->
  join_station X tr0 zero m'.
Proof.
  intros Hm Htr Hev. destruct (after_password_quiet m Hm) as (_ & evs & Ht & Hq).
  left. split; [intros [] |]. exists (evs ++ [ev])%list. rewrite Htr, Ht.
  split; [list_assoc | apply quiet_snoc; assumption].
Qed.

Lemma unread_station (m m' : machine W) dn results :
  after_password tr0 zero m ->
  m_trace m' = (m_trace m ++ [read_back dn results])%list ->
  join_station X tr0 zero m'.
Proof.
  intros (Hz & a & pw & b & Ht & Hq & Hpw) Htr. right.
  exists a, pw, b, dn, results, []. rewrite Htr, Ht.
  split; [list_assoc |]. repeat split; try assumption. constructor.
Qed.

Lemma retrieve_computer_account_info_station :
  triple (after_password tr0 zero) (retrieve_computer_account_info X)
    (fun r m => if failed r then join_station X tr0 zero m
                else after_read_back X tr0 zero m)
    (join_station X tr0 zero).
Proof.
  intros m Hm.
  assert (join_station X tr0 zero m) as Hb.
  { destruct (after_password_quiet m Hm) as (_ & H). left.
    split; [intros [] | exact H]. }
  unfold retrieve_computer_account_info, bind, get_enroll.
  destruct (computer_dn (m_enroll m)) as [dn |]; [| exact Hb].
  destruct (negb (isSome (computer_attributes (m_enroll m))));
    cbn [c_assert ret abort]; [| exact Hb].
  unfold ask.
  destruct (x_conn_ldap_connection X (m_world m)); cbn [c_assert ret abort];
    [| exact Hb].
  unfold ldap_search_ext_s, call.
  destruct (x_ldap_search X dn "(objectClass=*)" kvno_attrs (m_world m))
    as [[code results] w].
  cbn [fst snd].
  destruct (code =? LDAP_SUCCESS) eqn:Ec; cbn [negb].
  2:{ cbn [ret _adcli_ldap_handle_failure failed].
      eapply quiet_station; [exact Hm | reflexivity |].
      cbn. rewrite Ec. reflexivity. }
  apply Z.eqb_eq in Ec. subst code. fold (read_back dn results).
  unfold update_enroll.
  destruct (kvno (m_enroll m) =? 0) eqn:Ek.
  - unfold kvno_read in *.
    destruct (_adcli_ldap_parse_value results "msDS-KeyVersionNumber")
      as [value |] eqn:Ev.
    + destruct (x_strtoul X value) as [n rest] eqn:En.
      destruct (String.eqb rest "") eqn:Er; cbn [negb ret failed].
      * eapply after_read_back_reached; [exact Hm | reflexivity |].
        intros _. unfold kvno_read. rewrite Ev, En, Er. reflexivity.
      * eapply unread_station; [exact Hm | reflexivity].
    + cbn [ret failed].
      eapply after_read_back_reached; [exact Hm | reflexivity |].
      intros _. unfold kvno_read. rewrite Ev. reflexivity.
  - cbn [ret failed].
    eapply after_read_back_reached; [exact Hm | reflexivity |].
    intros z. destruct Hm as (Hz & _). apply Z.eqb_neq in Ek.
    elim Ek. exact (Hz z).
Qed.

Lemma keeps_triple A (P : machine W -> Prop) (c : M W A)
    (Q : A -> machine W -> Prop) (R : machine W -> Prop) :
  keeps P c ->
  (forall a m, P m -> Q a m) ->
  (forall m, P m -> R m) ->
  triple P c Q R.
Proof.
  intros Hk HQ HR. eapply triple_conseq; [exact Hk | auto | exact HQ | exact HR].
Qed.

Lemma before_password_station (m : machine W) :
  before_password tr0 zero m -> join_station X tr0 zero m.
Proof.
  intros (_ & H). left. split; [intros [] | exact H].
Qed.

Lemma after_password_station (m : machine W) :
  after_password tr0 zero m -> join_station X tr0 zero m.
Proof. intros H. apply before_password_station, after_password_quiet, H. Qed.

Lemma synchronise_station :
  keeps (after_read_back X tr0 zero)
    (update_and_calculate_enctypes X ;; update_dns_host_name X ;;
     update_service_principals X).
Proof.
  pose proof after_read_back_logs_quiet as Hq.
  assert (assigns (after_read_back X tr0 zero) put_keytab_enctypes) as Ha
      by (apply after_read_back_assigns; reflexivity).
  frame.
Qed.

Lemma join_computer_account_station flags :
  triple (before_password tr0 zero) (join_computer_account X flags)
    (fun r m => if failed r then join_station X tr0 zero m
                else after_read_back X tr0 zero m)
    (join_station X tr0 zero).
Proof.
  unfold join_computer_account.
  eapply triple_bind.
  { apply keeps_triple with (Q := fun _ => before_password tr0 zero).
    - apply create_or_update_computer_account_keeps, before_password_logs_quiet.
    - auto.
    - apply before_password_station. }
  intros res. destruct (failed res) eqn:Eres.
  { apply triple_ret. intros m Hm. rewrite Eres. apply before_password_station, Hm. }
  eapply triple_bind.
  { eapply triple_conseq; [apply set_computer_password_station | auto | | ].
    - intros a m H. exact H.
    - apply before_password_station. }
  intros res1. destruct (failed res1) eqn:Eres1.
  { apply triple_ret. intros m Hm. cbv beta in Hm. rewrite Eres1 in *.
    apply before_password_station, Hm. }
  eapply triple_bind.
  { eapply triple_conseq; [apply retrieve_computer_account_info_station | | | ].
    - intros m Hm. cbv beta in Hm. rewrite Eres1 in Hm. exact Hm.
    - intros a m H. exact H.
    - intros m H. exact H. }
  intros res2. destruct (failed res2) eqn:Eres2.
  { apply triple_ret. intros m Hm. cbv beta in Hm. rewrite Eres2 in *.
    exact Hm. }
  pose proof synchronise_station as Hs.
  assert (forall m, after_read_back X tr0 zero m -> join_station X tr0 zero m) as Hr
      by (intros m H; right; apply after_read_back_seen; exact H).
  intros m Hm. cbv beta in Hm. rewrite Eres2 in Hm.
  specialize (Hs m Hm). unfold bind in *.
  destruct (update_and_calculate_enctypes X m) as [r3 m3 | m3 | m3]; auto.
  destruct (update_dns_host_name X m3) as [r4 m4 | m4 | m4]; auto.
  destruct (update_service_principals X m4) as [r5 m5 | m5 | m5]; auto.
  destruct (ADCLI_ENROLL_NO_KEYTAB flags).
  - exact Hs.
  - pose proof (update_keytab_for_principals_station m5 Hs) as Hk.
    destruct (update_keytab_for_principals X m5) as [r6 m6 | m6 | m6]; auto.
    destruct (failed r6); auto.
Qed.

End Stations.

Lemma enroll_clear_state_fields_kvno (k5 : bool) (e : adcli_enroll) :
  k5 = true
  \/ (keytab_principals e = None /\ keytab e = None /\ computer_principal e = None) ->
  kvno (enroll_clear_state_fields k5 e) = 0.
Proof.
  intros [-> | (H1 & H2 & H3)].
  - apply enroll_clear_state_fields_k5.
  - unfold enroll_clear_state_fields. rewrite H1. cbn. rewrite H2. cbn.
    rewrite H3. cbn.
    destruct (computer_password_explicit e); cbn;
      destruct (service_principals_explicit e); reflexivity.
Qed.

Ltac kvno_untouched :=
  solve [ apply before_password_assigns; reflexivity ].

(** Up to the account reconciler, a join writes no keytab and, when the
    reset ran to its end, leaves the cached kvno at zero. *)
Lemma join_prelude_station W (X : externals W) (fuel : nat)
    (flags : adcli_enroll_flags) (m0 : machine W) :
  let tr0 := m_trace m0 in
  let zero := can_clear X m0 in
  match adcli_enroll_join X fuel flags m0 with
  | Done r m => if failed r then join_station X tr0 zero m
                else after_read_back X tr0 zero m
  | Aborted m => join_station X tr0 zero m
  | OutOfFuel m => join_station X tr0 zero m
  end.
Proof.
  intros tr0 zero.
  assert (triple (before_password tr0 zero)
            (res <- adcli_conn_discover X ;;
             if failed res then ret res
             else
               res <- adcli_enroll_prepare X fuel flags ;;
               if failed res then ret res
               else
                 res <- adcli_conn_connect X ;;
                 if failed res then ret res
                 else
                   res <- locate_computer_account X ;;
                   if failed res then ret res
                   else join_computer_account X flags)
            (fun r m => if failed r then join_station X tr0 zero m
                        else after_read_back X tr0 zero m)
            (join_station X tr0 zero)) as Hrest.
  { pose proof (before_password_logs_quiet (W := W) tr0 zero) as Hq.
    assert (forall A (c : M W A),
               keeps (before_password tr0 zero) c ->
               triple (before_password tr0 zero) c
                 (fun _ => before_password tr0 zero) (join_station X tr0 zero))
      as Hlift.
    { intros A c Hc. apply keeps_triple; auto.
      apply before_password_station. }
    assert (forall res,
               failed res = true ->
               triple (before_password tr0 zero) (ret res)
                 (fun r m => if failed r then join_station X tr0 zero m
                             else after_read_back X tr0 zero m)
                 (join_station X tr0 zero)) as Hstop.
    { intros res E. apply triple_ret. intros m Hm. rewrite E.
      apply before_password_station, Hm. }
    eapply triple_bind; [apply Hlift, adcli_conn_discover_keeps, Hq |].
    intros r1. destruct (failed r1) eqn:E1; [apply Hstop, E1 |].
    eapply triple_bind.
    { apply Hlift, adcli_enroll_prepare_keeps; try exact Hq; kvno_untouched. }
    intros r2. destruct (failed r2) eqn:E2; [apply Hstop, E2 |].
    eapply triple_bind; [apply Hlift, adcli_conn_connect_keeps, Hq |].
    intros r3. destruct (failed r3) eqn:E3; [apply Hstop, E3 |].
    eapply triple_bind.
    { apply Hlift, locate_computer_account_keeps; try exact Hq; kvno_untouched. }
    intros r4. destruct (failed r4) eqn:E4; [apply Hstop, E4 |].
    apply join_computer_account_station. }
  unfold adcli_enroll_join. unfold bind at 1.
  rewrite enroll_clear_state_runs.
  apply Hrest. split.
  - intros z. cbn. apply enroll_clear_state_fields_kvno. exact z.
  - exists []. cbn. rewrite app_nil_r. split; [reflexivity | constructor].
Qed.

(** ** The order of a join *)

Lemma split_after (sel : event -> bool) (q : list event) :
  forall rest pre ev post,
    Forall (fun e => sel e = false) q ->
    sel ev = true ->
    (q ++ rest = pre ++ ev :: post)%list ->
    exists c1, pre = (q ++ c1)%list /\ rest = (c1 ++ ev :: post)%list.
Proof.
  induction q as [| x q IH]; intros rest pre ev post Hq Hev E.
  - exists pre. auto.
  - inversion Hq as [| ? ? Hx Hq']; subst.
    destruct pre as [| y pre]; simpl in E; inversion E; subst.
    + congruence.
    + destruct (IH rest pre ev post Hq' Hev H1) as (c1 & -> & ->).
      exists c1. auto.
Qed.

Lemma quiet_no_write (evs : list event) :
  quiet evs -> Forall (fun e => keytab_write e = false) evs.
Proof. apply Forall_impl. exact silent_no_write. Qed.

Lemma quiet_no_read_back (evs : list event) :
  quiet evs -> Forall (fun e => is_read_back e = false) evs.
Proof. apply Forall_impl. exact silent_no_read_back. Qed.

Lemma quiet_excludes (sel : event -> bool) (evs pre post : list event) ev :
  Forall (fun e => sel e = false) evs ->
  evs = (pre ++ ev :: post)%list -> sel ev = true -> False.
Proof.
  intros H -> Hev. apply Forall_app in H. destruct H as (_ & H).
  inversion H. congruence.
Qed.

(** Where a join stops, by any outcome. *)
Lemma join_stops_at_station W (X : externals W) fuel flags (m0 : machine W) :
  join_station X (m_trace m0) (can_clear X m0)
    (final (adcli_enroll_join X fuel flags m0)).
Proof.
  pose proof (join_prelude_station W X fuel flags m0) as H. cbv zeta in H.
  destruct (adcli_enroll_join X fuel flags m0) as [r m | m | m]; cbn [final];
    try exact H.
  destruct (failed r); [exact H |].
  right. apply after_read_back_seen, H.
Qed.

(** C9. In every execution of a join, whatever its outcome, a write to a
    keytab comes after a password set that succeeded and after the
    read-back of the attributes that followed it; a read-back comes after
    a password set that succeeded; and, the reset at the start having run
    to its end, the keytab entries written are of the key version that
    this read-back gave. *)
Theorem keytab_written_after_password_and_read_back :
  forall W (X : externals W) (fuel : nat) (flags : adcli_enroll_flags)
         (m0 : machine W),
    exists evs,
      m_trace (final (adcli_enroll_join X fuel flags m0)) = (m_trace m0 ++ evs)%list
      /\ (forall pre ev post,
            evs = (pre ++ ev :: post)%list ->
            keytab_write ev = true ->
            exists a pw b dn results c,
              pre = (a ++ pw :: b ++ read_back dn results :: c)%list
              /\ password_set_ok pw = true
              /\ (can_clear X m0 ->
                  forall entry, In entry (entries_added ev) ->
                                kvno_read X results = Some (kte_vno entry)))
      /\ (forall pre ev post,
            evs = (pre ++ ev :: post)%list ->
            is_read_back ev = true ->
            exists pw, In pw pre /\ password_set_ok pw = true).
Proof.
  intros W X fuel flags m0.
  destruct (join_stops_at_station W X fuel flags m0)
    as [(_ & evs & Ht & Hq) | (a & pw & b & dn & results & c & Ht & Hq & Hpw & Hc)].
  - exists evs. split; [exact Ht |]. split.
    + intros pre ev post E Hev.
      destruct (quiet_excludes keytab_write evs pre post ev
                  (quiet_no_write _ Hq) E Hev).
    + intros pre ev post E Hev.
      destruct (quiet_excludes is_read_back evs pre post ev
                  (quiet_no_read_back _ Hq) E Hev).
  - exists (a ++ pw :: b ++ read_back dn results :: c)%list.
    split; [exact Ht |]. split.
    + intros pre ev post E Hev.
      assert (Forall (fun e => keytab_write e = false)
                ((a ++ pw :: b) ++ [read_back dn results])) as Hq'.
      { apply Forall_app. split; [apply quiet_no_write, Hq |].
        constructor; [reflexivity | constructor]. }
      destruct (split_after keytab_write _ c pre ev post Hq' Hev)
        as (c1 & Hpre & Hrest).
      { rewrite <- E. list_assoc. }
      exists a, pw, b, dn, results, c1.
      split; [rewrite Hpre; list_assoc |]. split; [exact Hpw |].
      intros z entry Hin. rewrite Hrest in Hc.
      apply Forall_app in Hc. destruct Hc as (_ & Hc).
      inversion Hc as [| ? ? Hev' _]; subst. exact (Hev' entry Hin z).
    + intros pre ev post E Hev.
      destruct (split_after is_read_back (a ++ pw :: b)
                  (read_back dn results :: c) pre ev post
                  (quiet_no_read_back _ Hq) Hev)
        as (c1 & Hpre & _).
      { rewrite <- E. list_assoc. }
      exists pw. split; [| exact Hpw].
      rewrite Hpre. apply in_or_app. left. apply in_or_app. right. left.
      reflexivity.
Qed.

(** The join of the small realm: the password is set by the 17th library
    call, the attributes are read back by the 18th, and the first keytab
    write is the 22nd. *)
Example small_realm_join_order :
  let tr := m_trace (final (adcli_enroll_join (small_realm plain_setup) 320
                              join_flags (start adcli_enroll_new))) in
  forallb (fun ev => negb (keytab_write ev)) (firstn 21 tr) = true
  /\ forallb (fun ev => negb (password_set_ok ev)) (firstn 16 tr) = true
  /\ password_set_ok (nth 16 tr (EvKinit 0)) = true
  /\ is_read_back (nth 17 tr (EvKinit 0)) = true
  /\ keytab_write (nth 21 tr (EvKinit 0)) = true.
Proof. vm_compute. repeat split; reflexivity. Qed.

(** ** The key version after a join *)

(** C8, as amended.  After a join that succeeded, the reset at its start
    having run to its end, the cached kvno is the key version read back
    from the directory after the password was set: the number parsed from
    msDS-KeyVersionNumber on 32 bits, and 0 when the account has no such
    attribute.  It is strictly positive only if the directory reported a
    version that is not 0. *)
Theorem join_kvno_is_the_version_read_back :
  forall W (X : externals W) (fuel : nat) (flags : adcli_enroll_flags)
         (m0 m' : machine W),
    can_clear X m0 ->
    adcli_enroll_join X fuel flags m0 = Done ADCLI_SUCCESS m' ->
    exists pre dn results post,
      m_trace m' = (m_trace m0 ++ pre ++ read_back dn results :: post)%list
      /\ (exists pw, In pw pre /\ password_set_ok pw = true)
      /\ kvno_read X results = Some (kvno (m_enroll m'))
      /\ (_adcli_ldap_parse_value results "msDS-KeyVersionNumber" = None ->
          kvno (m_enroll m') = 0)
      /\ 0 <= kvno (m_enroll m') < kvno_modulus.
Proof.
  intros W X fuel flags m0 m' Hz E.
  pose proof (join_prelude_station W X fuel flags m0) as H. cbv zeta in H.
  rewrite E in H. cbn [failed] in H.
  destruct H as (a & pw & b & dn & results & c & Ht & Hq & Hpw & Hk & Hc).
  exists (a ++ pw :: b)%list, dn, results, c.
  split; [rewrite Ht; list_assoc |].
  split; [exists pw; split; [apply in_or_app; right; left; reflexivity | exact Hpw] |].
  specialize (Hk Hz). split; [exact Hk |].
  unfold kvno_read in Hk.
  destruct (_adcli_ldap_parse_value results "msDS-KeyVersionNumber") as [value |].
  - split; [discriminate |].
    destruct (x_strtoul X value) as [n rest].
    destruct (String.eqb rest ""); [| discriminate].
    inversion Hk as [Hv]. unfold wrap_kvno.
    apply Z.mod_pos_bound. reflexivity.
  - inversion Hk as [Hv]. split; [reflexivity |]. unfold kvno_modulus. lia.
Qed.

Lemma join_kvno_is_the_version_read_back_witness :
  let m' := final (adcli_enroll_join (small_realm plain_setup) 320 join_flags
                     (start adcli_enroll_new)) in
  exists pre dn results post,
    m_trace m' = ([] ++ pre ++ read_back dn results :: post)%list
    /\ (exists pw, In pw pre /\ password_set_ok pw = true)
    /\ kvno_read (small_realm plain_setup) results = Some (kvno (m_enroll m'))
    /\ (_adcli_ldap_parse_value results "msDS-KeyVersionNumber" = None ->
        kvno (m_enroll m') = 0)
    /\ 0 <= kvno (m_enroll m') < kvno_modulus.
Proof.
  apply (join_kvno_is_the_version_read_back nat (small_realm plain_setup) 320%nat
           join_flags (start adcli_enroll_new)).
  - left. reflexivity.
  - vm_compute. reflexivity.
Defined.

(** A legacy directory reports no msDS-KeyVersionNumber: the join succeeds
    and the kvno it leaves is 0, which is not strictly positive. *)
Lemma legacy_join_kvno_zero :
  result_of (adcli_enroll_join (small_realm legacy_setup) 320 join_flags
               (start adcli_enroll_new))
  = Some ADCLI_SUCCESS
  /\ kvno (m_enroll (final (adcli_enroll_join (small_realm legacy_setup) 320
                              join_flags (start adcli_enroll_new)))) = 0
  /\ (0 <? kvno (m_enroll (final (adcli_enroll_join (small_realm legacy_setup) 320
                                    join_flags (start adcli_enroll_new))))) = false.
Proof. vm_compute. repeat split; reflexivity. Qed.

Lemma keytab_written_after_password_and_read_back_witness :
  exists evs,
    m_trace (final (adcli_enroll_join (small_realm plain_setup) 320 join_flags
                      (start adcli_enroll_new)))
    = ([] ++ evs)%list
    /\ (forall pre ev post,
          evs = (pre ++ ev :: post)%list ->
          keytab_write ev = true ->
          exists a pw b dn results c,
            pre = (a ++ pw :: b ++ read_back dn results :: c)%list
            /\ password_set_ok pw = true
            /\ (can_clear (small_realm plain_setup) (start adcli_enroll_new) ->
                forall entry, In entry (entries_added ev) ->
                              kvno_read (small_realm plain_setup) results
                              = Some (kte_vno entry)))
    /\ (forall pre ev post,
          evs = (pre ++ ev :: post)%list ->
          is_read_back ev = true ->
          exists pw, In pw pre /\ password_set_ok pw = true).
Proof.
  exact (keytab_written_after_password_and_read_back nat (small_realm plain_setup)
           320%nat join_flags (start adcli_enroll_new)).
Defined.

(** ** Failures of the attribute synchroniser *)





(** ** The SAM account name *)

Lemma logs_all_quiet W (P : machine W -> Prop) : logs_all P -> logs_quiet P.
Proof. intros H ev _. apply H. Qed.

Lemma update_keytab_for_principals_keeps_all W (X : externals W) P :
  logs_all P -> stable_keytab P -> keeps P (update_keytab_for_principals X).
Proof.
  intros Hl Hk m Hm.
  pose proof (update_keytab_for_principals_keeps W X
                (fun m1 => m_enroll m1 = m_enroll m /\ P m1) (m_enroll m)
                (fun m1 H => proj1 H)) as H.
  assert (keeps (fun m1 => m_enroll m1 = m_enroll m /\ P m1)
            (update_keytab_for_principals X)) as Hkeep.
  { apply H.
    - intros ev _ m1 w (He & Hp). split; [exact He | apply Hl, Hp].
    - intros m1 name entries (He & Hp). split; [exact He | apply Hk, Hp]. }
  specialize (Hkeep m (conj eq_refl Hm)).
  destruct (update_keytab_for_principals X m); apply Hkeep.
Qed.

Lemma join_computer_account_keeps W (X : externals W) P flags :
  logs_all P -> stable_keytab P ->
  assigns P put_computer_attributes -> assigns P put_kvno ->
  assigns P put_keytab_enctypes ->
  keeps P (join_computer_account X flags).
Proof.
  intros Hl Hk H1 H2 H3. pose proof (logs_all_quiet W P Hl) as Hq.
  pose proof (update_keytab_for_principals_keeps_all W X P Hl Hk) as Hw.
  unfold join_computer_account. frame.
Qed.

Lemma toupper_idempotent (c : ascii) : toupper (toupper c) = toupper c.
Proof.
  destruct c as [[|] [|] [|] [|] [|] [|] [|] [|]]; reflexivity.
Qed.

Lemma _adcli_str_up_idempotent (s : string) :
  _adcli_str_up (_adcli_str_up s) = _adcli_str_up s.
Proof.
  unfold _adcli_str_up. induction s as [| c s IH]; simpl.
  - reflexivity.
  - rewrite toupper_idempotent, IH. reflexivity.
Qed.

Section SamName.

Context {W : Type} (X : externals W).

Lemma names_hold_logs Phi : logs_all (names_hold (W := W) Phi).
Proof. intros ev m w H. exact H. Qed.

Lemma names_hold_keytab Phi : stable_keytab (names_hold (W := W) Phi).
Proof. intros m name entries H. exact H. Qed.

Lemma names_hold_assigns Phi A (put : A -> adcli_enroll -> adcli_enroll) :
  (forall v e, computer_name (put v e) = computer_name e) ->
  (forall v e, computer_sam (put v e) = computer_sam e) ->
  (forall e e', computer_name e = computer_name e' ->
                computer_sam e = computer_sam e' -> Phi e -> Phi e') ->
  assigns (names_hold (W := W) Phi) put.
Proof.
  intros Hn Hs Hext v m H. unfold names_hold in *. cbn.
  eapply Hext; [| | exact H]; symmetry; auto.
Qed.

Lemma sam_follows_name_ext e e' :
  computer_name e = computer_name e' -> computer_sam e = computer_sam e' ->
  sam_follows_name e -> sam_follows_name e'.
Proof. unfold sam_follows_name. intros <- <-. auto. Qed.

Lemma name_is_upper_ext e e' :
  computer_name e = computer_name e' -> computer_sam e = computer_sam e' ->
  name_is_upper e -> name_is_upper e'.
Proof. unfold name_is_upper. intros <- _. auto. Qed.

Lemma ensure_computer_sam_sets res (m : machine W) r m' :
  ensure_computer_sam X res m = Done r m' ->
  sam_follows_name (m_enroll m')
  /\ computer_name (m_enroll m') = computer_name (m_enroll m).
Proof.
  unfold ensure_computer_sam, bind, update_enroll, get_enroll, ask. cbn.
  destruct (x_conn_krb5_context X (m_world m)); cbn.
  - destruct (x_krb5_parse_name X (fmt_s (computer_name (m_enroll m)) ++ "$"));
      cbn; intros H; inversion H; subst; cbn; split; reflexivity.
  - intros H; inversion H; subst; cbn; split; reflexivity.
Qed.

Lemma ensure_computer_name_upper res (m : machine W) r m' :
  computer_name (m_enroll m) = None ->
  ensure_computer_name res m = Done r m' ->
  name_is_upper (m_enroll m').
Proof.
  intros Hn. unfold ensure_computer_name, bind, get_enroll.
  destruct (failed res).
  { intros H. inversion H. subst. intros name E. congruence. }
  rewrite Hn.
  destruct (host_fqdn (m_enroll m)) as [fqdn |].
  2:{ intros H. inversion H. subst. intros name E. congruence. }
  destruct (strchr fqdn ".") as [dom |].
  2:{ intros H. inversion H. subst. intros name E. congruence. }
  destruct (Nat.eqb dom 0 || Nat.eqb (S dom) (String.length fqdn)).
  { intros H. inversion H. subst. intros name E. congruence. }
  unfold update_enroll. cbn. intros H. inversion H. subst.
  intros name E. cbn in E. inversion E. apply _adcli_str_up_idempotent.
Qed.

Ltac names_untouched ext :=
  solve [ apply names_hold_assigns; [reflexivity | reflexivity | exact ext] ].

(** The stages of [adcli_enroll_prepare] after [ensure_computer_sam]. *)
Lemma prepare_rest_keeps_names Phi fuel flags res :
  (forall e e', computer_name e = computer_name e' ->
                computer_sam e = computer_sam e' -> Phi e -> Phi e') ->
  keeps (names_hold (W := W) Phi)
    (res <- ensure_computer_password X fuel res ;;
     res <- (if negb (ADCLI_ENROLL_NO_KEYTAB flags) then ensure_host_keytab X res
             else ret res) ;;
     res <- ensure_service_names res ;;
     res <- ensure_service_principals X res ;;
     ret res).
Proof.
  intros ext.
  pose proof (logs_all_quiet W _ (names_hold_logs Phi)) as Hq.
  assert (assigns (names_hold (W := W) Phi) put_computer_password) by names_untouched ext.
  assert (assigns (names_hold (W := W) Phi) put_keytab) by names_untouched ext.
  assert (assigns (names_hold (W := W) Phi) put_keytab_name) by names_untouched ext.
  assert (assigns (names_hold (W := W) Phi) put_keytab_name_is_krb5) by names_untouched ext.
  assert (assigns (names_hold (W := W) Phi) put_service_names) by names_untouched ext.
  assert (assigns (names_hold (W := W) Phi) put_service_principals) by names_untouched ext.
  assert (assigns (names_hold (W := W) Phi) put_keytab_principals) by names_untouched ext.
  frame.
Qed.

Lemma prepare_sets_sam fuel flags (m0 : machine W) r m' :
  adcli_enroll_prepare X fuel flags m0 = Done r m' ->
  sam_follows_name (m_enroll m')
  /\ (computer_name (m_enroll m0) = None -> name_is_upper (m_enroll m')).
Proof.
  unfold adcli_enroll_prepare. intros E.
  apply bind_done in E. destruct E as (r1 & m1 & E1 & E).
  apply bind_done in E. destruct E as (r2 & m2 & E2 & E).
  apply bind_done in E. destruct E as (r3 & m3 & E3 & E).
  destruct (ensure_computer_sam_sets _ _ _ _ E3) as (Hs & Hn).
  split.
  - exact (keeps_done _ _ _ _ _ _
             (prepare_rest_keeps_names _ fuel flags r3 sam_follows_name_ext) Hs E).
  - intros H0.
    assert (computer_name (m_enroll m1) = None) as H1.
    { assert (keeps (names_hold (W := W) (fun e => computer_name e = None))
                (ensure_host_fqdn X ADCLI_SUCCESS)) as Hk.
      { apply ensure_host_fqdn_keeps. apply names_hold_assigns; try reflexivity.
        intros e e' He _ Hx. congruence. }
      exact (keeps_done _ _ _ _ _ _ Hk H0 E1). }
    pose proof (ensure_computer_name_upper _ _ _ _ H1 E2) as Hu.
    assert (name_is_upper (m_enroll m3)) as Hu3.
    { intros name En. rewrite Hn in En. exact (Hu name En). }
    exact (keeps_done _ _ _ _ _ _
             (prepare_rest_keeps_names _ fuel flags r3 name_is_upper_ext) Hu3 E).
Qed.

End SamName.

Lemma join_keeps_sam W (X : externals W) fuel flags (m0 m' : machine W) :
  adcli_enroll_join X fuel flags m0 = Done ADCLI_SUCCESS m' ->
  sam_follows_name (m_enroll m').
Proof.
  unfold adcli_enroll_join. intros E.
  apply bind_done in E. destruct E as (u & m1 & _ & E).
  apply bind_done in E. destruct E as (r1 & m2 & _ & E).
  destruct (failed r1) eqn:F1.
  { inversion E. subst. discriminate F1. }
  apply bind_done in E. destruct E as (r2 & m3 & Eprep & E).
  destruct (failed r2) eqn:F2.
  { inversion E. subst. discriminate F2. }
  destruct (prepare_sets_sam X _ _ _ _ _ Eprep) as (Hs & _).
  assert (forall A (put : A -> adcli_enroll -> adcli_enroll),
             (forall v e, computer_name (put v e) = computer_name e) ->
             (forall v e, computer_sam (put v e) = computer_sam e) ->
             assigns (names_hold (W := W) sam_follows_name) put) as Hput.
  { intros A put Hn Hsam. apply names_hold_assigns; auto.
    exact sam_follows_name_ext. }
  pose proof (names_hold_logs (W := W) sam_follows_name) as Hl.
  pose proof (logs_all_quiet W _ Hl) as Hq.
  assert (keeps (names_hold sam_follows_name)
            (res <- adcli_conn_connect X ;;
             if failed res then ret res
             else
               res <- locate_computer_account X ;;
               if failed res then ret res
               else join_computer_account X flags)) as Hk.
  { apply keeps_bind; [apply adcli_conn_connect_keeps, Hq |].
    intros r3. destruct (failed r3); [apply keeps_ret |].
    apply keeps_bind.
    { apply locate_computer_account_keeps; try exact Hq;
        apply Hput; reflexivity. }
    intros r4. destruct (failed r4); [apply keeps_ret |].
    apply join_computer_account_keeps; try exact Hl;
      try (apply Hput; reflexivity).
    apply names_hold_keytab. }
  exact (keeps_done _ _ _ _ _ _ Hk Hs E).
Qed.

(** C4, as amended.  After parameter resolution, and at the end of a join
    that succeeded, the SAM name is the computer name followed by a dollar
    sign.  A name derived from the FQDN has no lower-case letter, and the
    SAM name is then the upper-cased name and a dollar sign; a name set by
    the caller is taken as it is. *)
Theorem sam_name_follows_computer_name :
  forall W (X : externals W) (fuel : nat) (flags : adcli_enroll_flags)
         (m0 : machine W),
    (forall r m',
        adcli_enroll_prepare X fuel flags m0 = Done r m' ->
        computer_sam (m_enroll m')
        = Some (fmt_s (computer_name (m_enroll m')) ++ "$"))
    /\ (forall m',
          adcli_enroll_join X fuel flags m0 = Done ADCLI_SUCCESS m' ->
          computer_sam (m_enroll m')
          = Some (fmt_s (computer_name (m_enroll m')) ++ "$"))
    /\ (forall r m' name,
          adcli_enroll_prepare X fuel flags m0 = Done r m' ->
          computer_name (m_enroll m0) = None ->
          computer_name (m_enroll m') = Some name ->
          computer_sam (m_enroll m') = Some (_adcli_str_up name ++ "$")).
Proof.
  intros W X fuel flags m0. split; [| split].
  - intros r m' E. apply (prepare_sets_sam X _ _ _ _ _ E).
  - intros m' E. apply (join_keeps_sam W X _ _ _ _ E).
  - intros r m' name E H0 Hn.
    destruct (prepare_sets_sam X _ _ _ _ _ E) as (Hs & Hu).
    rewrite (Hu H0 name Hn). unfold sam_follows_name in Hs.
    rewrite Hs, Hn. reflexivity.
Qed.

Lemma sam_name_follows_computer_name_witness :
  computer_sam
    (m_enroll (final (adcli_enroll_prepare (small_realm plain_setup) 320 join_flags
                        (start adcli_enroll_new))))
  = Some (_adcli_str_up "HOST01" ++ "$").
Proof.
  apply (proj2 (proj2 (sam_name_follows_computer_name nat (small_realm plain_setup)
                         320%nat join_flags (start adcli_enroll_new)))
           ADCLI_SUCCESS).
  - vm_compute. reflexivity.
  - reflexivity.
  - vm_compute. reflexivity.
Defined.

(** The caller sets the computer name in lower case: parameter resolution
    succeeds and the SAM name is in lower case too, not the upper-cased
    name with a dollar sign. *)
Lemma lowercase_name_lowercase_sam :
  let m' := final (adcli_enroll_prepare (small_realm plain_setup) 320 join_flags
                     (start (adcli_enroll_set_computer_name (Some "host01")
                               adcli_enroll_new))) in
  result_of (adcli_enroll_prepare (small_realm plain_setup) 320 join_flags
               (start (adcli_enroll_set_computer_name (Some "host01")
                         adcli_enroll_new)))
  = Some ADCLI_SUCCESS
  /\ computer_name (m_enroll m') = Some "host01"
  /\ computer_sam (m_enroll m') = Some "host01$"
  /\ _adcli_str_up "host01" ++ "$" = "HOST01$"
  /\ computer_sam (m_enroll m') <> Some (_adcli_str_up "host01" ++ "$").
Proof. vm_compute. repeat split; try reflexivity. discriminate. Qed.

(** ** The clearing pass and the entries installed *)

Lemma wrap_succ_differs (k : krb5_kvno) : wrap_kvno (k + 1) <> k.
Proof.
  unfold wrap_kvno, kvno_modulus. change (2 ^ 32) with 4294967296. intros H.
  pose proof (Z.mod_pos_bound (k + 1) 4294967296 ltac:(lia)) as Hb.
  rewrite H in Hb.
  destruct (Z.eq_dec (k + 1) 4294967296) as [E | E].
  - rewrite E, Z.mod_same in H by lia. lia.
  - rewrite Z.mod_small in H by lia. lia.
Qed.

Lemma match_principal_and_kvno_cleared entry closure :
  fst (match_principal_and_kvno entry closure)
  = cleared (closure_kvno closure) (closure_principal closure) entry
  /\ closure_kvno (snd (match_principal_and_kvno entry closure))
     = closure_kvno closure
  /\ closure_principal (snd (match_principal_and_kvno entry closure))
     = closure_principal closure.
Proof.
  unfold match_principal_and_kvno, cleared, entry_of_principal,
    krb5_principal_compare.
  destruct (wrap_kvno (kte_vno entry + 1) =? closure_kvno closure); cbn.
  - auto.
  - destruct (krb5_principal_eq_dec (kte_principal entry)
                (closure_principal closure)); cbn; auto.
Qed.

(** The clearing pass removes exactly the entries of the principal whose
    version plus one is not the new version, and keeps the others in
    order. *)
Lemma keytab_clear_scan_filter entries :
  forall closure,
    fst (fst (keytab_clear_scan entries closure))
    = filter (fun entry => negb (cleared (closure_kvno closure)
                                   (closure_principal closure) entry)) entries
    /\ snd (fst (keytab_clear_scan entries closure))
       = filter (cleared (closure_kvno closure) (closure_principal closure)) entries.
Proof.
  induction entries as [| entry rest IH]; intros closure; cbn [keytab_clear_scan].
  - split; reflexivity.
  - destruct (match_principal_and_kvno_cleared entry closure) as (H1 & H2 & H3).
    destruct (match_principal_and_kvno entry closure) as [hit closure1].
    cbn [fst snd] in H1, H2, H3.
    destruct (IH closure1) as (K1 & K2). rewrite H2, H3 in K1, K2.
    destruct (keytab_clear_scan rest closure1) as [[kept removed] closure2].
    cbn [fst snd] in K1, K2. cbn [filter]. rewrite <- H1.
    destruct hit; cbn [fst snd negb]; split; congruence.
Qed.

Lemma entry_of_principal_true p entry :
  entry_of_principal p entry = true <-> kte_principal entry = p.
Proof.
  unfold entry_of_principal.
  destruct (krb5_principal_eq_dec (kte_principal entry) p); split;
    congruence.
Qed.

Lemma entry_of_true p k entry :
  entry_of p k entry = true <-> kte_principal entry = p /\ kte_vno entry = k.
Proof.
  unfold entry_of. rewrite andb_true_iff, Z.eqb_eq.
  destruct (krb5_principal_eq_dec (kte_principal entry) p); split;
    intros []; split; congruence.
Qed.

Lemma filter_nothing A (f : A -> bool) (l : list A) :
  (forall x, In x l -> f x = false) -> filter f l = [].
Proof.
  induction l as [| x l IH]; intros H; simpl.
  - reflexivity.
  - rewrite (H x (or_introl eq_refl)). apply IH. intros y Hy. apply H. right. exact Hy.
Qed.

Lemma filter_everything A (f : A -> bool) (l : list A) :
  (forall x, In x l -> f x = true) -> filter f l = l.
Proof.
  induction l as [| x l IH]; intros H; simpl.
  - reflexivity.
  - rewrite (H x (or_introl eq_refl)). f_equal. apply IH. intros y Hy. apply H.
    right. exact Hy.
Qed.

Lemma filter_filter_same A (f g : A -> bool) (l : list A) :
  (forall x, In x l -> f x = true -> g x = true) ->
  filter f (filter g l) = filter f l.
Proof.
  induction l as [| x l IH]; intros H; simpl.
  - reflexivity.
  - destruct (g x) eqn:G; simpl.
    + destruct (f x); [f_equal |]; apply IH; intros y Hy; apply H; right; exact Hy.
    + destruct (f x) eqn:F.
      * rewrite (H x (or_introl eq_refl) F) in G. discriminate.
      * apply IH. intros y Hy. apply H. right. exact Hy.
Qed.

Section Rounds.

Context {W : Type} (X : externals W) (e : adcli_enroll) (i : Z).

Lemma keytab_round_settles p entries :
  settled X e i p (keytab_round X e i entries p).
Proof.
  unfold settled, keytab_round. split.
  - rewrite filter_app.
    rewrite filter_nothing, filter_everything; [reflexivity | |].
    + intros entry Hin. apply keytab_entries_for_vno in Hin.
      apply entry_of_true. tauto.
    + intros entry Hin. apply filter_In in Hin. destruct Hin as (_ & Hc).
      destruct (entry_of p (kvno e) entry) eqn:E; [| reflexivity].
      apply entry_of_true in E. destruct E as (Ep & Ev).
      unfold cleared in Hc. rewrite Ev in Hc.
      assert (entry_of_principal p entry = true) as Hp
          by (apply entry_of_principal_true; exact Ep).
      rewrite Hp, andb_true_r, negb_involutive in Hc.
      apply Z.eqb_eq in Hc. elim (wrap_succ_differs (kvno e)). exact Hc.
  - intros entry Hin Hp. apply in_app_or in Hin. destruct Hin as [Hin | Hin].
    + apply filter_In in Hin. destruct Hin as (_ & Hc). right.
      unfold cleared in Hc.
      assert (entry_of_principal p entry = true) as Hp'
          by (apply entry_of_principal_true; exact Hp).
      rewrite Hp', andb_true_r, negb_involutive in Hc.
      apply Z.eqb_eq in Hc. exact Hc.
    + apply keytab_entries_for_vno in Hin. left. tauto.
Qed.

Lemma keytab_round_keeps_settled p q entries :
  q <> p -> settled X e i p entries -> settled X e i p (keytab_round X e i entries q).
Proof.
  intros Hqp (H1 & H2). unfold settled, keytab_round. split.
  - rewrite filter_app.
    rewrite (filter_nothing _ _ (keytab_entries_for _ _ _ _ _ _)).
    + rewrite app_nil_r, filter_filter_same; [exact H1 |].
      intros entry _ E. apply entry_of_true in E. destruct E as (Ep & _).
      unfold cleared.
      assert (entry_of_principal q entry = false) as ->.
      { destruct (entry_of_principal q entry) eqn:Eq; [| reflexivity].
        apply entry_of_principal_true in Eq. congruence. }
      rewrite andb_false_r. reflexivity.
    + intros entry Hin. apply keytab_entries_for_vno in Hin.
      destruct (entry_of p (kvno e) entry) eqn:E; [| reflexivity].
      apply entry_of_true in E. destruct Hin, E. congruence.
  - intros entry Hin Hp. apply in_app_or in Hin. destruct Hin as [Hin | Hin].
    + apply filter_In in Hin. apply H2; tauto.
    + apply keytab_entries_for_vno in Hin. destruct Hin. congruence.
Qed.

(** After the rounds of a list of principals, each of them is settled. *)
Lemma keytab_rounds_settle principals :
  forall entries p,
    In p principals ->
    settled X e i p (fold_left (keytab_round X e i) principals entries).
Proof.
  induction principals as [| q rest IH] using rev_ind; intros entries p Hin.
  - destruct Hin.
  - rewrite fold_left_app. cbn [fold_left].
    destruct (krb5_principal_eq_dec q p) as [-> | Hqp].
    + apply keytab_round_settles.
    + apply keytab_round_keeps_settled; [exact Hqp |].
      apply IH. apply in_app_or in Hin. destruct Hin as [Hin | [Hin | []]].
      * exact Hin.
      * congruence.
Qed.

End Rounds.

(** ** The keytab after the update *)

Section KeytabUpdate.

Context {W : Type} (X : externals W).

Lemma same_store_logs (m : machine W) vno :
  logs_keytab vno (same_store m).
Proof. intros ev _ m1 w H. exact H. Qed.

Lemma _adcli_krb5_keytab_clear_done name closure (m : machine W) code closure' m' :
  _adcli_krb5_keytab_clear X name closure m = Done (code, closure') m' ->
  code = 0 ->
  rewritten name
    (filter (fun entry => negb (cleared (closure_kvno closure)
                                  (closure_principal closure) entry))
       (m_keytabs m name)) m m'.
Proof.
  unfold _adcli_krb5_keytab_clear, bind, read_keytab.
  destruct (keytab_clear_scan_filter (m_keytabs m name) closure) as (K1 & _).
  destruct (keytab_clear_scan (m_keytabs m name) closure) as [[kept removed] cl].
  cbn [fst snd] in K1. unfold call.
  destruct (x_keytab_io X (m_world m)) as [c w].
  destruct (c =? 0) eqn:Ec.
  - unfold write_keytab, ret. intros H _. inversion H. subst.
    split; [reflexivity |]. intros n. cbn. reflexivity.
  - unfold ret. intros H Hc. inversion H. subst. discriminate Ec.
Qed.

Lemma _adcli_krb5_keytab_discover_salt_store p vno password enctypes salts ws
    (m : machine W) r m' :
  _adcli_krb5_keytab_discover_salt X p vno password enctypes salts ws m = Done r m' ->
  same_store m m'.
Proof.
  intros E.
  exact (keeps_done _ _ _ _ _ _
           (_adcli_krb5_keytab_discover_salt_keeps W X (same_store m) 0 p vno password
              enctypes salts ws (same_store_logs m 0))
           (conj eq_refl eq_refl) E).
Qed.

Lemma _adcli_krb5_keytab_add_entries_done name p vno password enctypes salt
    (m : machine W) code m' :
  _adcli_krb5_keytab_add_entries X name p vno password enctypes salt m = Done code m' ->
  code = 0 ->
  rewritten name
    (m_keytabs m name ++ keytab_entries_for X p vno password enctypes salt) m m'.
Proof.
  unfold _adcli_krb5_keytab_add_entries, bind, call.
  destruct (x_keytab_io X (m_world m)) as [c w].
  destruct (c =? 0) eqn:Ec.
  - unfold read_keytab, write_keytab, ret. intros H _. inversion H. subst.
    split; [reflexivity |]. intros n. cbn. reflexivity.
  - unfold ret. intros H Hc. inversion H. subst. discriminate Ec.
Qed.

(** A round that succeeds: the index is not negative, it is the one given
    if that was not negative, and the keytab has gone through the round. *)
Lemma add_principal_to_keytab_done p ws (m : machine W) ws' m' :
  add_principal_to_keytab X p ws m = Done (ADCLI_SUCCESS, ws') m' ->
  0 <= ws'
  /\ (0 <= ws -> ws' = ws)
  /\ exists kt,
      keytab (m_enroll m) = Some kt
      /\ rewritten kt (keytab_round X (m_enroll m) ws' (m_keytabs m kt) p) m m'.
Proof.
  unfold add_principal_to_keytab. unfold bind at 1. unfold get_enroll.
  destruct (keytab (m_enroll m)) as [kt |] eqn:Ekt; [| discriminate].
  intros E. apply bind_done in E. destruct E as ([code cl] & m1 & Eclear & E).
  cbn [fst] in E.
  destruct (code =? 0) eqn:Ec; cbn [negb] in E; [| inversion E].
  apply Z.eqb_eq in Ec.
  pose proof (_adcli_krb5_keytab_clear_done _ _ _ _ _ _ Eclear Ec) as (He1 & Hk1).
  cbn [closure_kvno closure_principal] in Hk1.
  destruct (computer_password (m_enroll m)) as [password |] eqn:Epw;
    [| discriminate].
  destruct (build_principal_salts X (m_enroll m) p) as [salts |] eqn:Es;
    [| inversion E].
  apply bind_done in E. destruct E as ([dcode i] & m2 & Edisc & E).
  cbn [fst snd] in E.
  destruct (dcode =? 0) eqn:Ed; cbn [negb] in E; [| inversion E].
  apply bind_done in E. destruct E as (u & m3 & Eassert & E).
  unfold c_assert in Eassert.
  destruct (0 <=? i) eqn:Ei; [| discriminate].
  inversion Eassert. subst m3. clear Eassert.
  apply bind_done in E. destruct E as (acode & m4 & Eadd & E).
  destruct (acode =? 0) eqn:Ea; cbn [negb] in E; [| inversion E].
  inversion E. subst. clear E. apply Z.eqb_eq in Ea.
  pose proof (_adcli_krb5_keytab_add_entries_done _ _ _ _ _ _ _ _ _ Eadd Ea)
    as (He3 & Hk3).
  assert (same_store m1 m2 /\ (0 <= ws -> ws' = ws)) as ((He2 & Hk2) & Hws).
  { destruct (ws <? 0) eqn:Ew.
    - split; [eapply _adcli_krb5_keytab_discover_salt_store, Edisc |].
      intros H. apply Z.ltb_lt in Ew. lia.
    - inversion Edisc. subst. split; [split; reflexivity | reflexivity]. }
  split; [apply Z.leb_le, Ei |]. split; [exact Hws |].
  exists kt. split; [reflexivity |]. split; [congruence |].
  intros n. rewrite Hk3, Hk2.
  destruct (String.eqb n kt) eqn:En; [| rewrite Hk1, En; reflexivity].
  rewrite Hk1, String.eqb_refl. unfold keytab_round, selected_salt.
  rewrite Epw, Es. reflexivity.
Qed.

Lemma rewritten_twice kt entries1 entries2 (m m1 m2 : machine W) :
  rewritten kt entries1 m m1 -> rewritten kt entries2 m1 m2 ->
  rewritten kt entries2 m m2.
Proof.
  intros (He1 & Hk1) (He2 & Hk2). split; [congruence |].
  intros n. rewrite Hk2.
  destruct (String.eqb n kt) eqn:En; [reflexivity | rewrite Hk1, En; reflexivity].
Qed.

Lemma rewritten_read kt entries (m m' : machine W) :
  rewritten kt entries m m' -> m_keytabs m' kt = entries.
Proof. intros (_ & Hk). rewrite Hk, String.eqb_refl. reflexivity. Qed.

(** The rounds that follow the discovery all take the index discovered. *)
Lemma update_keytab_loop_done principals :
  forall ws (m m' : machine W) kt,
    update_keytab_loop X principals ws m = Done ADCLI_SUCCESS m' ->
    0 <= ws ->
    keytab (m_enroll m) = Some kt ->
    m_enroll m' = m_enroll m
    /\ m_keytabs m' kt
       = fold_left (keytab_round X (m_enroll m) ws) principals (m_keytabs m kt).
Proof.
  induction principals as [| p rest IH]; intros ws m m' kt E Hws Hkt;
    cbn [update_keytab_loop fold_left] in *.
  - inversion E. subst. auto.
  - apply bind_done in E. destruct E as ([r ws'] & m1 & Eadd & E).
    cbn [fst snd] in E. destruct r; cbn [failed] in E; try (inversion E; fail).
    destruct (add_principal_to_keytab_done _ _ _ _ _ Eadd)
      as (_ & Hsame & kt' & Hkt' & Hrw).
    rewrite Hkt in Hkt'. inversion Hkt'. subst kt'.
    rewrite (Hsame Hws) in *.
    destruct Hrw as (He & Hk).
    destruct (IH ws m1 m' kt E Hws) as (He' & Hk').
    { rewrite He. exact Hkt. }
    split; [congruence |].
    rewrite Hk', He, Hk, String.eqb_refl. reflexivity.
Qed.

(** The keytab update as a whole, when it succeeds: one index for all the
    principals. *)
Lemma update_keytab_for_principals_done (m m' : machine W) :
  update_keytab_for_principals X m = Done ADCLI_SUCCESS m' ->
  m_enroll m' = m_enroll m
  /\ forall principals,
      keytab_principals (m_enroll m) = Some principals ->
      principals <> [] ->
      exists kt i,
        keytab (m_enroll m) = Some kt
        /\ 0 <= i
        /\ m_keytabs m' kt
           = fold_left (keytab_round X (m_enroll m) i) principals (m_keytabs m kt).
Proof.
  unfold update_keytab_for_principals. unfold bind at 1. unfold get_enroll.
  destruct (keytab_principals (m_enroll m)) as [principals |]; [| discriminate].
  unfold bind, ask. destruct (x_conn_krb5_context X (m_world m)); cbn [negb];
    [| discriminate].
  destruct principals as [| p rest].
  - cbn. intros E. inversion E. subst. split; [reflexivity |].
    intros principals H Hne. inversion H. subst. congruence.
  - cbn [update_keytab_loop]. intros E.
    apply bind_done in E. destruct E as ([r ws'] & m1 & Eadd & E).
    cbn [fst snd] in E. destruct r; cbn [failed] in E; try (inversion E; fail).
    destruct (add_principal_to_keytab_done _ _ _ _ _ Eadd)
      as (Hws & _ & kt & Hkt & He & Hk).
    destruct (update_keytab_loop_done rest ws' m1 m' kt E Hws) as (He' & Hk').
    { rewrite He. exact Hkt. }
    split; [congruence |].
    intros principals H _. inversion H. subst.
    exists kt, ws'. split; [exact Hkt |]. split; [exact Hws |].
    cbn [fold_left]. rewrite Hk', He, Hk, String.eqb_refl. reflexivity.
Qed.

End KeytabUpdate.

Lemma join_ends_with_keytab_update W (X : externals W) fuel flags
    (m0 m' : machine W) :
  ADCLI_ENROLL_NO_KEYTAB flags = false ->
  adcli_enroll_join X fuel flags m0 = Done ADCLI_SUCCESS m' ->
  exists m5, update_keytab_for_principals X m5 = Done ADCLI_SUCCESS m'.
Proof.
  intros Hflag. unfold adcli_enroll_join. intros E.
  apply bind_done in E. destruct E as (u & m1 & _ & E).
  apply bind_done in E. destruct E as (r1 & m2 & _ & E).
  destruct (failed r1) eqn:F1; [inversion E; subst; discriminate F1 |].
  apply bind_done in E. destruct E as (r2 & m3 & _ & E).
  destruct (failed r2) eqn:F2; [inversion E; subst; discriminate F2 |].
  apply bind_done in E. destruct E as (r3 & m4 & _ & E).
  destruct (failed r3) eqn:F3; [inversion E; subst; discriminate F3 |].
  apply bind_done in E. destruct E as (r4 & m5 & _ & E).
  destruct (failed r4) eqn:F4; [inversion E; subst; discriminate F4 |].
  unfold join_computer_account in E.
  apply bind_done in E. destruct E as (r5 & m6 & _ & E).
  destruct (failed r5) eqn:F5; [inversion E; subst; discriminate F5 |].
  apply bind_done in E. destruct E as (r6 & m7 & _ & E).
  destruct (failed r6) eqn:F6; [inversion E; subst; discriminate F6 |].
  apply bind_done in E. destruct E as (r7 & m8 & _ & E).
  destruct (failed r7) eqn:F7; [inversion E; subst; discriminate F7 |].
  apply bind_done in E. destruct E as (r8 & m9 & _ & E).
  apply bind_done in E. destruct E as (r9 & m10 & _ & E).
  apply bind_done in E. destruct E as (r10 & m11 & _ & E).
  rewrite Hflag in E. exists m11. exact E.
Qed.

Lemma keytab_entries_for_enctypes W (X : externals W) p vno password enctypes salt :
  map kte_enctype (keytab_entries_for X p vno password enctypes salt) = enctypes.
Proof.
  unfold keytab_entries_for. rewrite map_map. cbn [kte_enctype]. apply map_id.
Qed.

Lemma settled_not_older W (X : externals W) e i p entries entry :
  settled X e i p entries ->
  In entry entries -> kte_principal entry = p ->
  0 <= kte_vno entry -> ~ kte_vno entry < kvno e - 1.
Proof.
  intros (_ & H) Hin Hp H0 Hlt.
  destruct (H entry Hin Hp) as [Hk | Hk]; [lia |].
  unfold wrap_kvno, kvno_modulus in Hk.
  pose proof (Z.mod_le (kte_vno entry + 1) (2 ^ 32) ltac:(lia) ltac:(lia)).
  lia.
Qed.

(** C2.  After a join that succeeded without NO_KEYTAB, for every principal
    of the context the entries of the keytab for that principal at the
    kvno of the context are exactly the ones installed, one for each
    enabled enctype in the order of the list; every other entry of the
    principal is one version behind, so that none is older than kvno - 1.
    The clearing pass removes exactly the entries whose principal matches
    and whose version plus one (on 32 bits) is not the kvno, and keeps the
    entries one version behind. *)
Theorem join_keytab_entries :
  forall W (X : externals W) (fuel : nat) (flags : adcli_enroll_flags)
         (m0 m' : machine W),
    ADCLI_ENROLL_NO_KEYTAB flags = false ->
    adcli_enroll_join X fuel flags m0 = Done ADCLI_SUCCESS m' ->
    (forall principals p,
        keytab_principals (m_enroll m') = Some principals ->
        In p principals ->
        exists kt i,
          keytab (m_enroll m') = Some kt
          /\ 0 <= i
          /\ filter (entry_of p (kvno (m_enroll m'))) (m_keytabs m' kt)
             = keytab_entries_for X p (kvno (m_enroll m'))
                 (match computer_password (m_enroll m') with
                  | Some pw => pw
                  | None => ""
                  end)
                 (adcli_enroll_get_keytab_enctypes (m_enroll m'))
                 (selected_salt X (m_enroll m') p i)
          /\ map kte_enctype
               (filter (entry_of p (kvno (m_enroll m'))) (m_keytabs m' kt))
             = adcli_enroll_get_keytab_enctypes (m_enroll m')
          /\ (forall entry,
                 In entry (m_keytabs m' kt) -> kte_principal entry = p ->
                 kte_vno entry = kvno (m_enroll m')
                 \/ wrap_kvno (kte_vno entry + 1) = kvno (m_enroll m'))
          /\ (forall entry,
                 In entry (m_keytabs m' kt) -> kte_principal entry = p ->
                 0 <= kte_vno entry ->
                 ~ kte_vno entry < kvno (m_enroll m') - 1))
    /\ (forall entries closure,
           fst (fst (keytab_clear_scan entries closure))
           = filter (fun entry => negb (cleared (closure_kvno closure)
                                          (closure_principal closure) entry))
               entries
           /\ snd (fst (keytab_clear_scan entries closure))
              = filter (cleared (closure_kvno closure) (closure_principal closure))
                  entries)
    /\ (forall entries closure entry,
           In entry entries ->
           wrap_kvno (kte_vno entry + 1) = closure_kvno closure ->
           In entry (fst (fst (keytab_clear_scan entries closure)))).
Proof.
  intros W X fuel flags m0 m' Hflag E. split; [| split].
  - intros principals p Hps Hin.
    destruct (join_ends_with_keytab_update W X fuel flags m0 m' Hflag E)
      as (m5 & E5).
    destruct (update_keytab_for_principals_done X m5 m' E5) as (He & Hall).
    rewrite He in *.
    destruct (Hall principals Hps) as (kt & i & Hkt & Hi & Hk).
    { intros ->. destruct Hin. }
    exists kt, i. split; [exact Hkt |]. split; [exact Hi |].
    pose proof (keytab_rounds_settle X (m_enroll m5) i principals
                  (m_keytabs m5 kt) p Hin) as Hs.
    rewrite <- Hk in Hs.
    split; [apply Hs |].
    split; [rewrite (proj1 Hs); apply keytab_entries_for_enctypes |].
    split; [apply Hs |].
    intros entry. apply (settled_not_older W X _ _ _ _ entry Hs).
  - intros entries closure. apply keytab_clear_scan_filter.
  - intros entries closure entry Hin Hw.
    destruct (keytab_clear_scan_filter entries closure) as (-> & _).
    apply filter_In. split; [exact Hin |].
    unfold cleared. rewrite Hw, Z.eqb_refl. reflexivity.
Qed.

Lemma join_keytab_entries_witness :
  let X := small_realm plain_setup in
  let m' := final (adcli_enroll_join X 320 join_flags (start adcli_enroll_new)) in
  let p := {| princ_realm := "CORP.EXAMPLE.COM"; princ_components := ["HOST01$"] |} in
  exists kt i,
    keytab (m_enroll m') = Some kt
    /\ 0 <= i
    /\ filter (entry_of p (kvno (m_enroll m'))) (m_keytabs m' kt)
       = keytab_entries_for X p (kvno (m_enroll m'))
           (match computer_password (m_enroll m') with
            | Some pw => pw
            | None => ""
            end)
           (adcli_enroll_get_keytab_enctypes (m_enroll m'))
           (selected_salt X (m_enroll m') p i)
    /\ map kte_enctype
         (filter (entry_of p (kvno (m_enroll m'))) (m_keytabs m' kt))
       = adcli_enroll_get_keytab_enctypes (m_enroll m')
    /\ (forall entry,
           In entry (m_keytabs m' kt) -> kte_principal entry = p ->
           kte_vno entry = kvno (m_enroll m')
           \/ wrap_kvno (kte_vno entry + 1) = kvno (m_enroll m'))
    /\ (forall entry,
           In entry (m_keytabs m' kt) -> kte_principal entry = p ->
           0 <= kte_vno entry ->
           ~ kte_vno entry < kvno (m_enroll m') - 1).
Proof.
  apply (proj1 (join_keytab_entries nat (small_realm plain_setup) 320%nat join_flags
                  (start adcli_enroll_new)
                  (final (adcli_enroll_join (small_realm plain_setup) 320 join_flags
                            (start adcli_enroll_new)))
                  eq_refl
                  ltac:(vm_compute; reflexivity))
           (match keytab_principals
                    (m_enroll (final (adcli_enroll_join (small_realm plain_setup) 320
                                        join_flags (start adcli_enroll_new))))
            with
            | Some l => l
            | None => []
            end)).
  - vm_compute. reflexivity.
  - vm_compute. left. reflexivity.
Defined.

(** A keytab that already holds entries of the computer principal at the
    versions 0, 1, 2 and 7 and an entry of a stranger: after the join at
    kvno 2 the computer principal has its entry of version 1 and the six
    new ones of version 2, and the stranger's entry is still there. *)
Example stale_entries_are_cleared :
  let host := {| princ_realm := "CORP.EXAMPLE.COM"; princ_components := ["HOST01$"] |} in
  let stranger := {| princ_realm := "CORP.EXAMPLE.COM"; princ_components := ["nfs"; "other"] |} in
  let old p v := {| kte_principal := p; kte_vno := v; kte_enctype := 18;
                    kte_key := "old" |} in
  let m0 := {| m_enroll := adcli_enroll_new; m_world := O;
               m_keytabs := fun _ => [old host 0; old host 1; old stranger 5;
                                      old host 2; old host 7];
               m_trace := [] |} in
  let m' := final (adcli_enroll_join (small_realm plain_setup) 320 join_flags m0) in
  map kte_vno (filter (entry_of_principal host)
                 (m_keytabs m' "FILE:/etc/krb5.keytab"))
  = [1; 2; 2; 2; 2; 2; 2]
  /\ map kte_vno (filter (entry_of_principal stranger)
                    (m_keytabs m' "FILE:/etc/krb5.keytab"))
     = [5].
Proof. vm_compute. split; reflexivity. Qed.

(** ** Salt discovery *)

Section Discovery.

Context {W : Type} (X : externals W).

Variables (p : krb5_principal) (vno : krb5_kvno) (password : string).

Let rejected := probe_event X p vno password false.
Let accepted := probe_event X p vno password true.

(** One candidate: the enctypes are tried in order up to the first one
    accepted. *)
Lemma probe_salt_done (i : Z) (salt : krb5_data) (enctypes : list krb5_enctype) :
  forall (m : machine W) ok m',
    probe_salt X p vno password salt enctypes m = Done ok m' ->
    (ok = false
     /\ m_trace m'
        = (m_trace m
           ++ map rejected (map (fun enctype => (i, salt, enctype)) enctypes))%list)
    \/ (ok = true
        /\ exists before enctype after,
            enctypes = (before ++ enctype :: after)%list
            /\ m_trace m'
               = (m_trace m
                  ++ map rejected (map (fun enctype => (i, salt, enctype)) before)
                  ++ [accepted (i, salt, enctype)])%list).
Proof.
  induction enctypes as [| enctype rest IH]; intros m ok m' E;
    cbn [probe_salt] in E.
  - inversion E. subst. left. split; [reflexivity |]. cbn. rewrite app_nil_r.
    reflexivity.
  - unfold bind at 1 in E. unfold call in E.
    destruct (x_as_req X p vno enctype
                (x_krb5_c_string_to_key X enctype password salt) (m_world m))
      as [[|] w].
    + inversion E. subst. right. split; [reflexivity |].
      exists [], enctype, rest. split; reflexivity.
    + destruct (IH _ _ _ E) as [(-> & Ht) | (-> & before & enc & after & -> & Ht)].
      * left. split; [reflexivity |]. rewrite Ht. cbn. list_assoc.
      * right. split; [reflexivity |].
        exists (enctype :: before), enc, after. split; [reflexivity |].
        rewrite Ht. cbn. list_assoc.
Qed.

(** The candidates: probes follow the schedule, salt by salt and enctype by
    enctype, up to the first one accepted, whose salt is selected. *)
Lemma probe_salts_done (enctypes : list krb5_enctype) (salts : list krb5_data) :
  forall (i : Z) (m : machine W) r m',
    probe_salts X p vno password enctypes salts i m = Done r m' ->
    (r = None
     /\ m_trace m'
        = (m_trace m ++ map rejected (probe_schedule salts i enctypes))%list)
    \/ (exists before sel after,
           r = Some (fst (fst sel))
           /\ probe_schedule salts i enctypes = (before ++ sel :: after)%list
           /\ m_trace m'
              = (m_trace m ++ map rejected before ++ [accepted sel])%list).
Proof.
  induction salts as [| salt rest IH]; intros i m r m' E;
    cbn [probe_salts probe_schedule] in *.
  - inversion E. subst. left. split; [reflexivity |]. cbn. rewrite app_nil_r.
    reflexivity.
  - apply bind_done in E. destruct E as (ok & m1 & E1 & E).
    destruct (probe_salt_done i salt enctypes _ _ _ E1)
      as [(-> & Ht1) | (-> & before & enc & after & Henc & Ht1)].
    + destruct (IH _ _ _ _ E) as [(-> & Ht) | (before & sel & after & -> & Hs & Ht)].
      * left. split; [reflexivity |]. rewrite Ht, Ht1, map_app. list_assoc.
      * right.
        exists (map (fun enctype => (i, salt, enctype)) enctypes ++ before)%list,
          sel, after.
        split; [reflexivity |]. split; [rewrite Hs; list_assoc |].
        rewrite Ht, Ht1, map_app. list_assoc.
    + inversion E. subst. right.
      exists (map (fun enctype => (i, salt, enctype)) before), (i, salt, enc),
        (map (fun enctype => (i, salt, enctype)) after
         ++ probe_schedule rest (i + 1) (before ++ enc :: after))%list.
      split; [reflexivity |]. split; [| exact Ht1].
      rewrite map_app. cbn [map]. list_assoc.
Qed.

Lemma _adcli_krb5_keytab_discover_salt_done enctypes salts which_salt
    (m : machine W) code i m' :
  _adcli_krb5_keytab_discover_salt X p vno password enctypes salts which_salt m
  = Done (code, i) m' ->
  (code <> 0 /\ i = which_salt
   /\ m_trace m'
      = (m_trace m ++ EvDiscoverSalt p
           :: map rejected (probe_schedule salts 0 enctypes))%list)
  \/ (code = 0
      /\ exists before sel after,
          i = fst (fst sel)
          /\ probe_schedule salts 0 enctypes = (before ++ sel :: after)%list
          /\ m_trace m'
             = (m_trace m ++ EvDiscoverSalt p
                  :: map rejected before ++ [accepted sel])%list).
Proof.
  unfold _adcli_krb5_keytab_discover_salt. unfold bind at 1. unfold log.
  intros E. apply bind_done in E. destruct E as (r & m1 & E1 & E).
  destruct (probe_salts_done enctypes salts _ _ _ _ E1)
    as [(-> & Ht) | (before & sel & after & -> & Hs & Ht)];
    inversion E; subst; clear E.
  - left. split; [discriminate |]. split; [reflexivity |].
    rewrite Ht. cbn. list_assoc.
  - right. split; [reflexivity |]. exists before, sel, after.
    split; [reflexivity |]. split; [exact Hs |]. rewrite Ht. cbn. list_assoc.
Qed.

End Discovery.

(** The candidates are three, in this order: the canonical salt, the
    Windows 2003 salt, the null salt. *)
Lemma build_principal_salts_order W (X : externals W) e p salts :
  build_principal_salts X e p = Some salts ->
  exists canonical w2k3,
    x_krb5_principal2salt X p = Some canonical
    /\ x_krb5_w2k3_salt X p (computer_name e) = Some w2k3
    /\ salts = [canonical; w2k3; None].
Proof.
  unfold build_principal_salts.
  destruct (x_krb5_principal2salt X p) as [canonical |]; [| discriminate].
  destruct (x_krb5_w2k3_salt X p (computer_name e)) as [w2k3 |]; [| discriminate].
  intros H. inversion H. eauto.
Qed.

(** The index selected by a schedule is that of one of its salts. *)
Lemma probe_schedule_index salts enctypes :
  forall i sel,
    In sel (probe_schedule salts i enctypes) ->
    i <= fst (fst sel) < i + Z.of_nat (List.length salts)
    /\ snd (fst sel) = nth (Z.to_nat (fst (fst sel) - i)) salts None.
Proof.
  induction salts as [| salt rest IH]; intros i sel Hin; cbn [probe_schedule] in Hin.
  - destruct Hin.
  - apply in_app_or in Hin. destruct Hin as [Hin | Hin].
    + apply in_map_iff in Hin. destruct Hin as (enc & <- & _). cbn.
      rewrite Z.sub_diag. cbn. split; [lia | reflexivity].
    + destruct (IH _ _ Hin) as (Hr & Hs). cbn [List.length].
      split; [lia |]. rewrite Hs.
      replace (Z.to_nat (fst (fst sel) - i))
        with (S (Z.to_nat (fst (fst sel) - (i + 1)))) by lia.
      reflexivity.
Qed.

(** ** One discovery for all the principals *)

Section OneDiscovery.

Context {W : Type} (X : externals W).

Lemma unprobed_no_discovery (ev : event) :
  probed ev = None -> is_discovery ev = false.
Proof. destruct ev; simpl; intros H; try reflexivity; discriminate H. Qed.

Lemma probing_event tr0 p (count count' : nat -> Prop) (m : machine W) w ev :
  probing tr0 p count m ->
  probed ev = None \/ probed ev = Some p ->
  (forall n, count n -> count' (if is_discovery ev then S n else n)) ->
  probing tr0 p count' (after_call m w ev).
Proof.
  intros (evs & Ht & Hall & Hc) Hev Hcount.
  exists (evs ++ [ev])%list. cbn. rewrite Ht.
  split; [list_assoc |]. split.
  - apply Forall_app. split; [exact Hall |]. constructor; [exact Hev | constructor].
  - rewrite filter_app, length_app. cbn [filter].
    specialize (Hcount _ Hc).
    destruct (is_discovery ev); cbn [List.length].
    + rewrite Nat.add_1_r. exact Hcount.
    + rewrite Nat.add_0_r. exact Hcount.
Qed.

Lemma probing_logs_unprobed tr0 p count :
  logs_unprobed (probing (W := W) tr0 p count).
Proof.
  intros ev Hev m w Hm. eapply probing_event; [exact Hm | left; exact Hev |].
  intros n Hn. rewrite (unprobed_no_discovery ev Hev). exact Hn.
Qed.

Lemma probing_stable_keytab tr0 p count :
  stable_keytab (probing (W := W) tr0 p count).
Proof. intros m name entries H. exact H. Qed.

Lemma probing_weaken tr0 p (count count' : nat -> Prop) (m : machine W) :
  (forall n, count n -> count' n) ->
  probing tr0 p count m -> probing tr0 p count' m.
Proof.
  intros Hc (evs & Ht & Hall & Hn). exists evs. auto.
Qed.

Lemma _adcli_krb5_keytab_clear_unprobed P name closure :
  logs_unprobed P -> stable_keytab P ->
  keeps P (_adcli_krb5_keytab_clear X name closure).
Proof.
  intros Hl Hk. unfold _adcli_krb5_keytab_clear.
  repeat (cbv beta; first [ keeps_step | exact Hk | apply Hl; reflexivity ]).
Qed.

Lemma _adcli_krb5_keytab_add_entries_unprobed P name q vno password enctypes salt :
  logs_unprobed P -> stable_keytab P ->
  keeps P (_adcli_krb5_keytab_add_entries X name q vno password enctypes salt).
Proof.
  intros Hl Hk. unfold _adcli_krb5_keytab_add_entries.
  repeat (cbv beta; first [ keeps_step | exact Hk | apply Hl; reflexivity ]).
Qed.

Lemma probe_salts_probing P p vno password enctypes salts :
  (forall enctype key ok, stable_event P (EvAsReq p vno enctype key ok)) ->
  forall i, keeps P (probe_salts X p vno password enctypes salts i).
Proof.
  intros Hl.
  assert (forall salt, keeps P (probe_salt X p vno password salt enctypes)) as Hs.
  { intros salt. induction enctypes as [| enctype rest IH]; cbn [probe_salt].
    - apply keeps_ret.
    - apply keeps_bind; [apply keeps_call; intros; apply Hl |].
      intros [|]; [apply keeps_ret | exact IH]. }
  induction salts as [| salt rest IH]; intros i; cbn [probe_salts].
  - apply keeps_ret.
  - apply keeps_bind; [apply Hs |]. intros [|]; [apply keeps_ret | apply IH].
Qed.

(** A round that is given an index does not probe, hands the index on, and
    has no discovery to fail. *)
Lemma add_principal_to_keytab_given P q ws :
  0 <= ws -> logs_unprobed P -> stable_keytab P ->
  triple P (add_principal_to_keytab X q ws)
    (fun r m => P m /\ snd r = ws /\ fst r <> ADCLI_ERR_DIRECTORY) P.
Proof.
  intros Hws Hl Hk m Hm. unfold add_principal_to_keytab.
  unfold bind at 1. unfold get_enroll.
  destruct (keytab (m_enroll m)) as [kt |]; [| exact Hm].
  unfold bind at 1.
  pose proof (_adcli_krb5_keytab_clear_unprobed P kt
                {| closure_kvno := kvno (m_enroll m); closure_principal := q;
                   closure_matched := false |} Hl Hk m Hm) as H1.
  destruct (_adcli_krb5_keytab_clear X kt _ m) as [r m1 | m1 | m1];
    try exact H1.
  destruct (negb (fst r =? 0));
    [split; [exact H1 | split; [reflexivity | discriminate]] |].
  destruct (computer_password (m_enroll m)) as [password |]; [| exact H1].
  destruct (build_principal_salts X (m_enroll m) q) as [salts |];
    [| split; [exact H1 | split; [reflexivity | discriminate]]].
  assert ((ws <? 0) = false) as -> by (apply Z.ltb_ge; exact Hws).
  unfold bind at 1. cbn [ret fst snd Z.eqb negb].
  unfold bind at 1. unfold c_assert.
  assert ((0 <=? ws) = true) as -> by (apply Z.leb_le; exact Hws).
  cbn [ret]. unfold bind.
  pose proof (_adcli_krb5_keytab_add_entries_unprobed P kt q (kvno (m_enroll m))
                password (adcli_enroll_get_keytab_enctypes (m_enroll m))
                (nth (Z.to_nat ws) salts None) Hl Hk m1 H1) as H2.
  destruct (_adcli_krb5_keytab_add_entries X kt q _ _ _ _ m1) as [code m2 | m2 | m2];
    try exact H2.
  destruct (negb (code =? 0)); cbn [ret fst snd];
    (split; [exact H2 | split; [reflexivity | discriminate]]).
Qed.

Lemma update_keytab_loop_given P principals :
  logs_unprobed P -> stable_keytab P ->
  forall ws, 0 <= ws ->
    triple P (update_keytab_loop X principals ws)
      (fun r m => P m /\ r <> ADCLI_ERR_DIRECTORY) P.
Proof.
  intros Hl Hk. induction principals as [| q rest IH]; intros ws Hws;
    cbn [update_keytab_loop].
  - apply triple_ret. intros m Hm. split; [exact Hm | discriminate].
  - eapply triple_bind; [apply add_principal_to_keytab_given; assumption |].
    intros [r ws']. cbn [fst snd].
    destruct (failed r).
    + apply triple_ret. intros m (Hm & _ & Hr). auto.
    + intros m (Hm & -> & _). apply (IH ws Hws m Hm).
Qed.

(** The first round: no discovery has started when it begins; it starts
    at most one, for its own principal, and exactly one if it succeeds. *)
Lemma add_principal_to_keytab_first tr0 p ws :
  ws < 0 ->
  triple (probing tr0 p (eq O)) (add_principal_to_keytab X p ws)
    (fun r m => if failed (fst r) then probing tr0 p (fun n => (n <= 1)%nat) m
                else probing tr0 p (eq 1%nat) m /\ 0 <= snd r)
    (probing tr0 p (fun n => (n <= 1)%nat)).
Proof.
  intros Hws m Hm.
  assert (forall m1 : machine W,
             probing tr0 p (eq O) m1 -> probing tr0 p (fun n => (n <= 1)%nat) m1)
    as Hweak0 by (intros m1; apply probing_weaken; intros n <-; lia).
  assert (forall m1 : machine W,
             probing tr0 p (eq 1%nat) m1 -> probing tr0 p (fun n => (n <= 1)%nat) m1)
    as Hweak1 by (intros m1; apply probing_weaken; intros n <-; lia).
  unfold add_principal_to_keytab. unfold bind at 1. unfold get_enroll.
  destruct (keytab (m_enroll m)) as [kt |]; [| apply Hweak0, Hm].
  unfold bind at 1.
  pose proof (_adcli_krb5_keytab_clear_unprobed (probing tr0 p (eq O)) kt
                {| closure_kvno := kvno (m_enroll m); closure_principal := p;
                   closure_matched := false |}
                (probing_logs_unprobed _ _ _) (probing_stable_keytab _ _ _) m Hm)
    as H1.
  destruct (_adcli_krb5_keytab_clear X kt _ m) as [r m1 | m1 | m1];
    try (apply Hweak0, H1).
  destruct (negb (fst r =? 0)); [apply Hweak0, H1 |].
  destruct (computer_password (m_enroll m)) as [password |]; [| apply Hweak0, H1].
  destruct (build_principal_salts X (m_enroll m) p) as [salts |];
    [| apply Hweak0, H1].
  assert ((ws <? 0) = true) as -> by (apply Z.ltb_lt; exact Hws).
  unfold bind at 1. unfold _adcli_krb5_keytab_discover_salt.
  unfold bind at 1. unfold log.
  assert (probing tr0 p (eq 1%nat) (after_call m1 (m_world m1) (EvDiscoverSalt p)))
    as H2.
  { eapply probing_event; [exact H1 | right; reflexivity |].
    intros n <-. reflexivity. }
  unfold bind at 1.
  pose proof (probe_salts_probing (probing tr0 p (eq 1%nat)) p (kvno (m_enroll m))
                password (adcli_enroll_get_keytab_enctypes (m_enroll m)) salts)
    as Hp.
  specialize (Hp ltac:(intros enctype key ok m2 w Hm2;
                        eapply probing_event;
                        [exact Hm2 | right; reflexivity | intros n Hn; exact Hn])
                0 _ H2).
  destruct (probe_salts X p _ password _ salts 0 _) as [sel m2 | m2 | m2];
    try (apply Hweak1, Hp).
  destruct sel as [i |]; cbn [ret fst snd Z.eqb negb KRB5KDC_ERR_PREAUTH_FAILED].
  2:{ apply Hweak1, Hp. }
  unfold bind at 1. unfold c_assert.
  destruct (0 <=? i) eqn:Ei; [| apply Hweak1, Hp].
  cbn [ret]. unfold bind.
  pose proof (_adcli_krb5_keytab_add_entries_unprobed (probing tr0 p (eq 1%nat)) kt p
                (kvno (m_enroll m)) password
                (adcli_enroll_get_keytab_enctypes (m_enroll m))
                (nth (Z.to_nat i) salts None)
                (probing_logs_unprobed _ _ _) (probing_stable_keytab _ _ _) m2 Hp)
    as H3.
  destruct (_adcli_krb5_keytab_add_entries X kt p _ _ _ _ m2) as [code m3 | m3 | m3];
    try (apply Hweak1, H3).
  destruct (negb (code =? 0)); cbn [ret fst snd failed].
  - apply Hweak1, H3.
  - split; [exact H3 | apply Z.leb_le, Ei].
Qed.

(** The loop started without an index: all the discovery events are about
    the first principal; at most one discovery starts, and exactly one when
    the loop succeeds. *)
Lemma update_keytab_loop_first tr0 p rest ws :
  ws < 0 ->
  triple (probing tr0 p (eq O)) (update_keytab_loop X (p :: rest) ws)
    (fun r m => if failed r then probing tr0 p (fun n => (n <= 1)%nat) m
                else probing tr0 p (eq 1%nat) m)
    (probing tr0 p (fun n => (n <= 1)%nat)).
Proof.
  intros Hws. cbn [update_keytab_loop].
  eapply triple_bind; [apply add_principal_to_keytab_first; exact Hws |].
  intros [r ws']. cbn [fst snd]. destruct (failed r) eqn:Er.
  - apply triple_ret. intros m Hm. rewrite Er. exact Hm.
  - intros m (Hm & Hws').
    pose proof (update_keytab_loop_given (probing tr0 p (eq 1%nat)) rest
                  (probing_logs_unprobed _ _ _) (probing_stable_keytab _ _ _)
                  ws' Hws' m Hm) as H.
    destruct (update_keytab_loop X rest ws' m) as [r2 m2 | m2 | m2];
      try (eapply probing_weaken; [| exact H]; intros n <-; lia).
    destruct H as (H & _).
    destruct (failed r2); [| exact H].
    eapply probing_weaken; [| exact H]. intros n <-. lia.
Qed.

End OneDiscovery.

(** ** What the log shows of the discovery *)

Section DiscoveryLog.

Context {W : Type} (X : externals W).

Lemma discovery_log_app l1 l2 :
  discovery_log (l1 ++ l2) = (discovery_log l1 ++ discovery_log l2)%list.
Proof. apply filter_app. Qed.

Lemma discovery_log_probes p vno password ok probes :
  discovery_log (map (probe_event X p vno password ok) probes)
  = map (probe_event X p vno password ok) probes.
Proof.
  induction probes as [| [[i salt] enctype] rest IH]; [reflexivity |].
  cbn [map]. unfold discovery_log in *. cbn [filter probe_event probed isSome].
  rewrite IH. reflexivity.
Qed.

Lemma discovery_log_unprobed ev :
  probed ev = None -> discovery_log [ev] = [].
Proof. intros H. unfold discovery_log. cbn [filter]. rewrite H. reflexivity. Qed.

Lemma discovery_logged_start (m : machine W) :
  discovery_logged (m_trace m) [] m.
Proof. exists []. split; [symmetry; apply app_nil_r | reflexivity]. Qed.

Lemma discovery_logged_extend tr0 l (m m' : machine W) evs :
  discovery_logged tr0 l m ->
  m_trace m' = (m_trace m ++ evs)%list ->
  discovery_logged tr0 (l ++ discovery_log evs) m'.
Proof.
  intros (evs0 & Ht & Hl) Ht'. exists (evs0 ++ evs)%list.
  split; [rewrite Ht', Ht; list_assoc |].
  rewrite discovery_log_app, Hl. reflexivity.
Qed.

Lemma discovery_logged_unprobed tr0 l :
  logs_unprobed (discovery_logged (W := W) tr0 l).
Proof.
  intros ev Hev m w Hm.
  pose proof (discovery_logged_extend tr0 l m (after_call m w ev) [ev] Hm eq_refl)
    as H.
  rewrite (discovery_log_unprobed ev Hev), app_nil_r in H. exact H.
Qed.

Lemma discovery_logged_keytab tr0 l :
  stable_keytab (discovery_logged (W := W) tr0 l).
Proof. intros m name entries H. exact H. Qed.

Lemma probing_start (m : machine W) p :
  probing (m_trace m) p (eq O) m.
Proof.
  exists []. split; [symmetry; apply app_nil_r |]. split; [constructor | reflexivity].
Qed.

(** The first round, when it returns. *)
Lemma add_principal_to_keytab_discovery p ws (m : machine W) r ws' m' :
  ws < 0 ->
  add_principal_to_keytab X p ws m = Done (r, ws') m' ->
  let e := m_enroll m in
  let enctypes := adcli_enroll_get_keytab_enctypes e in
  (discovery_logged (m_trace m) [] m'
   /\ (r = ADCLI_ERR_FAIL \/ r = ADCLI_ERR_UNEXPECTED))
  \/ exists password salts,
      computer_password e = Some password
      /\ build_principal_salts X e p = Some salts
      /\ ((r = ADCLI_ERR_DIRECTORY
           /\ discovery_logged (m_trace m)
                (EvDiscoverSalt p
                   :: map (probe_event X p (kvno e) password false)
                        (probe_schedule salts 0 enctypes)) m')
          \/ exists before sel after,
              probe_schedule salts 0 enctypes = (before ++ sel :: after)%list
              /\ ws' = fst (fst sel)
              /\ r <> ADCLI_ERR_DIRECTORY
              /\ discovery_logged (m_trace m)
                   (EvDiscoverSalt p
                      :: map (probe_event X p (kvno e) password false) before
                      ++ [probe_event X p (kvno e) password true sel])%list m').
Proof.
  intros Hws. unfold add_principal_to_keytab. unfold bind at 1. unfold get_enroll.
  destruct (keytab (m_enroll m)) as [kt |]; [| discriminate].
  intros E. apply bind_done in E. destruct E as ([code cl] & m1 & Eclear & E).
  pose proof (_adcli_krb5_keytab_clear_unprobed X (discovery_logged (m_trace m) []) kt
                {| closure_kvno := kvno (m_enroll m); closure_principal := p;
                   closure_matched := false |}
                (discovery_logged_unprobed _ _) (discovery_logged_keytab _ _)
                m (discovery_logged_start m)) as H1.
  rewrite Eclear in H1. cbn [fst] in E. cbv zeta.
  destruct (negb (code =? 0)).
  { inversion E. subst. left. split; [exact H1 | left; reflexivity]. }
  destruct (computer_password (m_enroll m)) as [password |]; [| discriminate].
  destruct (build_principal_salts X (m_enroll m) p) as [salts |].
  2:{ inversion E. subst. left. split; [exact H1 | right; reflexivity]. }
  assert ((ws <? 0) = true) as Hneg by (apply Z.ltb_lt; exact Hws).
  rewrite Hneg in E.
  apply bind_done in E. destruct E as ([dcode i] & m2 & Ed & E).
  right. exists password, salts. split; [reflexivity |]. split; [reflexivity |].
  destruct (_adcli_krb5_keytab_discover_salt_done X p (kvno (m_enroll m)) password
              _ _ _ _ _ _ _ Ed)
    as [(Hc & -> & Ht) | (-> & before & sel & after & -> & Hs & Ht)];
    cbn [fst snd] in E.
  - destruct (dcode =? 0) eqn:Ec; [apply Z.eqb_eq in Ec; contradiction |].
    cbn [negb] in E. inversion E. subst. left. split; [reflexivity |].
    pose proof (discovery_logged_extend _ _ _ _ _ H1 Ht) as H2.
    cbn [app] in H2. unfold discovery_log in H2. cbn [filter probed isSome] in H2.
    fold (discovery_log
            (map (probe_event X p (kvno (m_enroll m)) password false)
               (probe_schedule salts 0
                  (adcli_enroll_get_keytab_enctypes (m_enroll m))))) in H2.
    rewrite discovery_log_probes in H2. exact H2.
  - cbn [Z.eqb negb] in E.
    apply bind_done in E. destruct E as (u & m3 & Ea & E).
    unfold c_assert in Ea.
    destruct (0 <=? fst (fst sel)); [| discriminate].
    inversion Ea. subst m3. clear Ea.
    apply bind_done in E. destruct E as (code2 & m4 & Eadd & E).
    pose proof (discovery_logged_extend _ _ _ _ _ H1 Ht) as H2.
    cbn [app] in H2. unfold discovery_log in H2. cbn [filter probed isSome] in H2.
    rewrite filter_app in H2.
    fold (discovery_log
            (map (probe_event X p (kvno (m_enroll m)) password false) before)) in H2.
    rewrite discovery_log_probes in H2.
    assert (filter (fun ev => isSome (probed ev))
              [probe_event X p (kvno (m_enroll m)) password true sel]
            = [probe_event X p (kvno (m_enroll m)) password true sel]) as Hsel
      by (destruct sel as [[i salt] enctype]; reflexivity).
    rewrite Hsel in H2. clear Hsel.
    pose proof (_adcli_krb5_keytab_add_entries_unprobed X _ kt p (kvno (m_enroll m))
                  password (adcli_enroll_get_keytab_enctypes (m_enroll m))
                  (nth (Z.to_nat (fst (fst sel))) salts None)
                  (discovery_logged_unprobed _ _) (discovery_logged_keytab _ _)
                  m2 H2) as H3.
    rewrite Eadd in H3.
    right. exists before, sel, after. split; [exact Hs |].
    destruct (negb (code2 =? 0)); inversion E; subst;
      (split; [reflexivity | split; [discriminate | exact H3]]).
Qed.

(** The loop started without an index, when it returns. *)
Lemma update_keytab_loop_discovery p rest ws (m : machine W) r m' :
  ws < 0 ->
  update_keytab_loop X (p :: rest) ws m = Done r m' ->
  salt_discovery_report X m p rest r m'.
Proof.
  intros Hws E. cbn [update_keytab_loop] in E.
  apply bind_done in E. destruct E as ([r1 ws1] & m1 & Eadd & E).
  cbn [fst snd] in E. unfold salt_discovery_report. cbv zeta.
  destruct (add_principal_to_keytab_discovery p ws m r1 ws1 m1 Hws Eadd)
    as [(Hl & Hr)
       | (password & salts & Hpw & Hsalts
          & [(-> & Hl) | (before & sel & after & Hs & -> & Hnd & Hl)])].
  - left. destruct Hr as [-> | ->]; cbn [failed] in E; inversion E; subst; auto.
  - right. exists password, salts. split; [exact Hpw |]. split; [exact Hsalts |].
    left. cbn [failed] in E. inversion E. subst. auto.
  - right. exists password, salts. split; [exact Hpw |]. split; [exact Hsalts |].
    right. exists before, sel, after. split; [exact Hs |].
    assert (In sel (probe_schedule salts 0
                      (adcli_enroll_get_keytab_enctypes (m_enroll m)))) as Hin
      by (rewrite Hs; apply in_elt).
    destruct (probe_schedule_index _ _ _ _ Hin) as (Hrange & Hnth).
    rewrite Z.sub_0_r in Hnth.
    assert (selected_salt X (m_enroll m) p (fst (fst sel)) = snd (fst sel)) as Hsel
      by (unfold selected_salt; rewrite Hsalts; symmetry; exact Hnth).
    destruct (failed r1) eqn:Er1.
    + inversion E. subst. split; [exact Hnd |]. split; [exact Hl |].
      split; [exact Hsel |]. intros ->. discriminate Er1.
    + destruct r1; try discriminate Er1.
      pose proof (update_keytab_loop_given X _ rest
                    (discovery_logged_unprobed _ _) (discovery_logged_keytab _ _)
                    (fst (fst sel)) (proj1 Hrange) m1 Hl) as H.
      rewrite E in H. destruct H as (Hl' & Hnd').
      split; [exact Hnd' |]. split; [exact Hl' |]. split; [exact Hsel |].
      intros ->.
      destruct (add_principal_to_keytab_done X _ _ _ _ _ Eadd)
        as (Hge & _ & kt & Hkt & He & Hk).
      exists kt. split; [exact Hkt |].
      destruct (update_keytab_loop_done X rest (fst (fst sel)) m1 m' kt E Hge)
        as (_ & Hk').
      { rewrite He. exact Hkt. }
      cbn [fold_left]. rewrite Hk', He, Hk, String.eqb_refl. reflexivity.
Qed.

End DiscoveryLog.

(** C1. During the keytab update the salt is discovered once, on the first
    principal.  The candidates are built in the order canonical Kerberos
    salt, Windows 2003 machine salt, null salt.  In every execution at most
    one discovery is started, and its events are about the first principal
    only.  When the update returns, either it failed before any discovery,
    or the log shows one discovery: AS-REQs at the key version of the
    context, with the key derived from the computer password, salt by salt
    and enctype by enctype; if all of them were rejected the result is
    [ADCLI_ERR_DIRECTORY]; otherwise the probes stop at the first one
    accepted, the index of its salt is the one selected, no later principal
    is probed, and on success the keytab has taken the entries of every
    principal at that one index. *)
Theorem salt_discovered_once_for_all_principals W (X : externals W)
    (m : machine W) (p : krb5_principal) (rest : list krb5_principal) :
  keytab_principals (m_enroll m) = Some (p :: rest) ->
  let e := m_enroll m in
  let o := update_keytab_for_principals X m in
  (forall salts,
      build_principal_salts X e p = Some salts ->
      exists canonical w2k3,
        x_krb5_principal2salt X p = Some canonical
        /\ x_krb5_w2k3_salt X p (computer_name e) = Some w2k3
        /\ salts = [canonical; w2k3; None])
  /\ probing (m_trace m) p (fun n => (n <= 1)%nat) (final o)
  /\ (forall r m', o = Done r m' -> salt_discovery_report X m p rest r m').
Proof.
  intros Hp. cbv zeta.
  split; [intros salts; apply build_principal_salts_order |].
  unfold update_keytab_for_principals. unfold bind at 1 3. unfold get_enroll.
  rewrite Hp. unfold bind, ask.
  destruct (x_conn_krb5_context X (m_world m)); cbn [negb].
  - split.
    + pose proof (update_keytab_loop_first X (m_trace m) p rest (-1) ltac:(lia)
                    m (probing_start m p)) as H.
      destruct (update_keytab_loop X (p :: rest) (-1) m) as [r m1 | m1 | m1];
        cbn [final]; try exact H.
      destruct (failed r); [exact H |].
      eapply probing_weaken; [| exact H]. intros n <-. lia.
    + intros r m'. apply update_keytab_loop_discovery. lia.
  - split.
    + cbn [final ret]. eapply probing_weaken; [| apply probing_start].
      intros n <-. lia.
    + intros r m' E. inversion E. subst. left.
      split; [apply discovery_logged_start | right; reflexivity].
Qed.

Lemma salt_discovered_once_for_all_principals_witness :
  let X := small_realm plain_setup in
  let m := start enrolled_host in
  let p := {| princ_realm := "CORP.EXAMPLE.COM"; princ_components := ["HOST01$"] |} in
  let rest := [ {| princ_realm := "CORP.EXAMPLE.COM";
                   princ_components := ["host"; "HOST01"] |} ] in
  keytab_principals (m_enroll m) = Some (p :: rest)
  /\ salt_discovery_report X m p rest ADCLI_SUCCESS
       (final (update_keytab_for_principals X m)).
Proof.
  split; [reflexivity |].
  apply (proj2 (proj2 (salt_discovered_once_for_all_principals nat
                         (small_realm plain_setup) (start enrolled_host)
                         {| princ_realm := "CORP.EXAMPLE.COM";
                            princ_components := ["HOST01$"] |}
                         [ {| princ_realm := "CORP.EXAMPLE.COM";
                              princ_components := ["host"; "HOST01"] |} ]
                         eq_refl))).
  vm_compute. reflexivity.
Defined.

(** In the small realm the canonical salt is rejected for every enctype and
    the Windows 2003 salt is accepted at once: index 1, for both principals,
    after one discovery. *)
Example small_realm_discovers_w2k3_salt :
  let X := small_realm plain_setup in
  let o := update_keytab_for_principals X (start enrolled_host) in
  result_of o = Some ADCLI_SUCCESS
  /\ map probed (discovery_log (m_trace (final o)))
     = repeat (Some {| princ_realm := "CORP.EXAMPLE.COM";
                       princ_components := ["HOST01$"] |})
         (2 + List.length (default_enctypes))
  /\ List.length (filter is_discovery (m_trace (final o))) = 1%nat
  /\ m_keytabs (final o) "FILE:/etc/krb5.keytab"
     = fold_left (keytab_round X enrolled_host 1) host01_principals [].
Proof. vm_compute. repeat split; reflexivity. Qed.

(** A KDC that accepts no candidate: the update fails with
    [ADCLI_ERR_DIRECTORY] and nothing is written. *)
Example no_salt_accepted_directory :
  let X := small_realm deaf_setup in
  let o := update_keytab_for_principals X (start enrolled_host) in
  result_of o = Some ADCLI_ERR_DIRECTORY
  /\ List.length (discovery_log (m_trace (final o)))
     = (1 + 3 * List.length default_enctypes)%nat
  /\ m_keytabs (final o) "FILE:/etc/krb5.keytab" = [].
Proof. vm_compute. repeat split; reflexivity. Qed.

(** * Footprints

    What each stage logs, whatever the invariant looks at. *)

Ltac foot_side :=
  match goal with
  | H : ignores_enroll ?P |- stable_enroll ?P _ => apply H
  | H : emits _ ?P |- stable_event ?P _ => apply H; reflexivity
  | H : stable_keytab ?P |- stable_keytab ?P => exact H
  end.

Ltac footprint :=
  repeat (cbv beta; first [ keeps_step | foot_side ]).

Section Footprints.

Context {W : Type} (X : externals W) (P : machine W -> Prop).

Hypothesis Hign : ignores_enroll P.

Lemma emits_weaken (sel sel' : event -> bool) :
  (forall ev, sel' ev = true -> sel ev = true) -> emits sel P -> emits sel' P.
Proof. intros Hs H ev Hev. apply H, Hs, Hev. Qed.

Lemma enroll_clear_state_footprint : keeps P (enroll_clear_state X).
Proof. unfold enroll_clear_state. footprint. Qed.

Lemma adcli_conn_discover_footprint :
  emits (of_kinds [KDiscover]) P -> keeps P (adcli_conn_discover X).
Proof. intros. unfold adcli_conn_discover. footprint. Qed.

Lemma adcli_conn_connect_footprint :
  emits (of_kinds [KConnect]) P -> keeps P (adcli_conn_connect X).
Proof. intros. unfold adcli_conn_connect. footprint. Qed.

Lemma generate_host_password_loop_footprint fuel :
  emits (of_kinds [KRandom]) P ->
  forall length at_ password,
    keeps P (generate_host_password_loop X fuel length at_ password).
Proof.
  intros He. induction fuel as [| fuel IH]; intros length at_ password;
    cbn [generate_host_password_loop].
  - footprint.
  - unfold krb5_c_random_make_octets. footprint. apply IH.
Qed.

Lemma ensure_computer_password_footprint fuel res :
  emits (of_kinds [KRandom]) P -> keeps P (ensure_computer_password X fuel res).
Proof.
  intros. unfold ensure_computer_password, generate_host_password. footprint.
  apply generate_host_password_loop_footprint. assumption.
Qed.

Lemma ensure_host_keytab_footprint res :
  emits (of_kinds [KKtResolve]) P -> keeps P (ensure_host_keytab X res).
Proof. intros. unfold ensure_host_keytab. footprint. Qed.

Lemma adcli_enroll_prepare_footprint fuel flags :
  emits (of_kinds (prepare_kinds flags)) P ->
  keeps P (adcli_enroll_prepare X fuel flags).
Proof.
  intros He. unfold adcli_enroll_prepare.
  apply keeps_bind; [unfold ensure_host_fqdn; footprint |]. intros r1.
  apply keeps_bind; [unfold ensure_computer_name; footprint |]. intros r2.
  apply keeps_bind; [unfold ensure_computer_sam; footprint |]. intros r3.
  apply keeps_bind.
  { apply ensure_computer_password_footprint.
    eapply emits_weaken; [| exact He].
    unfold prepare_kinds. intros ev.
    destruct (ADCLI_ENROLL_NO_KEYTAB flags), ev; cbn; congruence. }
  intros r4. apply keeps_bind.
  { unfold prepare_kinds in He.
    destruct (ADCLI_ENROLL_NO_KEYTAB flags); cbn [negb]; [apply keeps_ret |].
    apply ensure_host_keytab_footprint.
    eapply emits_weaken; [| exact He].
    intros ev. destruct ev; cbn; congruence. }
  intros r5.
  apply keeps_bind; [unfold ensure_service_names; footprint |]. intros r6.
  apply keeps_bind; [unfold ensure_service_principals; footprint |]. intros r7.
  apply keeps_ret.
Qed.

Lemma locate_computer_account_footprint :
  emits (of_kinds [KSearch; KCompare]) P -> keeps P (locate_computer_account X).
Proof.
  intros. unfold locate_computer_account, validate_preferred_ou,
    lookup_preferred_ou, lookup_computer_container, calc_computer_account,
    ldap_search_ext_s, ldap_compare_ext_s.
  footprint.
Qed.

Lemma create_or_update_computer_account_footprint allow :
  emits (of_kinds [KSearch; KAdd; KModify]) P ->
  keeps P (create_or_update_computer_account X allow).
Proof.
  intros. unfold create_or_update_computer_account, create_computer_account,
    modify_computer_account, ldap_search_ext_s, ldap_add_ext_s, ldap_modify_ext_s.
  footprint.
Qed.

Lemma set_computer_password_footprint :
  emits (of_kinds [KKinit; KSetPassword; KChangePassword]) P ->
  keeps P (set_computer_password X).
Proof.
  intros. unfold set_computer_password, set_password_with_computer_creds,
    set_password_with_user_creds.
  footprint.
Qed.

Lemma retrieve_computer_account_info_footprint :
  emits (of_kinds [KSearch]) P -> keeps P (retrieve_computer_account_info X).
Proof.
  intros. unfold retrieve_computer_account_info, ldap_search_ext_s. footprint.
Qed.

Lemma attribute_writers_footprint :
  emits (of_kinds [KModify]) P ->
  keeps P (bind (update_and_calculate_enctypes X)
             (fun _ => bind (update_dns_host_name X)
                         (fun _ => update_service_principals X))).
Proof.
  intros. unfold update_and_calculate_enctypes, update_dns_host_name,
    update_service_principals, write_attribute, ldap_modify_ext_s.
  footprint.
Qed.

End Footprints.

(** ** Invariants on the log *)

Section LogInvariants.

Context {W : Type}.

Lemma within_start (allowed : event -> bool) (m : machine W) :
  within (m_trace m) allowed m.
Proof. exists []. split; [symmetry; apply app_nil_r | reflexivity]. Qed.

Lemma within_ignores_enroll tr0 allowed :
  ignores_enroll (within (W := W) tr0 allowed).
Proof. intros f m H. exact H. Qed.

Lemma within_stable_keytab tr0 allowed :
  stable_keytab (within (W := W) tr0 allowed).
Proof. intros m name entries H. exact H. Qed.

Lemma within_emits tr0 (allowed sel : event -> bool) :
  (forall ev, sel ev = true -> allowed ev = true) ->
  emits sel (within (W := W) tr0 allowed).
Proof.
  intros Hs ev Hev m w (evs & Ht & Hall). exists (evs ++ [ev])%list.
  cbn. rewrite Ht. split; [list_assoc |].
  rewrite forallb_app, Hall. cbn. rewrite (Hs ev Hev). reflexivity.
Qed.

Lemma within_weaken tr0 (allowed allowed' : event -> bool) (m : machine W) :
  (forall ev, allowed ev = true -> allowed' ev = true) ->
  within tr0 allowed m -> within tr0 allowed' m.
Proof.
  intros Hs (evs & Ht & Hall). exists evs. split; [exact Ht |].
  apply forallb_forall. intros ev Hin.
  apply Hs. exact (proj1 (forallb_forall _ _) Hall ev Hin).
Qed.

(** The keytabs are the ones of [m0]. *)
Lemma keytabs_kept_ignores_enroll (m0 : machine W) :
  ignores_enroll (fun m : machine W => m_keytabs m = m_keytabs m0).
Proof. intros f m H. exact H. Qed.

Lemma keytabs_kept_emits (m0 : machine W) sel :
  emits sel (fun m : machine W => m_keytabs m = m_keytabs m0).
Proof. intros ev _ m w H. exact H. Qed.

Lemma opened_ignores_enroll tr0 gate guarded :
  ignores_enroll (opened (W := W) tr0 gate guarded).
Proof. intros f m H. exact H. Qed.

Lemma opened_stable_keytab tr0 gate guarded :
  stable_keytab (opened (W := W) tr0 gate guarded).
Proof. intros m name entries H. exact H. Qed.

Lemma opened_logs_all tr0 gate guarded :
  logs_all (opened (W := W) tr0 gate guarded).
Proof.
  intros ev m w (pre & g & post & Ht & Hpre & Hg).
  exists pre, g, (post ++ [ev])%list. cbn. rewrite Ht.
  split; [list_assoc | auto].
Qed.

Lemma opened_emits tr0 gate guarded sel :
  emits sel (opened (W := W) tr0 gate guarded).
Proof. intros ev _. apply opened_logs_all. Qed.

(** The gate call itself. *)
Lemma shut_opens tr0 (gate guarded : event -> bool) (m : machine W) w g :
  shut tr0 guarded m -> gate g = true ->
  opened tr0 gate guarded (after_call m w g).
Proof.
  intros (evs & Ht & Hall) Hg. exists evs, g, []. cbn. rewrite Ht.
  split; [list_assoc | auto].
Qed.

Lemma shut_step tr0 (guarded : event -> bool) (m : machine W) w ev :
  shut tr0 guarded m -> guarded ev = false ->
  shut tr0 guarded (after_call m w ev).
Proof.
  intros Hm Hev. apply (within_emits tr0 _ (fun e => negb (guarded e)));
    [auto | rewrite Hev; reflexivity | exact Hm].
Qed.

End LogInvariants.

Lemma split_at_guarded (guarded : event -> bool) g post0 ev post :
  guarded ev = true -> guarded g = false ->
  forall pre0 pre,
    (pre0 ++ g :: post0 = pre ++ ev :: post)%list ->
    forallb (fun e => negb (guarded e)) pre0 = true ->
    exists mid, pre = (pre0 ++ g :: mid)%list.
Proof.
  intros Hev Hg. induction pre0 as [| a pre0 IH]; intros pre E Hall.
  - destruct pre as [| x pre]; cbn in E; inversion E; subst.
    + congruence.
    + exists pre. reflexivity.
  - cbn in Hall. apply andb_true_iff in Hall. destruct Hall as (Ha & Hall).
    destruct pre as [| x pre]; cbn in E; inversion E; subst.
    + rewrite Hev in Ha. discriminate.
    + destruct (IH pre H1 Hall) as (mid & ->). exists mid. reflexivity.
Qed.

Lemma shut_gated W tr0 (gate guarded : event -> bool) (m : machine W) :
  shut tr0 guarded m ->
  exists evs, m_trace m = (tr0 ++ evs)%list /\ gated gate guarded evs.
Proof.
  intros (evs & Ht & Hall). exists evs. split; [exact Ht |].
  intros pre ev post -> Hev. rewrite forallb_app in Hall.
  apply andb_true_iff in Hall. destruct Hall as (_ & Hall). cbn in Hall.
  rewrite Hev in Hall. discriminate.
Qed.

Lemma opened_gated W tr0 (gate guarded : event -> bool) (m : machine W) :
  (forall ev, gate ev = true -> guarded ev = false) ->
  opened tr0 gate guarded m ->
  exists evs, m_trace m = (tr0 ++ evs)%list /\ gated gate guarded evs.
Proof.
  intros Hx (pre0 & g & post0 & Ht & Hall & Hg).
  exists (pre0 ++ g :: post0)%list. split; [exact Ht |].
  intros pre ev post E Hev.
  destruct (split_at_guarded guarded g post0 ev post Hev (Hx g Hg) pre0 pre E Hall)
    as (mid & ->).
  rewrite existsb_app. cbn. rewrite Hg. rewrite orb_true_r. reflexivity.
Qed.

Lemma keeps_conj W A (P Q : machine W -> Prop) (c : M W A) :
  keeps P c -> keeps Q c -> keeps (fun m => P m /\ Q m) c.
Proof.
  intros Hp Hq m (H1 & H2). specialize (Hp m H1). specialize (Hq m H2).
  destruct (c m); split; assumption.
Qed.

(** X1. [adcli_enroll_prepare] works on the structure alone: the only
    library calls it logs are draws of random octets and, unless
    [ADCLI_ENROLL_NO_KEYTAB] is given, the opening of the keytab.  It sends
    nothing to the directory, sets no password and writes no keytab,
    wherever it stops. *)
Theorem prepare_stays_local :
  forall W (X : externals W) (fuel : nat) (flags : adcli_enroll_flags)
         (m : machine W),
    let m' := final (adcli_enroll_prepare X fuel flags m) in
    within (m_trace m) (of_kinds (prepare_kinds flags)) m'
    /\ m_keytabs m' = m_keytabs m.
Proof.
  intros W X fuel flags m. cbv zeta.
  apply (keeps_final _
           (fun m1 => within (m_trace m) (of_kinds (prepare_kinds flags)) m1
                      /\ m_keytabs m1 = m_keytabs m)).
  - apply keeps_conj; apply adcli_enroll_prepare_footprint.
    + apply within_ignores_enroll.
    + apply within_emits. auto.
    + apply keytabs_kept_ignores_enroll.
    + apply keytabs_kept_emits.
  - split; [apply within_start | reflexivity].
Qed.

(** ** A join that leaves the keytab alone *)

Lemma join_without_keytab_footprint W (X : externals W) (P : machine W -> Prop)
    fuel flags :
  ADCLI_ENROLL_NO_KEYTAB flags = true ->
  ignores_enroll P ->
  emits (of_kinds (offline_kinds ++ directory_kinds)) P ->
  keeps P (adcli_enroll_join X fuel flags).
Proof.
  intros Hf Hign He.
  assert (forall kinds,
             (forall ev, of_kinds kinds ev = true ->
                         of_kinds (offline_kinds ++ directory_kinds) ev = true) ->
             emits (of_kinds kinds) P) as Hsub
    by (intros kinds Hk; eapply emits_weaken; [exact Hk | exact He]).
  unfold adcli_enroll_join.
  apply keeps_bind; [apply enroll_clear_state_footprint, Hign |]. intros _.
  apply keeps_bind.
  { apply adcli_conn_discover_footprint. apply Hsub.
    intros ev; destruct ev; cbn; congruence. }
  intros r1. destruct (failed r1); [apply keeps_ret |].
  apply keeps_bind.
  { apply adcli_enroll_prepare_footprint; [exact Hign |]. apply Hsub.
    unfold prepare_kinds. rewrite Hf. intros ev; destruct ev; cbn; congruence. }
  intros r2. destruct (failed r2); [apply keeps_ret |].
  apply keeps_bind.
  { apply adcli_conn_connect_footprint. apply Hsub.
    intros ev; destruct ev; cbn; congruence. }
  intros r3. destruct (failed r3); [apply keeps_ret |].
  apply keeps_bind.
  { apply locate_computer_account_footprint; [exact Hign |]. apply Hsub.
    intros ev; destruct ev; cbn; congruence. }
  intros r4. destruct (failed r4); [apply keeps_ret |].
  unfold join_computer_account. rewrite Hf.
  apply keeps_bind.
  { apply create_or_update_computer_account_footprint. apply Hsub.
    intros ev; destruct ev; cbn; congruence. }
  intros r5. destruct (failed r5); [apply keeps_ret |].
  apply keeps_bind.
  { apply set_computer_password_footprint. apply Hsub.
    intros ev; destruct ev; cbn; congruence. }
  intros r6. destruct (failed r6); [apply keeps_ret |].
  apply keeps_bind.
  { apply retrieve_computer_account_info_footprint; [exact Hign |]. apply Hsub.
    intros ev; destruct ev; cbn; congruence. }
  intros r7. destruct (failed r7); [apply keeps_ret |].
  pose proof (attribute_writers_footprint X P Hign
                (Hsub [KModify]
                   ltac:(intros ev; destruct ev; cbn; congruence))) as Hw.
  intros m Hm. specialize (Hw m Hm). unfold bind in *.
  destruct (update_and_calculate_enctypes X m) as [a1 m1 | m1 | m1]; try exact Hw.
  destruct (update_dns_host_name X m1) as [a2 m2 | m2 | m2]; try exact Hw.
  destruct (update_service_principals X m2) as [a3 m3 | m3 | m3]; exact Hw.
Qed.

(** X2. With [ADCLI_ENROLL_NO_KEYTAB], a join never touches a keytab,
    wherever it stops: it opens none, clears and adds no entry, and sends no
    AS-REQ to find a salt.  The calls it logs are the discovery, the
    connection, draws of random octets and requests to the directory, and
    the keytabs are the ones it started with. *)
Theorem join_without_keytab_leaves_keytabs :
  forall W (X : externals W) (fuel : nat) (flags : adcli_enroll_flags)
         (m : machine W),
    ADCLI_ENROLL_NO_KEYTAB flags = true ->
    let m' := final (adcli_enroll_join X fuel flags m) in
    within (m_trace m) (of_kinds (offline_kinds ++ directory_kinds)) m'
    /\ within (m_trace m) (fun ev => negb (of_kinds keytab_kinds ev)) m'
    /\ m_keytabs m' = m_keytabs m.
Proof.
  intros W X fuel flags m Hf. cbv zeta.
  assert (within (m_trace m) (of_kinds (offline_kinds ++ directory_kinds))
            (final (adcli_enroll_join X fuel flags m))
          /\ m_keytabs (final (adcli_enroll_join X fuel flags m)) = m_keytabs m)
    as (H1 & H2).
  { apply (keeps_final _
             (fun m1 => within (m_trace m)
                          (of_kinds (offline_kinds ++ directory_kinds)) m1
                        /\ m_keytabs m1 = m_keytabs m)).
    - apply keeps_conj; apply join_without_keytab_footprint; try exact Hf.
      + apply within_ignores_enroll.
      + apply within_emits. auto.
      + apply keytabs_kept_ignores_enroll.
      + apply keytabs_kept_emits.
    - split; [apply within_start | reflexivity]. }
  split; [exact H1 |]. split; [| exact H2].
  eapply within_weaken; [| exact H1].
  intros ev. destruct ev; cbn; congruence.
Qed.

Lemma join_without_keytab_leaves_keytabs_witness :
  let m := start adcli_enroll_new in
  let m' := final (adcli_enroll_join (small_realm plain_setup) 320
                     no_keytab_flags m) in
  within (m_trace m) (of_kinds (offline_kinds ++ directory_kinds)) m'
  /\ within (m_trace m) (fun ev => negb (of_kinds keytab_kinds ev)) m'
  /\ m_keytabs m' = m_keytabs m.
Proof.
  apply (join_without_keytab_leaves_keytabs nat (small_realm plain_setup) 320%nat
           no_keytab_flags (start adcli_enroll_new)).
  reflexivity.
Defined.

(** The join of the small realm without keytab succeeds. *)
Example small_realm_join_without_keytab :
  let o := adcli_enroll_join (small_realm plain_setup) 320 no_keytab_flags
             (start adcli_enroll_new) in
  result_of o = Some ADCLI_SUCCESS
  /\ keytab (m_enroll (final o)) = None
  /\ existsb (of_kinds [KSetPassword]) (m_trace (final o)) = true.
Proof. vm_compute. repeat split; reflexivity. Qed.

(** ** The order of the calls of a join *)

Section Gates.

Context {W : Type} (X : externals W).

Variables (tr0 : list event) (gate guarded : event -> bool).

Let Shut := shut (W := W) tr0 guarded.
Let Opened := opened (W := W) tr0 gate guarded.
Let Either := fun m : machine W => Shut m \/ Opened m.

Lemma shut_stage A (c : M W A) :
  keeps Shut c -> triple Shut c (fun _ => Shut) Either.
Proof.
  intros H. eapply triple_conseq; [exact H | auto | auto |].
  intros m Hm. left. exact Hm.
Qed.

Lemma opened_stage A (c : M W A) :
  keeps Opened c -> triple Opened c (fun _ => Either) Either.
Proof.
  intros H. eapply triple_conseq; [exact H | auto | |];
    intros; right; assumption.
Qed.

Lemma shut_emits kinds :
  (forall ev, of_kinds kinds ev = true -> guarded ev = false) ->
  emits (of_kinds kinds) Shut.
Proof.
  intros H. apply within_emits. intros ev Hev. rewrite (H ev Hev). reflexivity.
Qed.

(** Every stage keeps an invariant that nothing disturbs. *)
Lemma opened_prepare fuel flags : keeps Opened (adcli_enroll_prepare X fuel flags).
Proof.
  apply adcli_enroll_prepare_footprint;
    [apply opened_ignores_enroll | apply opened_emits].
Qed.

Lemma opened_connect : keeps Opened (adcli_conn_connect X).
Proof. apply adcli_conn_connect_footprint, opened_emits. Qed.

Lemma opened_locate : keeps Opened (locate_computer_account X).
Proof.
  apply locate_computer_account_footprint;
    [apply opened_ignores_enroll | apply opened_emits].
Qed.

Lemma opened_join_computer_account flags :
  keeps Opened (join_computer_account X flags).
Proof.
  apply join_computer_account_keeps;
    try (intros v; apply opened_ignores_enroll).
  - apply opened_logs_all.
  - apply opened_stable_keytab.
Qed.

(** What follows the reconciliation of the account in
    [join_computer_account]. *)
Lemma join_computer_account_gate flags :
  triple Shut
    (create_or_update_computer_account X (ADCLI_ENROLL_ALLOW_OVERWRITE flags))
    (fun r m => if failed r then Shut m else Opened m) Either ->
  triple Shut (join_computer_account X flags) (fun _ => Either) Either.
Proof.
  intros Hc. unfold join_computer_account.
  eapply triple_bind; [exact Hc |]. intros r. cbv beta.
  destruct (failed r).
  - apply triple_ret. intros m Hm. left. exact Hm.
  - apply opened_stage.
    pose proof (opened_logs_all (W := W) tr0 gate guarded) as Hl.
    pose proof (logs_all_quiet W _ Hl) as Hq.
    pose proof (opened_stable_keytab (W := W) tr0 gate guarded) as Hk.
    pose proof (update_keytab_for_principals_keeps_all W X _ Hl Hk) as Hw.
    assert (forall A (put : A -> adcli_enroll -> adcli_enroll),
               assigns Opened put) as Ha
      by (intros A put v; apply opened_ignores_enroll).
    pose proof (Ha _ put_computer_attributes) as H1.
    pose proof (Ha _ put_kvno) as H2.
    pose proof (Ha _ put_keytab_enctypes) as H3.
    subst Opened. frame.
Qed.

End Gates.

Lemma connect_opens W (X : externals W) tr0 guarded :
  guarded (EvConnect ADCLI_SUCCESS) = false ->
  (forall r, guarded (EvConnect r) = false) ->
  triple (shut tr0 guarded) (adcli_conn_connect X)
    (fun r m => if failed r then shut tr0 guarded m
                else opened tr0 connected guarded m)
    (fun m => shut tr0 guarded m \/ opened tr0 connected guarded m).
Proof.
  intros _ Hg m Hm. unfold adcli_conn_connect, call.
  destruct (x_conn_connect X (m_world m)) as [r w].
  destruct r; cbn [failed];
    first [ apply shut_opens; [exact Hm | reflexivity]
          | apply shut_step; [exact Hm | apply Hg] ].
Qed.

Lemma discover_opens W (X : externals W) tr0 guarded :
  (forall r, guarded (EvDiscover r) = false) ->
  triple (shut tr0 guarded) (adcli_conn_discover X)
    (fun r m => if failed r then shut tr0 guarded m
                else opened tr0 discovered guarded m)
    (fun m => shut tr0 guarded m \/ opened tr0 discovered guarded m).
Proof.
  intros Hg m Hm. unfold adcli_conn_discover, call.
  destruct (x_conn_discover X (m_world m)) as [r w].
  destruct r; cbn [failed];
    first [ apply shut_opens; [exact Hm | reflexivity]
          | apply shut_step; [exact Hm | apply Hg] ].
Qed.

Lemma join_after_connect W (X : externals W) fuel flags (m : machine W) :
  let guarded := of_kinds acting_kinds in
  shut (m_trace m) guarded (final (adcli_enroll_join X fuel flags m))
  \/ opened (m_trace m) connected guarded (final (adcli_enroll_join X fuel flags m)).
Proof.
  cbv zeta. set (guarded := of_kinds acting_kinds).
  assert (triple (shut (m_trace m) guarded) (adcli_enroll_join X fuel flags)
            (fun _ m1 => shut (m_trace m) guarded m1
                         \/ opened (m_trace m) connected guarded m1)
            (fun m1 => shut (m_trace m) guarded m1
                       \/ opened (m_trace m) connected guarded m1)) as H.
  { unfold adcli_enroll_join.
    eapply triple_bind.
    { apply shut_stage, enroll_clear_state_footprint, within_ignores_enroll. }
    intros u. eapply triple_bind.
    { apply shut_stage, adcli_conn_discover_footprint, shut_emits.
      intros ev; destruct ev; cbn; congruence. }
    intros r1. destruct (failed r1); [apply triple_ret; auto |].
    eapply triple_bind.
    { apply shut_stage, adcli_enroll_prepare_footprint;
        [apply within_ignores_enroll | apply shut_emits].
      unfold prepare_kinds. intros ev.
      destruct (ADCLI_ENROLL_NO_KEYTAB flags), ev; cbn; congruence. }
    intros r2. destruct (failed r2); [apply triple_ret; auto |].
    eapply triple_bind.
    { apply connect_opens; [reflexivity | intros r; reflexivity]. }
    intros r3. cbv beta. destruct (failed r3); [apply triple_ret; auto |].
    apply opened_stage.
    apply keeps_bind; [apply opened_locate |].
    intros r4. destruct (failed r4); [apply keeps_ret |].
    apply opened_join_computer_account. }
  specialize (H m (within_start _ m)).
  destruct (adcli_enroll_join X fuel flags m); exact H.
Qed.

Lemma join_after_discover W (X : externals W) fuel flags (m : machine W) :
  let guarded := fun ev => negb (of_kinds [KDiscover] ev) in
  shut (m_trace m) guarded (final (adcli_enroll_join X fuel flags m))
  \/ opened (m_trace m) discovered guarded (final (adcli_enroll_join X fuel flags m)).
Proof.
  cbv zeta. set (guarded := fun ev => negb (of_kinds [KDiscover] ev)).
  assert (triple (shut (m_trace m) guarded) (adcli_enroll_join X fuel flags)
            (fun _ m1 => shut (m_trace m) guarded m1
                         \/ opened (m_trace m) discovered guarded m1)
            (fun m1 => shut (m_trace m) guarded m1
                       \/ opened (m_trace m) discovered guarded m1)) as H.
  { unfold adcli_enroll_join.
    eapply triple_bind.
    { apply shut_stage, enroll_clear_state_footprint, within_ignores_enroll. }
    intros u. eapply triple_bind.
    { apply discover_opens. intros r. reflexivity. }
    intros r1. cbv beta. destruct (failed r1); [apply triple_ret; auto |].
    apply opened_stage.
    apply keeps_bind; [apply opened_prepare |].
    intros r2. destruct (failed r2); [apply keeps_ret |].
    apply keeps_bind; [apply opened_connect |].
    intros r3. destruct (failed r3); [apply keeps_ret |].
    apply keeps_bind; [apply opened_locate |].
    intros r4. destruct (failed r4); [apply keeps_ret |].
    apply opened_join_computer_account. }
  specialize (H m (within_start _ m)).
  destruct (adcli_enroll_join X fuel flags m); exact H.
Qed.

(** X3. In every run of a join, wherever it stops, nothing is logged
    before the discovery but the discovery itself: every other call comes
    after a discovery that succeeded.  And every request to the directory,
    password operation, AS-REQ and keytab write comes after a connection
    that succeeded.  Before that the join only draws random octets and
    opens the keytab. *)
Theorem join_acts_after_discover_and_connect :
  forall W (X : externals W) (fuel : nat) (flags : adcli_enroll_flags)
         (m : machine W),
    exists evs,
      m_trace (final (adcli_enroll_join X fuel flags m)) = (m_trace m ++ evs)%list
      /\ gated discovered (fun ev => negb (of_kinds [KDiscover] ev)) evs
      /\ gated connected (of_kinds acting_kinds) evs.
Proof.
  intros W X fuel flags m.
  assert (exists evs,
             m_trace (final (adcli_enroll_join X fuel flags m))
             = (m_trace m ++ evs)%list
             /\ gated discovered (fun ev => negb (of_kinds [KDiscover] ev)) evs)
    as (evs1 & Ht1 & Hg1).
  { destruct (join_after_discover W X fuel flags m) as [H | H].
    - apply shut_gated, H.
    - apply opened_gated in H; [exact H |].
      intros ev Hev; destruct ev; try discriminate Hev; reflexivity. }
  assert (exists evs,
             m_trace (final (adcli_enroll_join X fuel flags m))
             = (m_trace m ++ evs)%list
             /\ gated connected (of_kinds acting_kinds) evs)
    as (evs2 & Ht2 & Hg2).
  { destruct (join_after_connect W X fuel flags m) as [H | H].
    - apply shut_gated, H.
    - apply opened_gated in H; [exact H |].
      intros ev Hev; destruct ev; try discriminate Hev; reflexivity. }
  exists evs1. split; [exact Ht1 |]. split; [exact Hg1 |].
  rewrite Ht1 in Ht2. apply app_inv_head in Ht2. subst evs2. exact Hg2.
Qed.

(** In the small realm a join draws its password, opens the keytab and
    connects; the directory is asked from the twelfth call on. *)
Example small_realm_join_starts :
  let tr := m_trace (final (adcli_enroll_join (small_realm plain_setup) 320
                              join_flags (start adcli_enroll_new))) in
  discovered (nth 0 tr (EvKinit 0)) = true
  /\ map kind_of (firstn 12 tr)
     = [KDiscover; KRandom; KRandom; KRandom; KRandom; KRandom; KRandom;
        KRandom; KRandom; KKtResolve; KConnect; KSearch]
  /\ connected (nth 10 tr (EvKinit 0)) = true.
Proof. vm_compute. repeat split; reflexivity. Qed.

(** Without leave to overwrite, the reconciliation succeeds only by adding
    the account. *)
Lemma create_opens W (X : externals W) tr0 :
  let guarded := of_kinds changing_kinds in
  triple (shut tr0 guarded) (create_or_update_computer_account X false)
    (fun r m => if failed r then shut tr0 guarded m
                else opened tr0 account_created guarded m)
    (fun m => shut tr0 guarded m \/ opened tr0 account_created guarded m).
Proof.
  cbv zeta. intros m Hm.
  unfold create_or_update_computer_account. unfold bind at 1. unfold get_enroll.
  destruct (computer_dn (m_enroll m)) as [dn |]; [| left; exact Hm].
  unfold bind at 1. unfold ask. unfold bind at 1. unfold c_assert.
  destruct (x_conn_ldap_connection X (m_world m)); cbn [ret abort];
    [| left; exact Hm].
  unfold bind at 1. unfold ldap_search_ext_s, call.
  destruct (x_ldap_search X dn "(objectClass=*)"
              ["objectClass"; "sAMAccountName"; "userAccountControl"] (m_world m))
    as [[code results] w].
  cbn [fst snd].
  match goal with
  | |- context [after_call m w ?ev] =>
      assert (shut tr0 (of_kinds changing_kinds) (after_call m w ev)) as H1
        by (apply shut_step; [exact Hm | reflexivity])
  end.
  destruct (code =? LDAP_NO_SUCH_OBJECT).
  - unfold create_computer_account, bind, ldap_add_ext_s, call.
    match goal with
    | |- context [x_ldap_add X ?d ?mods ?w0] =>
        destruct (x_ldap_add X d mods w0) as [r w1] eqn:Eadd
    end.
    destruct ((r =? LDAP_INSUFFICIENT_ACCESS) || (r =? LDAP_OBJECT_CLASS_VIOLATION));
      [cbn; apply shut_step; [exact H1 | reflexivity] |].
    destruct (r =? LDAP_SUCCESS) eqn:Er; cbn.
    + apply shut_opens; [exact H1 |]. cbn. exact Er.
    + apply shut_step; [exact H1 | reflexivity].
  - destruct (code =? 0); cbn; exact H1.
Qed.

Lemma join_after_creation W (X : externals W) fuel flags (m : machine W) :
  ADCLI_ENROLL_ALLOW_OVERWRITE flags = false ->
  let guarded := of_kinds changing_kinds in
  shut (m_trace m) guarded (final (adcli_enroll_join X fuel flags m))
  \/ opened (m_trace m) account_created guarded
       (final (adcli_enroll_join X fuel flags m)).
Proof.
  intros Hf. cbv zeta. set (guarded := of_kinds changing_kinds).
  assert (triple (shut (m_trace m) guarded) (adcli_enroll_join X fuel flags)
            (fun _ m1 => shut (m_trace m) guarded m1
                         \/ opened (m_trace m) account_created guarded m1)
            (fun m1 => shut (m_trace m) guarded m1
                       \/ opened (m_trace m) account_created guarded m1)) as H.
  { unfold adcli_enroll_join.
    eapply triple_bind.
    { apply shut_stage, enroll_clear_state_footprint, within_ignores_enroll. }
    intros u. eapply triple_bind.
    { apply shut_stage, adcli_conn_discover_footprint, shut_emits.
      intros ev; destruct ev; cbn; congruence. }
    intros r1. destruct (failed r1); [apply triple_ret; auto |].
    eapply triple_bind.
    { apply shut_stage, adcli_enroll_prepare_footprint;
        [apply within_ignores_enroll | apply shut_emits].
      unfold prepare_kinds. intros ev.
      destruct (ADCLI_ENROLL_NO_KEYTAB flags), ev; cbn; congruence. }
    intros r2. destruct (failed r2); [apply triple_ret; auto |].
    eapply triple_bind.
    { apply shut_stage, adcli_conn_connect_footprint, shut_emits.
      intros ev; destruct ev; cbn; congruence. }
    intros r3. destruct (failed r3); [apply triple_ret; auto |].
    eapply triple_bind.
    { apply shut_stage, locate_computer_account_footprint;
        [apply within_ignores_enroll | apply shut_emits].
      intros ev; destruct ev; cbn; congruence. }
    intros r4. destruct (failed r4); [apply triple_ret; auto |].
    apply join_computer_account_gate. rewrite Hf. apply create_opens. }
  specialize (H m (within_start _ m)).
  destruct (adcli_enroll_join X fuel flags m); exact H.
Qed.

(** X4. Without [ADCLI_ENROLL_ALLOW_OVERWRITE], a join changes nothing of
    an account it has not created itself: wherever it stops, every LDAP
    modify, every password operation (kinit of the computer account, set
    or change of the password), every AS-REQ and every keytab write comes
    after an LDAP add that the directory accepted.  In particular, when the
    account exists already, none of them happens. *)
Theorem join_changes_only_an_account_it_created :
  forall W (X : externals W) (fuel : nat) (flags : adcli_enroll_flags)
         (m : machine W),
    ADCLI_ENROLL_ALLOW_OVERWRITE flags = false ->
    exists evs,
      m_trace (final (adcli_enroll_join X fuel flags m)) = (m_trace m ++ evs)%list
      /\ gated account_created (of_kinds changing_kinds) evs.
Proof.
  intros W X fuel flags m Hf.
  destruct (join_after_creation W X fuel flags m Hf) as [H | H].
  - apply shut_gated, H.
  - apply opened_gated in H; [exact H |].
    intros ev Hev; destruct ev; try discriminate Hev; reflexivity.
Qed.

Lemma join_changes_only_an_account_it_created_witness :
  exists evs,
    m_trace (final (adcli_enroll_join (small_realm existing_account_setup) 320
                      join_flags (start adcli_enroll_new)))
    = (m_trace (start adcli_enroll_new) ++ evs)%list
    /\ gated account_created (of_kinds changing_kinds) evs.
Proof.
  apply (join_changes_only_an_account_it_created nat
           (small_realm existing_account_setup) 320%nat join_flags
           (start adcli_enroll_new)).
  reflexivity.
Defined.

(** The account of the small realm exists already: the join stops with
    CONFIG after looking it up, and has changed nothing. *)
Example existing_account_is_left_alone :
  let o := adcli_enroll_join (small_realm existing_account_setup) 320 join_flags
             (start adcli_enroll_new) in
  result_of o = Some ADCLI_ERR_CONFIG
  /\ existsb (of_kinds changing_kinds) (m_trace (final o)) = false
  /\ existsb (of_kinds [KAdd]) (m_trace (final o)) = false
  /\ kind_of (last (m_trace (final o)) (EvKinit 0)) = KSearch.
Proof. vm_compute. repeat split; reflexivity. Qed.

(** * Parameter resolution as a whole *)

Section Prepare.

Context {W : Type} (X : externals W).

(** The stages that look at the running result hand a failure on. *)
Lemma ensure_host_keytab_passes res (m : machine W) r m' :
  failed res = true -> ensure_host_keytab X res m = Done r m' -> r = res /\ m' = m.
Proof.
  unfold ensure_host_keytab. intros ->. intros H. inversion H. auto.
Qed.

Lemma ensure_computer_password_passes fuel res (m : machine W) r m' :
  failed res = true ->
  ensure_computer_password X fuel res m = Done r m' -> r = res /\ m' = m.
Proof.
  unfold ensure_computer_password. intros ->. intros H. inversion H. auto.
Qed.

Lemma ensure_service_names_passes res (m : machine W) r m' :
  failed res = true -> ensure_service_names res m = Done r m' -> r = res /\ m' = m.
Proof.
  unfold ensure_service_names. intros ->. intros H. inversion H. auto.
Qed.

Lemma failed_not_success r : failed r = false -> r = ADCLI_SUCCESS.
Proof. destruct r; cbn; congruence. Qed.

(** The two assertions at the head of [ensure_service_principals]. *)
Lemma ensure_service_principals_asserts res (m : machine W) r m' :
  ensure_service_principals X res m = Done r m' ->
  isSome (service_names (m_enroll m)) = true
  /\ keytab_principals (m_enroll m) = None.
Proof.
  unfold ensure_service_principals. unfold bind at 1. unfold get_enroll.
  unfold bind at 1. unfold c_assert.
  destruct (isSome (service_names (m_enroll m))); [| discriminate].
  cbn [ret]. unfold bind at 1.
  destruct (keytab_principals (m_enroll m)); [discriminate |]. auto.
Qed.

Lemma ensure_service_principals_passes res (m : machine W) r m' :
  failed res = true ->
  ensure_service_principals X res m = Done r m' -> r = res /\ m' = m.
Proof.
  intros Hf E. destruct (ensure_service_principals_asserts _ _ _ _ E) as (Hn & Hk).
  revert E. unfold ensure_service_principals, bind, get_enroll, c_assert.
  rewrite Hn, Hk, Hf. cbn. intros H. inversion H. auto.
Qed.

Lemma parse_service_principals_result realm names :
  forall acc r kps,
    parse_service_principals X realm names acc = (r, kps) ->
    (r = ADCLI_SUCCESS
     /\ exists parsed,
         kps = (acc ++ parsed)%list
         /\ Forall2 (fun s p => exists q,
                         x_krb5_parse_name X s = Some q
                         /\ p = krb5_set_principal_realm q realm)
              names parsed)
    \/ (r = ADCLI_ERR_CONFIG
        /\ exists s, In s names /\ x_krb5_parse_name X s = None).
Proof.
  induction names as [| s rest IH]; intros acc r kps E; cbn in E.
  - inversion E. subst. left. split; [reflexivity |]. exists [].
    split; [symmetry; apply app_nil_r | constructor].
  - destruct (x_krb5_parse_name X s) as [q |] eqn:Eq.
    + destruct (IH _ _ _ E) as [(-> & parsed & -> & Hall) | (-> & s' & Hin & Hs)].
      * left. split; [reflexivity |].
        exists (krb5_set_principal_realm q realm :: parsed).
        split; [list_assoc |]. constructor; [eauto | exact Hall].
      * right. split; [reflexivity |]. exists s'. split; [right; exact Hin | exact Hs].
    + inversion E. subst. right. split; [reflexivity |]. exists s.
      split; [left; reflexivity | exact Eq].
Qed.

(** [ensure_service_principals], when it was given SUCCESS and returns. *)
Lemma ensure_service_principals_runs (m : machine W) r m' :
  ensure_service_principals X ADCLI_SUCCESS m = Done r m' ->
  let e := m_enroll m in
  let e' := m_enroll m' in
  (m_world m' = m_world m /\ m_trace m' = m_trace m /\ m_keytabs m' = m_keytabs m)
  /\ (host_fqdn e' = host_fqdn e /\ computer_name e' = computer_name e
      /\ computer_sam e' = computer_sam e
      /\ computer_principal e' = computer_principal e
      /\ computer_password e' = computer_password e
      /\ keytab e' = keytab e /\ service_names e' = service_names e)
  /\ service_principals e' = service_principals_wanted e
  /\ ((r = ADCLI_ERR_UNEXPECTED /\ service_principals_wanted e = None)
      \/ (r = ADCLI_ERR_UNEXPECTED /\ x_conn_krb5_context X (m_world m) = false)
      \/ exists sps cp kps,
          service_principals_wanted e = Some sps
          /\ computer_principal e = Some cp
          /\ parse_service_principals X (x_conn_domain_realm X (m_world m)) sps [cp]
             = (r, kps)
          /\ keytab_principals e' = Some kps).
Proof.
  intros E. destruct (ensure_service_principals_asserts _ _ _ _ E) as (Hn & Hk).
  cbv zeta. unfold service_principals_wanted.
  unfold ensure_service_principals, bind, get_enroll, c_assert, update_enroll,
    ask, ret, abort in E.
  rewrite Hn, Hk in E. cbn in E.
  destruct (service_principals (m_enroll m)) as [given |] eqn:Es; cbn in E;
  repeat match type of E with
         | context [match ?x with _ => _ end] =>
             destruct x eqn:?; cbn in E; try discriminate E
         end;
    inversion E; subst; cbn;
    repeat match goal with
           | H : negb _ = true |- _ => apply negb_true_iff in H
           | H : negb _ = false |- _ => apply negb_false_iff in H
           end;
    (split; [auto |]); (split; [repeat split; auto |]);
    (split; [first [reflexivity | congruence] |]);
    repeat match goal with
           | H : Some _ = Some _ |- _ => inversion H; subst; clear H
           end;
    first [ solve [left; split; congruence]
          | solve [right; left; split; congruence]
          | solve [right; right; do 3 eexists; repeat split; eauto] ].
Qed.

End Prepare.

(** ** Stages that cannot stop on the way *)

Section Sure.

Context {W : Type}.

Implicit Types (P : machine W -> Prop).

(** From [P], the computation returns, and [P] holds then. *)
Lemma sure_ret A P (a : A) : triple P (ret a) (fun _ => P) (fun _ => False).
Proof. apply triple_ret. auto. Qed.

Lemma sure_get_enroll P : triple P get_enroll (fun _ => P) (fun _ => False).
Proof. intros m Hm. exact Hm. Qed.

Lemma sure_ask A P (f : W -> A) : triple P (ask f) (fun _ => P) (fun _ => False).
Proof. intros m Hm. exact Hm. Qed.

Lemma sure_update_enroll P f :
  stable_enroll P f -> triple P (update_enroll f) (fun _ => P) (fun _ => False).
Proof. intros H m Hm. apply H, Hm. Qed.

Lemma sure_call A P (f : W -> A * W) ev :
  (forall a, stable_event P (ev a)) ->
  triple P (call f ev) (fun _ => P) (fun _ => False).
Proof.
  intros H m Hm. unfold call. destruct (f (m_world m)) as [a w]. apply H, Hm.
Qed.

Lemma sure_returns A P (c : M W A) (m : machine W) :
  triple P c (fun _ => P) (fun _ => False) -> P m ->
  exists a m', c m = Done a m' /\ P m'.
Proof.
  intros H Hm. specialize (H m Hm).
  destruct (c m) as [a m' | m' | m']; [eauto | destruct H | destruct H].
Qed.

End Sure.

Ltac sure_step :=
  match goal with
  | |- triple _ (bind _ _) _ _ => eapply triple_bind; [ | intros ]
  | |- triple _ (ret _) _ _ => apply sure_ret
  | |- triple _ get_enroll _ _ => apply sure_get_enroll
  | |- triple _ (ask _) _ _ => apply sure_ask
  | |- triple _ (update_enroll _) _ _ => apply sure_update_enroll
  | |- triple _ (call _ _) _ _ => apply sure_call; intros
  | |- triple _ (if ?b then _ else _) _ _ => destruct b
  | |- triple _ (match ?x with _ => _ end) _ _ => destruct x
  end.

(** The side conditions, for an invariant on fields the stage leaves alone
    and on nothing else. *)
Ltac sure :=
  repeat (cbv beta;
          first [ sure_step
                | match goal with
                  | |- stable_enroll _ _ => intros ? ?; assumption
                  | |- stable_event _ _ => intros ? ? ?; assumption
                  end ]).

Section PrepareStages.

Context {W : Type} (X : externals W).

(** An invariant on the structure alone. *)
Variable Phi : adcli_enroll -> Prop.

Let Inv := fun m : machine W => Phi (m_enroll m).

Lemma ensure_host_fqdn_sure res :
  (forall v e, Phi e -> Phi (put_host_fqdn v e)) ->
  triple Inv (ensure_host_fqdn X res) (fun _ => Inv) (fun _ => False).
Proof.
  intros H. unfold ensure_host_fqdn. sure.
  intros m Hm. apply H, Hm.
Qed.

Lemma ensure_computer_name_sure res :
  (forall v e, Phi e -> Phi (put_computer_name v e)) ->
  triple Inv (ensure_computer_name res) (fun _ => Inv) (fun _ => False).
Proof.
  intros H. unfold ensure_computer_name. sure.
  intros m Hm. apply H, Hm.
Qed.

Lemma ensure_computer_sam_sure res :
  (forall v e, Phi e -> Phi (put_computer_sam v e)) ->
  (forall v e, Phi e -> Phi (put_computer_principal v e)) ->
  triple Inv (ensure_computer_sam X res) (fun _ => Inv) (fun _ => False).
Proof.
  intros H1 H2. unfold ensure_computer_sam. sure;
    intros m Hm; first [apply H1, Hm | apply H2, Hm].
Qed.

Lemma ensure_host_keytab_sure res :
  (forall v e, Phi e -> Phi (put_keytab v e)) ->
  (forall v e, Phi e -> Phi (put_keytab_name v e)) ->
  (forall v e, Phi e -> Phi (put_keytab_name_is_krb5 v e)) ->
  triple Inv (ensure_host_keytab X res) (fun _ => Inv) (fun _ => False).
Proof.
  intros H1 H2 H3. unfold ensure_host_keytab. sure;
    try (intros m Hm; first [apply H1, Hm | apply H2, Hm | apply H3, Hm]);
    intros m w Hm; exact Hm.
Qed.

Lemma ensure_service_names_sure res :
  (forall v e, Phi e -> Phi (put_service_names v e)) ->
  triple Inv (ensure_service_names res) (fun _ => Inv) (fun _ => False).
Proof.
  intros H. unfold ensure_service_names. sure.
  intros m Hm. apply H, Hm.
Qed.

(** With a password in the structure, [ensure_computer_password] has
    nothing to do. *)
Lemma ensure_computer_password_sure fuel res :
  (forall e, Phi e -> isSome (computer_password e) = true) ->
  triple Inv (ensure_computer_password X fuel res) (fun _ => Inv) (fun _ => False).
Proof.
  intros H m Hm. unfold ensure_computer_password.
  destruct (failed res); [exact Hm |].
  unfold bind, get_enroll. rewrite (H _ Hm). exact Hm.
Qed.

End PrepareStages.

(** ** The stages of a run of [adcli_enroll_prepare] that has returned *)

(** Case analysis on the tests a returned computation went through. *)
Ltac run_cases E :=
  repeat match type of E with
         | context [match ?x with _ => _ end] =>
             destruct x eqn:?; cbn in E; try discriminate E
         end.

Section PrepareRuns.

Context {W : Type} (X : externals W).

Lemma ensure_computer_sam_runs res (m : machine W) r m' :
  ensure_computer_sam X res m = Done r m' ->
  let sam := (fmt_s (computer_name (m_enroll m)) ++ "$")%string in
  computer_sam (m_enroll m') = Some sam
  /\ ((r = ADCLI_ERR_UNEXPECTED
       /\ (x_conn_krb5_context X (m_world m) = false
           \/ x_krb5_parse_name X sam = None))
      \/ (r = ADCLI_SUCCESS
          /\ exists q,
              x_krb5_parse_name X sam = Some q
              /\ computer_principal (m_enroll m')
                 = Some (krb5_set_principal_realm q
                           (x_conn_domain_realm X (m_world m))))).
Proof.
  intros E. cbv zeta.
  unfold ensure_computer_sam, bind, update_enroll, get_enroll, ask, ret in E.
  cbn in E. run_cases E; inversion E; subst; cbn; (split; [reflexivity |]);
    repeat match goal with
           | H : negb _ = true |- _ => apply negb_true_iff in H
           end;
    first [ solve [right; split; [reflexivity |]; eexists; split; reflexivity]
          | solve [left; split; [reflexivity |]; right; reflexivity]
          | solve [left; split; [reflexivity |]; left; assumption] ].
Qed.

Lemma ensure_computer_password_runs fuel res (m : machine W) r m' :
  ensure_computer_password X fuel res m = Done r m' ->
  (failed res = true /\ r = res /\ m' = m)
  \/ (failed res = false
      /\ ((r = ADCLI_SUCCESS /\ isSome (computer_password (m_enroll m')) = true)
          \/ r = ADCLI_ERR_UNEXPECTED)).
Proof.
  unfold ensure_computer_password. destruct (failed res) eqn:Ef.
  { intros H. inversion H. auto. }
  intros E. right. split; [reflexivity |].
  unfold bind at 1 in E. unfold get_enroll in E.
  destruct (isSome (computer_password (m_enroll m))) eqn:Ep.
  { inversion E. subst. auto. }
  destruct (reset_password (m_enroll m)).
  - destruct (computer_name (m_enroll m)) as [name |]; [| discriminate].
    unfold bind, update_enroll in E.
    destruct (x_calc_reset_password X name) as [pw |]; inversion E; subst; cbn; auto.
  - apply bind_done in E. destruct E as (g & m1 & _ & E).
    destruct g as [password |]; [| inversion E; auto].
    unfold bind, update_enroll, ret in E. inversion E. subst. cbn. auto.
Qed.

Lemma ensure_host_keytab_runs res (m : machine W) r m' :
  ensure_host_keytab X res m = Done r m' ->
  (failed res = true /\ r = res /\ m' = m)
  \/ (failed res = false
      /\ ((r = ADCLI_SUCCESS /\ isSome (keytab (m_enroll m')) = true)
          \/ r = ADCLI_ERR_UNEXPECTED \/ r = ADCLI_ERR_FAIL)).
Proof.
  unfold ensure_host_keytab. destruct (failed res) eqn:Ef.
  { intros H. inversion H. auto. }
  intros E. right. split; [reflexivity |].
  unfold bind, get_enroll, ask, call, update_enroll, ret in E.
  destruct (isSome (keytab (m_enroll m))) eqn:Ek.
  { inversion E. subst. auto. }
  destruct (x_conn_krb5_context X (m_world m)); cbn [negb] in E;
    [| inversion E; auto].
  destruct (keytab_name (m_enroll m)) as [name |].
  - destruct (x_krb5_kt_resolve X name (m_world m)) as [code w].
    destruct (negb (code =? 0)); inversion E; subst; cbn; auto.
  - destruct (x_krb5_kt_default X (m_world m)) as [[code name] w]. cbn [fst snd] in E.
    destruct (negb (code =? 0)); inversion E; subst; cbn; auto.
Qed.

Lemma ensure_service_names_runs res (m : machine W) r m' :
  ensure_service_names res m = Done r m' ->
  r = res
  /\ (failed res = true -> m' = m)
  /\ (failed res = false ->
      isSome (service_names (m_enroll m')) = true
      /\ (service_names (m_enroll m) = None ->
          service_names (m_enroll m') = Some ["HOST"; "RestrictedKrbHost"])
      /\ (forall names, service_names (m_enroll m) = Some names ->
                        service_names (m_enroll m') = Some names)).
Proof.
  unfold ensure_service_names. destruct (failed res) eqn:Ef.
  { intros H. inversion H. subst. repeat split; congruence. }
  apply failed_not_success in Ef. subst res.
  unfold bind, get_enroll, update_enroll, ret.
  destruct (service_names (m_enroll m)) as [names |] eqn:En; cbn [isSome];
    intros H; inversion H; subst; cbn; rewrite ?En;
    repeat split; try congruence; auto.
Qed.

(** A run that has returned went through its seven stages. *)
Lemma adcli_enroll_prepare_stages fuel flags (m : machine W) r m' :
  adcli_enroll_prepare X fuel flags m = Done r m' ->
  exists r1 m1 r2 m2 r3 m3 r4 m4 r5 m5 r6 m6,
    ensure_host_fqdn X ADCLI_SUCCESS m = Done r1 m1
    /\ ensure_computer_name r1 m1 = Done r2 m2
    /\ ensure_computer_sam X r2 m2 = Done r3 m3
    /\ ensure_computer_password X fuel r3 m3 = Done r4 m4
    /\ (if negb (ADCLI_ENROLL_NO_KEYTAB flags) then ensure_host_keytab X r4
        else ret r4) m4 = Done r5 m5
    /\ ensure_service_names r5 m5 = Done r6 m6
    /\ ensure_service_principals X r6 m6 = Done r m'.
Proof.
  unfold adcli_enroll_prepare. intros E.
  apply bind_done in E. destruct E as (r1 & m1 & E1 & E).
  apply bind_done in E. destruct E as (r2 & m2 & E2 & E).
  apply bind_done in E. destruct E as (r3 & m3 & E3 & E).
  apply bind_done in E. destruct E as (r4 & m4 & E4 & E).
  apply bind_done in E. destruct E as (r5 & m5 & E5 & E).
  apply bind_done in E. destruct E as (r6 & m6 & E6 & E).
  apply bind_done in E. destruct E as (r7 & m7 & E7 & E).
  inversion E. subst.
  exists r1, m1, r2, m2, r3, m3, r4, m4, r5, m5, r6, m6. auto 10.
Qed.

(** The keytab stage hands a failure on, with or without keytab. *)
Lemma keytab_stage_runs flags res (m : machine W) r m' :
  (if negb (ADCLI_ENROLL_NO_KEYTAB flags) then ensure_host_keytab X res
   else ret res) m = Done r m' ->
  (failed res = true /\ r = res /\ m' = m)
  \/ (failed res = false
      /\ ((r = ADCLI_SUCCESS
           /\ (ADCLI_ENROLL_NO_KEYTAB flags = false ->
               isSome (keytab (m_enroll m')) = true))
          \/ r = ADCLI_ERR_UNEXPECTED \/ r = ADCLI_ERR_FAIL)).
Proof.
  destruct (ADCLI_ENROLL_NO_KEYTAB flags); cbn [negb].
  - intros H. inversion H. subst. destruct (failed r) eqn:Ef; [auto |].
    right. split; [reflexivity |]. left.
    split; [apply failed_not_success, Ef | discriminate].
  - intros E. destruct (ensure_host_keytab_runs _ _ _ _ E)
      as [H | (Hf & [(-> & Hk) | H])]; auto 8.
Qed.

(** What the stages from the third on make of a result. *)
Lemma prepare_results fuel flags r (m' : machine W)
    r3 m3 r4 m4 r5 m5 r6 m6 :
  ensure_computer_password X fuel r3 m3 = Done r4 m4 ->
  (if negb (ADCLI_ENROLL_NO_KEYTAB flags) then ensure_host_keytab X r4
   else ret r4) m4 = Done r5 m5 ->
  ensure_service_names r5 m5 = Done r6 m6 ->
  ensure_service_principals X r6 m6 = Done r m' ->
  r = ADCLI_SUCCESS ->
  r3 = ADCLI_SUCCESS /\ r4 = ADCLI_SUCCESS /\ r5 = ADCLI_SUCCESS
  /\ r6 = ADCLI_SUCCESS.
Proof.
  intros E4 E5 E6 E7 ->.
  assert (r6 = ADCLI_SUCCESS) as ->.
  { destruct (failed r6) eqn:Ef; [| apply failed_not_success, Ef].
    destruct (ensure_service_principals_passes X _ _ _ _ Ef E7) as (<- & _).
    discriminate Ef. }
  destruct (ensure_service_names_runs _ _ _ _ E6) as (<- & _).
  assert (r4 = ADCLI_SUCCESS) as ->.
  { destruct (keytab_stage_runs _ _ _ _ _ E5)
      as [(Hf & <- & _) | (Hf & _)]; [discriminate Hf | ].
    apply failed_not_success, Hf. }
  assert (r3 = ADCLI_SUCCESS) as ->.
  { destruct (ensure_computer_password_runs _ _ _ _ _ E4)
      as [(Hf & <- & _) | (Hf & _)]; [discriminate Hf | ].
    apply failed_not_success, Hf. }
  auto.
Qed.

End PrepareRuns.

(** ** What the stages leave as it was *)

Section PrepareFields.

Context {W : Type} (X : externals W).

Variable Phi : adcli_enroll -> Prop.

Let Inv := fun m : machine W => Phi (m_enroll m).

Lemma fields_logs_quiet : logs_quiet Inv.
Proof. intros ev _ m w H. exact H. Qed.

Lemma fields_assigns A (put : A -> adcli_enroll -> adcli_enroll) :
  (forall v e, Phi e -> Phi (put v e)) -> assigns Inv put.
Proof. intros H v m Hm. apply H, Hm. Qed.

Hypothesis Hkeytab : forall v e, Phi e -> Phi (put_keytab v e).
Hypothesis Hkeytab_name : forall v e, Phi e -> Phi (put_keytab_name v e).
Hypothesis Hkeytab_krb5 : forall v e, Phi e -> Phi (put_keytab_name_is_krb5 v e).

(** The keytab stage. *)
Lemma prepare_5_keeps flags r4 (m4 : machine W) r5 m5 :
  (if negb (ADCLI_ENROLL_NO_KEYTAB flags) then ensure_host_keytab X r4
   else ret r4) m4 = Done r5 m5 ->
  Phi (m_enroll m4) -> Phi (m_enroll m5).
Proof.
  intros E5 H4. destruct (negb (ADCLI_ENROLL_NO_KEYTAB flags)).
  - refine (keeps_done _ Inv _ _ _ _ _ H4 E5).
    apply ensure_host_keytab_keeps;
      [apply fields_logs_quiet | apply fields_assigns, Hkeytab
       | apply fields_assigns, Hkeytab_name | apply fields_assigns, Hkeytab_krb5].
  - inversion E5. subst. exact H4.
Qed.

Hypothesis Hpassword : forall v e, Phi e -> Phi (put_computer_password v e).

(** The password stage and the keytab stage. *)
Lemma prepare_4_5_keep fuel flags r3 (m3 : machine W) r4 m4 r5 m5 :
  ensure_computer_password X fuel r3 m3 = Done r4 m4 ->
  (if negb (ADCLI_ENROLL_NO_KEYTAB flags) then ensure_host_keytab X r4
   else ret r4) m4 = Done r5 m5 ->
  Phi (m_enroll m3) -> Phi (m_enroll m5).
Proof.
  intros E4 E5 H3. apply (prepare_5_keeps _ _ _ _ _ E5).
  refine (keeps_done _ Inv _ _ _ _ _ H3 E4).
  apply ensure_computer_password_keeps;
    [apply fields_logs_quiet | apply fields_assigns, Hpassword].
Qed.

Hypothesis Hfqdn : forall v e, Phi e -> Phi (put_host_fqdn v e).
Hypothesis Hname : forall v e, Phi e -> Phi (put_computer_name v e).
Hypothesis Hsam : forall v e, Phi e -> Phi (put_computer_sam v e).
Hypothesis Hprincipal : forall v e, Phi e -> Phi (put_computer_principal v e).

(** The first five stages. *)
Lemma prepare_1_5_keep fuel flags (m : machine W) r1 m1 r2 m2 r3 m3 r4 m4 r5 m5 :
  ensure_host_fqdn X ADCLI_SUCCESS m = Done r1 m1 ->
  ensure_computer_name r1 m1 = Done r2 m2 ->
  ensure_computer_sam X r2 m2 = Done r3 m3 ->
  ensure_computer_password X fuel r3 m3 = Done r4 m4 ->
  (if negb (ADCLI_ENROLL_NO_KEYTAB flags) then ensure_host_keytab X r4
   else ret r4) m4 = Done r5 m5 ->
  Phi (m_enroll m) -> Phi (m_enroll m5).
Proof.
  intros E1 E2 E3 E4 E5 H0.
  assert (Inv m1) as H1.
  { refine (keeps_done _ Inv _ _ _ _ _ H0 E1).
    apply ensure_host_fqdn_keeps, fields_assigns, Hfqdn. }
  assert (Inv m2) as H2.
  { refine (keeps_done _ Inv _ _ _ _ _ H1 E2).
    apply ensure_computer_name_keeps, fields_assigns, Hname. }
  assert (Inv m3) as H3.
  { refine (keeps_done _ Inv _ _ _ _ _ H2 E3).
    apply ensure_computer_sam_keeps; apply fields_assigns; assumption. }
  exact (prepare_4_5_keep _ _ _ _ _ _ _ _ E4 E5 H3).
Qed.

End PrepareFields.

(** An assignment to another field. *)
Ltac other_field := solve [intros ? ? H; exact H].

Lemma ensure_service_principals_aborts W (X : externals W) res (m : machine W) :
  isSome (keytab_principals (m_enroll m)) = true ->
  ensure_service_principals X res m = Aborted m.
Proof.
  intros Hk. unfold ensure_service_principals, bind, get_enroll, c_assert.
  destruct (isSome (service_names (m_enroll m))); [| reflexivity].
  cbn. rewrite Hk. reflexivity.
Qed.

(** With a password and keytab principals in the structure, a run of
    [adcli_enroll_prepare] stops on the second assertion of
    [ensure_service_principals]. *)
Lemma adcli_enroll_prepare_aborts W (X : externals W) fuel flags (m : machine W) :
  isSome (computer_password (m_enroll m)) = true ->
  isSome (keytab_principals (m_enroll m)) = true ->
  exists m', adcli_enroll_prepare X fuel flags m = Aborted m'.
Proof.
  intros Hp Hk.
  set (Phi := fun e => isSome (computer_password e) = true
                       /\ isSome (keytab_principals e) = true).
  assert (Phi (m_enroll m)) as H0 by (split; assumption).
  unfold adcli_enroll_prepare.
  destruct (sure_returns _ _ _ m
              (ensure_host_fqdn_sure X Phi ADCLI_SUCCESS ltac:(other_field)) H0)
    as (r1 & m1 & E1 & H1).
  unfold bind at 1. rewrite E1.
  destruct (sure_returns _ _ _ m1
              (ensure_computer_name_sure Phi r1 ltac:(other_field)) H1)
    as (r2 & m2 & E2 & H2).
  unfold bind at 1. rewrite E2.
  destruct (sure_returns _ _ _ m2
              (ensure_computer_sam_sure X Phi r2 ltac:(other_field)
                 ltac:(other_field)) H2)
    as (r3 & m3 & E3 & H3).
  unfold bind at 1. rewrite E3.
  destruct (sure_returns _ _ _ m3
              (ensure_computer_password_sure X Phi fuel r3
                 ltac:(intros e He; apply He)) H3)
    as (r4 & m4 & E4 & H4).
  unfold bind at 1. rewrite E4.
  assert (exists r5 m5,
             (if negb (ADCLI_ENROLL_NO_KEYTAB flags) then ensure_host_keytab X r4
              else ret r4) m4 = Done r5 m5 /\ Phi (m_enroll m5))
    as (r5 & m5 & E5 & H5).
  { destruct (negb (ADCLI_ENROLL_NO_KEYTAB flags)).
    - exact (sure_returns _ _ _ m4
               (ensure_host_keytab_sure X Phi r4 ltac:(other_field)
                  ltac:(other_field) ltac:(other_field)) H4).
    - exists r4, m4. split; [reflexivity | exact H4]. }
  unfold bind at 1. rewrite E5.
  destruct (sure_returns _ _ _ m5
              (ensure_service_names_sure Phi r5 ltac:(other_field)) H5)
    as (r6 & m6 & E6 & H6).
  unfold bind at 1. rewrite E6.
  unfold bind. rewrite (ensure_service_principals_aborts W X r6 m6 (proj2 H6)).
  eexists. reflexivity.
Qed.

(** X5. [adcli_enroll_prepare] cannot be called twice in a row on the
    same context: after a call that returned SUCCESS, the structure holds
    the keytab principals, and any further call stops on the assertion
    [keytab_principals == NULL] of [ensure_service_principals] instead of
    returning.  (A join resets the state first.) *)
Theorem prepare_twice_fails_assertion :
  forall W (X : externals W) (fuel : nat) (flags : adcli_enroll_flags)
         (m m' : machine W),
    adcli_enroll_prepare X fuel flags m = Done ADCLI_SUCCESS m' ->
    forall fuel' flags',
    exists m'', adcli_enroll_prepare X fuel' flags' m' = Aborted m''.
Proof.
  intros W X fuel flags m m' E fuel' flags'.
  destruct (adcli_enroll_prepare_stages X _ _ _ _ _ E)
    as (r1 & m1 & r2 & m2 & r3 & m3 & r4 & m4 & r5 & m5 & r6 & m6
        & E1 & E2 & E3 & E4 & E5 & E6 & E7).
  destruct (prepare_results X _ _ _ _ _ _ _ _ _ _ _ _ E4 E5 E6 E7 eq_refl)
    as (-> & -> & -> & ->).
  destruct (ensure_service_principals_runs X _ _ _ E7)
    as (_ & (_ & _ & _ & _ & Hpw & _ & _) & _ & Hr).
  apply adcli_enroll_prepare_aborts.
  - rewrite Hpw.
    destruct (ensure_computer_password_runs X _ _ _ _ _ E4)
      as [(Hf & _) | (_ & [(_ & H4) | Hx])]; try discriminate.
    pose proof (prepare_5_keeps X (fun e => isSome (computer_password e) = true)
                  ltac:(other_field) ltac:(other_field) ltac:(other_field)
                  _ _ _ _ _ E5 H4) as H5.
    refine (keeps_done _
              (fun m0 => isSome (computer_password (m_enroll m0)) = true)
              _ _ _ _ _ H5 E6).
    apply ensure_service_names_keeps.
    apply (fields_assigns (fun e => isSome (computer_password e) = true)).
    other_field.
  - destruct Hr as [(Hx & _) | [(Hx & _) | (sps & cp & kps & _ & _ & _ & ->)]];
      try discriminate.
    reflexivity.
Qed.

Lemma prepare_twice_fails_assertion_witness :
  exists m'',
    adcli_enroll_prepare (small_realm plain_setup) 320 join_flags
      (final (adcli_enroll_prepare (small_realm plain_setup) 320 join_flags
                (start adcli_enroll_new)))
    = Aborted m''.
Proof.
  apply (prepare_twice_fails_assertion nat (small_realm plain_setup) 320%nat
           join_flags (start adcli_enroll_new)).
  vm_compute. reflexivity.
Defined.

Lemma ensure_service_names_keeps_field W (Phi : adcli_enroll -> Prop)
    res (m : machine W) r m' :
  (forall v e, Phi e -> Phi (put_service_names v e)) ->
  ensure_service_names res m = Done r m' ->
  Phi (m_enroll m) -> Phi (m_enroll m').
Proof.
  intros H E H0.
  refine (keeps_done _ (fun m0 => Phi (m_enroll m0)) _ _ _ _ _ H0 E).
  apply ensure_service_names_keeps. apply (fields_assigns Phi). exact H.
Qed.

(** X6. When the caller has set no service names, a failure of an early
    stage of [adcli_enroll_prepare] is never returned: the run stops on the
    assertion [service_names != NULL] of [ensure_service_principals].  So
    if such a run returns at all, every stage before
    [ensure_service_principals] has succeeded: the structure holds a
    password, the open keytab (unless [ADCLI_ENROLL_NO_KEYTAB]) and the
    default service names, and the result is SUCCESS or a failure of
    [ensure_service_principals] itself (UNEXPECTED, or CONFIG for a service
    principal that does not parse); ADCLI_ERR_FAIL is never returned. *)
Theorem prepare_returns_no_early_failure :
  forall W (X : externals W) (fuel : nat) (flags : adcli_enroll_flags)
         (m : machine W) r m',
    service_names (m_enroll m) = None ->
    adcli_enroll_prepare X fuel flags m = Done r m' ->
    (r = ADCLI_SUCCESS \/ r = ADCLI_ERR_UNEXPECTED \/ r = ADCLI_ERR_CONFIG)
    /\ isSome (computer_password (m_enroll m')) = true
    /\ (ADCLI_ENROLL_NO_KEYTAB flags = false ->
        isSome (keytab (m_enroll m')) = true)
    /\ service_names (m_enroll m') = Some ["HOST"; "RestrictedKrbHost"].
Proof.
  intros W X fuel flags m r m' Hn E.
  destruct (adcli_enroll_prepare_stages X _ _ _ _ _ E)
    as (r1 & m1 & r2 & m2 & r3 & m3 & r4 & m4 & r5 & m5 & r6 & m6
        & E1 & E2 & E3 & E4 & E5 & E6 & E7).
  pose proof (prepare_1_5_keep X (fun e => service_names e = None)
                ltac:(other_field) ltac:(other_field) ltac:(other_field)
                ltac:(other_field) ltac:(other_field) ltac:(other_field)
                ltac:(other_field) ltac:(other_field)
                _ _ _ _ _ _ _ _ _ _ _ _ _ E1 E2 E3 E4 E5 Hn) as Hn5.
  cbv beta in Hn5.
  destruct (ensure_service_principals_asserts X _ _ _ _ E7) as (Hn6 & _).
  destruct (ensure_service_names_runs _ _ _ _ E6) as (-> & Hfail & Hok).
  destruct (failed r5) eqn:Ef5.
  { rewrite (Hfail eq_refl), Hn5 in Hn6. discriminate Hn6. }
  destruct (Hok eq_refl) as (_ & Hdefault & _).
  specialize (Hdefault Hn5).
  apply failed_not_success in Ef5. subst r5.
  destruct (keytab_stage_runs X _ _ _ _ _ E5)
    as [(Hf & <- & _) | (Hf4 & [(_ & Hkt) | [Hx | Hx]])]; try discriminate.
  apply failed_not_success in Hf4. subst r4.
  destruct (ensure_computer_password_runs X _ _ _ _ _ E4)
    as [(Hf & <- & _) | (_ & [(_ & Hpw) | Hx])]; try discriminate.
  destruct (ensure_service_principals_runs X _ _ _ E7)
    as (_ & (_ & _ & _ & _ & Hpw' & Hkt' & Hnames') & _ & Hr).
  split; [| split; [| split]].
  - destruct Hr as [(-> & _) | [(-> & _) | (sps & cp & kps & _ & _ & Hp & _)]];
      auto.
    destruct (parse_service_principals_result X _ _ _ _ _ Hp)
      as [(-> & _) | (-> & _)]; auto.
  - rewrite Hpw'.
    apply (ensure_service_names_keeps_field W
             (fun e => isSome (computer_password e) = true) _ _ _ _
             ltac:(other_field) E6).
    exact (prepare_5_keeps X (fun e => isSome (computer_password e) = true)
             ltac:(other_field) ltac:(other_field) ltac:(other_field)
             _ _ _ _ _ E5 Hpw).
  - intros Hflag. rewrite Hkt'.
    apply (ensure_service_names_keeps_field W
             (fun e => isSome (keytab e) = true) _ _ _ _
             ltac:(other_field) E6).
    exact (Hkt Hflag).
  - rewrite Hnames'. exact Hdefault.
Qed.

Lemma prepare_returns_no_early_failure_witness :
  let m' := final (adcli_enroll_prepare (small_realm plain_setup) 320 join_flags
                     (start adcli_enroll_new)) in
  (ADCLI_SUCCESS = ADCLI_SUCCESS \/ ADCLI_SUCCESS = ADCLI_ERR_UNEXPECTED
   \/ ADCLI_SUCCESS = ADCLI_ERR_CONFIG)
  /\ isSome (computer_password (m_enroll m')) = true
  /\ (ADCLI_ENROLL_NO_KEYTAB join_flags = false ->
      isSome (keytab (m_enroll m')) = true)
  /\ service_names (m_enroll m') = Some ["HOST"; "RestrictedKrbHost"].
Proof.
  apply (prepare_returns_no_early_failure nat (small_realm plain_setup) 320%nat
           join_flags (start adcli_enroll_new)).
  - reflexivity.
  - vm_compute. reflexivity.
Defined.

(** The keytab of this host cannot be opened: with no service names set,
    the run stops on the assertion; with service names set beforehand, it
    returns ADCLI_ERR_FAIL. *)
Example unopened_keytab_stops_on_assertion :
  (exists m', adcli_enroll_prepare no_keytab_realm 320 join_flags
                (start adcli_enroll_new) = Aborted m')
  /\ result_of (adcli_enroll_prepare no_keytab_realm 320 join_flags
                  (start (put_service_names (Some ["HOST"]) adcli_enroll_new)))
     = Some ADCLI_ERR_FAIL.
Proof. split; [eexists; vm_compute; reflexivity | vm_compute; reflexivity]. Qed.

(** ** The principals a run of [adcli_enroll_prepare] leaves *)

Lemma default_service_principals_flat names name fqdn :
  forall acc,
    default_service_principals names name fqdn acc
    = match names with
      | [] => acc
      | _ => Some (match acc with Some l => l | None => [] end
                   ++ flat_map (service_principals_of name fqdn) names)%list
      end.
Proof.
  induction names as [| svc rest IH]; intros acc; [reflexivity |].
  cbn [default_service_principals flat_map]. rewrite IH.
  unfold service_principals_of at 2.
  destruct rest as [| svc' rest].
  - cbn [flat_map]. rewrite app_nil_r.
    destruct acc as [l |], fqdn as [f |]; cbn [_adcli_strv_add app];
      try reflexivity; f_equal; list_assoc.
  - destruct acc as [l |], fqdn as [f |]; cbn [_adcli_strv_add app];
      f_equal; list_assoc.
Qed.

Lemma world_kept_by_naming W (X : externals W) (m : machine W) r1 m1 r2 m2 :
  ensure_host_fqdn X ADCLI_SUCCESS m = Done r1 m1 ->
  ensure_computer_name r1 m1 = Done r2 m2 ->
  m_world m2 = m_world m.
Proof.
  intros E1 E2.
  assert (m_world m1 = m_world m) as H1.
  { refine (keeps_done _ (fun m0 => m_world m0 = m_world m) _ _ _ _ _ eq_refl E1).
    apply ensure_host_fqdn_keeps. intros v m0 H. exact H. }
  refine (keeps_done _ (fun m0 => m_world m0 = m_world m) _ _ _ _ _ H1 E2).
  apply ensure_computer_name_keeps. intros v m0 H. exact H.
Qed.

(** X7. After a run of [adcli_enroll_prepare] that returned SUCCESS, the
    keytab principals are the computer principal followed by one principal
    for each service principal, in order.  The computer principal is the
    SAM account name, parsed, in the realm of the domain; each of the
    others is a service principal, parsed, with its realm replaced by the
    realm of the domain. *)
Theorem prepare_keytab_principals :
  forall W (X : externals W) (fuel : nat) (flags : adcli_enroll_flags)
         (m m' : machine W),
    adcli_enroll_prepare X fuel flags m = Done ADCLI_SUCCESS m' ->
    exists sam q cp sps parsed,
      computer_sam (m_enroll m') = Some sam
      /\ x_krb5_parse_name X sam = Some q
      /\ cp = krb5_set_principal_realm q (x_conn_domain_realm X (m_world m))
      /\ computer_principal (m_enroll m') = Some cp
      /\ service_principals (m_enroll m') = Some sps
      /\ keytab_principals (m_enroll m') = Some (cp :: parsed)
      /\ Forall2 (fun s p => exists q',
                      x_krb5_parse_name X s = Some q'
                      /\ p = krb5_set_principal_realm q'
                               (x_conn_domain_realm X (m_world m')))
           sps parsed.
Proof.
  intros W X fuel flags m m' E.
  destruct (adcli_enroll_prepare_stages X _ _ _ _ _ E)
    as (r1 & m1 & r2 & m2 & r3 & m3 & r4 & m4 & r5 & m5 & r6 & m6
        & E1 & E2 & E3 & E4 & E5 & E6 & E7).
  destruct (prepare_results X _ _ _ _ _ _ _ _ _ _ _ _ E4 E5 E6 E7 eq_refl)
    as (-> & -> & -> & ->).
  destruct (ensure_computer_sam_runs X _ _ _ _ E3)
    as (Hsam & [(Hx & _) | (_ & q & Hq & Hcp)]); [discriminate |].
  rewrite (world_kept_by_naming W X _ _ _ _ _ E1 E2) in Hcp.
  set (sam := (fmt_s (computer_name (m_enroll m2)) ++ "$")%string) in *.
  set (cp := krb5_set_principal_realm q (x_conn_domain_realm X (m_world m))) in *.
  assert (computer_sam (m_enroll m6) = Some sam
          /\ computer_principal (m_enroll m6) = Some cp) as (Hsam6 & Hcp6).
  { apply (ensure_service_names_keeps_field W
             (fun e => computer_sam e = Some sam /\ computer_principal e = Some cp)
             _ _ _ _ ltac:(other_field) E6).
    apply (prepare_4_5_keep X
             (fun e => computer_sam e = Some sam /\ computer_principal e = Some cp)
             ltac:(other_field) ltac:(other_field) ltac:(other_field)
             ltac:(other_field) _ _ _ _ _ _ _ _ E4 E5).
    split; assumption. }
  destruct (ensure_service_principals_runs X _ _ _ E7)
    as ((Hw & _ & _) & (_ & _ & Hsam' & Hcp' & _) & Hsps & Hr).
  destruct Hr as [(Hx & _) | [(Hx & _) | (sps & cp' & kps & Hwant & Hc & Hp & Hk)]];
    try discriminate.
  rewrite Hcp6 in Hc. inversion Hc. subst cp'.
  destruct (parse_service_principals_result X _ _ _ _ _ Hp)
    as [(_ & parsed & -> & Hall) | (Hx & _)]; [| discriminate].
  exists sam, q, cp, sps, parsed.
  split; [congruence |]. split; [exact Hq |]. split; [reflexivity |].
  split; [congruence |]. split; [congruence |]. split; [exact Hk |].
  rewrite Hw. exact Hall.
Qed.

Lemma prepare_keytab_principals_witness :
  let X := small_realm plain_setup in
  let m := start adcli_enroll_new in
  let m' := final (adcli_enroll_prepare X 320 join_flags m) in
  exists sam q cp sps parsed,
    computer_sam (m_enroll m') = Some sam
    /\ x_krb5_parse_name X sam = Some q
    /\ cp = krb5_set_principal_realm q (x_conn_domain_realm X (m_world m))
    /\ computer_principal (m_enroll m') = Some cp
    /\ service_principals (m_enroll m') = Some sps
    /\ keytab_principals (m_enroll m') = Some (cp :: parsed)
    /\ Forall2 (fun s p => exists q',
                    x_krb5_parse_name X s = Some q'
                    /\ p = krb5_set_principal_realm q'
                             (x_conn_domain_realm X (m_world m')))
         sps parsed.
Proof.
  apply (prepare_keytab_principals nat (small_realm plain_setup) 320%nat
           join_flags (start adcli_enroll_new)).
  vm_compute. reflexivity.
Defined.

(** X8. When the caller has set no service principals, a run of
    [adcli_enroll_prepare] that returned SUCCESS has derived them from the
    service names, in order: for each service name, the name with the
    computer name and, if there is a host FQDN, the name with the FQDN.
    The service names are the caller's, or HOST and RestrictedKrbHost when
    the caller has set none. *)
Theorem prepare_derives_service_principals :
  forall W (X : externals W) (fuel : nat) (flags : adcli_enroll_flags)
         (m m' : machine W),
    service_principals (m_enroll m) = None ->
    adcli_enroll_prepare X fuel flags m = Done ADCLI_SUCCESS m' ->
    exists names,
      service_names (m_enroll m') = Some names
      /\ names = match service_names (m_enroll m) with
                 | Some l => l
                 | None => ["HOST"; "RestrictedKrbHost"]
                 end
      /\ service_principals (m_enroll m')
         = Some (flat_map (service_principals_of (computer_name (m_enroll m'))
                             (host_fqdn (m_enroll m')))
                   names).
Proof.
  intros W X fuel flags m m' Hnone E.
  destruct (adcli_enroll_prepare_stages X _ _ _ _ _ E)
    as (r1 & m1 & r2 & m2 & r3 & m3 & r4 & m4 & r5 & m5 & r6 & m6
        & E1 & E2 & E3 & E4 & E5 & E6 & E7).
  destruct (prepare_results X _ _ _ _ _ _ _ _ _ _ _ _ E4 E5 E6 E7 eq_refl)
    as (-> & -> & -> & ->).
  assert (forall v, service_names (m_enroll m) = v -> service_names (m_enroll m5) = v)
    as Hnames5.
  { intros v Hv.
    exact (prepare_1_5_keep X (fun e => service_names e = v)
             ltac:(other_field) ltac:(other_field) ltac:(other_field)
             ltac:(other_field) ltac:(other_field) ltac:(other_field)
             ltac:(other_field) ltac:(other_field)
             _ _ _ _ _ _ _ _ _ _ _ _ _ E1 E2 E3 E4 E5 Hv). }
  assert (service_principals (m_enroll m6) = None) as Hnone6.
  { apply (ensure_service_names_keeps_field W
             (fun e => service_principals e = None) _ _ _ _
             ltac:(other_field) E6).
    exact (prepare_1_5_keep X (fun e => service_principals e = None)
             ltac:(other_field) ltac:(other_field) ltac:(other_field)
             ltac:(other_field) ltac:(other_field) ltac:(other_field)
             ltac:(other_field) ltac:(other_field)
             _ _ _ _ _ _ _ _ _ _ _ _ _ E1 E2 E3 E4 E5 Hnone). }
  destruct (ensure_service_names_runs _ _ _ _ E6) as (_ & _ & Hok).
  destruct (Hok eq_refl) as (Hsome & Hdefault & Hgiven).
  destruct (ensure_service_principals_runs X _ _ _ E7)
    as (_ & (Hfqdn & Hname & _ & _ & _ & _ & Hnames') & Hsps & Hr).
  destruct Hr as [(Hx & _) | [(Hx & _) | (sps & cp & kps & Hwant & _)]];
    try discriminate.
  unfold service_principals_wanted in Hwant, Hsps.
  rewrite Hnone6 in Hwant, Hsps. cbn [isSome] in Hwant, Hsps.
  rewrite default_service_principals_flat in Hwant, Hsps.
  destruct (service_names (m_enroll m6)) as [names |] eqn:En6;
    [| discriminate Hsome].
  exists names. split; [congruence |]. split.
  - destruct (service_names (m_enroll m)) as [l |] eqn:En.
    + pose proof (Hgiven l (Hnames5 _ eq_refl)) as H. congruence.
    + pose proof (Hdefault (Hnames5 _ eq_refl)) as H. congruence.
  - destruct names as [| svc rest]; [discriminate Hwant |].
    rewrite Hsps, Hname, Hfqdn. reflexivity.
Qed.

Lemma prepare_derives_service_principals_witness :
  let m' := final (adcli_enroll_prepare (small_realm plain_setup) 320 join_flags
                     (start adcli_enroll_new)) in
  exists names,
    service_names (m_enroll m') = Some names
    /\ names = match service_names (m_enroll (start adcli_enroll_new)) with
               | Some l => l
               | None => ["HOST"; "RestrictedKrbHost"]
               end
    /\ service_principals (m_enroll m')
       = Some (flat_map (service_principals_of (computer_name (m_enroll m'))
                           (host_fqdn (m_enroll m')))
                 names).
Proof.
  apply (prepare_derives_service_principals nat (small_realm plain_setup) 320%nat
           join_flags (start adcli_enroll_new)).
  - reflexivity.
  - vm_compute. reflexivity.
Defined.

(** The service principals of the small realm. *)
Example small_realm_service_principals :
  service_principals
    (m_enroll (final (adcli_enroll_prepare (small_realm plain_setup) 320 join_flags
                        (start adcli_enroll_new))))
  = Some ["HOST/HOST01"; "HOST/host01.corp.example.com";
          "RestrictedKrbHost/HOST01";
          "RestrictedKrbHost/host01.corp.example.com"].
Proof. vm_compute. reflexivity. Qed.

(** X9. A run of [adcli_enroll_prepare] does not report that the computer
    name could not be determined: [ensure_computer_sam] does not look at
    the running result, so the CONFIG of [ensure_computer_name] is lost
    and the later stages run.  When every principal name parses, the
    result is never ADCLI_ERR_CONFIG: it is SUCCESS, UNEXPECTED or FAIL. *)
Theorem prepare_never_reports_missing_name :
  forall W (X : externals W) (fuel : nat) (flags : adcli_enroll_flags)
         (m : machine W) r m',
    (forall s, x_krb5_parse_name X s <> None) ->
    adcli_enroll_prepare X fuel flags m = Done r m' ->
    local_result r.
Proof.
  intros W X fuel flags m r m' Hparse E. unfold local_result.
  destruct (adcli_enroll_prepare_stages X _ _ _ _ _ E)
    as (r1 & m1 & r2 & m2 & r3 & m3 & r4 & m4 & r5 & m5 & r6 & m6
        & E1 & E2 & E3 & E4 & E5 & E6 & E7).
  assert (local_result r3) as H3.
  { destruct (ensure_computer_sam_runs X _ _ _ _ E3)
      as (_ & [(-> & _) | (-> & _)]); unfold local_result; auto. }
  assert (local_result r4) as H4.
  { destruct (ensure_computer_password_runs X _ _ _ _ _ E4)
      as [(_ & -> & _) | (_ & [(-> & _) | ->])]; unfold local_result; auto. }
  assert (local_result r5) as H5.
  { destruct (keytab_stage_runs X _ _ _ _ _ E5)
      as [(_ & -> & _) | (_ & [(-> & _) | [-> | ->]])]; unfold local_result; auto. }
  destruct (ensure_service_names_runs _ _ _ _ E6) as (-> & _).
  destruct (failed r5) eqn:Ef.
  - destruct (ensure_service_principals_passes X _ _ _ _ Ef E7) as (-> & _).
    exact H5.
  - apply failed_not_success in Ef. subst r5.
    destruct (ensure_service_principals_runs X _ _ _ E7) as (_ & _ & _ & Hr).
    destruct Hr as [(-> & _) | [(-> & _) | (sps & cp & kps & _ & _ & Hp & _)]];
      auto.
    destruct (parse_service_principals_result X _ _ _ _ _ Hp)
      as [(-> & _) | (_ & s & _ & Hs)]; auto.
    elim (Hparse s Hs).
Qed.

Lemma prepare_never_reports_missing_name_witness :
  local_result ADCLI_SUCCESS.
Proof.
  apply (prepare_never_reports_missing_name nat (small_realm plain_setup) 320%nat
           join_flags
           (start (adcli_enroll_set_host_fqdn (Some "host01") adcli_enroll_new))
           ADCLI_SUCCESS
           (final (adcli_enroll_prepare (small_realm plain_setup) 320 join_flags
                     (start (adcli_enroll_set_host_fqdn (Some "host01")
                               adcli_enroll_new))))).
  - intros s. discriminate.
  - vm_compute. reflexivity.
Defined.

(** The host is called [host01], without a domain: no computer name can be
    derived, and yet the run returns SUCCESS, with a SAM account name made
    of the missing name. *)
Example unqualified_host_name_is_accepted :
  let o := adcli_enroll_prepare (small_realm plain_setup) 320 join_flags
             (start (adcli_enroll_set_host_fqdn (Some "host01") adcli_enroll_new)) in
  result_of (ensure_computer_name ADCLI_SUCCESS
               (start (adcli_enroll_set_host_fqdn (Some "host01") adcli_enroll_new)))
  = Some ADCLI_ERR_CONFIG
  /\ result_of o = Some ADCLI_SUCCESS
  /\ computer_name (m_enroll (final o)) = None
  /\ computer_sam (m_enroll (final o)) = Some (fmt_s None ++ "$")%string.
Proof. vm_compute. repeat split; reflexivity. Qed.

(** * Where the account goes *)

Section Locate.

Context {W : Type} (X : externals W).

Lemma enroll_clear_state_fields_dn (k5 : bool) (e : adcli_enroll) :
  k5 = true
  \/ (keytab_principals e = None /\ keytab e = None /\ computer_principal e = None) ->
  computer_dn (enroll_clear_state_fields k5 e) = None.
Proof.
  intros [-> | (H1 & H2 & H3)].
  - apply enroll_clear_state_fields_k5.
  - unfold enroll_clear_state_fields. rewrite H1. cbn. rewrite H2. cbn.
    rewrite H3. cbn.
    destruct (computer_password_explicit e); cbn;
      destruct (service_principals_explicit e); reflexivity.
Qed.

(** The reset does not touch what the caller has configured. *)
Lemma enroll_clear_state_fields_options (k5 : bool) (e : adcli_enroll) :
  let e' := enroll_clear_state_fields k5 e in
  host_fqdn e' = host_fqdn e
  /\ host_fqdn_explicit e' = host_fqdn_explicit e
  /\ computer_name e' = computer_name e
  /\ computer_name_explicit e' = computer_name_explicit e
  /\ reset_password e' = reset_password e
  /\ preferred_ou e' = preferred_ou e
  /\ preferred_ou_validated e' = preferred_ou_validated e
  /\ computer_container e' = computer_container e
  /\ service_names e' = service_names e
  /\ keytab_name e' = keytab_name e
  /\ keytab_name_is_krb5 e' = keytab_name_is_krb5 e
  /\ keytab_enctypes e' = keytab_enctypes e
  /\ keytab_enctypes_explicit e' = keytab_enctypes_explicit e
  /\ computer_password_explicit e' = computer_password_explicit e
  /\ service_principals_explicit e' = service_principals_explicit e
  /\ (computer_password_explicit e = true ->
      computer_password e' = computer_password e)
  /\ (service_principals_explicit e = true ->
      service_principals e' = service_principals e).
Proof.
  cbv zeta. unfold enroll_clear_state_fields.
  destruct (isSome (keytab_principals e) && negb k5); [repeat split; reflexivity |].
  cbn [keytab put_keytab_principals].
  destruct (isSome (keytab e) && negb k5); [repeat split; reflexivity |].
  cbn [computer_principal put_computer_sam put_keytab put_keytab_principals].
  destruct (isSome (computer_principal e) && negb k5); [repeat split; reflexivity |].
  cbn.
  destruct (computer_password_explicit e) eqn:E1; cbn;
    destruct (service_principals_explicit e) eqn:E2; cbn;
    repeat split; try reflexivity; try congruence.
Qed.

Lemma lookup_computer_container_runs (m : machine W) r m' :
  lookup_computer_container X m = Done r m' ->
  computer_name (m_enroll m') = computer_name (m_enroll m)
  /\ computer_dn (m_enroll m') = computer_dn (m_enroll m)
  /\ (forall c0, computer_container (m_enroll m) = Some c0 ->
                 r = ADCLI_SUCCESS /\ m' = m)
  /\ (r = ADCLI_SUCCESS -> isSome (computer_container (m_enroll m')) = true).
Proof.
  intros E.
  assert (computer_name (m_enroll m') = computer_name (m_enroll m)
          /\ computer_dn (m_enroll m') = computer_dn (m_enroll m)) as (Hn & Hd).
  { refine (keeps_done _
              (fun m0 => computer_name (m_enroll m0) = computer_name (m_enroll m)
                         /\ computer_dn (m_enroll m0) = computer_dn (m_enroll m))
              _ _ _ _ _ (conj eq_refl eq_refl) E).
    apply lookup_computer_container_keeps.
    - intros ev _ m0 w H. exact H.
    - intros v m0 H. exact H. }
  split; [exact Hn |]. split; [exact Hd |].
  unfold lookup_computer_container in E. unfold bind at 1 in E.
  unfold get_enroll in E.
  destruct (preferred_ou (m_enroll m)) as [ou |]; [| discriminate].
  destruct (computer_container (m_enroll m)) as [c |] eqn:Ec; cbn [isSome] in E.
  { inversion E. subst. split; [auto |]. intros _. rewrite Ec. reflexivity. }
  split; [intros c0 H; discriminate H |].
  apply bind_done in E. destruct E as (ldap & m1 & _ & E).
  apply bind_done in E. destruct E as (u1 & m2 & _ & E).
  apply bind_done in E. destruct E as (r1 & m3 & _ & E).
  destruct (negb (fst r1 =? LDAP_SUCCESS)).
  { inversion E. subst. discriminate. }
  apply bind_done in E. destruct E as (u2 & m4 & _ & E).
  apply bind_done in E. destruct E as (e1 & m5 & _ & E).
  apply bind_done in E. destruct E as (u3 & m6 & _ & E).
  apply bind_done in E. destruct E as (e2 & m7 & E7 & E).
  inversion E7. subst e2 m7. clear E7.
  apply bind_done in E. destruct E as (u4 & m8 & E8 & E).
  inversion E. subst. intros _.
  destruct (isSome (computer_container (m_enroll m6))) eqn:Ec6.
  - inversion E8. subst. exact Ec6.
  - inversion E8. subst. reflexivity.
Qed.

Lemma calc_computer_account_runs (m : machine W) r m' :
  calc_computer_account m = Done r m' ->
  exists c,
    computer_container (m_enroll m) = Some c
    /\ r = ADCLI_SUCCESS
    /\ m' = on_enroll
              (put_computer_dn
                 (Some ("CN=" ++ fmt_s (computer_name (m_enroll m)) ++ "," ++ c)%string))
              m.
Proof.
  unfold calc_computer_account, bind, get_enroll, update_enroll, ret.
  destruct (computer_container (m_enroll m)) as [c |]; [| discriminate].
  intros H. inversion H. subst. exists c. auto.
Qed.

(** The two ways to the OU leave the name, the container and the DN. *)
Lemma preferred_ou_stage_keeps (Phi : adcli_enroll -> Prop) (m : machine W) r m' :
  (forall v e, Phi e -> Phi (put_preferred_ou v e)) ->
  (forall v e, Phi e -> Phi (put_preferred_ou_validated v e)) ->
  (if isSome (preferred_ou (m_enroll m)) then validate_preferred_ou X
   else lookup_preferred_ou X) m = Done r m' ->
  Phi (m_enroll m) -> Phi (m_enroll m').
Proof.
  intros H1 H2 E H0.
  refine (keeps_done _ (fun m0 => Phi (m_enroll m0)) _ _ _ _ _ H0 E).
  destruct (isSome (preferred_ou (m_enroll m))).
  - apply validate_preferred_ou_keeps;
      [apply fields_logs_quiet | apply (fields_assigns Phi), H2].
  - apply lookup_preferred_ou_keeps;
      [apply fields_logs_quiet | apply (fields_assigns Phi), H1].
Qed.

Lemma locate_computer_account_runs (m m' : machine W) :
  computer_dn (m_enroll m) = None ->
  locate_computer_account X m = Done ADCLI_SUCCESS m' ->
  exists c,
    computer_container (m_enroll m') = Some c
    /\ (forall c0, computer_container (m_enroll m) = Some c0 -> c = c0)
    /\ computer_name (m_enroll m') = computer_name (m_enroll m)
    /\ computer_dn (m_enroll m')
       = Some ("CN=" ++ fmt_s (computer_name (m_enroll m)) ++ "," ++ c)%string.
Proof.
  intros Hdn. unfold locate_computer_account. unfold bind at 1. unfold get_enroll.
  rewrite Hdn. cbn [isSome]. intros E.
  apply bind_done in E. destruct E as (r1 & m1 & E1 & E).
  destruct (failed r1) eqn:Ef1; [inversion E; subst; discriminate Ef1 |].
  apply bind_done in E. destruct E as (r2 & m2 & E2 & E).
  destruct (failed r2) eqn:Ef2.
  { inversion E. subst. discriminate Ef2. }
  apply failed_not_success in Ef2. subst r2.
  pose proof (preferred_ou_stage_keeps
                (fun e => computer_name e = computer_name (m_enroll m)
                          /\ computer_container e = computer_container (m_enroll m))
                _ _ _ ltac:(other_field) ltac:(other_field) E1 (conj eq_refl eq_refl))
    as (Hn1 & Hc1).
  destruct (lookup_computer_container_runs _ _ _ E2) as (Hn2 & _ & Hkeep & Hsome).
  destruct (calc_computer_account_runs _ _ _ E) as (c & Hc & _ & ->).
  exists c. cbn. split; [exact Hc |]. split; [| split].
  - intros c0 H0. rewrite <- Hc1 in H0.
    destruct (Hkeep c0 H0) as (_ & ->). congruence.
  - congruence.
  - rewrite Hn2, Hn1. reflexivity.
Qed.

End Locate.

(** A join that has returned SUCCESS went through its stages. *)
Lemma adcli_enroll_join_stages W (X : externals W) fuel flags (m m' : machine W) :
  adcli_enroll_join X fuel flags m = Done ADCLI_SUCCESS m' ->
  exists m1 m2 m3 m4,
    adcli_conn_discover X
      (on_enroll (enroll_clear_state_fields (x_conn_krb5_context X (m_world m))) m)
    = Done ADCLI_SUCCESS m1
    /\ adcli_enroll_prepare X fuel flags m1 = Done ADCLI_SUCCESS m2
    /\ adcli_conn_connect X m2 = Done ADCLI_SUCCESS m3
    /\ locate_computer_account X m3 = Done ADCLI_SUCCESS m4
    /\ join_computer_account X flags m4 = Done ADCLI_SUCCESS m'.
Proof.
  unfold adcli_enroll_join. unfold bind at 1. rewrite enroll_clear_state_runs.
  intros E.
  apply bind_done in E. destruct E as (r1 & m1 & E1 & E).
  destruct (failed r1) eqn:F1; [inversion E; subst; discriminate F1 |].
  apply failed_not_success in F1. subst r1.
  apply bind_done in E. destruct E as (r2 & m2 & E2 & E).
  destruct (failed r2) eqn:F2; [inversion E; subst; discriminate F2 |].
  apply failed_not_success in F2. subst r2.
  apply bind_done in E. destruct E as (r3 & m3 & E3 & E).
  destruct (failed r3) eqn:F3; [inversion E; subst; discriminate F3 |].
  apply failed_not_success in F3. subst r3.
  apply bind_done in E. destruct E as (r4 & m4 & E4 & E).
  destruct (failed r4) eqn:F4; [inversion E; subst; discriminate F4 |].
  apply failed_not_success in F4. subst r4.
  exists m1, m2, m3, m4. auto.
Qed.

(** The stages between the reset and the location of the account. *)
Lemma join_prelude_keeps_field W (X : externals W) (Phi : adcli_enroll -> Prop)
    fuel flags (m0 m1 m2 m3 : machine W) :
  (forall v e, Phi e -> Phi (put_host_fqdn v e)) ->
  (forall v e, Phi e -> Phi (put_computer_name v e)) ->
  (forall v e, Phi e -> Phi (put_computer_sam v e)) ->
  (forall v e, Phi e -> Phi (put_computer_principal v e)) ->
  (forall v e, Phi e -> Phi (put_computer_password v e)) ->
  (forall v e, Phi e -> Phi (put_keytab v e)) ->
  (forall v e, Phi e -> Phi (put_keytab_name v e)) ->
  (forall v e, Phi e -> Phi (put_keytab_name_is_krb5 v e)) ->
  (forall v e, Phi e -> Phi (put_service_names v e)) ->
  (forall v e, Phi e -> Phi (put_service_principals v e)) ->
  (forall v e, Phi e -> Phi (put_keytab_principals v e)) ->
  adcli_conn_discover X m0 = Done ADCLI_SUCCESS m1 ->
  adcli_enroll_prepare X fuel flags m1 = Done ADCLI_SUCCESS m2 ->
  adcli_conn_connect X m2 = Done ADCLI_SUCCESS m3 ->
  Phi (m_enroll m0) -> Phi (m_enroll m3).
Proof.
  intros A1 A2 A3 A4 A5 A6 A7 A8 A9 A10 A11 E1 E2 E3 H0.
  pose proof (fields_logs_quiet (W := W) Phi) as Hq.
  assert (Phi (m_enroll m1)) as H1.
  { refine (keeps_done _ (fun m => Phi (m_enroll m)) _ _ _ _ _ H0 E1).
    apply adcli_conn_discover_keeps, Hq. }
  assert (Phi (m_enroll m2)) as H2.
  { refine (keeps_done _ (fun m => Phi (m_enroll m)) _ _ _ _ _ H1 E2).
    apply adcli_enroll_prepare_keeps; try exact Hq;
      apply (fields_assigns Phi); assumption. }
  refine (keeps_done _ (fun m => Phi (m_enroll m)) _ _ _ _ _ H2 E3).
  apply adcli_conn_connect_keeps, Hq.
Qed.

Lemma join_computer_account_keeps_field W (X : externals W)
    (Phi : adcli_enroll -> Prop) flags (m m' : machine W) r :
  (forall v e, Phi e -> Phi (put_computer_attributes v e)) ->
  (forall v e, Phi e -> Phi (put_kvno v e)) ->
  (forall v e, Phi e -> Phi (put_keytab_enctypes v e)) ->
  join_computer_account X flags m = Done r m' ->
  Phi (m_enroll m) -> Phi (m_enroll m').
Proof.
  intros A1 A2 A3 E H0.
  refine (keeps_done _ (fun m => Phi (m_enroll m)) _ _ _ _ _ H0 E).
  apply join_computer_account_keeps;
    try (apply (fields_assigns Phi); assumption).
  - intros ev m1 w H. exact H.
  - intros m1 name entries H. exact H.
Qed.

(** X10. The distinguished name of the account is worked out by the join
    itself.  The reset at the start of a join clears [computer_dn], so a
    DN set beforehand with [adcli_enroll_set_computer_dn] is never used:
    after a join that returned SUCCESS, [computer_dn] is "CN=", the
    computer name, a comma and the computer container, whatever it was
    before.  A container set by the caller is the one used. *)
Theorem join_computes_the_account_dn :
  forall W (X : externals W) (fuel : nat) (flags : adcli_enroll_flags)
         (m m' : machine W),
    can_clear X m ->
    adcli_enroll_join X fuel flags m = Done ADCLI_SUCCESS m' ->
    exists container,
      computer_container (m_enroll m') = Some container
      /\ (forall c0, computer_container (m_enroll m) = Some c0 -> container = c0)
      /\ computer_dn (m_enroll m')
         = Some ("CN=" ++ fmt_s (computer_name (m_enroll m')) ++ ","
                 ++ container)%string.
Proof.
  intros W X fuel flags m m' Hclear E.
  destruct (adcli_enroll_join_stages W X _ _ _ _ E)
    as (m1 & m2 & m3 & m4 & E1 & E2 & E3 & E4 & E5).
  set (e0 := enroll_clear_state_fields (x_conn_krb5_context X (m_world m))
               (m_enroll m)) in *.
  assert (computer_dn e0 = None) as Hdn0
    by (apply enroll_clear_state_fields_dn; exact Hclear).
  assert (computer_container e0 = computer_container (m_enroll m)) as Hc0
    by apply (enroll_clear_state_fields_options _ (m_enroll m)).
  pose proof (join_prelude_keeps_field W X
                (fun e => computer_dn e = None
                          /\ computer_container e = computer_container (m_enroll m))
                fuel flags _ m1 m2 m3
                ltac:(other_field) ltac:(other_field) ltac:(other_field)
                ltac:(other_field) ltac:(other_field) ltac:(other_field)
                ltac:(other_field) ltac:(other_field) ltac:(other_field)
                ltac:(other_field) ltac:(other_field)
                E1 E2 E3 (conj Hdn0 Hc0)) as (Hdn3 & Hc3).
  destruct (locate_computer_account_runs X _ _ Hdn3 E4)
    as (c & Hc4 & Hsame & Hn4 & Hdn4).
  pose proof (join_computer_account_keeps_field W X
                (fun e => computer_container e = Some c
                          /\ computer_name e = computer_name (m_enroll m4)
                          /\ computer_dn e = computer_dn (m_enroll m4))
                flags _ _ _
                ltac:(other_field) ltac:(other_field) ltac:(other_field)
                E5 (conj Hc4 (conj eq_refl eq_refl))) as (Hc' & Hn' & Hdn').
  exists c. split; [exact Hc' |]. split.
  - intros c0 H0. apply Hsame. rewrite Hc3. exact H0.
  - rewrite Hdn', Hn', Hdn4, Hn4. reflexivity.
Qed.

Lemma join_computes_the_account_dn_witness :
  let m := start (adcli_enroll_set_computer_dn
                    (Some "CN=OTHER,OU=Elsewhere,DC=corp,DC=example,DC=com")
                    adcli_enroll_new) in
  let m' := final (adcli_enroll_join (small_realm plain_setup) 320 join_flags m) in
  exists container,
    computer_container (m_enroll m') = Some container
    /\ (forall c0, computer_container (m_enroll m) = Some c0 -> container = c0)
    /\ computer_dn (m_enroll m')
       = Some ("CN=" ++ fmt_s (computer_name (m_enroll m')) ++ ","
               ++ container)%string.
Proof.
  apply (join_computes_the_account_dn nat (small_realm plain_setup) 320%nat
           join_flags
           (start (adcli_enroll_set_computer_dn
                     (Some "CN=OTHER,OU=Elsewhere,DC=corp,DC=example,DC=com")
                     adcli_enroll_new))).
  - left. reflexivity.
  - vm_compute. reflexivity.
Defined.

(** The DN set by the caller is not the one of the account joined. *)
Example preset_dn_is_discarded :
  computer_dn
    (m_enroll
       (final (adcli_enroll_join (small_realm plain_setup) 320 join_flags
                 (start (adcli_enroll_set_computer_dn
                           (Some "CN=OTHER,OU=Elsewhere,DC=corp,DC=example,DC=com")
                           adcli_enroll_new)))))
  = Some "CN=HOST01,DC=corp,DC=example,DC=com".
Proof. vm_compute. reflexivity. Qed.

(** * What a join leaves of the caller's options *)

Section JoinFrame.

Context {W : Type} (X : externals W).

Variable Phi : adcli_enroll -> Prop.

Let Inv := fun m : machine W => Phi (m_enroll m).

(** A stage that reads the structure first. *)
Lemma keeps_bind_get_guard A (k : adcli_enroll -> M W A) :
  (forall e, Phi e -> keeps Inv (k e)) -> keeps Inv (bind get_enroll k).
Proof.
  intros H m Hm. unfold bind, get_enroll. apply (H (m_enroll m) Hm m Hm).
Qed.

Hypothesis Hclear : forall k5 e, Phi e -> Phi (enroll_clear_state_fields k5 e).

Hypothesis Hfqdn : forall res, keeps Inv (ensure_host_fqdn X res).
Hypothesis Hname : forall res, keeps Inv (ensure_computer_name res).
Hypothesis Hsam : forall res, keeps Inv (ensure_computer_sam X res).
Hypothesis Hpassword : forall fuel res, keeps Inv (ensure_computer_password X fuel res).
Hypothesis Hkeytab : forall res, keeps Inv (ensure_host_keytab X res).
Hypothesis Hnames : forall res, keeps Inv (ensure_service_names res).
Hypothesis Hprincipals : forall res, keeps Inv (ensure_service_principals X res).
Hypothesis Hvalidate : keeps Inv (validate_preferred_ou X).
Hypothesis Hlookup : keeps Inv (lookup_preferred_ou X).
Hypothesis Hcontainer : keeps Inv (lookup_computer_container X).
Hypothesis Hcalc : keeps Inv calc_computer_account.
Hypothesis Hretrieve : keeps Inv (retrieve_computer_account_info X).
Hypothesis Henctypes : keeps Inv (update_and_calculate_enctypes X).

Lemma adcli_enroll_join_by_stage fuel flags :
  keeps Inv (adcli_enroll_join X fuel flags).
Proof.
  assert (logs_all Inv) as Hl by (intros ev m w H; exact H).
  pose proof (logs_all_quiet W _ Hl) as Hq.
  assert (stable_keytab Inv) as Hk by (intros m name entries H; exact H).
  unfold adcli_enroll_join.
  apply keeps_bind.
  { unfold enroll_clear_state. apply keeps_bind; [apply keeps_ask |].
    intros k5. apply keeps_update_enroll. intros m Hm. apply Hclear, Hm. }
  intros _. apply keeps_bind; [apply adcli_conn_discover_keeps, Hq |].
  intros r1. destruct (failed r1); [apply keeps_ret |].
  apply keeps_bind.
  { unfold adcli_enroll_prepare.
    apply keeps_bind; [apply Hfqdn |]. intros a1.
    apply keeps_bind; [apply Hname |]. intros a2.
    apply keeps_bind; [apply Hsam |]. intros a3.
    apply keeps_bind; [apply Hpassword |]. intros a4.
    apply keeps_bind.
    { destruct (negb (ADCLI_ENROLL_NO_KEYTAB flags));
        [apply Hkeytab | apply keeps_ret]. }
    intros a5. apply keeps_bind; [apply Hnames |]. intros a6.
    apply keeps_bind; [apply Hprincipals |]. intros a7. apply keeps_ret. }
  intros r2. destruct (failed r2); [apply keeps_ret |].
  apply keeps_bind; [apply adcli_conn_connect_keeps, Hq |].
  intros r3. destruct (failed r3); [apply keeps_ret |].
  apply keeps_bind.
  { unfold locate_computer_account.
    apply keeps_bind; [apply keeps_get_enroll |]. intros e.
    destruct (isSome (computer_dn e)); [apply keeps_ret |].
    apply keeps_bind.
    { destruct (isSome (preferred_ou e)); [apply Hvalidate | apply Hlookup]. }
    intros a1. destruct (failed a1); [apply keeps_ret |].
    apply keeps_bind; [apply Hcontainer |].
    intros a2. destruct (failed a2); [apply keeps_ret | apply Hcalc]. }
  intros r4. destruct (failed r4); [apply keeps_ret |].
  unfold join_computer_account.
  apply keeps_bind; [apply create_or_update_computer_account_keeps, Hq |].
  intros a1. destruct (failed a1); [apply keeps_ret |].
  apply keeps_bind; [apply set_computer_password_keeps, Hq |].
  intros a2. destruct (failed a2); [apply keeps_ret |].
  apply keeps_bind; [apply Hretrieve |].
  intros a3. destruct (failed a3); [apply keeps_ret |].
  apply keeps_bind; [apply Henctypes |]. intros _.
  apply keeps_bind; [apply update_dns_host_name_keeps, Hq |]. intros _.
  apply keeps_bind; [apply update_service_principals_keeps, Hq |]. intros _.
  destruct (ADCLI_ENROLL_NO_KEYTAB flags); [apply keeps_ret |].
  apply update_keytab_for_principals_keeps_all; assumption.
Qed.

End JoinFrame.

(** A stage that assigns other fields only. *)
Ltac other_stage :=
  intros;
  first [ apply ensure_host_fqdn_keeps | apply ensure_computer_name_keeps
        | apply ensure_computer_sam_keeps
        | apply ensure_computer_password_keeps | apply ensure_host_keytab_keeps
        | apply ensure_service_names_keeps | apply ensure_service_principals_keeps
        | apply validate_preferred_ou_keeps | apply lookup_preferred_ou_keeps
        | apply lookup_computer_container_keeps | apply calc_computer_account_keeps
        | apply retrieve_computer_account_info_keeps
        | apply update_and_calculate_enctypes_keeps ];
  first [ solve [intros ? ? H; exact H]
        | solve [intros ? ? ? H; exact H]
        | solve [intros ? ? ? ? H; exact H] ].

Ltac cleared_option :=
  let k5 := fresh "k5" in
  let e := fresh "e" in
  let H := fresh "H" in
  intros k5 e H;
  pose proof (enroll_clear_state_fields_options k5 e) as Hopt; cbv zeta in Hopt;
  decompose [and] Hopt; clear Hopt;
  first [ congruence
        | destruct H as (H & ?); split; [congruence |];
          match goal with
          | Himp : _ = true -> _ |- _ => solve [rewrite (Himp H); assumption]
          end ].

Section CallerOptions.

Context {W : Type} (X : externals W).

Lemma join_keeps_host_fqdn fuel flags v :
  keeps (fun m : machine W => host_fqdn (m_enroll m) = Some v)
    (adcli_enroll_join X fuel flags).
Proof.
  apply (adcli_enroll_join_by_stage X (fun e => host_fqdn e = Some v));
    [cleared_option | | other_stage ..].
  intros res m Hm. unfold ensure_host_fqdn.
  destruct (failed res); [exact Hm |].
  unfold bind, get_enroll. rewrite Hm. exact Hm.
Qed.

Lemma join_keeps_computer_name fuel flags v :
  keeps (fun m : machine W => computer_name (m_enroll m) = Some v)
    (adcli_enroll_join X fuel flags).
Proof.
  apply (adcli_enroll_join_by_stage X (fun e => computer_name e = Some v));
    [cleared_option | other_stage | | other_stage ..].
  intros res m Hm. unfold ensure_computer_name.
  destruct (failed res); [exact Hm |].
  unfold bind, get_enroll. rewrite Hm. exact Hm.
Qed.

Lemma join_keeps_service_names fuel flags v :
  keeps (fun m : machine W => service_names (m_enroll m) = Some v)
    (adcli_enroll_join X fuel flags).
Proof.
  apply (adcli_enroll_join_by_stage X (fun e => service_names e = Some v));
    [cleared_option | other_stage | other_stage | other_stage | other_stage
     | other_stage | | other_stage ..].
  intros res m Hm. unfold ensure_service_names.
  destruct (failed res); [exact Hm |].
  unfold bind, get_enroll. rewrite Hm. exact Hm.
Qed.

Lemma join_keeps_keytab_name fuel flags v :
  keeps (fun m : machine W => keytab_name (m_enroll m) = Some v)
    (adcli_enroll_join X fuel flags).
Proof.
  apply (adcli_enroll_join_by_stage X (fun e => keytab_name e = Some v));
    [cleared_option | other_stage | other_stage | other_stage | other_stage
     | | other_stage ..].
  intros res. unfold ensure_host_keytab.
  destruct (failed res); [apply keeps_ret |].
  apply (keeps_bind_get_guard (fun e => keytab_name e = Some v)).
  intros e He. rewrite He.
  repeat first [ keeps_step
               | solve [intros ? H; exact H]
               | solve [intros ? ? H; exact H]
               | solve [intros ? ? ? H; exact H] ].
Qed.

Lemma join_keeps_preferred_ou fuel flags v :
  keeps (fun m : machine W => preferred_ou (m_enroll m) = Some v)
    (adcli_enroll_join X fuel flags).
Proof.
  apply (adcli_enroll_join_by_stage X (fun e => preferred_ou e = Some v));
    [cleared_option | other_stage | other_stage | other_stage | other_stage
     | other_stage | other_stage | other_stage | other_stage | | other_stage ..].
  unfold lookup_preferred_ou. intros m Hm.
  unfold bind at 1. unfold get_enroll. rewrite Hm.
  cbn [isSome negb c_assert]. unfold bind, abort. exact Hm.
Qed.

Lemma join_keeps_computer_container fuel flags v :
  keeps (fun m : machine W => computer_container (m_enroll m) = Some v)
    (adcli_enroll_join X fuel flags).
Proof.
  apply (adcli_enroll_join_by_stage X (fun e => computer_container e = Some v));
    [cleared_option | other_stage | other_stage | other_stage | other_stage
     | other_stage | other_stage | other_stage | other_stage | other_stage
     | | other_stage ..].
  unfold lookup_computer_container.
  apply (keeps_bind_get_guard (fun e => computer_container e = Some v)).
  intros e He. rewrite He. cbn [isSome].
  destruct (preferred_ou e); [apply keeps_ret | apply keeps_abort].
Qed.

Lemma join_keeps_explicit_enctypes fuel flags v :
  keeps (fun m : machine W => keytab_enctypes_explicit (m_enroll m) = true
                              /\ keytab_enctypes (m_enroll m) = v)
    (adcli_enroll_join X fuel flags).
Proof.
  apply (adcli_enroll_join_by_stage X
           (fun e => keytab_enctypes_explicit e = true /\ keytab_enctypes e = v));
    [cleared_option | other_stage | other_stage | other_stage | other_stage
     | other_stage | other_stage | other_stage | other_stage | other_stage
     | other_stage | other_stage | other_stage | ].
  unfold update_and_calculate_enctypes.
  apply keeps_bind; [apply keeps_ask |]. intros ldap.
  destruct (negb ldap); [apply keeps_ret |].
  apply (keeps_bind_get_guard
           (fun e => keytab_enctypes_explicit e = true /\ keytab_enctypes e = v)).
  intros e (He & _). rewrite He.
  unfold write_attribute, ldap_modify_ext_s.
  repeat first [ keeps_step
               | solve [intros ? H; exact H]
               | solve [intros ? ? H; exact H]
               | solve [intros ? ? ? H; exact H] ].
Qed.

Lemma join_keeps_explicit_password fuel flags v :
  keeps (fun m : machine W => computer_password_explicit (m_enroll m) = true
                              /\ computer_password (m_enroll m) = Some v)
    (adcli_enroll_join X fuel flags).
Proof.
  apply (adcli_enroll_join_by_stage X
           (fun e => computer_password_explicit e = true
                     /\ computer_password e = Some v));
    [cleared_option | other_stage | other_stage | other_stage
     | | other_stage ..].
  intros fuel' res m Hm. unfold ensure_computer_password.
  destruct (failed res); [exact Hm |].
  unfold bind, get_enroll. rewrite (proj2 Hm). exact Hm.
Qed.

Lemma join_keeps_explicit_service_principals fuel flags v :
  keeps (fun m : machine W => service_principals_explicit (m_enroll m) = true
                              /\ service_principals (m_enroll m) = Some v)
    (adcli_enroll_join X fuel flags).
Proof.
  apply (adcli_enroll_join_by_stage X
           (fun e => service_principals_explicit e = true
                     /\ service_principals e = Some v));
    [cleared_option | other_stage | other_stage | other_stage | other_stage
     | other_stage | other_stage | | other_stage ..].
  intros res. unfold ensure_service_principals.
  apply (keeps_bind_get_guard
           (fun e => service_principals_explicit e = true
                     /\ service_principals e = Some v)).
  intros e (_ & He). rewrite He. cbn [isSome].
  repeat first [ keeps_step
               | solve [intros ? H; exact H]
               | solve [intros ? ? H; exact H]
               | solve [intros ? ? ? H; exact H] ].
Qed.

End CallerOptions.

(** X11. A join never replaces what the caller has configured: wherever
    it stops, a host FQDN, computer name, preferred OU, computer container,
    list of service names or keytab name that was set when it started is
    still the one in the context, and so are the explicitly set keytab
    enctypes, computer password and service principals. *)
Theorem join_keeps_the_callers_options :
  forall W (X : externals W) (fuel : nat) (flags : adcli_enroll_flags)
         (m : machine W),
    let e := m_enroll m in
    let e' := m_enroll (final (adcli_enroll_join X fuel flags m)) in
    (forall v, host_fqdn e = Some v -> host_fqdn e' = Some v)
    /\ (forall v, computer_name e = Some v -> computer_name e' = Some v)
    /\ (forall v, preferred_ou e = Some v -> preferred_ou e' = Some v)
    /\ (forall v, computer_container e = Some v -> computer_container e' = Some v)
    /\ (forall v, service_names e = Some v -> service_names e' = Some v)
    /\ (forall v, keytab_name e = Some v -> keytab_name e' = Some v)
    /\ (keytab_enctypes_explicit e = true ->
        keytab_enctypes_explicit e' = true /\ keytab_enctypes e' = keytab_enctypes e)
    /\ (forall v, computer_password_explicit e = true ->
                  computer_password e = Some v ->
                  computer_password_explicit e' = true
                  /\ computer_password e' = Some v)
    /\ (forall v, service_principals_explicit e = true ->
                  service_principals e = Some v ->
                  service_principals_explicit e' = true
                  /\ service_principals e' = Some v).
Proof.
  intros W X fuel flags m. cbv zeta.
  repeat split.
  - intros v H. exact (keeps_final _ _ _ _ (join_keeps_host_fqdn X fuel flags v) H).
  - intros v H. exact (keeps_final _ _ _ _ (join_keeps_computer_name X fuel flags v) H).
  - intros v H. exact (keeps_final _ _ _ _ (join_keeps_preferred_ou X fuel flags v) H).
  - intros v H.
    exact (keeps_final _ _ _ _ (join_keeps_computer_container X fuel flags v) H).
  - intros v H. exact (keeps_final _ _ _ _ (join_keeps_service_names X fuel flags v) H).
  - intros v H. exact (keeps_final _ _ _ _ (join_keeps_keytab_name X fuel flags v) H).
  - apply (keeps_final _ _ _ _ (join_keeps_explicit_enctypes X fuel flags _)
             (conj H eq_refl)).
  - apply (keeps_final _ _ _ _ (join_keeps_explicit_enctypes X fuel flags _)
             (conj H eq_refl)).
  - apply (keeps_final _ _ _ _ (join_keeps_explicit_password X fuel flags v)
             (conj H H0)).
  - apply (keeps_final _ _ _ _ (join_keeps_explicit_password X fuel flags v)
             (conj H H0)).
  - apply (keeps_final _ _ _ _ (join_keeps_explicit_service_principals X fuel flags v)
             (conj H H0)).
  - apply (keeps_final _ _ _ _ (join_keeps_explicit_service_principals X fuel flags v)
             (conj H H0)).
Qed.

(** * The computer container *)

Lemma substring_all (s : string) : substring 0 (String.length s) s = s.
Proof. induction s as [| a s IH]; cbn; [reflexivity | rewrite IH; reflexivity]. Qed.

(** [strncmp (v, prefix, strlen (prefix)) == 0]: [v] is the prefix and what
    stands behind it. *)
Lemma prefix_split (p : string) :
  forall s, String.prefix p s = true ->
            s = (p ++ substring (String.length p)
                        (String.length s - String.length p) s)%string.
Proof.
  induction p as [| a p IH]; intros s H.
  - cbn. rewrite Nat.sub_0_r. symmetry. apply substring_all.
  - destruct s as [| b s]; cbn in H; [discriminate |].
    destruct (ascii_dec a b) as [-> | _]; [| discriminate].
    cbn. f_equal. apply IH, H.
Qed.

Lemma find_well_known_found prefix values c :
  find_well_known prefix values = Some c ->
  exists before after,
    values = (before ++ (prefix ++ c)%string :: after)%list
    /\ Forall (fun v => String.prefix prefix v = false) before.
Proof.
  induction values as [| v rest IH]; cbn; [discriminate |].
  destruct (String.prefix prefix v) eqn:Ep.
  - intros H. inversion H. subst c. exists [], rest.
    split; [| constructor]. cbn. f_equal. apply prefix_split, Ep.
  - intros H. destruct (IH H) as (before & after & -> & Hall).
    exists (v :: before), after. split; [reflexivity |].
    constructor; assumption.
Qed.

Lemma find_well_known_none prefix values :
  find_well_known prefix values = None ->
  Forall (fun v => String.prefix prefix v = false) values.
Proof.
  induction values as [| v rest IH]; cbn; [constructor |].
  destruct (String.prefix prefix v) eqn:Ep; [discriminate |].
  intros H. constructor; [exact Ep | apply IH, H].
Qed.

(** X12. Where [lookup_computer_container] puts the account, when the
    caller has set no container and it returns: it reads [wellKnownObjects]
    of the preferred OU; if that fails the result is the directory failure
    and no container is set.  Otherwise the result is SUCCESS and the
    container is what stands behind the GUID prefix in the first value
    that starts with it, and nothing else is asked; if no value starts
    with the prefix, a second search of the OU, with the filter for a
    container [cn=Computers], is made and the DN of its result is taken;
    and if that gives nothing, the container is the OU itself. *)
Theorem computer_container_choice :
  forall W (X : externals W) (m : machine W) ou r m',
    preferred_ou (m_enroll m) = Some ou ->
    computer_container (m_enroll m) = None ->
    lookup_computer_container X m = Done r m' ->
    exists code results,
      let values := well_known_objects results in
      let unmarked := Forall (fun v => String.prefix computers_container_prefix v
                                       = false) in
      (code <> LDAP_SUCCESS
       /\ r = _adcli_ldap_handle_failure ADCLI_ERR_DIRECTORY
       /\ m_trace m' = (m_trace m ++ [well_known_search ou code results])%list
       /\ computer_container (m_enroll m') = None)
      \/ (code = LDAP_SUCCESS /\ r = ADCLI_SUCCESS
          /\ ((exists before c after,
                  values = (before ++ (computers_container_prefix ++ c)%string
                              :: after)%list
                  /\ unmarked before
                  /\ m_trace m'
                     = (m_trace m ++ [well_known_search ou code results])%list
                  /\ computer_container (m_enroll m') = Some c)
              \/ (unmarked values
                  /\ exists code2 results2,
                      m_trace m'
                      = (m_trace m ++ [well_known_search ou code results;
                                       computers_search ou code2 results2])%list
                      /\ computer_container (m_enroll m')
                         = Some (match (if code2 =? LDAP_SUCCESS
                                        then _adcli_ldap_parse_dn results2
                                        else None) with
                                 | Some dn => dn
                                 | None => ou
                                 end)))).
Proof.
  intros W X m ou r m' Hou Hc. cbv zeta.
  unfold lookup_computer_container. unfold bind at 1. unfold get_enroll.
  rewrite Hou, Hc. cbn [isSome]. intros E.
  apply bind_done in E. destruct E as (ldap & m1 & E1 & E).
  inversion E1. subst ldap m1. clear E1.
  apply bind_done in E. destruct E as (u & m2 & E2 & E).
  unfold c_assert in E2.
  destruct (x_conn_ldap_connection X (m_world m)); [| discriminate].
  inversion E2. subst m2. clear E2.
  apply bind_done in E. destruct E as (r1 & m3 & E3 & E).
  unfold ldap_search_ext_s, call in E3.
  destruct (x_ldap_search X ou "(objectClass=*)" ["wellKnownObjects"] (m_world m))
    as [[code results] w].
  inversion E3. subst r1 m3. clear E3. cbn [fst snd] in E.
  exists code, results.
  destruct (code =? LDAP_SUCCESS) eqn:Ecode; cbn [negb] in E.
  2:{ inversion E. subst. left. cbn.
      split; [intros ->; discriminate Ecode |]. rewrite Hc. auto. }
  right. apply Z.eqb_eq in Ecode. split; [exact Ecode |].
  fold (well_known_objects results) in E.
  fold computers_container_prefix in E.
  apply bind_done in E. destruct E as (u1 & mA & EA & E).
  unfold update_enroll in EA. inversion EA. subst u1 mA. clear EA.
  apply bind_done in E. destruct E as (e1 & mB & EB & E).
  unfold get_enroll in EB. inversion EB. subst e1 mB. clear EB.
  cbn [on_enroll m_enroll put_computer_container computer_container] in E.
  destruct (find_well_known computers_container_prefix (well_known_objects results))
    as [c |] eqn:Ef; cbn [isSome] in E.
  - unfold bind, ret, get_enroll in E. cbn in E. inversion E. subst.
    split; [reflexivity |]. left.
    destruct (find_well_known_found _ _ _ Ef) as (before & after & Hv & Hall).
    exists before, c, after. cbn. auto.
  - apply find_well_known_none in Ef.
    apply bind_done in E. destruct E as (u2 & m4 & E4 & E).
    apply bind_done in E4. destruct E4 as (r2 & m5 & E5 & E4).
    unfold ldap_search_ext_s, call in E5. cbn [m_world on_enroll after_call] in E5.
    destruct (x_ldap_search X ou "(&(objectClass=container)(cn=Computers))"
                ["wellKnownObjects"] w) as [[code2 results2] w2].
    inversion E5. subst r2 m5. clear E5. cbn [fst snd] in E4.
    split; [unfold bind, ret, get_enroll, update_enroll in E;
            destruct (isSome _) in E; inversion E; reflexivity |].
    right. split; [exact Ef |]. exists code2, results2.
    destruct (code2 =? LDAP_SUCCESS) eqn:Ecode2.
    + unfold update_enroll in E4. inversion E4. subst m4. clear E4.
      unfold bind, ret, get_enroll, update_enroll in E. cbn in E.
      destruct (_adcli_ldap_parse_dn results2) as [dn |] eqn:Edn; cbn in E;
        inversion E; subst; cbn; rewrite <- ?app_assoc; auto.
    + inversion E4. subst m4. clear E4.
      unfold bind, ret, get_enroll, update_enroll in E. cbn in E.
      inversion E. subst. cbn. rewrite <- ?app_assoc. auto.
Qed.

Lemma computer_container_choice_witness :
  let X := small_realm plain_setup in
  let m := start (put_preferred_ou (Some "DC=corp,DC=example,DC=com")
                    adcli_enroll_new) in
  let ou := "DC=corp,DC=example,DC=com"%string in
  let r := ADCLI_SUCCESS in
  let m' := final (lookup_computer_container X m) in
  exists code results,
    let values := well_known_objects results in
    let unmarked := Forall (fun v => String.prefix computers_container_prefix v
                                     = false) in
    (code <> LDAP_SUCCESS
     /\ r = _adcli_ldap_handle_failure ADCLI_ERR_DIRECTORY
     /\ m_trace m' = (m_trace m ++ [well_known_search ou code results])%list
     /\ computer_container (m_enroll m') = None)
    \/ (code = LDAP_SUCCESS /\ r = ADCLI_SUCCESS
        /\ ((exists before c after,
                values = (before ++ (computers_container_prefix ++ c)%string
                            :: after)%list
                /\ unmarked before
                /\ m_trace m'
                   = (m_trace m ++ [well_known_search ou code results])%list
                /\ computer_container (m_enroll m') = Some c)
            \/ (unmarked values
                /\ exists code2 results2,
                    m_trace m'
                    = (m_trace m ++ [well_known_search ou code results;
                                     computers_search ou code2 results2])%list
                    /\ computer_container (m_enroll m')
                       = Some (match (if code2 =? LDAP_SUCCESS
                                      then _adcli_ldap_parse_dn results2
                                      else None) with
                               | Some dn => dn
                               | None => ou
                               end)))).
Proof.
  apply (computer_container_choice nat (small_realm plain_setup)
           (start (put_preferred_ou (Some "DC=corp,DC=example,DC=com")
                     adcli_enroll_new))
           "DC=corp,DC=example,DC=com" ADCLI_SUCCESS).
  - reflexivity.
  - reflexivity.
  - vm_compute. reflexivity.
Defined.

(** * The password of the account *)

Section KeytabFootprint.

Context {W : Type} (X : externals W) (P : machine W -> Prop).

Hypothesis Hign : ignores_enroll P.
Hypothesis Hkt : stable_keytab P.
Hypothesis Hev : emits (of_kinds [KKtClear; KDiscoverSalt; KAsReq; KKtAdd]) P.

Lemma probe_salt_footprint principal vno password salt enctypes :
  keeps P (probe_salt X principal vno password salt enctypes).
Proof.
  induction enctypes as [| enctype rest IH]; cbn [probe_salt].
  - footprint.
  - footprint. exact IH.
Qed.

Lemma probe_salts_footprint principal vno password enctypes salts :
  forall i, keeps P (probe_salts X principal vno password enctypes salts i).
Proof.
  induction salts as [| salt rest IH]; intros i; cbn [probe_salts].
  - footprint.
  - apply keeps_bind; [apply probe_salt_footprint |]. intros ok.
    destruct ok; [footprint | apply IH].
Qed.

Lemma add_principal_to_keytab_footprint principal which_salt :
  keeps P (add_principal_to_keytab X principal which_salt).
Proof.
  pose proof probe_salts_footprint as Hp.
  unfold add_principal_to_keytab, _adcli_krb5_keytab_clear,
    _adcli_krb5_keytab_discover_salt, _adcli_krb5_keytab_add_entries.
  footprint. apply Hp. all: footprint.
Qed.

Lemma update_keytab_loop_footprint principals :
  forall which_salt, keeps P (update_keytab_loop X principals which_salt).
Proof.
  induction principals as [| principal rest IH]; intros which_salt;
    cbn [update_keytab_loop].
  - footprint.
  - apply keeps_bind; [apply add_principal_to_keytab_footprint |]. intros r.
    destruct (failed (fst r)); [footprint | apply IH].
Qed.

Lemma update_keytab_for_principals_footprint :
  keeps P (update_keytab_for_principals X).
Proof.
  pose proof update_keytab_loop_footprint as Hl.
  unfold update_keytab_for_principals. footprint. apply Hl.
Qed.

End KeytabFootprint.

Lemma set_password_with_user_creds_done W (X : externals W) (m m' : machine W) :
  set_password_with_user_creds X m = Done ADCLI_SUCCESS m' ->
  exists principal password w,
    computer_principal (m_enroll m) = Some principal
    /\ computer_password (m_enroll m) = Some password
    /\ m' = after_call m w (EvSetPassword principal password 0 0).
Proof.
  unfold set_password_with_user_creds. unfold bind at 1. unfold get_enroll.
  destruct (computer_password (m_enroll m)) as [password |];
    [| discriminate].
  destruct (computer_principal (m_enroll m)) as [principal |];
    [| discriminate].
  intros E.
  apply bind_done in E. destruct E as (k5 & m1 & E1 & E).
  inversion E1. subst k5 m1. clear E1.
  destruct (x_conn_krb5_context X (m_world m)); [| discriminate].
  apply bind_done in E. destruct E as (cc & m1 & E1 & E).
  inversion E1. subst cc m1. clear E1.
  destruct (x_conn_login_ccache X (m_world m)); [| discriminate].
  apply bind_done in E. destruct E as (r & m1 & E1 & E).
  unfold call in E1.
  destruct (x_krb5_set_password_using_ccache X password principal (m_world m))
    as [[code rc] w].
  inversion E1. subst r m1. clear E1. cbn [fst snd] in E.
  destruct (code =? 0) eqn:Ec; [| discriminate].
  destruct (rc =? 0) eqn:Er; [| discriminate].
  apply Z.eqb_eq in Ec, Er. subst code rc. inversion E.
  exists principal, password, w. auto.
Qed.

Lemma set_password_with_computer_creds_done W (X : externals W)
    (m m' : machine W) :
  set_password_with_computer_creds X m = Done ADCLI_SUCCESS m' ->
  exists w0 w,
    m' = after_call (after_call m w0 (EvKinit 0)) w
           (EvChangePassword (computer_password (m_enroll m)) 0 0).
Proof.
  unfold set_password_with_computer_creds. unfold bind at 1. unfold get_enroll.
  intros E.
  apply bind_done in E. destruct E as (k5 & m1 & E1 & E).
  inversion E1. subst k5 m1. clear E1.
  destruct (x_conn_krb5_context X (m_world m)); [| discriminate].
  apply bind_done in E. destruct E as (kcode & m1 & E1 & E).
  unfold call in E1.
  destruct (x_kinit_computer_creds X (m_world m)) as [kc w0].
  inversion E1. subst kcode m1. clear E1.
  destruct (kc =? 0) eqn:Ek; [| discriminate].
  apply Z.eqb_eq in Ek. subst kc.
  apply bind_done in E. destruct E as (r & m1 & E1 & E).
  unfold call in E1. cbn [m_world after_call] in E1.
  destruct (x_krb5_change_password X (computer_password (m_enroll m)) w0)
    as [[code rc] w].
  inversion E1. subst r m1. clear E1. cbn [fst snd] in E.
  destruct (code =? 0) eqn:Ec; [| discriminate].
  destruct (rc =? 0) eqn:Er; [| discriminate].
  apply Z.eqb_eq in Ec, Er. subst code rc. inversion E.
  exists w0, w. reflexivity.
Qed.

(** What [set_computer_password] has done when it returns SUCCESS: one
    password operation, accepted, with the password of the structure. *)
Lemma set_computer_password_done W (X : externals W) (m m' : machine W) :
  set_computer_password X m = Done ADCLI_SUCCESS m' ->
  m_enroll m' = m_enroll m
  /\ exists pre pw,
      m_trace m' = (m_trace m ++ pre ++ [pw])%list
      /\ password_ops pre = []
      /\ is_password_op pw = true
      /\ password_set_ok pw = true
      /\ password_sent pw = computer_password (m_enroll m)
      /\ (forall p, password_target pw = Some p ->
                    computer_principal (m_enroll m) = Some p).
Proof.
  unfold set_computer_password. intros E.
  apply bind_done in E. destruct E as (t & m1 & E1 & E).
  inversion E1. subst t m1. clear E1.
  assert (set_password_with_user_creds X m = Done ADCLI_SUCCESS m' ->
          m_enroll m' = m_enroll m
          /\ exists pre pw,
              m_trace m' = (m_trace m ++ pre ++ [pw])%list
              /\ password_ops pre = []
              /\ is_password_op pw = true
              /\ password_set_ok pw = true
              /\ password_sent pw = computer_password (m_enroll m)
              /\ (forall p, password_target pw = Some p ->
                            computer_principal (m_enroll m) = Some p)) as Hu.
  { intros Eu. apply set_password_with_user_creds_done in Eu.
    destruct Eu as (principal & password & w & Hpr & Hpw & ->).
    split; [reflexivity |].
    exists [], (EvSetPassword principal password 0 0). cbn.
    rewrite Hpr, Hpw. repeat split; try reflexivity.
    intros p Hp. exact Hp. }
  destruct (x_conn_login_type X (m_world m)); try (apply Hu, E).
  apply set_password_with_computer_creds_done in E.
  destruct E as (w0 & w & ->). split; [reflexivity |].
  exists [EvKinit 0], (EvChangePassword (computer_password (m_enroll m)) 0 0).
  cbn. rewrite <- app_assoc. repeat split; try reflexivity. discriminate.
Qed.

Section PasswordOfJoin.

Context {W : Type} (X : externals W).

(** What [join_computer_account] does once the password is set. *)
Let after_password_set (flags : adcli_enroll_flags) : M W adcli_result :=
  bind (retrieve_computer_account_info X)
    (fun res =>
       if failed res then ret res
       else
         bind (update_and_calculate_enctypes X)
           (fun _ =>
              bind (update_dns_host_name X)
                (fun _ =>
                   bind (update_service_principals X)
                     (fun _ =>
                        if ADCLI_ENROLL_NO_KEYTAB flags then ret ADCLI_SUCCESS
                        else update_keytab_for_principals X)))).

Lemma join_computer_account_stages flags (m m' : machine W) :
  join_computer_account X flags m = Done ADCLI_SUCCESS m' ->
  exists m1 m2,
    create_or_update_computer_account X (ADCLI_ENROLL_ALLOW_OVERWRITE flags) m
    = Done ADCLI_SUCCESS m1
    /\ set_computer_password X m1 = Done ADCLI_SUCCESS m2
    /\ after_password_set flags m2 = Done ADCLI_SUCCESS m'.
Proof.
  unfold join_computer_account. intros E.
  apply bind_done in E. destruct E as (r1 & m1 & E1 & E).
  destruct (failed r1) eqn:F1; [inversion E; subst; discriminate F1 |].
  apply failed_not_success in F1. subst r1.
  apply bind_done in E. destruct E as (r2 & m2 & E2 & E).
  destruct (failed r2) eqn:F2; [inversion E; subst; discriminate F2 |].
  apply failed_not_success in F2. subst r2.
  exists m1, m2. auto.
Qed.

Lemma after_password_set_footprint (P : machine W -> Prop) flags :
  ignores_enroll P -> stable_keytab P ->
  emits (of_kinds [KSearch; KModify; KKtClear; KDiscoverSalt; KAsReq; KKtAdd]) P ->
  keeps P (after_password_set flags).
Proof.
  intros Hign Hkt Hev.
  assert (forall kinds,
             (forall ev, of_kinds kinds ev = true ->
                         of_kinds [KSearch; KModify; KKtClear; KDiscoverSalt;
                                   KAsReq; KKtAdd] ev = true) ->
             emits (of_kinds kinds) P) as Hsub
    by (intros kinds Hk; eapply emits_weaken; [exact Hk | exact Hev]).
  unfold after_password_set.
  apply keeps_bind.
  { apply retrieve_computer_account_info_footprint; [exact Hign |].
    apply Hsub. intros ev. destruct ev; cbn; congruence. }
  intros res. destruct (failed res); [apply keeps_ret |].
  assert (emits (of_kinds [KModify]) P) as Hm
    by (apply Hsub; intros ev; destruct ev; cbn; congruence).
  apply keeps_bind.
  { unfold update_and_calculate_enctypes, write_attribute, ldap_modify_ext_s.
    footprint. }
  intros u1. apply keeps_bind.
  { unfold update_dns_host_name, write_attribute, ldap_modify_ext_s. footprint. }
  intros u2. apply keeps_bind.
  { unfold update_service_principals, write_attribute, ldap_modify_ext_s.
    footprint. }
  intros u3. destruct (ADCLI_ENROLL_NO_KEYTAB flags); [apply keeps_ret |].
  apply update_keytab_for_principals_footprint; [exact Hkt |].
  apply Hsub. intros ev. destruct ev; cbn; congruence.
Qed.

(** [adcli_enroll_prepare] leaves a password in the structure. *)
Lemma prepare_holds_password fuel flags (m m' : machine W) :
  adcli_enroll_prepare X fuel flags m = Done ADCLI_SUCCESS m' ->
  isSome (computer_password (m_enroll m')) = true.
Proof.
  intros E.
  destruct (adcli_enroll_prepare_stages X _ _ _ _ _ E)
    as (r1 & m1 & r2 & m2 & r3 & m3 & r4 & m4 & r5 & m5 & r6 & m6
        & E1 & E2 & E3 & E4 & E5 & E6 & E7).
  destruct (prepare_results X _ _ _ _ _ _ _ _ _ _ _ _ E4 E5 E6 E7 eq_refl)
    as (-> & -> & -> & ->).
  destruct (ensure_computer_password_runs X _ _ _ _ _ E4)
    as [(Hf & _) | (_ & [(_ & Hpw) | Hx])]; try discriminate.
  destruct (ensure_service_principals_runs X _ _ _ E7)
    as (_ & (_ & _ & _ & _ & Hpw' & _) & _).
  rewrite Hpw'.
  apply (ensure_service_names_keeps_field W
           (fun e => isSome (computer_password e) = true) _ _ _ _
           ltac:(other_field) E6).
  exact (prepare_5_keeps X (fun e => isSome (computer_password e) = true)
           ltac:(other_field) ltac:(other_field) ltac:(other_field)
           _ _ _ _ _ E5 Hpw).
Qed.

End PasswordOfJoin.

Lemma no_password_ops (evs : list event) :
  forallb (fun ev => negb (is_password_op ev)) evs = true ->
  password_ops evs = [].
Proof.
  unfold password_ops.
  induction evs as [| ev evs IH]; cbn [forallb filter]; [reflexivity |].
  destruct (is_password_op ev); cbn [negb andb]; [discriminate | exact IH].
Qed.

(** X13. The password of the account after a join.  A join that returned
    SUCCESS has made exactly one password operation (a set with the login
    credentials, or a change as the computer account): it was accepted,
    it carried the password that [computer_password] holds when the join
    returns, and a set names the principal that [computer_principal] holds.
    The keytab functions of adkrb5.c, which send AS-REQs, make no password
    operation. *)
Theorem join_sets_one_password :
  forall W (X : externals W) (fuel : nat) (flags : adcli_enroll_flags)
         (m m' : machine W),
    adcli_enroll_join X fuel flags m = Done ADCLI_SUCCESS m' ->
    exists password before pw after,
      computer_password (m_enroll m') = Some password
      /\ m_trace m' = (m_trace m ++ before ++ pw :: after)%list
      /\ password_ops (before ++ pw :: after) = [pw]
      /\ password_set_ok pw = true
      /\ password_sent pw = Some password
      /\ (forall p, password_target pw = Some p ->
                    computer_principal (m_enroll m') = Some p).
Proof.
  intros W X fuel flags m m' E.
  destruct (adcli_enroll_join_stages W X _ _ _ _ E)
    as (m1 & m2 & m3 & m4 & E1 & E2 & E3 & E4 & E5).
  pose proof (join_computer_account_stages X _ _ _ E5) as H.
  cbv zeta in H. destruct H as (m5 & m6 & E6 & E7 & E8).
  set (nopw := fun ev => negb (is_password_op ev)).
  assert (forall tr0 kinds,
             (forall ev, of_kinds kinds ev = true -> nopw ev = true) ->
             emits (of_kinds kinds) (within (W := W) tr0 nopw)) as Hem
    by (intros tr0 kinds Hk; apply within_emits, Hk).
  pose proof (within_ignores_enroll (W := W) (m_trace m) nopw) as Hign.
  (* no password operation before the account is there *)
  assert (within (m_trace m) nopw m5) as H5.
  { refine (keeps_done _ _ _ _ _ _ _ _ E6).
    { apply create_or_update_computer_account_footprint.
      apply Hem. intros ev. destruct ev; cbn; congruence. }
    refine (keeps_done _ _ _ _ _ _ _ _ E4).
    { apply locate_computer_account_footprint; [exact Hign |].
      apply Hem. intros ev. destruct ev; cbn; congruence. }
    refine (keeps_done _ _ _ _ _ _ _ _ E3).
    { apply adcli_conn_connect_footprint.
      apply Hem. intros ev. destruct ev; cbn; congruence. }
    refine (keeps_done _ _ _ _ _ _ _ _ E2).
    { apply adcli_enroll_prepare_footprint; [exact Hign |].
      apply Hem. intros ev. unfold prepare_kinds.
      destruct (ADCLI_ENROLL_NO_KEYTAB flags), ev; cbn; congruence. }
    refine (keeps_done _ _ _ _ _ _ _ _ E1).
    { apply adcli_conn_discover_footprint.
      apply Hem. intros ev. destruct ev; cbn; congruence. }
    apply Hign. apply within_start. }
  (* nor after the password is set *)
  assert (within (m_trace m6) nopw m') as H6.
  { refine (keeps_done _ _ _ _ _ _
              (after_password_set_footprint X _ flags
                 (within_ignores_enroll _ _) (within_stable_keytab _ _) _)
              (within_start _ _) E8).
    apply Hem. intros ev. destruct ev; cbn; congruence. }
  destruct (set_computer_password_done W X _ _ E7)
    as (He6 & pre & pw & Ht6 & Hpre & Hop & Hok & Hsent & Htarget).
  (* the password and the principal stay as they are *)
  set (Phi := fun e => computer_password e = computer_password (m_enroll m4)
                       /\ computer_principal e
                          = computer_principal (m_enroll m4)).
  assert (Phi (m_enroll m')) as (Hpw' & Hpr').
  { apply (join_computer_account_keeps_field W X Phi flags m4 m' ADCLI_SUCCESS);
      [other_field | other_field | other_field | exact E5 | split; reflexivity]. }
  assert (Phi (m_enroll m5)) as (Hpw5 & Hpr5).
  { refine (keeps_done _ (fun m0 => Phi (m_enroll m0)) _ _ _ _ _ _ E6).
    - apply create_or_update_computer_account_keeps.
      apply (fields_logs_quiet Phi).
    - split; reflexivity. }
  assert (isSome (computer_password (m_enroll m4)) = true) as Hsome.
  { refine (keeps_done _ (fun m0 => isSome (computer_password (m_enroll m0)) = true)
              _ _ _ _ _ _ E4).
    { apply locate_computer_account_keeps;
        [apply (fields_logs_quiet (fun e => isSome (computer_password e) = true))
        | intros v m0 H0; exact H0 ..]. }
    refine (keeps_done _ (fun m0 => isSome (computer_password (m_enroll m0)) = true)
              _ _ _ _ _ _ E3).
    { apply adcli_conn_connect_keeps.
      apply (fields_logs_quiet (fun e => isSome (computer_password e) = true)). }
    exact (prepare_holds_password X _ _ _ _ E2). }
  destruct (computer_password (m_enroll m4)) as [password |] eqn:Epw;
    [| discriminate Hsome].
  destruct H5 as (evs5 & Ht5 & Hall5). destruct H6 as (evs6 & Ht6' & Hall6).
  exists password, (evs5 ++ pre)%list, pw, evs6.
  split; [exact Hpw' |].
  split.
  { rewrite Ht6', Ht6, Ht5. rewrite <- !app_assoc. reflexivity. }
  split.
  { unfold password_ops. rewrite !filter_app. cbn [filter]. rewrite Hop.
    fold (password_ops evs5). fold (password_ops pre). fold (password_ops evs6).
    rewrite (no_password_ops _ Hall5), Hpre, (no_password_ops _ Hall6).
    reflexivity. }
  split; [exact Hok |].
  split; [rewrite Hsent, Hpw5; reflexivity |].
  intros p Hp. rewrite Hpr', <- Hpr5. apply Htarget, Hp.
Qed.

Lemma join_sets_one_password_witness :
  let X := small_realm plain_setup in
  let m := start adcli_enroll_new in
  let m' := final (adcli_enroll_join X 320 join_flags m) in
  exists password before pw after,
    computer_password (m_enroll m') = Some password
    /\ m_trace m' = (m_trace m ++ before ++ pw :: after)%list
    /\ password_ops (before ++ pw :: after) = [pw]
    /\ password_set_ok pw = true
    /\ password_sent pw = Some password
    /\ (forall p, password_target pw = Some p ->
                  computer_principal (m_enroll m') = Some p).
Proof.
  apply (join_sets_one_password nat (small_realm plain_setup) 320%nat join_flags
           (start adcli_enroll_new)).
  vm_compute. reflexivity.
Defined.

(** * The keytabs a join leaves alone *)

Section OtherKeytabs.

Context {W : Type} (X : externals W).

Variable ks0 : string -> list krb5_keytab_entry.

(** No keytab was written; no keytab but the open one was written. *)
Let Kept := fun m : machine W => m_keytabs m = ks0.
Let Spared := fun m : machine W =>
  forall n, keytab (m_enroll m) <> Some n -> m_keytabs m n = ks0 n.

Lemma kept_ignores_enroll : ignores_enroll Kept.
Proof. intros f m H. exact H. Qed.

Lemma kept_emits sel : emits sel Kept.
Proof. intros ev _ m w H. exact H. Qed.

Lemma kept_stage A (c : M W A) :
  keeps Kept c -> triple Kept c (fun _ => Kept) Spared.
Proof.
  intros H. eapply triple_conseq; [exact H | auto | auto |].
  intros m Hm n _. unfold Kept in Hm. rewrite Hm. reflexivity.
Qed.

Section Writing.

(** An invariant of the keytab update: it fixes the structure and
    survives the library calls and the writes to the keytab of the
    structure. *)
Variables (e0 : adcli_enroll) (Writing : machine W -> Prop).

Hypothesis writing_fixed : forall m, Writing m -> m_enroll m = e0.
Hypothesis writing_logs : logs_all Writing.
Hypothesis writing_write :
  forall kt entries m,
    keytab e0 = Some kt -> Writing m -> Writing (with_keytab kt entries m).

Lemma writing_emits sel : emits sel Writing.
Proof. intros ev _. apply writing_logs. Qed.

Lemma keytab_clear_writing kt closure :
  keytab e0 = Some kt -> keeps Writing (_adcli_krb5_keytab_clear X kt closure).
Proof.
  intros Hkt. unfold _adcli_krb5_keytab_clear.
  apply keeps_bind; [apply keeps_read_keytab |]. intros entries.
  destruct (keytab_clear_scan entries closure) as [[kept removed] closure'].
  apply keeps_bind; [apply keeps_call; intros code; apply writing_logs |].
  intros code. destruct (code =? 0); [| apply keeps_ret].
  apply keeps_bind; [| intros u; apply keeps_ret].
  intros m Hm. apply writing_write; assumption.
Qed.

Lemma keytab_add_entries_writing kt principal vno password enctypes salt :
  keytab e0 = Some kt ->
  keeps Writing
    (_adcli_krb5_keytab_add_entries X kt principal vno password enctypes salt).
Proof.
  intros Hkt. unfold _adcli_krb5_keytab_add_entries.
  apply keeps_bind; [apply keeps_call; intros code; apply writing_logs |].
  intros code. destruct (code =? 0); [| apply keeps_ret].
  apply keeps_bind; [apply keeps_read_keytab |]. intros old.
  apply keeps_bind; [| intros u; apply keeps_ret].
  intros m Hm. apply writing_write; assumption.
Qed.

Lemma add_principal_to_keytab_writing principal which_salt :
  keeps Writing (add_principal_to_keytab X principal which_salt).
Proof.
  unfold add_principal_to_keytab.
  apply (keeps_bind_get_enroll _ _ Writing e0); [exact writing_fixed |].
  pose proof keytab_clear_writing as Hclear.
  pose proof keytab_add_entries_writing as Hadd.
  pose proof writing_emits as Hemits.
  pose proof writing_logs as Hlogs.
  destruct (keytab e0) as [kt |]; [| apply keeps_abort].
  apply keeps_bind; [apply Hclear; reflexivity |]. intros r.
  destruct (negb (fst r =? 0)); [apply keeps_ret |].
  destruct (computer_password e0) as [password |]; [| apply keeps_abort].
  destruct (build_principal_salts X e0 principal) as [salts |];
    [| apply keeps_ret].
  apply keeps_bind.
  { destruct (which_salt <? 0); [| apply keeps_ret].
    unfold _adcli_krb5_keytab_discover_salt.
    apply keeps_bind; [apply keeps_log, Hlogs |]. intros u.
    apply keeps_bind; [| intros r0; destruct r0; apply keeps_ret].
    apply probe_salts_footprint, Hemits. }
  intros d. destruct (negb (fst d =? 0)); [apply keeps_ret |].
  apply keeps_bind; [apply keeps_assert |]. intros u.
  apply keeps_bind; [apply Hadd; reflexivity |].
  intros code. destruct (negb (code =? 0)); apply keeps_ret.
Qed.

Lemma update_keytab_loop_writing principals :
  forall which_salt, keeps Writing (update_keytab_loop X principals which_salt).
Proof.
  induction principals as [| principal rest IH]; intros which_salt;
    cbn [update_keytab_loop].
  - apply keeps_ret.
  - apply keeps_bind; [apply add_principal_to_keytab_writing |]. intros r.
    destruct (failed (fst r)); [apply keeps_ret | apply IH].
Qed.

Lemma update_keytab_for_principals_writing :
  keeps Writing (update_keytab_for_principals X).
Proof.
  unfold update_keytab_for_principals.
  apply keeps_bind; [apply keeps_get_enroll |]. intros e.
  destruct (keytab_principals e); [| apply keeps_abort].
  apply keeps_bind; [apply keeps_ask |]. intros k5.
  destruct (negb k5); [apply keeps_ret | apply update_keytab_loop_writing].
Qed.

End Writing.

Lemma update_keytab_for_principals_spares :
  triple Kept (update_keytab_for_principals X) (fun _ => Spared) Spared.
Proof.
  intros m Hm.
  set (Writing := fun m1 : machine W =>
         m_enroll m1 = m_enroll m
         /\ forall n, keytab (m_enroll m) <> Some n -> m_keytabs m1 n = ks0 n).
  assert (keeps Writing (update_keytab_for_principals X)) as H.
  { apply (update_keytab_for_principals_writing (m_enroll m)).
    - intros m1 H1. exact (proj1 H1).
    - intros ev m1 w H1. exact H1.
    - intros kt entries m1 Hkt (He & Hk). split; [exact He |].
      intros n Hn. cbn.
      destruct (String.eqb n kt) eqn:E; [| apply Hk, Hn].
      apply String.eqb_eq in E. subst n. congruence. }
  assert (forall m1, Writing m1 -> Spared m1) as Hs.
  { intros m1 (He & Hk) n Hn. apply Hk. rewrite <- He. exact Hn. }
  assert (Writing m) as H0.
  { split; [reflexivity |]. intros n _. unfold Kept in Hm. rewrite Hm.
    reflexivity. }
  specialize (H m H0).
  destruct (update_keytab_for_principals X m); apply Hs, H.
Qed.

Lemma join_computer_account_spares flags :
  triple Kept (join_computer_account X flags) (fun _ => Spared) Spared.
Proof.
  assert (forall m, Kept m -> Spared m) as Hks
    by (intros m Hm n _; unfold Kept in Hm; rewrite Hm; reflexivity).
  pose proof kept_ignores_enroll as Hign.
  unfold join_computer_account.
  eapply triple_bind.
  { apply kept_stage, create_or_update_computer_account_footprint, kept_emits. }
  intros r1. cbv beta. destruct (failed r1); [apply triple_ret, Hks |].
  eapply triple_bind.
  { apply kept_stage, set_computer_password_footprint, kept_emits. }
  intros r2. cbv beta. destruct (failed r2); [apply triple_ret, Hks |].
  eapply triple_bind.
  { apply kept_stage, retrieve_computer_account_info_footprint;
      [exact Hign | apply kept_emits]. }
  intros r3. cbv beta. destruct (failed r3); [apply triple_ret, Hks |].
  pose proof (kept_emits (of_kinds [KModify])) as Hm.
  eapply triple_bind.
  { apply kept_stage.
    unfold update_and_calculate_enctypes, write_attribute, ldap_modify_ext_s.
    footprint. }
  intros u1. eapply triple_bind.
  { apply kept_stage.
    unfold update_dns_host_name, write_attribute, ldap_modify_ext_s. footprint. }
  intros u2. eapply triple_bind.
  { apply kept_stage.
    unfold update_service_principals, write_attribute, ldap_modify_ext_s.
    footprint. }
  intros u3. cbv beta.
  destruct (ADCLI_ENROLL_NO_KEYTAB flags); [apply triple_ret, Hks |].
  apply update_keytab_for_principals_spares.
Qed.

Lemma adcli_enroll_join_spares fuel flags :
  triple Kept (adcli_enroll_join X fuel flags) (fun _ => Spared) Spared.
Proof.
  assert (forall m, Kept m -> Spared m) as Hks
    by (intros m Hm n _; unfold Kept in Hm; rewrite Hm; reflexivity).
  pose proof kept_ignores_enroll as Hign.
  unfold adcli_enroll_join.
  eapply triple_bind.
  { apply kept_stage, enroll_clear_state_footprint, Hign. }
  intros u. eapply triple_bind.
  { apply kept_stage, adcli_conn_discover_footprint, kept_emits. }
  intros r1. cbv beta. destruct (failed r1); [apply triple_ret, Hks |].
  eapply triple_bind.
  { apply kept_stage, adcli_enroll_prepare_footprint;
      [exact Hign | apply kept_emits]. }
  intros r2. cbv beta. destruct (failed r2); [apply triple_ret, Hks |].
  eapply triple_bind.
  { apply kept_stage, adcli_conn_connect_footprint, kept_emits. }
  intros r3. cbv beta. destruct (failed r3); [apply triple_ret, Hks |].
  eapply triple_bind.
  { apply kept_stage, locate_computer_account_footprint;
      [exact Hign | apply kept_emits]. }
  intros r4. cbv beta. destruct (failed r4); [apply triple_ret, Hks |].
  apply join_computer_account_spares.
Qed.

End OtherKeytabs.

(** X14. A join writes to no keytab but its own.  Wherever a join stops
    (returned with any result, stopped on an assertion, or out of fuel),
    every keytab other than the one the structure holds in [keytab] at
    that point has the entries it had before the join. *)
Theorem join_writes_no_other_keytab :
  forall W (X : externals W) (fuel : nat) (flags : adcli_enroll_flags)
         (m : machine W) (n : string),
    let m' := final (adcli_enroll_join X fuel flags m) in
    keytab (m_enroll m') <> Some n ->
    m_keytabs m' n = m_keytabs m n.
Proof.
  intros W X fuel flags m n. cbv zeta.
  pose proof (adcli_enroll_join_spares X (m_keytabs m) fuel flags m eq_refl) as H.
  destruct (adcli_enroll_join X fuel flags m); cbn [final]; apply H.
Qed.

Lemma join_writes_no_other_keytab_witness :
  let X := small_realm plain_setup in
  let m := with_keytab "FILE:/etc/other.keytab"
             [ {| kte_principal :=
                    {| princ_realm := "CORP.EXAMPLE.COM";
                       princ_components := ["HTTP"; "host02.corp.example.com"] |};
                  kte_vno := 4; kte_enctype := 18; kte_key := "k" |} ]
             (start adcli_enroll_new) in
  let m' := final (adcli_enroll_join X 320 join_flags m) in
  keytab (m_enroll m') <> Some "FILE:/etc/other.keytab"%string
  /\ m_keytabs m' "FILE:/etc/other.keytab" = m_keytabs m "FILE:/etc/other.keytab".
Proof.
  cbv zeta.
  assert (keytab (m_enroll (final (adcli_enroll_join (small_realm plain_setup) 320
                                     join_flags
                                     (with_keytab "FILE:/etc/other.keytab"
                                        [ {| kte_principal :=
                                               {| princ_realm := "CORP.EXAMPLE.COM";
                                                  princ_components :=
                                                    ["HTTP"; "host02.corp.example.com"] |};
                                             kte_vno := 4; kte_enctype := 18;
                                             kte_key := "k" |} ]
                                        (start adcli_enroll_new)))))
          <> Some "FILE:/etc/other.keytab"%string) as H
    by (vm_compute; discriminate).
  split; [exact H |].
  exact (join_writes_no_other_keytab nat (small_realm plain_setup) 320%nat
           join_flags _ "FILE:/etc/other.keytab" H).
Defined.

(** * The password buffer *)

(** What lies behind the write offset is as it was. *)
Lemma filter_password_loop_tail (n : nat) :
  forall i j buf,
    (j <= i)%nat -> (i + n <= List.length buf)%nat ->
    let r := filter_password_loop n i j buf in
    skipn (snd r) (fst r) = skipn (snd r) buf.
Proof.
  induction n as [| n IH]; intros i j buf Hji Hlen; cbn [filter_password_loop].
  - reflexivity.
  - cbv zeta. destruct (password_char_ok (nth i buf zero)).
    + pose proof (filter_password_loop_spec n (S i) (S j)
                    (store j (nth i buf zero) buf)) as Hs.
      rewrite store_length in Hs. specialize (Hs ltac:(lia) ltac:(lia)).
      cbv zeta in Hs. destruct Hs as (_ & _ & Hsnd).
      specialize (IH (S i) (S j) (store j (nth i buf zero) buf)).
      rewrite store_length in IH. specialize (IH ltac:(lia) ltac:(lia)).
      cbv zeta in IH. rewrite IH. apply store_skipn. lia.
    + apply IH; lia.
Qed.

(** X15. [filter_password_chars] compacts the buffer in place.  Called on
    the first [length] octets of a buffer, it returns the number [j] of
    those octets that lie between 32 and 122; afterwards the first [j]
    octets of the buffer are these octets, in the order they had, and
    every octet from offset [j] on is as it was before the call.  [j] is
    at most [length], and the buffer keeps its size. *)
Theorem filter_password_chars_in_place :
  forall (password : list ascii) (length : nat),
    (length <= List.length password)%nat ->
    let kept := filter password_char_ok (firstn length password) in
    let r := filter_password_chars password length in
    snd r = List.length kept
    /\ (snd r <= length)%nat
    /\ List.length (fst r) = List.length password
    /\ firstn (snd r) (fst r) = kept
    /\ skipn (snd r) (fst r) = skipn (snd r) password.
Proof.
  intros password length Hlen. cbv zeta. unfold filter_password_chars.
  pose proof (filter_password_loop_spec length 0%nat 0%nat password
                ltac:(lia) ltac:(lia)) as Hs.
  cbv zeta in Hs. cbn [skipn firstn app Nat.add] in Hs.
  destruct Hs as (H1 & H2 & H3).
  pose proof (filter_password_loop_tail length 0%nat 0%nat password
                ltac:(lia) ltac:(lia)) as Ht.
  cbv zeta in Ht.
  split; [exact H3 |]. split; [| auto].
  rewrite H3.
  etransitivity; [apply filter_length_le |].
  rewrite length_firstn. lia.
Qed.

Lemma filter_password_chars_in_place_witness :
  let password := ["a"%char; ascii_of_nat 200; "b"%char; ascii_of_nat 7;
                   "c"%char; "d"%char] in
  let kept := filter password_char_ok (firstn 4 password) in
  let r := filter_password_chars password 4 in
  snd r = List.length kept
  /\ (snd r <= 4)%nat
  /\ List.length (fst r) = List.length password
  /\ firstn (snd r) (fst r) = kept
  /\ skipn (snd r) (fst r) = skipn (snd r) password.
Proof.
  apply (filter_password_chars_in_place
           ["a"%char; ascii_of_nat 200; "b"%char; ascii_of_nat 7;
            "c"%char; "d"%char] 4%nat).
  cbn. lia.
Defined.

(** The octets of the example: "ab" in front, and behind them what the
    buffer held. *)
Example filter_password_chars_keeps_the_tail :
  filter_password_chars
    ["a"%char; ascii_of_nat 200; "b"%char; ascii_of_nat 7; "c"%char; "d"%char] 4
  = (["a"%char; "b"%char; "b"%char; ascii_of_nat 7; "c"%char; "d"%char], 2%nat).
Proof. reflexivity. Qed.

Section PasswordLoop.

Context {W : Type} (X : externals W).

Lemma generate_host_password_loop_stops (fuel : nat) :
  forall length at_ password (m : machine W),
    (at_ <= length)%nat ->
    (exists r m', generate_host_password_loop X fuel length at_ password m
                  = Done r m')
    \/ (exists m', generate_host_password_loop X fuel length at_ password m
                   = OutOfFuel m').
Proof.
  induction fuel as [| fuel IH]; intros length at_ password m Hat;
    cbn [generate_host_password_loop];
    destruct (Nat.eqb at_ length); try (left; eexists _, _; reflexivity).
  - right. eexists. reflexivity.
  - unfold bind, krb5_c_random_make_octets, call.
    destruct (random_octets X (length - at_) (m_world m)) as [[data |] w] eqn:Er;
      [| left; eexists _, _; reflexivity].
    pose proof (random_octets_length X _ _ _ _ Er) as Hd.
    pose proof (filter_password_chars_spec data) as Hf. cbv zeta in Hf.
    rewrite Hd in Hf.
    destruct (filter_password_chars data (length - at_)) as [data' n].
    cbn [fst snd] in Hf. destruct Hf as (_ & _ & Hn).
    assert (n <= length - at_)%nat as Hle.
    { rewrite Hn, <- Hd. apply filter_length_le. }
    assert ((at_ + n <=? length)%nat = true) as -> by (apply Nat.leb_le; lia).
    unfold c_assert, ret. apply IH. lia.
Qed.

End PasswordLoop.

(** X16. [generate_host_password] never stops on its assertion
    [at <= length].  Each round asks for exactly the [length - at] octets
    that are still missing, and the filter returns no more octets than it
    was given; so a run returns (the password, or NULL when there is no
    Kerberos context or the random source fails) or is still drawing
    octets when the fuel is used up. *)
Theorem generate_host_password_keeps_its_assertion :
  forall W (X : externals W) (fuel length : nat) (m : machine W),
    (exists r m', generate_host_password X fuel length m = Done r m')
    \/ (exists m', generate_host_password X fuel length m = OutOfFuel m').
Proof.
  intros W X fuel length m. unfold generate_host_password.
  unfold bind, ask.
  destruct (x_conn_krb5_context X (m_world m)); cbn [negb];
    [| left; eexists _, _; reflexivity].
  destruct (generate_host_password_loop_stops X fuel length 0%nat
              (repeat zero (length + 1)) m ltac:(lia))
    as [(r & m' & ->) | (m' & ->)].
  - left. destruct r; eexists _, _; reflexivity.
  - right. eexists. reflexivity.
Qed.

(** * The preferred organizational unit *)

Section PreferredOu.

Context {W : Type} (X : externals W).

Variables (tr0 : list event) (ou : string).

(** The unit is not the naming context of the domain. *)
Hypothesis Hbase :
  forall w base, x_conn_naming_context X w = Some base ->
                 strcasecmp_eq ou base = false.

Let guarded := of_kinds account_kinds.
Let Shut := shut (W := W) tr0 guarded.
Let Opened := opened (W := W) tr0 (ou_confirmed ou) guarded.
Let Either := fun m : machine W => Shut m \/ Opened m.

(** The unit of the caller awaits its validation. *)
Let Phi := fun e : adcli_enroll =>
  preferred_ou e = Some ou /\ preferred_ou_validated e = false
  /\ computer_dn e = None.
Let Pre := fun m : machine W => Shut m /\ Phi (m_enroll m).

Lemma unconfirmed_stage A (c : M W A) :
  keeps Shut c -> keeps (fun m => Phi (m_enroll m)) c ->
  triple Pre c (fun _ => Pre) Either.
Proof.
  intros Hs Hp.
  eapply triple_conseq; [apply (keeps_conj _ _ _ _ _ Hs Hp) | auto | auto |].
  intros m (H & _). left. exact H.
Qed.

Lemma validate_preferred_ou_confirms :
  triple Pre (validate_preferred_ou X)
    (fun r m => if failed r then Shut m else Opened m) Either.
Proof.
  intros m (Hs & Hou & Hval & _).
  unfold validate_preferred_ou, bind, get_enroll, ask.
  rewrite Hou, Hval.
  destruct (x_conn_naming_context X (m_world m)) as [base |] eqn:Eb;
    [| left; exact Hs].
  rewrite (Hbase _ _ Eb).
  destruct (x_conn_ldap_connection X (m_world m)); cbn [c_assert ret abort];
    [| left; exact Hs].
  unfold ldap_compare_ext_s, call.
  destruct (x_ldap_compare X ou "objectClass" "organizationalUnit" (m_world m))
    as [r w].
  destruct (r =? LDAP_COMPARE_TRUE) eqn:Er.
  - cbn. apply shut_opens; [exact Hs |].
    cbn. rewrite String.eqb_refl, Er. reflexivity.
  - destruct (r =? LDAP_COMPARE_FALSE); cbn;
      (apply shut_step; [exact Hs | reflexivity]).
Qed.

Lemma locate_computer_account_confirms :
  triple Pre (locate_computer_account X)
    (fun r m => if failed r then Either m else Opened m) Either.
Proof.
  pose proof (opened_ignores_enroll (W := W) tr0 (ou_confirmed ou) guarded) as Hign.
  assert (forall sel, emits sel Opened) as Hem
    by (intros sel; apply opened_emits).
  intros m Hm. pose proof Hm as (_ & Hou & _ & Hdn).
  unfold locate_computer_account. unfold bind at 1. unfold get_enroll.
  rewrite Hdn, Hou. cbn [isSome].
  revert m Hm Hou Hdn.
  assert (triple Pre
            (bind (validate_preferred_ou X)
               (fun res =>
                  if failed res then ret res
                  else bind (lookup_computer_container X)
                         (fun res => if failed res then ret res
                                     else calc_computer_account)))
            (fun r m => if failed r then Either m else Opened m) Either) as H.
  { eapply triple_bind; [apply validate_preferred_ou_confirms |].
    intros r1. cbv beta. destruct (failed r1) eqn:F1.
    - apply triple_ret. intros m Hm. rewrite F1. left. exact Hm.
    - eapply triple_conseq with (P' := Opened) (Q' := fun _ => Opened)
                                (R' := Opened); auto.
      + apply keeps_bind.
        { pose proof (Hem (of_kinds [KSearch])) as Hs.
          unfold lookup_computer_container, ldap_search_ext_s. footprint. }
        intros r2. destruct (failed r2); [apply keeps_ret |].
        unfold calc_computer_account. footprint.
      + intros r m Hm. destruct (failed r); [right |]; exact Hm.
      + intros m Hm. right. exact Hm. }
  intros m Hm _ _. exact (H m Hm).
Qed.

Lemma join_confirms_after_reset fuel flags (m : machine W) :
  Pre m ->
  Either (final (bind (adcli_conn_discover X)
                   (fun res =>
                      if failed res then ret res
                      else
                        bind (adcli_enroll_prepare X fuel flags)
                          (fun res =>
                             if failed res then ret res
                             else
                               bind (adcli_conn_connect X)
                                 (fun res =>
                                    if failed res then ret res
                                    else
                                      bind (locate_computer_account X)
                                        (fun res =>
                                           if failed res then ret res
                                           else join_computer_account X flags))))
                   m)).
Proof.
  intros Hm.
  assert (forall m1, Pre m1 -> Either m1) as Hpe
    by (intros m1 (H & _); left; exact H).
  pose proof (within_ignores_enroll (W := W) tr0 (fun ev => negb (guarded ev)))
    as Hign.
  assert (forall kinds,
             (forall ev, of_kinds kinds ev = true -> guarded ev = false) ->
             emits (of_kinds kinds) Shut) as Hem.
  { intros kinds Hk. apply within_emits. intros ev Hev.
    rewrite (Hk ev Hev). reflexivity. }
  pose proof (fields_logs_quiet (W := W) Phi) as Hq.
  match goal with
  | |- Either (final (?c m)) =>
      assert (triple Pre c (fun _ => Either) Either) as H
  end.
  { eapply triple_bind.
    { apply unconfirmed_stage.
      - apply adcli_conn_discover_footprint, Hem.
        intros ev; destruct ev; cbn; congruence.
      - apply adcli_conn_discover_keeps, Hq. }
    intros r1. cbv beta. destruct (failed r1); [apply triple_ret, Hpe |].
    eapply triple_bind.
    { apply unconfirmed_stage.
      - apply adcli_enroll_prepare_footprint; [exact Hign |]. apply Hem.
        unfold prepare_kinds. intros ev.
        destruct (ADCLI_ENROLL_NO_KEYTAB flags), ev; cbn; congruence.
      - apply adcli_enroll_prepare_keeps; [exact Hq | ..];
          apply (fields_assigns Phi); other_field. }
    intros r2. cbv beta. destruct (failed r2); [apply triple_ret, Hpe |].
    eapply triple_bind.
    { apply unconfirmed_stage.
      - apply adcli_conn_connect_footprint, Hem.
        intros ev; destruct ev; cbn; congruence.
      - apply adcli_conn_connect_keeps, Hq. }
    intros r3. cbv beta. destruct (failed r3); [apply triple_ret, Hpe |].
    eapply triple_bind; [apply locate_computer_account_confirms |].
    intros r4. cbv beta. destruct (failed r4); [apply triple_ret; auto |].
    eapply triple_conseq with (P' := Opened) (Q' := fun _ => Opened)
                              (R' := Opened); auto.
    - apply join_computer_account_keeps;
        try (intros v; apply opened_ignores_enroll).
      + apply opened_logs_all.
      + apply opened_stable_keytab.
    - intros r m1 H1. right. exact H1.
    - intros m1 H1. right. exact H1. }
  specialize (H m Hm).
  match goal with
  | |- Either (final ?o) => destruct o; exact H
  end.
Qed.

End PreferredOu.

(** X17. An organizational unit given by the caller is used only after the
    directory has confirmed it.  When the unit is not yet validated and is
    not the naming context of the domain, then in every run of a join,
    wherever it stops, every search, add, modify, password operation,
    AS-REQ and keytab write comes after an LDAP compare of the unit's
    [objectClass] with [organizationalUnit] that answered TRUE.  With any
    other answer the join has read and changed nothing. *)
Theorem join_confirms_the_preferred_ou :
  forall W (X : externals W) (fuel : nat) (flags : adcli_enroll_flags)
         (m : machine W) (ou : string),
    can_clear X m ->
    preferred_ou (m_enroll m) = Some ou ->
    preferred_ou_validated (m_enroll m) = false ->
    (forall w base, x_conn_naming_context X w = Some base ->
                    strcasecmp_eq ou base = false) ->
    exists evs,
      m_trace (final (adcli_enroll_join X fuel flags m)) = (m_trace m ++ evs)%list
      /\ gated (ou_confirmed ou) (of_kinds account_kinds) evs.
Proof.
  intros W X fuel flags m ou Hclear Hou Hval Hbase.
  set (k5 := x_conn_krb5_context X (m_world m)).
  pose proof (enroll_clear_state_fields_options k5 (m_enroll m)) as Hopt.
  cbv zeta in Hopt. decompose [and] Hopt. clear Hopt.
  pose proof (enroll_clear_state_fields_dn k5 (m_enroll m) Hclear) as Hdn.
  pose proof (join_confirms_after_reset X (m_trace m) ou Hbase fuel flags
                (on_enroll (enroll_clear_state_fields k5) m)) as Hrest.
  cbv beta in Hrest.
  assert (shut (m_trace m) (of_kinds account_kinds) (final (adcli_enroll_join X fuel flags m))
          \/ opened (m_trace m) (ou_confirmed ou) (of_kinds account_kinds)
               (final (adcli_enroll_join X fuel flags m))) as [Hs | Ho].
  { refine (Hrest _).
    split; [exact (within_start _ (on_enroll (enroll_clear_state_fields k5) m)) |].
    cbn [m_enroll on_enroll]. repeat split; congruence. }
  - apply shut_gated, Hs.
  - apply opened_gated in Ho; [exact Ho |].
    intros ev Hev; destruct ev; try discriminate Hev; reflexivity.
Qed.

Lemma join_confirms_the_preferred_ou_witness :
  exists evs,
    m_trace (final (adcli_enroll_join (small_realm plain_setup) 320 join_flags
                      (start (adcli_enroll_set_preferred_ou
                                (Some "OU=Servers,DC=corp,DC=example,DC=com")
                                adcli_enroll_new))))
    = (m_trace (start (adcli_enroll_set_preferred_ou
                         (Some "OU=Servers,DC=corp,DC=example,DC=com")
                         adcli_enroll_new)) ++ evs)%list
    /\ gated (ou_confirmed "OU=Servers,DC=corp,DC=example,DC=com")
         (of_kinds account_kinds) evs.
Proof.
  apply (join_confirms_the_preferred_ou nat (small_realm plain_setup) 320%nat
           join_flags
           (start (adcli_enroll_set_preferred_ou
                     (Some "OU=Servers,DC=corp,DC=example,DC=com")
                     adcli_enroll_new))
           "OU=Servers,DC=corp,DC=example,DC=com").
  - right. repeat split; reflexivity.
  - reflexivity.
  - reflexivity.
  - intros w base H. vm_compute in H. inversion H. reflexivity.
Defined.

(** * The service names and the keytab name of the caller *)

(** X18. The default service names are added only when there is no name
    at all.  On a structure without service names, a name added with
    [adcli_enroll_add_service_name] is the only one a join works with: the
    defaults HOST and RestrictedKrbHost are not added.  When the names are
    read with [adcli_enroll_get_service_names] first, the getter stores the
    two defaults, and the name added afterwards comes third. *)
Theorem added_service_name_replaces_the_defaults :
  forall W (X : externals W) (fuel : nat) (flags : adcli_enroll_flags)
         (m : machine W) (v : string),
    service_names (m_enroll m) = None ->
    service_names
      (m_enroll (final (adcli_enroll_join X fuel flags
                          (on_enroll (adcli_enroll_add_service_name (Some v)) m))))
    = Some [v]
    /\ exists m1,
        adcli_enroll_get_service_names m
        = Done (Some ["HOST"; "RestrictedKrbHost"]) m1
        /\ service_names
             (m_enroll (final (adcli_enroll_join X fuel flags
                                 (on_enroll (adcli_enroll_add_service_name (Some v))
                                    m1))))
           = Some ["HOST"; "RestrictedKrbHost"; v].
Proof.
  intros W X fuel flags m v Hn. split.
  - apply (keeps_final _ _ _ _ (join_keeps_service_names X fuel flags [v])).
    cbn. rewrite Hn. reflexivity.
  - unfold adcli_enroll_get_service_names, ensure_service_names.
    cbn [failed]. unfold bind, get_enroll, update_enroll, ret.
    rewrite Hn. cbn [isSome failed]. eexists. split; [reflexivity |].
    apply (keeps_final _ _ _ _
             (join_keeps_service_names X fuel flags ["HOST"; "RestrictedKrbHost"; v])).
    reflexivity.
Qed.

Lemma added_service_name_replaces_the_defaults_witness :
  let X := small_realm plain_setup in
  let m := start adcli_enroll_new in
  service_names
    (m_enroll (final (adcli_enroll_join X 320 join_flags
                        (on_enroll (adcli_enroll_add_service_name (Some "HTTP")) m))))
  = Some ["HTTP"]
  /\ exists m1,
      adcli_enroll_get_service_names m
      = Done (Some ["HOST"; "RestrictedKrbHost"]) m1
      /\ service_names
           (m_enroll (final (adcli_enroll_join X 320 join_flags
                               (on_enroll (adcli_enroll_add_service_name (Some "HTTP"))
                                  m1))))
         = Some ["HOST"; "RestrictedKrbHost"; "HTTP"].
Proof.
  apply (added_service_name_replaces_the_defaults nat (small_realm plain_setup)
           320%nat join_flags (start adcli_enroll_new) "HTTP").
  reflexivity.
Defined.

(** The service principals of the two orders, for the host of the small
    realm. *)
Example service_principals_of_added_name :
  let X := small_realm plain_setup in
  let join e := m_enroll (final (adcli_enroll_join X 320 join_flags (start e))) in
  service_principals (join (adcli_enroll_add_service_name (Some "HTTP")
                              adcli_enroll_new))
  = Some ["HTTP/HOST01"; "HTTP/host01.corp.example.com"].
Proof. vm_compute. reflexivity. Qed.

Section NamedKeytab.

Context {W : Type} (X : externals W).

Variable name : string.

(** The keytab of the structure, if open, is the one of the name. *)
Let Named := fun e : adcli_enroll =>
  keytab_name e = Some name /\ (keytab e = None \/ keytab e = Some name).

Lemma enroll_clear_state_fields_named k5 e :
  Named e -> Named (enroll_clear_state_fields k5 e).
Proof.
  intros (Hn & Hk).
  pose proof (enroll_clear_state_fields_options k5 e) as Hopt. cbv zeta in Hopt.
  decompose [and] Hopt. clear Hopt.
  split; [congruence |].
  unfold enroll_clear_state_fields.
  repeat match goal with
         | |- context [if ?b then _ else _] => destruct b
         end; cbn; auto.
Qed.

Lemma ensure_host_keytab_named res :
  keeps (fun m : machine W => Named (m_enroll m)) (ensure_host_keytab X res).
Proof.
  unfold ensure_host_keytab. destruct (failed res); [apply keeps_ret |].
  apply (keeps_bind_get_guard Named). intros e (He & Hk).
  destruct (isSome (keytab e)); [apply keeps_ret |].
  apply keeps_bind; [apply keeps_ask |]. intros k5.
  destruct (negb k5); [apply keeps_ret |].
  rewrite He.
  apply keeps_bind; [apply keeps_call; intros code m w H; exact H |].
  intros code. destruct (negb (code =? 0)); [apply keeps_ret |].
  apply keeps_bind; [| intros u; apply keeps_ret].
  apply keeps_update_enroll. intros m (Hn & _). split; [exact Hn |].
  right. reflexivity.
Qed.

Lemma join_keeps_named_keytab fuel flags :
  keeps (fun m : machine W => Named (m_enroll m)) (adcli_enroll_join X fuel flags).
Proof.
  apply (adcli_enroll_join_by_stage X Named);
    [ intros k5 e H; apply enroll_clear_state_fields_named, H
    | other_stage | other_stage | other_stage | other_stage
    | apply ensure_host_keytab_named | other_stage .. ].
Qed.

End NamedKeytab.

(** X19. After [adcli_enroll_set_keytab_name], a join writes to the keytab
    of that name and to no other.  The setter closes the keytab that was
    open; wherever the join that follows stops, the name is still the one
    set, the keytab of the structure is not open or is the one of the name,
    and every keytab of another name has the entries it had. *)
Theorem join_writes_the_named_keytab :
  forall W (X : externals W) (fuel : nat) (flags : adcli_enroll_flags)
         (m : machine W) (name : string),
    can_rename_keytab X m ->
    let k5 := x_conn_krb5_context X (m_world m) in
    let m1 := on_enroll (adcli_enroll_set_keytab_name k5 (Some name)) m in
    let m' := final (adcli_enroll_join X fuel flags m1) in
    keytab (m_enroll m1) = None
    /\ keytab_name (m_enroll m') = Some name
    /\ (keytab (m_enroll m') = None \/ keytab (m_enroll m') = Some name)
    /\ forall n, n <> name -> m_keytabs m' n = m_keytabs m n.
Proof.
  intros W X fuel flags m name Hcan. cbv zeta.
  set (k5 := x_conn_krb5_context X (m_world m)).
  set (m1 := on_enroll (adcli_enroll_set_keytab_name k5 (Some name)) m).
  assert (keytab (m_enroll m1) = None /\ keytab_name (m_enroll m1) = Some name)
    as (Hk1 & Hn1).
  { subst m1. cbn [m_enroll on_enroll]. unfold adcli_enroll_set_keytab_name.
    destruct Hcan as [Hk5 | (Hk & Hname)].
    - fold k5 in Hk5. rewrite Hk5. cbn [negb]. rewrite !andb_false_r.
      split; reflexivity.
    - rewrite Hk. cbn [isSome andb].
      destruct Hname as [-> | ->]; cbn [isSome andb]; rewrite ?andb_false_r;
        cbn [andb]; split; reflexivity. }
  pose proof (keeps_final _ _ _ _ (join_keeps_named_keytab X name fuel flags)
                (conj Hn1 (or_introl Hk1))) as (Hn' & Hk').
  split; [exact Hk1 |]. split; [exact Hn' |]. split; [exact Hk' |].
  intros n Hne.
  pose proof (adcli_enroll_join_spares X (m_keytabs m) fuel flags m1 eq_refl) as H.
  assert (keytab (m_enroll (final (adcli_enroll_join X fuel flags m1))) <> Some n)
    as Hother by (destruct Hk' as [-> | ->]; congruence).
  destruct (adcli_enroll_join X fuel flags m1); cbn [final] in *; apply H, Hother.
Qed.

Lemma join_writes_the_named_keytab_witness :
  let X := small_realm plain_setup in
  let m := start adcli_enroll_new in
  let k5 := x_conn_krb5_context X (m_world m) in
  let m1 := on_enroll (adcli_enroll_set_keytab_name k5 (Some "FILE:/tmp/host.keytab"))
              m in
  let m' := final (adcli_enroll_join X 320 join_flags m1) in
  keytab (m_enroll m1) = None
  /\ keytab_name (m_enroll m') = Some "FILE:/tmp/host.keytab"%string
  /\ (keytab (m_enroll m') = None
      \/ keytab (m_enroll m') = Some "FILE:/tmp/host.keytab"%string)
  /\ forall n, n <> "FILE:/tmp/host.keytab"%string ->
               m_keytabs m' n = m_keytabs m n.
Proof.
  apply (join_writes_the_named_keytab nat (small_realm plain_setup) 320%nat
           join_flags (start adcli_enroll_new) "FILE:/tmp/host.keytab").
  right. split; [reflexivity | left; reflexivity].
Defined.

(** The join of the small realm fills the keytab that was named. *)
Example small_realm_fills_the_named_keytab :
  let X := small_realm plain_setup in
  let m1 := start (adcli_enroll_set_keytab_name true (Some "FILE:/tmp/host.keytab")
                     adcli_enroll_new) in
  let o := adcli_enroll_join X 320 join_flags m1 in
  result_of o = Some ADCLI_SUCCESS
  /\ keytab (m_enroll (final o)) = Some "FILE:/tmp/host.keytab"%string
  /\ m_keytabs (final o) "FILE:/tmp/host.keytab" <> []
  /\ m_keytabs (final o) "FILE:/etc/krb5.keytab" = [].
Proof. vm_compute. repeat split; try reflexivity. discriminate. Qed.
